(** * County data merger and dashboard: a shallow embedding of
      [prepare_data.py] and of the data flow of [app.py]

    The development follows the scripts top to bottom.  pandas tables are
    lists of rows under a list of column names, cells are dynamically typed
    values, float64 arithmetic is the IEEE-754 binary64 arithmetic of
    [SpecFloat], and Python exceptions are an explicit result type. *)

From Stdlib Require Import ZArith List Bool Ascii String Lia.
From Stdlib Require Import DecimalString SpecFloat.
From Stdlib Require Import Sorted Permutation.
From Stdlib Require DecimalPos.
Import ListNotations.

Local Open Scope string_scope.
Local Open Scope list_scope.
Local Open Scope Z_scope.

(** ** Exceptions *)

(** The exceptions the script can meet.  [FileNotFoundError] stands for
    whatever [pd.read_csv] raises on a file it cannot read. *)
Inductive exn : Type :=
| FileNotFoundError (path : string)
| KeyError (label : string)
| IndexError
| ValueError
| TypeError.

(** [OutOfModel] marks inputs on which pandas has a behaviour that this
    embedding does not describe; nothing is claimed about them. *)
Inductive result (A : Type) : Type :=
| Ok (a : A)
| Raise (e : exn)
| OutOfModel.

Arguments Ok {A} a.
Arguments Raise {A} e.
Arguments OutOfModel {A}.

Definition bind {A B : Type} (r : result A) (k : A -> result B) : result B :=
  match r with
  | Ok a => k a
  | Raise e => Raise e
  | OutOfModel => OutOfModel
  end.

Notation "x <- r ;; k" := (bind r (fun x => k))
  (at level 61, r at next level, right associativity).

Fixpoint mapM {A B : Type} (f : A -> result B) (l : list A) : result (list B) :=
  match l with
  | [] => Ok []
  | a :: l' => b <- f a ;; bs <- mapM f l' ;; Ok (b :: bs)
  end.

(** ** float64 *)

Module F64.

Definition prec : Z := 53.
Definition emax : Z := 1024.

Definition t : Type := spec_float.

Definition nan : t := S754_nan.
Definition of_Z (z : Z) : t := binary_normalize prec emax z 0 false.
Definition mul : t -> t -> t := SFmul prec emax.
Definition div : t -> t -> t := SFdiv prec emax.
Definition sub : t -> t -> t := SFsub prec emax.
Definition ltb : t -> t -> bool := SFltb.
Definition leb : t -> t -> bool := SFleb.

Definition is_nan (x : t) : bool :=
  match x with S754_nan => true | _ => false end.

(** Nearest integer to [n / d], ties to the even one. *)
Definition div_half_even (n : Z) (d : Z) : Z :=
  let q := n / d in
  let r := n mod d in
  match 2 * r ?= d with
  | Lt => q
  | Gt => q + 1
  | Eq => if Z.even q then q else q + 1
  end.

(** Nearest integer to the magnitude [m * 2^e]. *)
Definition nearest_int (m : positive) (e : Z) : Z :=
  match e with
  | Zneg p => div_half_even (Zpos m) (2 ^ Zpos p)
  | _ => Zpos m * 2 ^ e
  end.

(** [rint]: round to an integral float64, ties to even, sign kept. *)
Definition rint (x : t) : t :=
  match x with
  | S754_finite s m e =>
      match nearest_int m e with
      | Z0 => S754_zero s
      | n => binary_normalize prec emax (if s then - n else n) 0 s
      end
  | _ => x
  end.

(** [numpy.round(x, 1)]: [rint (x * 10) / 10]. *)
Definition round1 (x : t) : t := div (rint (mul x (of_Z 10))) (of_Z 10).

(** The integer a float64 holds, when it holds one. *)
Definition to_Z (x : t) : option Z :=
  match x with
  | S754_zero _ => Some 0
  | S754_finite s m (Zneg p) =>
      if (Zpos m mod 2 ^ Zpos p =? 0)
      then Some (cond_Zopp s (Zpos m / 2 ^ Zpos p)) else None
  | S754_finite s m e => Some (cond_Zopp s (Zpos m * 2 ^ e))
  | _ => None
  end.

(** Non-NaN values compare like these triples, lexicographically. *)
Definition rank (x : t) : Z * Z * Z :=
  match x with
  | S754_nan => (0, 0, 0)
  | S754_zero _ => (0, 0, 0)
  | S754_infinity true => (-2, 0, 0)
  | S754_infinity false => (2, 0, 0)
  | S754_finite true m e => (-1, - e, - Zpos m)
  | S754_finite false m e => (1, e, Zpos m)
  end.

Definition lex3 (a b : Z * Z * Z) : comparison :=
  let '(a1, a2, a3) := a in
  let '(b1, b2, b3) := b in
  match a1 ?= b1 with
  | Eq => match a2 ?= b2 with
          | Eq => a3 ?= b3
          | c => c
          end
  | c => c
  end.

Definition eq_dec (x y : t) : {x = y} + {x <> y}.
Proof. repeat decide equality. Defined.

End F64.

(** ** Cells *)

(** A cell of a table: an int64, a float64 (NaN is the missing value) or a
    Python [str].  A cell keeps its value through joins and assignments;
    the change of an int64 column to float64 when a join leaves missing
    values in it is not traced. *)
Inductive cell : Type :=
| CInt (z : Z)
| CFloat (f : F64.t)
| CStr (s : string).

Definition NaN : cell := CFloat F64.nan.

(** [pd.isna] / [pd.notna] on a scalar. *)
Definition isna (c : cell) : bool :=
  match c with
  | CFloat f => F64.is_nan f
  | _ => false
  end.

Definition notna (c : cell) : bool := negb (isna c).

(** ** Strings *)

Definition is_digit (a : ascii) : bool :=
  let n := nat_of_ascii a in (48 <=? n)%nat && (n <=? 57)%nat.

Fixpoint all_digits (s : string) : bool :=
  match s with
  | EmptyString => true
  | String a s' => is_digit a && all_digits s'
  end.

(** [str(z)] for a Python int. *)
Definition str_of_Z (z : Z) : string := NilZero.string_of_int (Z.to_int z).

Fixpoint zeros (n : nat) : string :=
  match n with
  | O => ""
  | S n' => String "0" (zeros n')
  end.

(** [str.zfill(width)]: pad with ['0'] on the left up to [width], after a
    leading sign if there is one. *)
Definition zfill (width : nat) (s : string) : string :=
  if (width <=? String.length s)%nat then s
  else
    let fill := zeros (width - String.length s) in
    match s with
    | String "+" s' => String "+" (fill ++ s')%string
    | String "-" s' => String "-" (fill ++ s')%string
    | _ => (fill ++ s)%string
    end.

Definition digit_val (a : ascii) : Z := Z.of_nat (nat_of_ascii a) - 48.

Fixpoint decimal_acc (acc : Z) (s : string) : Z :=
  match s with
  | EmptyString => acc
  | String a s' => decimal_acc (10 * acc + digit_val a) s'
  end.

(** The number a string of decimal digits denotes. *)
Definition decimal_value (s : string) : Z := decimal_acc 0 s.

(** [.astype(str)] on one cell.  [str] of a float64 is modelled where it is
    a plain decimal: integral values print with a trailing [.0]. *)
Definition astype_str (c : cell) : result string :=
  match c with
  | CInt z => Ok (str_of_Z z)
  | CStr s => Ok s
  | CFloat S754_nan => Ok "nan"
  | CFloat (S754_infinity s) => Ok (if s then "-inf" else "inf")
  | CFloat f =>
      match F64.to_Z f with
      | Some z =>
          if Z.abs z <? 10 ^ 16
          then Ok ((match f with
                    | S754_zero true => "-0"
                    | _ => str_of_Z z
                    end) ++ ".0")%string
          else OutOfModel
      | None => OutOfModel
      end
  end.

Fixpoint count_char (a : ascii) (s : string) : nat :=
  match s with
  | EmptyString => O
  | String b s' => (if Ascii.eqb a b then 1 else 0) + count_char a s'
  end.

(** [.astype(float)] on one [str] cell: [float(s)].  A string of decimal
    digits is read as the nearest float64 to the number it denotes; a string
    with two decimal points is a [ValueError]; other literals are not
    modelled. *)
Definition float_of_str (s : string) : result F64.t :=
  match s with
  | EmptyString => Raise ValueError
  | _ =>
      if all_digits s then Ok (F64.of_Z (decimal_value s))
      else if (2 <=? count_char "." s)%nat then Raise ValueError
      else OutOfModel
  end.

(** ** Tables *)

Definition row : Type := list cell.

(** A [pandas.DataFrame] with the default integer index: the column labels
    in their native order, and the rows. *)
Record DataFrame : Type := mkDF {
  columns : list string;
  rows : list row
}.

(** [len(df)] *)
Definition len (df : DataFrame) : nat := List.length (rows df).

Fixpoint col_index (label : string) (cols : list string) : option nat :=
  match cols with
  | [] => None
  | c :: cols' =>
      if String.eqb label c then Some O
      else option_map S (col_index label cols')
  end.

(** [label in df.columns] *)
Definition has_column (df : DataFrame) (label : string) : bool :=
  match col_index label (columns df) with Some _ => true | None => false end.

Definition locate (df : DataFrame) (label : string) : result nat :=
  match col_index label (columns df) with
  | Some i => Ok i
  | None => Raise (KeyError label)
  end.

Definition cell_at (i : nat) (r : row) : cell := nth i r NaN.

(** [df[label]]: one column, as the list of its values. *)
Definition getitem (df : DataFrame) (label : string) : result (list cell) :=
  i <- locate df label ;;
  Ok (map (cell_at i) (rows df)).

Fixpoint set_nth (i : nat) (v : cell) (r : row) : row :=
  match i, r with
  | O, _ :: r' => v :: r'
  | S i', c :: r' => c :: set_nth i' v r'
  | _, [] => []
  end.

Fixpoint zip_rows (f : row -> cell -> row) (rs : list row) (vs : list cell)
  : list row :=
  match rs, vs with
  | r :: rs', v :: vs' => f r v :: zip_rows f rs' vs'
  | _, _ => []
  end.

(** [df[label] = values]: overwrite the column if it exists, else add it as
    the last column. *)
Definition setitem (df : DataFrame) (label : string) (values : list cell)
  : result DataFrame :=
  if negb (List.length values =? List.length (rows df))%nat
  then Raise ValueError
  else
    match col_index label (columns df) with
    | Some i => Ok (mkDF (columns df)
                         (zip_rows (fun r v => set_nth i v r) (rows df) values))
    | None => Ok (mkDF (columns df ++ [label])
                       (zip_rows (fun r v => r ++ [v]) (rows df) values))
    end.

(** [df[label] = scalar] *)
Definition setitem_scalar (df : DataFrame) (label : string) (v : cell)
  : result DataFrame :=
  setitem df label (repeat v (len df)).

(** [df[[l1, ..., ln]]] *)
Definition select (df : DataFrame) (labels : list string) : result DataFrame :=
  idx <- mapM (locate df) labels ;;
  Ok (mkDF labels (map (fun r => map (fun i => cell_at i r) idx) (rows df))).

(** [df.columns = labels] *)
Definition set_columns (df : DataFrame) (labels : list string)
  : result DataFrame :=
  if (List.length labels =? List.length (columns df))%nat
  then Ok (mkDF labels (rows df))
  else Raise ValueError.

(** [df.dropna(subset=[label])] *)
Definition dropna (df : DataFrame) (label : string) : result DataFrame :=
  i <- locate df label ;;
  Ok (mkDF (columns df) (filter (fun r => notna (cell_at i r)) (rows df))).

(** *** Join keys *)

(** What a merge compares: numbers by value (an int64 key meets a float64
    key as a float64, and the two zeros are one key), strings by content,
    and a missing key matches a missing key. *)
Inductive key : Type :=
| KNum (f : F64.t)
| KStr (s : string)
| KMissing.

Definition key_of (c : cell) : key :=
  match c with
  | CInt z => match F64.of_Z z with
              | S754_zero _ => KNum (S754_zero false)
              | f => KNum f
              end
  | CFloat S754_nan => KMissing
  | CFloat (S754_zero _) => KNum (S754_zero false)
  | CFloat f => KNum f
  | CStr s => KStr s
  end.

Definition key_eq_dec (a b : key) : {a = b} + {a <> b}.
Proof.
  decide equality; [apply F64.eq_dec | apply string_dec].
Defined.

Definition key_eqb (a b : cell) : bool :=
  if key_eq_dec (key_of a) (key_of b) then true else false.

Fixpoint remove_nth {A : Type} (i : nat) (l : list A) : list A :=
  match i, l with
  | O, _ :: l' => l'
  | S i', a :: l' => a :: remove_nth i' l'
  | _, [] => []
  end.

Definition mem (s : string) (l : list string) : bool :=
  existsb (String.eqb s) l.

(** What a column holds: numbers (an int64 or float64 column), strings
    with possibly missing values (an object column), or neither.  An empty
    column does not tell. *)
Inductive kind : Type := Numeric | Textual | Unknown.

Definition is_number (c : cell) : bool :=
  match c with CStr _ => false | _ => true end.

Definition is_text (c : cell) : bool :=
  match c with CStr _ => true | _ => isna c end.

Definition column_kind (cs : list cell) : kind :=
  match cs with
  | [] => Unknown
  | _ => if forallb is_number cs then Numeric
         else if forallb is_text cs then Textual
         else Unknown
  end.

Definition same_kind (a b : kind) : bool :=
  match a, b with
  | Numeric, Numeric | Textual, Textual => true
  | _, _ => false
  end.

(** [left.merge(right, on=on, how='left')], for key columns that are both
    numbers or both strings.  Every left row is kept, in order: once per
    right row with an equal key, or once with the right columns missing
    when there is none.  A label other than the key that both sides carry
    gets the suffixes [_x] and [_y]. *)
Definition merge_left (left right : DataFrame) (on : string)
  : result DataFrame :=
  i <- locate left on ;;
  j <- locate right on ;;
  if negb (same_kind (column_kind (map (cell_at i) (rows left)))
                     (column_kind (map (cell_at j) (rows right))))
  then OutOfModel
  else
    let rcols := remove_nth j (columns right) in
    let lcols := remove_nth i (columns left) in
    let lnames := map (fun c => if negb (String.eqb c on) && mem c rcols
                                then (c ++ "_x")%string else c)
                      (columns left) in
    let rnames := map (fun c => if mem c lcols
                                then (c ++ "_y")%string else c) rcols in
    Ok (mkDF (lnames ++ rnames)
          (flat_map
             (fun l =>
                match filter (fun r => key_eqb (cell_at i l) (cell_at j r))
                             (rows right) with
                | [] => [l ++ repeat NaN (List.length rcols)]
                | matches => map (fun r => l ++ remove_nth j r) matches
                end)
             (rows left))).

(** ** Element-wise arithmetic on columns *)

(** int64 results wrap around. *)
Definition wrap64 (z : Z) : Z := (z + 2 ^ 63) mod 2 ^ 64 - 2 ^ 63.

Definition to_float (c : cell) : result F64.t :=
  match c with
  | CInt z => Ok (F64.of_Z z)
  | CFloat f => Ok f
  | CStr _ => Raise TypeError
  end.

(** [a + b] *)
Definition cell_add (a b : cell) : result cell :=
  match a, b with
  | CInt x, CInt y => Ok (CInt (wrap64 (x + y)))
  | CStr s, CStr t => Ok (CStr (s ++ t))
  | _, _ => x <- to_float a ;; y <- to_float b ;;
            Ok (CFloat (SFadd F64.prec F64.emax x y))
  end.

(** [a / b]: true division, always a float64. *)
Definition cell_truediv (a b : cell) : result cell :=
  x <- to_float a ;; y <- to_float b ;; Ok (CFloat (F64.div x y)).

(** [a * 100] *)
Definition cell_times_100 (a : cell) : result cell :=
  match a with
  | CInt x => Ok (CInt (wrap64 (x * 100)))
  | _ => x <- to_float a ;; Ok (CFloat (F64.mul x (F64.of_Z 100)))
  end.

(** [a - b] *)
Definition cell_sub (a b : cell) : result cell :=
  match a, b with
  | CInt x, CInt y => Ok (CInt (wrap64 (x - y)))
  | _, _ => x <- to_float a ;; y <- to_float b ;; Ok (CFloat (F64.sub x y))
  end.

(** [.round(1)]: integers are left alone. *)
Definition cell_round1 (a : cell) : result cell :=
  match a with
  | CInt x => Ok (CInt x)
  | CFloat f => Ok (CFloat (F64.round1 f))
  | CStr _ => Raise TypeError
  end.

Fixpoint mapM2 {A B C : Type} (f : A -> B -> result C)
  (l : list A) (l' : list B) : result (list C) :=
  match l, l' with
  | a :: t, b :: t' => c <- f a b ;; cs <- mapM2 f t t' ;; Ok (c :: cs)
  | _, _ => Ok []
  end.

(** ** Ordering of index values *)

Definition key_leb (a b : key) : bool :=
  match a, b with
  | KNum x, KNum y => F64.leb x y
  | KNum _, _ => true
  | KStr _, KNum _ => false
  | KStr s, KStr t => String.leb s t
  | KStr _, KMissing => true
  | KMissing, KMissing => true
  | KMissing, _ => false
  end.

Definition key_ltb (a b : key) : bool := key_leb a b && negb (key_leb b a).

(** Lexicographic order on the tuples of a multi-level index. *)
Fixpoint tuple_leb (a b : list cell) : bool :=
  match a, b with
  | [], _ => true
  | _ :: _, [] => false
  | x :: a', y :: b' =>
      key_ltb (key_of x) (key_of y)
      || (key_eqb x y && tuple_leb a' b')
  end.

Fixpoint tuple_eqb (a b : list cell) : bool :=
  match a, b with
  | [], [] => true
  | x :: a', y :: b' => key_eqb x y && tuple_eqb a' b'
  | _, _ => false
  end.

Fixpoint insert_by {A : Type} (leb : A -> A -> bool) (x : A) (l : list A)
  : list A :=
  match l with
  | [] => [x]
  | y :: l' => if leb x y then x :: l else y :: insert_by leb x l'
  end.

Definition sort_by {A : Type} (leb : A -> A -> bool) (l : list A) : list A :=
  fold_right (insert_by leb) [] l.

(** Distinct elements, each at its first occurrence. *)
Fixpoint distinct {A : Type} (eqb : A -> A -> bool) (l : list A) : list A :=
  match l with
  | [] => []
  | a :: l' => a :: filter (fun b => negb (eqb a b)) (distinct eqb l')
  end.

(** ** Pivot *)

(** One vote count as a number; a missing count adds nothing to a sum. *)
Definition votes_of (c : cell) : result Z :=
  match c with
  | CInt z => Ok z
  | CFloat S754_nan => Ok 0
  | CFloat f => match F64.to_Z f with Some z => Ok z | None => OutOfModel end
  | CStr _ => OutOfModel
  end.

Definition label_of (c : cell) : result string :=
  match c with
  | CStr s => Ok s
  | _ => OutOfModel
  end.

(** The sum of [values] over the records of one group and one column label.
    Sums are exact below [2^53], where int64 and float64 agree. *)
Definition group_sum (recs : list (list cell * string * Z))
  (g : list cell) (p : string) : result cell :=
  let s := fold_right Z.add 0
             (map snd
                (filter (fun r => tuple_eqb (fst (fst r)) g
                                  && String.eqb (snd (fst r)) p) recs)) in
  if Z.abs s <? 2 ^ 53 then Ok (CInt s) else OutOfModel.

(** [df.pivot_table(index=index, columns=cols, values=values,
                    aggfunc='sum', fill_value=0).reset_index()], for index
    columns that hold numbers or hold strings.  Records with a missing
    index value or a missing column label are left out of the grouping;
    groups and column labels come out sorted; a combination without
    records is filled with 0; an index label that is also a column label
    stops [reset_index]. *)
Definition pivot_table_sum (df : DataFrame) (index : list string)
  (cols values : string) : result DataFrame :=
  vi <- locate df values ;;
  idx <- mapM (locate df) index ;;
  ci <- locate df cols ;;
  let kept := filter (fun r => forallb (fun i => notna (cell_at i r)) idx
                               && notna (cell_at ci r)) (rows df) in
  recs <- mapM (fun r => p <- label_of (cell_at ci r) ;;
                         v <- votes_of (cell_at vi r) ;;
                         Ok (map (fun i => cell_at i r) idx, p, v)) kept ;;
  match recs with
  | [] => OutOfModel
  | _ =>
      if existsb (fun i => match column_kind (map (cell_at i) kept) with
                           | Unknown => true
                           | _ => false
                           end) idx
      then OutOfModel
      else
      let groups := sort_by tuple_leb
                      (distinct tuple_eqb (map (fun r => fst (fst r)) recs)) in
      let labels := sort_by String.leb
                      (distinct String.eqb (map (fun r => snd (fst r)) recs)) in
      if existsb (fun p => mem p index) labels then Raise ValueError
      else
        body <- mapM (fun g => vs <- mapM (group_sum recs g) labels ;;
                               Ok (g ++ vs)) groups ;;
        Ok (mkDF (index ++ labels) body)
  end.

(** ** Derived fields *)

(** Thousands separators in a string of digits. *)
Fixpoint group3 (s : string) : string :=
  match s with
  | EmptyString => ""
  | String a s' =>
      String a (if negb (String.length s' =? 0)%nat
                   && (String.length s' mod 3 =? 0)%nat
                then String "," (group3 s') else group3 s')
  end.

(** [f"{x:,.0f}"] on a float64. *)
Definition format_f0 (x : F64.t) : string :=
  match x with
  | S754_nan => "nan"
  | S754_infinity s => if s then "-inf" else "inf"
  | S754_zero s => if s then "-0" else "0"
  | S754_finite s m e =>
      ((if s then "-" else "") ++ group3 (str_of_Z (F64.nearest_int m e)))%string
  end.

(** [lambda x: f"${x:,.0f}" if pd.notna(x) else "N/A"] *)
Definition format_home_value (x : cell) : result cell :=
  if notna x then
    match x with
    | CStr _ => Raise ValueError
    | _ => f <- to_float x ;; Ok (CStr (String "$" (format_f0 f)))
    end
  else Ok (CStr "N/A").

(** [score > n] for an integer constant [n]. *)
Definition gt_int (score : cell) (n : Z) : result bool :=
  match score with
  | CInt z => Ok (n <? z)
  | CFloat f => Ok (F64.ltb (F64.of_Z n) f)
  | CStr _ => Raise TypeError
  end.

Definition categorize_lean (score : cell) : result cell :=
  if isna score then Ok (CStr "Unknown")
  else
    b <- gt_int score 20 ;;
    if b then Ok (CStr "Strong Democrat")
    else
      b <- gt_int score 5 ;;
      if b then Ok (CStr "Lean Democrat")
      else
        b <- gt_int score (-5) ;;
        if b then Ok (CStr "Swing")
        else
          b <- gt_int score (-20) ;;
          if b then Ok (CStr "Lean Republican")
          else Ok (CStr "Strong Republican").

(** [grade in [s1, ..., sn]] *)
Definition cell_in (grade : cell) (l : list string) : bool :=
  match grade with
  | CStr s => mem s l
  | _ => false
  end.

Definition categorize_gun_law (grade : cell) : cell :=
  if isna grade then CStr "Unknown"
  else if cell_in grade ["A+"; "A"; "A-"] then CStr "Strong"
  else if cell_in grade ["B+"; "B"; "B-"] then CStr "Moderate"
  else if cell_in grade ["C+"; "C"; "C-"] then CStr "Weak"
  else if cell_in grade ["D+"; "D"; "D-"] then CStr "Very Weak"
  else CStr "Minimal".

(** ** Files *)

(** What the script sees of the file system: whether the [data] folder
    exists, and for each path the table [pd.read_csv] returns, or [None]
    when the read raises. *)
Record FileSystem : Type := mkFS {
  data_dir_exists : bool;
  read : string -> option DataFrame
}.

Definition read_csv (fs : FileSystem) (path : string) : result DataFrame :=
  match read fs path with
  | Some df => Ok df
  | None => Raise (FileNotFoundError path)
  end.

(** [try: df = pd.read_csv(path)  except: df = None] *)
Definition try_read_csv (fs : FileSystem) (path : string) : option DataFrame :=
  read fs path.

Definition housing_general_csv : string :=
  "County_zhvi_uc_sfr_tier_0.33_0.67_sm_sa_month.csv".
Definition housing_4br_csv : string :=
  "County_zhvi_bdrmcnt_4_uc_sfrcondo_tier_0.33_0.67_sm_sa_month (1).csv".
Definition housing_5br_csv : string :=
  "County_zhvi_bdrmcnt_5_uc_sfrcondo_tier_0.33_0.67_sm_sa_month (1).csv".
Definition elections_csv : string := "countypres_2000-2024.csv".
Definition gun_laws_csv : string := "gun_law_grades_2024.csv".
Definition population_csv : string := "county_population_estimates.csv".
Definition exotic_animals_csv : string := "exotic_animal_laws_2024.csv".
Definition marijuana_csv : string := "marijuana_legality_2025.csv".

Definition data_path (fs : FileSystem) : string :=
  if data_dir_exists fs then "data/" else "".

(** ** Housing *)

(** One county key:
    [(state.astype(str).zfill(2) + county.astype(str).zfill(3)).astype(float)] *)
Definition county_key_str (st mu : cell) : result string :=
  s <- astype_str st ;;
  m <- astype_str mu ;;
  Ok (zfill 2 s ++ zfill 3 m)%string.

Definition county_fips_key (st mu : cell) : result F64.t :=
  k <- county_key_str st mu ;;
  float_of_str k.

(** The [county_fips] column of a housing table. *)
Definition county_fips (df : DataFrame) : result (list cell) :=
  st <- getitem df "StateCodeFIPS" ;;
  mu <- getitem df "MunicipalCodeFIPS" ;;
  ks <- mapM2 county_fips_key st mu ;;
  Ok (map CFloat ks).

(** [[col for col in df.columns if col.startswith('20')]] *)
Definition date_cols (df : DataFrame) : list string :=
  filter (String.prefix "20") (columns df).

(** [l[-1]] *)
Definition last_item (l : list string) : result string :=
  match rev l with
  | [] => Raise IndexError
  | x :: _ => Ok x
  end.

(** A housing table with its key and its current value under [label]. *)
Definition with_current_value (df : DataFrame) (label : string)
  : result DataFrame :=
  fips <- county_fips df ;;
  df <- setitem df "county_fips" fips ;;
  col <- last_item (date_cols df) ;;
  v <- getitem df col ;;
  setitem df label v.

(** Lines 38-48. *)
Definition process_general (housing_general : DataFrame) : result DataFrame :=
  hg <- with_current_value housing_general "median_home_value" ;;
  v <- getitem hg "median_home_value" ;;
  hg <- setitem hg "median_home_value_all" v ;;
  hc <- select hg ["county_fips"; "RegionName"; "StateName"; "State";
                   "median_home_value_all"] ;;
  set_columns hc ["county_fips"; "county_name"; "state_name"; "state_code";
                  "median_home_value_all"].

(** Lines 51-61 and 64-74: an optional bedroom table joins when it was read. *)
Definition add_bedrooms (housing_clean : DataFrame)
  (housing_br : option DataFrame) (label : string) : result DataFrame :=
  match housing_br with
  | Some br =>
      br <- with_current_value br label ;;
      sel <- select br ["county_fips"; label] ;;
      merge_left housing_clean sel "county_fips"
  | None => Ok housing_clean
  end.

(** ** Elections *)

(** [cell == y] for an integer [y]. *)
Definition eq_int (c : cell) (y : Z) : bool :=
  match c with
  | CInt z => z =? y
  | CFloat f => SFeqb f (F64.of_Z y)
  | CStr _ => false
  end.

(** [df[df[label] == y]] *)
Definition where_eq (df : DataFrame) (label : string) (y : Z)
  : result DataFrame :=
  i <- locate df label ;;
  Ok (mkDF (columns df) (filter (fun r => eq_int (cell_at i r) y) (rows df))).

(** [df.get(label, default)] with a scalar default. *)
Definition get (df : DataFrame) (label : string) (default : cell) : list cell :=
  match col_index label (columns df) with
  | Some i => map (cell_at i) (rows df)
  | None => repeat default (len df)
  end.

(** [if label not in df.columns: df[label] = 0] *)
Definition default_zero (df : DataFrame) (label : string) : result DataFrame :=
  if negb (has_column df label) then setitem_scalar df label (CInt 0)
  else Ok df.

(** [(votes / total * 100).round(1)] *)
Definition pct (votes total : cell) : result cell :=
  q <- cell_truediv votes total ;;
  p <- cell_times_100 q ;;
  cell_round1 p.

(** [(dem_pct - rep_pct).round(1)] *)
Definition lean (dem_pct rep_pct : cell) : result cell :=
  d <- cell_sub dem_pct rep_pct ;;
  cell_round1 d.

(** Lines 90-98. *)
Definition vote_shares (elec_pivot : DataFrame) : result DataFrame :=
  ep <- default_zero elec_pivot "DEMOCRAT" ;;
  ep <- default_zero ep "REPUBLICAN" ;;
  total <- mapM2 cell_add (get ep "DEMOCRAT" (CInt 0))
                          (get ep "REPUBLICAN" (CInt 0)) ;;
  ep <- setitem ep "total_votes" total ;;
  total <- getitem ep "total_votes" ;;
  dem_pct <- mapM2 pct (get ep "DEMOCRAT" (CInt 0)) total ;;
  ep <- setitem ep "dem_pct" dem_pct ;;
  total <- getitem ep "total_votes" ;;
  rep_pct <- mapM2 pct (get ep "REPUBLICAN" (CInt 0)) total ;;
  ep <- setitem ep "rep_pct" rep_pct ;;
  dem_pct <- getitem ep "dem_pct" ;;
  rep_pct <- getitem ep "rep_pct" ;;
  lean_score <- mapM2 lean dem_pct rep_pct ;;
  setitem ep "lean_score" lean_score.

(** Lines 80-100. *)
Definition process_elections (elections : DataFrame) : result DataFrame :=
  elec_2024 <- where_eq elections "year" 2024 ;;
  elec_pivot <- pivot_table_sum elec_2024
                  ["state_po"; "county_name"; "county_fips"]
                  "party" "candidatevotes" ;;
  elec_pivot <- vote_shares elec_pivot ;;
  select elec_pivot ["county_fips"; "dem_pct"; "rep_pct"; "lean_score"].

(** ** Merge and derived columns *)

(** [if other is not None: merged = merged.merge(other[labels], on=on, how='left')] *)
Definition merge_optional (merged : DataFrame) (other : option DataFrame)
  (labels : list string) (on : string) : result DataFrame :=
  match other with
  | Some df => sel <- select df labels ;; merge_left merged sel on
  | None => Ok merged
  end.

Definition exotic_labels : list string :=
  ["state_code"; "exotic_animal_rating"; "allows_primates";
   "allows_big_cats"; "allows_reptiles"].

Definition marijuana_labels : list string :=
  ["state_code"; "marijuana_status"; "recreational_legal"; "medical_legal";
   "permissiveness_score"].

(** Lines 128-147. *)
Definition merge_all (housing_clean elec_clean gun_laws population : DataFrame)
  (exotic_animals marijuana : option DataFrame) : result DataFrame :=
  merged <- merge_left housing_clean elec_clean "county_fips" ;;
  gl <- select gun_laws ["state_code"; "gun_law_grade"; "gun_death_rate"] ;;
  merged <- merge_left merged gl "state_code" ;;
  pop <- select population ["county_fips"; "population"] ;;
  merged <- merge_left merged pop "county_fips" ;;
  merged <- merge_optional merged exotic_animals exotic_labels "state_code" ;;
  merge_optional merged marijuana marijuana_labels "state_code".

(** [if label in df.columns: df[label + '_formatted'] = df[label].apply(...)] *)
Definition format_if_present (df : DataFrame) (label : string)
  : result DataFrame :=
  if has_column df label then
    v <- getitem df label ;;
    s <- mapM format_home_value v ;;
    setitem df (label ++ "_formatted")%string s
  else Ok df.

(** Lines 150-199. *)
Definition derive_fields (merged : DataFrame) : result DataFrame :=
  merged <- dropna merged "median_home_value_all" ;;
  v <- getitem merged "median_home_value_all" ;;
  s <- mapM format_home_value v ;;
  merged <- setitem merged "median_home_value_all_formatted" s ;;
  merged <- format_if_present merged "median_home_value_4br" ;;
  merged <- format_if_present merged "median_home_value_5br" ;;
  score <- getitem merged "lean_score" ;;
  pl <- mapM categorize_lean score ;;
  merged <- setitem merged "political_lean" pl ;;
  grade <- getitem merged "gun_law_grade" ;;
  setitem merged "gun_law_strength" (map categorize_gun_law grade).

(** ** The script *)

(** [prepare_data()], reads in the order of the script.  The table it
    returns is the one it saves as [data/merged_county_data.csv]. *)
Definition prepare_data (fs : FileSystem) : result DataFrame :=
  let path := data_path fs in
  housing_general <- read_csv fs (path ++ housing_general_csv) ;;
  let housing_4br := try_read_csv fs (path ++ housing_4br_csv) in
  let housing_5br := try_read_csv fs (path ++ housing_5br_csv) in
  housing_clean <- process_general housing_general ;;
  housing_clean <- add_bedrooms housing_clean housing_4br
                     "median_home_value_4br" ;;
  housing_clean <- add_bedrooms housing_clean housing_5br
                     "median_home_value_5br" ;;
  elections <- read_csv fs (path ++ elections_csv) ;;
  elec_clean <- process_elections elections ;;
  gun_laws <- read_csv fs (path ++ gun_laws_csv) ;;
  population <- read_csv fs (path ++ population_csv) ;;
  let exotic_animals := try_read_csv fs (path ++ exotic_animals_csv) in
  let marijuana := try_read_csv fs (path ++ marijuana_csv) in
  merged <- merge_all housing_clean elec_clean gun_laws population
              exotic_animals marijuana ;;
  derive_fields merged.

(** ** Reference definitions *)

(** The decimal digit [d] as a character. *)
Definition digit_char (d : Z) : ascii := ascii_of_nat (48 + Z.to_nat d).

(** The numeral of [n] on exactly [width] decimal digits, zero-padded. *)
Fixpoint padded (width : nat) (n : Z) : string :=
  match width with
  | O => ""
  | S w => String (digit_char ((n / 10 ^ Z.of_nat w) mod 10)) (padded w n)
  end.

(** A FIPS code that the key derivation pads as intended: an int64 from 0
    to [10^width - 1], or a string of one to [width] digits.  A code held
    as float64, as [pd.read_csv] gives for a column with a missing cell or
    for codes written [6.0], is not one: its text has a decimal point. *)
Definition fips_code (width : nat) (c : cell) : bool :=
  match c with
  | CInt z => (0 <=? z) && (z <? 10 ^ Z.of_nat width)
  | CStr s => all_digits s && (1 <=? String.length s)%nat
              && (String.length s <=? width)%nat
  | CFloat _ => false
  end.

Definition code_value (c : cell) : Z :=
  match c with
  | CInt z => z
  | CStr s => decimal_value s
  | CFloat _ => 0
  end.

(** The 5-digit key of a county: state on 2 digits, county on 3. *)
Definition fips5 (state county : Z) : string :=
  (padded 2 state ++ padded 3 county)%string.

(** A column name that begins with a 4-digit year. *)
Definition year_prefixed (col : string) : bool :=
  match col with
  | String a (String b (String c (String d _))) =>
      is_digit a && is_digit b && is_digit c && is_digit d
  | _ => false
  end.

(** The last column, in the table's order, whose name begins with a
    4-digit year. *)
Definition last_year_column (df : DataFrame) : result string :=
  last_item (filter year_prefixed (columns df)).

(** Every row has one cell per column, as in any table that was read. *)
Definition well_formed (df : DataFrame) : bool :=
  forallb (fun r => (List.length r =? List.length (columns df))%nat) (rows df).

(** A party's votes over the Democrat plus Republican votes, as a
    percentage. *)
Definition two_party_percentage (votes dem rep : Z) : F64.t :=
  F64.mul (F64.div (F64.of_Z votes) (F64.of_Z (dem + rep))) (F64.of_Z 100).

(** The share the script stores: that percentage to one decimal. *)
Definition two_party_share (votes dem rep : Z) : F64.t :=
  F64.round1 (two_party_percentage votes dem rep).

(** The stored Democrat share minus the stored Republican share, to one
    decimal. *)
Definition lean_score_of (dem rep : Z) : F64.t :=
  F64.round1 (F64.sub (two_party_share dem dem rep)
                      (two_party_share rep dem rep)).

(** The table of a housing file with one more column after the months. *)
Definition zhvi_with_change_column : DataFrame :=
  mkDF ["StateCodeFIPS"; "MunicipalCodeFIPS";
        "2024-11-30"; "2024-12-31"; "20_day_change"]
       [[CInt 6; CInt 1; CInt 340000; CInt 350000; CInt 7]].

(** A pivot of one county with a third party: 600 Democrat, 300
    Republican and 50 Green votes. *)
Definition alameda_pivot : DataFrame :=
  mkDF ["state_po"; "county_name"; "county_fips";
        "DEMOCRAT"; "GREEN"; "REPUBLICAN"]
       [[CStr "CA"; CStr "ALAMEDA"; CInt 6001; CInt 600; CInt 50; CInt 300]].

(** Election records of 2024: a county where only a third party has votes,
    and one with votes for both major parties. *)
Definition elections_2024 : DataFrame :=
  mkDF ["year"; "state_po"; "county_name"; "county_fips"; "party";
        "candidatevotes"]
       [[CInt 2024; CStr "AL"; CStr "BALDWIN"; CInt 1003; CStr "GREEN"; CInt 7];
        [CInt 2024; CStr "CA"; CStr "ALAMEDA"; CInt 6001; CStr "DEMOCRAT";
         CInt 600];
        [CInt 2024; CStr "CA"; CStr "ALAMEDA"; CInt 6001; CStr "REPUBLICAN";
         CInt 300]].

(** The pivot of [elections_2024]. *)
Definition baldwin_pivot : DataFrame :=
  mkDF ["state_po"; "county_name"; "county_fips";
        "DEMOCRAT"; "GREEN"; "REPUBLICAN"]
       [[CStr "AL"; CStr "BALDWIN"; CInt 1003; CInt 0; CInt 7; CInt 0];
        [CStr "CA"; CStr "ALAMEDA"; CInt 6001; CInt 600; CInt 0; CInt 300]].

(** The column labels of [left.merge(right, on=on, how='left')]. *)
Definition merge_columns (lcols rcols : list string) (on : string)
  : list string :=
  match col_index on lcols, col_index on rcols with
  | Some i, Some j =>
      let rest := remove_nth j rcols in
      map (fun c => if negb (String.eqb c on) && mem c rest
                    then (c ++ "_x")%string else c) lcols
      ++ map (fun c => if mem c (remove_nth i lcols)
                       then (c ++ "_y")%string else c) rest
  | _, _ => []
  end.

(** The rows a left row becomes in a left join. *)
Definition joined_rows (i j : nat) (right : DataFrame) (l : row) : list row :=
  match filter (fun r => key_eqb (cell_at i l) (cell_at j r)) (rows right) with
  | [] => [l ++ repeat NaN (List.length (remove_nth j (columns right)))]
  | matches => map (fun r => l ++ remove_nth j r) matches
  end.

(** A table has at most one row per value of its key column [on]. *)
Definition unique_on (df : DataFrame) (on : string) : bool :=
  match col_index on (columns df) with
  | Some j =>
      forallb
        (fun r => (List.length
                     (filter (fun r' => key_eqb (cell_at j r) (cell_at j r'))
                             (rows df)) <=? 1)%nat)
        (rows df)
  | None => true
  end.

(** A sequence of left joins onto [m], each table with its key. *)
Fixpoint left_joins (m : DataFrame) (js : list (DataFrame * string))
  : result DataFrame :=
  match js with
  | [] => Ok m
  | j :: js' => m' <- merge_left m (fst j) (snd j) ;; left_joins m' js'
  end.

(** The bedroom table the script joins, when the file was read. *)
Definition bedroom_table (housing_br : option DataFrame) (label : string)
  : result (list (DataFrame * string)) :=
  match housing_br with
  | Some br =>
      br <- with_current_value br label ;;
      sel <- select br ["county_fips"; label] ;;
      Ok [(sel, "county_fips")]
  | None => Ok []
  end.

(** The state-level table the script joins, when the file was read. *)
Definition optional_table (other : option DataFrame) (labels : list string)
  (on : string) : result (list (DataFrame * string)) :=
  match other with
  | Some df => sel <- select df labels ;; Ok [(sel, on)]
  | None => Ok []
  end.

(** The anchor (the overall-housing table of lines 38-48) and the tables
    the script joins onto it, in the order of the joins. *)
Definition joined_sources (fs : FileSystem)
  : result (DataFrame * list (DataFrame * string)) :=
  let path := data_path fs in
  housing_general <- read_csv fs (path ++ housing_general_csv) ;;
  anchor <- process_general housing_general ;;
  j4 <- bedroom_table (try_read_csv fs (path ++ housing_4br_csv))
          "median_home_value_4br" ;;
  j5 <- bedroom_table (try_read_csv fs (path ++ housing_5br_csv))
          "median_home_value_5br" ;;
  elections <- read_csv fs (path ++ elections_csv) ;;
  elec_clean <- process_elections elections ;;
  gun_laws <- read_csv fs (path ++ gun_laws_csv) ;;
  gl <- select gun_laws ["state_code"; "gun_law_grade"; "gun_death_rate"] ;;
  population <- read_csv fs (path ++ population_csv) ;;
  pop <- select population ["county_fips"; "population"] ;;
  ex <- optional_table (try_read_csv fs (path ++ exotic_animals_csv))
          exotic_labels "state_code" ;;
  mj <- optional_table (try_read_csv fs (path ++ marijuana_csv))
          marijuana_labels "state_code" ;;
  Ok (anchor,
      j4 ++ j5
      ++ [(elec_clean, "county_fips"); (gl, "state_code");
          (pop, "county_fips")]
      ++ ex ++ mj).

(** Which optional files were read. *)
Definition available (fs : FileSystem) (file : string) : bool :=
  match read fs (data_path fs ++ file) with Some _ => true | None => false end.

Definition anchor_columns : list string :=
  ["county_fips"; "county_name"; "state_name"; "state_code";
   "median_home_value_all"].

Definition when (b : bool) (l : list string) : list string :=
  if b then l else [].

(** The columns of the merged table, by the optional sources at hand. *)
Definition merged_columns (b4 b5 bex bmj : bool) : list string :=
  anchor_columns
  ++ when b4 ["median_home_value_4br"]
  ++ when b5 ["median_home_value_5br"]
  ++ ["dem_pct"; "rep_pct"; "lean_score"; "gun_law_grade"; "gun_death_rate";
      "population"]
  ++ when bex ["exotic_animal_rating"; "allows_primates"; "allows_big_cats";
               "allows_reptiles"]
  ++ when bmj ["marijuana_status"; "recreational_legal"; "medical_legal";
               "permissiveness_score"].

(** The columns of the output table, by the optional sources at hand. *)
Definition output_columns (b4 b5 bex bmj : bool) : list string :=
  merged_columns b4 b5 bex bmj
  ++ ["median_home_value_all_formatted"]
  ++ when b4 ["median_home_value_4br_formatted"]
  ++ when b5 ["median_home_value_5br_formatted"]
  ++ ["political_lean"; "gun_law_strength"].

(** The overall home value of a row of the anchor, the merged or the output
    table: its fifth cell. *)
Definition home_value (r : row) : cell := cell_at 4 r.

(** A row cut down to the columns of the anchor. *)
Definition anchor_part (r : row) : row := firstn 5 r.

(** The labels and the key of each table the script joins, in order. *)
Definition join_labels (b4 b5 bex bmj : bool) : list (list string * string) :=
  (if b4 then [(["county_fips"; "median_home_value_4br"], "county_fips")]
   else [])
  ++ (if b5 then [(["county_fips"; "median_home_value_5br"], "county_fips")]
      else [])
  ++ [(["county_fips"; "dem_pct"; "rep_pct"; "lean_score"], "county_fips");
      (["state_code"; "gun_law_grade"; "gun_death_rate"], "state_code");
      (["county_fips"; "population"], "county_fips")]
  ++ (if bex then [(exotic_labels, "state_code")] else [])
  ++ (if bmj then [(marijuana_labels, "state_code")] else []).

(** [x] is the row [r] followed by further cells. *)
Definition extends (r x : row) : Prop := exists ext, x = r ++ ext.

(** *** A small data folder

    Three counties, one of them without a current home value; a 4-bedroom
    file that knows one county; no 5-bedroom, exotic-animal or marijuana
    file. *)

Definition sample_housing : DataFrame :=
  mkDF ["RegionName"; "StateName"; "State"; "StateCodeFIPS";
        "MunicipalCodeFIPS"; "2024-11-30"; "2024-12-31"]
       [[CStr "Alameda County"; CStr "CA"; CStr "CA"; CInt 6; CInt 1;
         CFloat (F64.of_Z 1100000); CFloat (F64.of_Z 1200000)];
        [CStr "Autauga County"; CStr "AL"; CStr "AL"; CInt 1; CInt 1;
         CFloat (F64.of_Z 250000); NaN];
        [CStr "Baldwin County"; CStr "AL"; CStr "AL"; CInt 1; CInt 3;
         CFloat (F64.of_Z 340000); CFloat (F64.of_Z 350000)]].

Definition sample_housing_4br : DataFrame :=
  mkDF ["StateCodeFIPS"; "MunicipalCodeFIPS"; "2024-12-31"]
       [[CStr "01"; CStr "003"; CFloat (F64.of_Z 450000)]].

Definition sample_gun_laws : DataFrame :=
  mkDF ["state_code"; "gun_law_grade"; "gun_death_rate"]
       [[CStr "CA"; CStr "A"; CFloat (F64.of_Z 9)];
        [CStr "AL"; CStr "F"; CFloat (F64.of_Z 26)]].

Definition sample_population : DataFrame :=
  mkDF ["county_fips"; "population"] [[CInt 6001; CInt 1600000]].

Definition sample_fs : FileSystem :=
  mkFS true
    (fun path =>
       if String.eqb path ("data/" ++ housing_general_csv)
       then Some sample_housing
       else if String.eqb path ("data/" ++ housing_4br_csv)
       then Some sample_housing_4br
       else if String.eqb path ("data/" ++ elections_csv)
       then Some elections_2024
       else if String.eqb path ("data/" ++ gun_laws_csv)
       then Some sample_gun_laws
       else if String.eqb path ("data/" ++ population_csv)
       then Some sample_population
       else None).

(** What the script returns on [sample_fs]. *)
Definition sample_output : DataFrame :=
  mkDF ["county_fips"; "county_name"; "state_name"; "state_code";
        "median_home_value_all"; "median_home_value_4br";
        "dem_pct"; "rep_pct"; "lean_score";
        "gun_law_grade"; "gun_death_rate"; "population";
        "median_home_value_all_formatted"; "median_home_value_4br_formatted";
        "political_lean"; "gun_law_strength"]
       [[CFloat (F64.of_Z 6001); CStr "Alameda County"; CStr "CA"; CStr "CA";
         CFloat (F64.of_Z 1200000); NaN;
         CFloat (F64.div (F64.of_Z 667) (F64.of_Z 10));
         CFloat (F64.div (F64.of_Z 333) (F64.of_Z 10));
         CFloat (F64.div (F64.of_Z 334) (F64.of_Z 10));
         CStr "A"; CFloat (F64.of_Z 9); CInt 1600000;
         CStr "$1,200,000"; CStr "N/A"; CStr "Strong Democrat"; CStr "Strong"];
        [CFloat (F64.of_Z 1003); CStr "Baldwin County"; CStr "AL"; CStr "AL";
         CFloat (F64.of_Z 350000); CFloat (F64.of_Z 450000);
         NaN; NaN; NaN;
         CStr "F"; CFloat (F64.of_Z 26); NaN;
         CStr "$350,000"; CStr "$450,000"; CStr "Unknown"; CStr "Minimal"]].

(** The anchor of [sample_fs]. *)
Definition sample_anchor : DataFrame :=
  mkDF anchor_columns
       [[CFloat (F64.of_Z 6001); CStr "Alameda County"; CStr "CA"; CStr "CA";
         CFloat (F64.of_Z 1200000)];
        [CFloat (F64.of_Z 1001); CStr "Autauga County"; CStr "AL"; CStr "AL";
         NaN];
        [CFloat (F64.of_Z 1003); CStr "Baldwin County"; CStr "AL"; CStr "AL";
         CFloat (F64.of_Z 350000)]].

(** A result that is not a failed read. *)
Definition no_read_error {A : Type} (r : result A) : Prop :=
  match r with
  | Raise (FileNotFoundError _) => False
  | _ => True
  end.

(** The files the script can do without. *)
Definition optional_files : list string :=
  [housing_4br_csv; housing_5br_csv; exotic_animals_csv; marijuana_csv].

(** The files the script cannot do without. *)
Definition required_files : list string :=
  [housing_general_csv; elections_csv; gun_laws_csv; population_csv].

(** Vote counts as a pivot holds them: below [2^53] in size. *)
Definition vote_counts (V : list Z) : bool :=
  forallb (fun v => Z.abs v <? 2 ^ 53) V.

(** [P] on the [n] integers from [z] on. *)
Fixpoint all_from (P : Z -> bool) (z : Z) (n : nat) : bool :=
  match n with
  | O => true
  | S k => P z && all_from P (z + 1) k
  end.

(** ** Saving the table *)

(** [output_path], line 206 of the script. *)
Definition output_path : string := "data/merged_county_data.csv".

(** Lines 202-207 on the file system: afterwards the [data] folder is
    there, and no file but the output file has changed.  What
    [pd.read_csv] makes of the output file is left open. *)
Definition saved (fs fs' : FileSystem) : Prop :=
  data_dir_exists fs' = true /\
  forall path, path <> output_path -> read fs' path = read fs path.

(** Nothing can be read in a [data] folder that is not there. *)
Definition no_folder_no_files (fs : FileSystem) : Prop :=
  data_dir_exists fs = false ->
  forall name, read fs ("data/" ++ name)%string = None.

(** ** The dashboard: the data flow of [app.py]

    The script runs top to bottom on every interaction.  What the widgets
    return is an input; what the script computes from the loaded table and
    from these inputs is modelled, with the exceptions it can raise on the
    way. *)

(** The values the sidebar widgets return. *)
Record Selection : Type := mkSelection {
  bedroom_type : string;
  price_min : Z;
  price_max : Z;
  selected_leans : list string;
  selected_gun_laws : list string;
  selected_marijuana : list string;
  selected_exotic_ratings : list string;
  filter_primates : bool;
  filter_big_cats : bool;
  filter_reptiles : bool;
  pop_min : Z;
  pop_max : Z;
  selected_states : list string
}.

(** Lines 33-37. *)
Definition bedroom_options (df : DataFrame) : list string :=
  ["All Homes"]
  ++ (if has_column df "median_home_value_4br" then ["4 Bedrooms"] else [])
  ++ (if has_column df "median_home_value_5br" then ["5+ Bedrooms"] else []).

(** Lines 45-53. *)
Definition price_col (bedroom : string) : string :=
  if String.eqb bedroom "4 Bedrooms" then "median_home_value_4br"
  else if String.eqb bedroom "5+ Bedrooms" then "median_home_value_5br"
  else "median_home_value_all".

Definition price_col_formatted (bedroom : string) : string :=
  if String.eqb bedroom "4 Bedrooms" then "median_home_value_4br_formatted"
  else if String.eqb bedroom "5+ Bedrooms"
       then "median_home_value_5br_formatted"
  else "median_home_value_all_formatted".

Definition lean_categories : list string :=
  ["Strong Democrat"; "Lean Democrat"; "Swing"; "Lean Republican";
   "Strong Republican"; "Unknown"].

Definition gun_law_categories : list string :=
  ["Strong"; "Moderate"; "Weak"; "Very Weak"; "Minimal"; "Unknown"].

(** [df[mask]] for a mask with one boolean per row. *)
Definition where_mask (df : DataFrame) (mask : list bool) : DataFrame :=
  mkDF (columns df) (map fst (filter snd (combine (rows df) mask))).

(** [a & b] on masks. *)
Fixpoint mask_and (a b : list bool) : list bool :=
  match a, b with
  | x :: a', y :: b' => (x && y) :: mask_and a' b'
  | _, _ => []
  end.

(** [series.isin(values)] for a list of strings: a missing value or a
    number is in no such list. *)
Definition isin (cs : list cell) (values : list string) : list bool :=
  map (fun c => cell_in c values) cs.

(** [series == s] for a string [s]. *)
Definition eq_str (cs : list cell) (s : string) : list bool :=
  map (fun c => cell_in c [s]) cs.

(** [cell >= n] and [cell <= n] for a Python int [n]: false on a missing
    value, a [TypeError] on a string. *)
Definition ge_int (c : cell) (n : Z) : result bool :=
  match c with
  | CInt z => Ok (n <=? z)
  | CFloat f => Ok (F64.leb (F64.of_Z n) f)
  | CStr _ => Raise TypeError
  end.

Definition le_int (c : cell) (n : Z) : result bool :=
  match c with
  | CInt z => Ok (z <=? n)
  | CFloat f => Ok (F64.leb f (F64.of_Z n))
  | CStr _ => Raise TypeError
  end.

(** A value of a numeric column as a float64; integers keep their value
    below [2^53].  Columns of strings are not modelled here. *)
Definition number (c : cell) : result F64.t :=
  match c with
  | CInt z => if Z.abs z <? 2 ^ 53 then Ok (F64.of_Z z) else OutOfModel
  | CFloat f => Ok f
  | CStr _ => OutOfModel
  end.

Definition fmin (a b : F64.t) : F64.t := if F64.leb b a then b else a.
Definition fmax (a b : F64.t) : F64.t := if F64.leb a b then b else a.

(** [series.min()] and [series.max()]: missing values are skipped, and the
    result is NaN when nothing is left. *)
Definition series_min (cs : list cell) : result F64.t :=
  xs <- mapM number (filter notna cs) ;;
  Ok (match xs with
      | [] => F64.nan
      | x :: xs' => fold_left fmin xs' x
      end).

Definition series_max (cs : list cell) : result F64.t :=
  xs <- mapM number (filter notna cs) ;;
  Ok (match xs with
      | [] => F64.nan
      | x :: xs' => fold_left fmax xs' x
      end).

(** [int(x)]: the integer part, towards zero; NaN is a [ValueError].  The
    [OverflowError] on an infinity is not among the modelled exceptions. *)
Definition py_int (x : F64.t) : result Z :=
  match x with
  | S754_nan => Raise ValueError
  | S754_infinity _ => OutOfModel
  | S754_zero _ => Ok 0
  | S754_finite s m (Zneg p) => Ok (cond_Zopp s (Zpos m / 2 ^ Zpos p))
  | S754_finite s m e => Ok (cond_Zopp s (Zpos m * 2 ^ e))
  end.

(** The ends of a range slider over a column, lines 60-67 and 115-121:
    [min_value=int(col.min()), max_value=int(col.max())], which are also
    the two values the slider returns until the user moves it.  A slider
    whose two ends coincide is left to streamlit and not modelled. *)
Definition slider_range (cs : list cell) : result (Z * Z) :=
  lo <- series_min cs ;;
  lo <- py_int lo ;;
  hi <- series_max cs ;;
  hi <- py_int hi ;;
  if lo =? hi then OutOfModel else Ok (lo, hi).

(** [sorted(series.dropna().unique())] on a column of strings. *)
Definition sorted_present (cs : list cell) : result (list string) :=
  ss <- mapM label_of (filter notna cs) ;;
  Ok (sort_by String.leb (distinct String.eqb ss)).

Definition is_str (c : cell) : bool :=
  match c with CStr _ => true | _ => false end.

(** [sorted(series.unique())] on a column of strings: a missing value
    cannot be compared with a string.  A column of missing values only, or
    of numbers, is not modelled. *)
Definition sorted_unique (cs : list cell) : result (list string) :=
  if existsb isna cs then
    if existsb is_str cs then Raise TypeError else OutOfModel
  else sorted_present cs.

(** [options = sorted(df[label].dropna().unique())] when [label] is a
    column of [df], lines 88-90 and 98-100. *)
Definition options_if_present (df : DataFrame) (label : string)
  : result (list string) :=
  if has_column df label then
    col <- getitem df label ;; sorted_present col
  else Ok [].

(** [df = df[df[label].isin(values)]] *)
Definition keep_isin (df : DataFrame) (label : string) (values : list string)
  : result DataFrame :=
  col <- getitem df label ;;
  Ok (where_mask df (isin col values)).

(** [if flag and label in df.columns: df = df[df[label].isin(values)]] *)
Definition keep_isin_if (flag : bool) (df : DataFrame) (label : string)
  (values : list string) : result DataFrame :=
  if flag && has_column df label then keep_isin df label values else Ok df.

(** [if flag and label in df.columns: df = df[df[label] == s]] *)
Definition keep_eq_if (flag : bool) (df : DataFrame) (label : string)
  (s : string) : result DataFrame :=
  if flag && has_column df label then
    col <- getitem df label ;;
    Ok (where_mask df (eq_str col s))
  else Ok df.

Definition nonempty {A : Type} (l : list A) : bool :=
  match l with [] => false | _ => true end.

(** Lines 45-159: the table [filtered_df] for the table [df] that was
    loaded and the values [w] of the widgets. *)
Definition filtered_df (df : DataFrame) (w : Selection) : result DataFrame :=
  let pc := price_col (bedroom_type w) in
  (* line 56 *)
  present <- getitem df pc ;;
  let df_filtered_bedrooms := where_mask df (map notna present) in
  (* lines 60-67 *)
  prices <- getitem df_filtered_bedrooms pc ;;
  _ <- slider_range prices ;;
  (* lines 88-105 *)
  _ <- options_if_present df "marijuana_status" ;;
  _ <- options_if_present df "exotic_animal_rating" ;;
  (* lines 115-121 *)
  population <- getitem df "population" ;;
  _ <- slider_range population ;;
  (* line 125 *)
  state_name <- getitem df "state_name" ;;
  _ <- sorted_unique state_name ;;
  (* lines 133-140 *)
  m1 <- mapM (fun c => ge_int c (price_min w)) prices ;;
  m2 <- mapM (fun c => le_int c (price_max w)) prices ;;
  lean_col <- getitem df_filtered_bedrooms "political_lean" ;;
  gun_col <- getitem df_filtered_bedrooms "gun_law_strength" ;;
  pop_col <- getitem df_filtered_bedrooms "population" ;;
  m5 <- mapM (fun c => ge_int c (pop_min w)) pop_col ;;
  m6 <- mapM (fun c => le_int c (pop_max w)) pop_col ;;
  let fd :=
    where_mask df_filtered_bedrooms
      (mask_and
         (mask_and
            (mask_and
               (mask_and (mask_and m1 m2)
                  (isin lean_col (selected_leans w)))
               (isin gun_col (selected_gun_laws w)))
            m5)
         m6) in
  (* lines 143-144 *)
  fd <- (if has_column df "marijuana_status"
         then keep_isin fd "marijuana_status" (selected_marijuana w)
         else Ok fd) ;;
  (* lines 147-156 *)
  fd <- (if has_column df "exotic_animal_rating" then
           fd <- keep_isin fd "exotic_animal_rating"
                   (selected_exotic_ratings w) ;;
           fd <- keep_isin_if (filter_primates w) fd "allows_primates"
                   ["Yes"; "Limited"] ;;
           fd <- keep_isin_if (filter_big_cats w) fd "allows_big_cats"
                   ["Yes"; "Limited"] ;;
           keep_eq_if (filter_reptiles w) fd "allows_reptiles" "Yes"
         else Ok fd) ;;
  (* lines 158-159 *)
  if nonempty (selected_states w)
  then keep_isin fd "state_name" (selected_states w)
  else Ok fd.

(** Lines 182-194: the table of the first tab, before it is sorted. *)
Definition display_cols (fd : DataFrame) (bedroom : string) : list string :=
  ["county_name"; "state_code"; price_col_formatted bedroom; "population";
   "political_lean"; "gun_law_grade"; "lean_score"]
  ++ (if has_column fd "marijuana_status" then ["marijuana_status"] else [])
  ++ (if has_column fd "exotic_animal_rating"
      then ["exotic_animal_rating"] else []).

Definition display_names (fd : DataFrame) (bedroom : string) : list string :=
  ["County"; "State"; (bedroom ++ " Value")%string; "Population";
   "Political Lean"; "Gun Grade"; "Lean Score"]
  ++ (if has_column fd "marijuana_status" then ["Marijuana"] else [])
  ++ (if has_column fd "exotic_animal_rating" then ["Exotic Pets"] else []).

Definition display_df (fd : DataFrame) (bedroom : string) : result DataFrame :=
  sel <- select fd (display_cols fd bedroom) ;;
  set_columns sel (display_names fd bedroom).

(** [df.nsmallest(n, label)] on a numeric column without missing values:
    the [n] rows with the smallest values, smallest first, rows with equal
    values in the order of [df]. *)
Definition nsmallest (n : nat) (df : DataFrame) (label : string)
  : result DataFrame :=
  i <- locate df label ;;
  if existsb (fun r => isna (cell_at i r)) (rows df) then OutOfModel
  else
    keyed <- mapM (fun r => x <- number (cell_at i r) ;; Ok (x, r))
               (rows df) ;;
    Ok (mkDF (columns df)
          (firstn n
             (map snd
                (sort_by (fun a b => F64.leb (fst a) (fst b)) keyed)))).

(** Lines 328-332, which run when [filtered_df] has rows: the ten most
    affordable counties. *)
Definition affordable (fd : DataFrame) (bedroom : string) : result DataFrame :=
  top <- nsmallest 10 fd (price_col bedroom) ;;
  sel <- select top ["county_name"; "state_code"; price_col_formatted bedroom;
                     "population"; "political_lean"; "gun_law_grade"] ;;
  set_columns sel ["County"; "State"; "Home Value"; "Population";
                   "Political Lean"; "Gun Grade"].

(** ** Reference definitions for the dashboard *)

(** The cell of row [r] under [label], in a table with the columns of
    [df]. *)
Definition field (df : DataFrame) (label : string) (r : row) : cell :=
  match col_index label (columns df) with
  | Some i => cell_at i r
  | None => NaN
  end.

(** A number that is present and at least, or at most, [n]. *)
Definition at_least (c : cell) (n : Z) : bool :=
  match ge_int c n with Ok b => b | _ => false end.

Definition at_most (c : cell) (n : Z) : bool :=
  match le_int c n with Ok b => b | _ => false end.

(** A row passes every filter that is active for the selection [w]. *)
Definition passes (df : DataFrame) (w : Selection) (r : row) : bool :=
  let v := fun label => field df label r in
  let pc := price_col (bedroom_type w) in
  notna (v pc)
  && (at_least (v pc) (price_min w) && at_most (v pc) (price_max w)
      && cell_in (v "political_lean") (selected_leans w)
      && cell_in (v "gun_law_strength") (selected_gun_laws w)
      && at_least (v "population") (pop_min w)
      && at_most (v "population") (pop_max w))
  && (if has_column df "marijuana_status"
      then cell_in (v "marijuana_status") (selected_marijuana w)
      else true)
  && (if has_column df "exotic_animal_rating"
      then cell_in (v "exotic_animal_rating") (selected_exotic_ratings w)
           && (if filter_primates w && has_column df "allows_primates"
               then cell_in (v "allows_primates") ["Yes"; "Limited"]
               else true)
           && (if filter_big_cats w && has_column df "allows_big_cats"
               then cell_in (v "allows_big_cats") ["Yes"; "Limited"]
               else true)
           && (if filter_reptiles w && has_column df "allows_reptiles"
               then cell_in (v "allows_reptiles") ["Yes"]
               else true)
      else true)
  && (if nonempty (selected_states w)
      then cell_in (v "state_name") (selected_states w)
      else true).

(** The computation returns a value: it raises nothing, and it stays
    within what is modelled. *)
Definition returns {A : Type} (r : result A) : bool :=
  match r with Ok _ => true | _ => false end.

(** [fd] has the columns of [df] and those of its rows on which [P]
    holds. *)
Definition holds (df : DataFrame) (P : row -> bool) (fd : DataFrame) : Prop :=
  columns fd = columns df /\ rows fd = filter P (rows df).

(** What the widgets return before the user touches them: the first
    bedroom option, both sliders at their ends, every category and every
    option selected, no box ticked and no state chosen. *)
Definition first_display (df : DataFrame) : result Selection :=
  let pc := price_col "All Homes" in
  present <- getitem df pc ;;
  prices <- getitem (where_mask df (map notna present)) pc ;;
  price_range <- slider_range prices ;;
  marijuana_options <- options_if_present df "marijuana_status" ;;
  exotic_ratings <- options_if_present df "exotic_animal_rating" ;;
  population <- getitem df "population" ;;
  pop_range <- slider_range population ;;
  Ok (mkSelection "All Homes" (fst price_range) (snd price_range)
        lean_categories gun_law_categories marijuana_options exotic_ratings
        false false false (fst pop_range) (snd pop_range) []).

(** A table as the dashboard loads it: four counties, with the columns of
    a run that had the exotic-animal and the marijuana file but no bedroom
    file.  One county has no population and no marijuana status. *)
Definition sample_counties : DataFrame :=
  mkDF (output_columns false false true true)
       [[CFloat (F64.of_Z 6001); CStr "Alameda County"; CStr "CA"; CStr "CA";
         CFloat (F64.div (F64.of_Z 2400001) (F64.of_Z 2));
         CFloat (F64.div (F64.of_Z 667) (F64.of_Z 10));
         CFloat (F64.div (F64.of_Z 333) (F64.of_Z 10));
         CFloat (F64.div (F64.of_Z 334) (F64.of_Z 10));
         CStr "A"; CFloat (F64.of_Z 9); CInt 1600000;
         CStr "Strict"; CStr "No"; CStr "No"; CStr "Yes";
         CStr "Legal"; CStr "Yes"; CStr "Yes"; CInt 3;
         CStr "$1,200,000"; CStr "Strong Democrat"; CStr "Strong"];
        [CFloat (F64.of_Z 1003); CStr "Baldwin County"; CStr "AL"; CStr "AL";
         CFloat (F64.of_Z 350000);
         NaN; NaN; NaN;
         CStr "F"; CFloat (F64.of_Z 26); NaN;
         CStr "Permissive"; CStr "Yes"; CStr "Limited"; CStr "Yes";
         NaN; NaN; NaN; NaN;
         CStr "$350,000"; CStr "Unknown"; CStr "Minimal"];
        [CFloat (F64.of_Z 48453); CStr "Travis County"; CStr "TX"; CStr "TX";
         CFloat (F64.of_Z 520000);
         CFloat (F64.div (F64.of_Z 701) (F64.of_Z 10));
         CFloat (F64.div (F64.of_Z 299) (F64.of_Z 10));
         CFloat (F64.div (F64.of_Z 402) (F64.of_Z 10));
         CStr "F"; CFloat (F64.of_Z 15); CInt 1300000;
         CStr "Moderate"; CStr "Limited"; CStr "No"; CStr "No";
         CStr "Illegal"; CStr "No"; CStr "Yes"; CInt 1;
         CStr "$520,000"; CStr "Strong Democrat"; CStr "Minimal"];
        [CFloat (F64.of_Z 1001); CStr "Autauga County"; CStr "AL"; CStr "AL";
         CFloat (F64.of_Z 250000);
         CFloat (F64.div (F64.of_Z 271) (F64.of_Z 10));
         CFloat (F64.div (F64.of_Z 729) (F64.of_Z 10));
         CFloat (F64.div (F64.of_Z (-458)) (F64.of_Z 10));
         CStr "F"; CFloat (F64.of_Z 26); CInt 60000;
         CStr "Permissive"; CStr "Yes"; CStr "Limited"; CStr "Yes";
         CStr "Illegal"; CStr "No"; CStr "No"; CInt 0;
         CStr "$250,000"; CStr "Strong Republican"; CStr "Minimal"]].

(** The widgets of the first display of [sample_counties]. *)
Definition sample_selection : Selection :=
  mkSelection "All Homes" 250000 1200000
    lean_categories gun_law_categories ["Illegal"; "Legal"]
    ["Moderate"; "Permissive"; "Strict"] false false false
    60000 1600000 [].

(** Row [r] has, in column [i], a number that is at most the number of row
    [r']. *)
Definition no_dearer (i : nat) (r r' : row) : Prop :=
  exists x y,
    number (cell_at i r) = Ok x /\ number (cell_at i r') = Ok y /\
    F64.leb x y = true.

(** [s.replace(",", "")] *)
Fixpoint strip_commas (s : string) : string :=
  match s with
  | EmptyString => ""
  | String a s' =>
      if Ascii.eqb a "," then strip_commas s' else String a (strip_commas s')
  end.

(** A run of the script that returns [out] and leaves the file system
    [fs']. *)
Definition runs (fs : FileSystem) (out : DataFrame) (fs' : FileSystem)
  : Prop :=
  prepare_data fs = Ok out /\ saved fs fs'.

(** The sources of [sample_fs] in the current directory, and no [data]
    folder. *)
Definition sample_fs_here : FileSystem :=
  mkFS false (fun path => read sample_fs ("data/" ++ path)).

(** A file system with one more file, the saved table, in the [data]
    folder. *)
Definition with_output (fs : FileSystem) (df : DataFrame) : FileSystem :=
  mkFS true
    (fun path => if String.eqb path output_path then Some df
                 else read fs path).

(** ** Further sample data *)

(** A file system with the given tables under [data/], by file name. *)
Fixpoint lookup_file (files : list (string * DataFrame)) (path : string)
  : option DataFrame :=
  match files with
  | [] => None
  | (name, df) :: files' =>
      if String.eqb path ("data/" ++ name) then Some df
      else lookup_file files' path
  end.

Definition folder (files : list (string * DataFrame)) : FileSystem :=
  mkFS true (lookup_file files).

(** A housing table that lost its month columns. *)
Definition housing_without_months : DataFrame :=
  mkDF ["RegionName"; "StateName"; "State"; "StateCodeFIPS";
        "MunicipalCodeFIPS"]
       [[CStr "Alameda County"; CStr "CA"; CStr "CA"; CInt 6; CInt 1]].

(** A gun-law table that lists California twice. *)
Definition gun_laws_twice : DataFrame :=
  mkDF ["state_code"; "gun_law_grade"; "gun_death_rate"]
       [[CStr "CA"; CStr "A"; CFloat (F64.of_Z 9)];
        [CStr "AL"; CStr "F"; CFloat (F64.of_Z 26)];
        [CStr "CA"; CStr "A-"; CFloat (F64.of_Z 9)]].

(** [sample_anchor] joined with [gun_laws_twice]. *)
Definition anchor_with_gun_laws_twice : DataFrame :=
  mkDF (anchor_columns ++ ["gun_law_grade"; "gun_death_rate"])
       [[CFloat (F64.of_Z 6001); CStr "Alameda County"; CStr "CA"; CStr "CA";
         CFloat (F64.of_Z 1200000); CStr "A"; CFloat (F64.of_Z 9)];
        [CFloat (F64.of_Z 6001); CStr "Alameda County"; CStr "CA"; CStr "CA";
         CFloat (F64.of_Z 1200000); CStr "A-"; CFloat (F64.of_Z 9)];
        [CFloat (F64.of_Z 1001); CStr "Autauga County"; CStr "AL"; CStr "AL";
         NaN; CStr "F"; CFloat (F64.of_Z 26)];
        [CFloat (F64.of_Z 1003); CStr "Baldwin County"; CStr "AL"; CStr "AL";
         CFloat (F64.of_Z 350000); CStr "F"; CFloat (F64.of_Z 26)]].

(** A table whose 4-bedroom file matched no county. *)
Definition counties_without_4br : DataFrame :=
  mkDF ["county_name"; "median_home_value_all"; "median_home_value_4br"]
       [[CStr "Alameda County"; CFloat (F64.of_Z 1200000); NaN];
        [CStr "Baldwin County"; CFloat (F64.of_Z 350000); NaN]].

(** Two counties, one of them without a state name. *)
Definition counties_without_state : DataFrame :=
  mkDF ["county_name"; "state_name"; "median_home_value_all"; "population"]
       [[CStr "Alameda County"; CStr "CA"; CFloat (F64.of_Z 1200000);
         CInt 1600000];
        [CStr "Baldwin County"; NaN; CFloat (F64.of_Z 350000); CInt 250000]].

(** A table with the columns of [sample_output], as the dashboard loads
    it. *)
Definition sample_loaded : DataFrame :=
  mkDF (columns sample_output)
       [[CFloat (F64.of_Z 6001); CStr "Alameda County"; CStr "CA"; CStr "CA";
         CFloat (F64.of_Z 1200000); NaN;
         CFloat (F64.div (F64.of_Z 667) (F64.of_Z 10));
         CFloat (F64.div (F64.of_Z 333) (F64.of_Z 10));
         CFloat (F64.div (F64.of_Z 334) (F64.of_Z 10));
         CStr "A"; CFloat (F64.of_Z 9); CInt 1600000;
         CStr "$1,200,000"; NaN; CStr "Strong Democrat"; CStr "Strong"];
        [CFloat (F64.of_Z 1003); CStr "Baldwin County"; CStr "AL"; CStr "AL";
         CFloat (F64.of_Z 350000); CFloat (F64.of_Z 450000);
         NaN; NaN; NaN;
         CStr "F"; CFloat (F64.of_Z 26); CInt 250000;
         CStr "$350,000"; CStr "$450,000"; CStr "Unknown"; CStr "Minimal"]].

Definition sample_loaded_selection : Selection :=
  mkSelection "All Homes" 0 2000000 lean_categories gun_law_categories
    [] [] false false false 0 2000000 [].

(** A float64 that is zero, or finite with a mantissa of at most 53 bits
    and a magnitude below [2^M]. *)
Definition small (M : Z) (x : F64.t) : Prop :=
  match x with
  | S754_zero _ => True
  | S754_finite _ m e =>
      Zpos (digits2_pos m) <= 53 /\ Zpos (digits2_pos m) + e <= M
  | _ => False
  end.

(** The selection [w'] is at least as wide as [w]: the same bedroom type,
    ranges that contain the ranges of [w], selections that contain the
    selections of [w], no box ticked that [w] leaves unticked, and either
    no state selected or the states of [w] among the selected ones.  The
    ends of the ranges are natural numbers below [2^52]. *)
Definition wider (w w' : Selection) : Prop :=
  bedroom_type w' = bedroom_type w /\
  (0 <= price_min w' <= price_min w /\ price_min w < 2 ^ 52) /\
  (0 <= price_max w <= price_max w' /\ price_max w' < 2 ^ 52) /\
  (0 <= pop_min w' <= pop_min w /\ pop_min w < 2 ^ 52) /\
  (0 <= pop_max w <= pop_max w' /\ pop_max w' < 2 ^ 52) /\
  incl (selected_leans w) (selected_leans w') /\
  incl (selected_gun_laws w) (selected_gun_laws w') /\
  incl (selected_marijuana w) (selected_marijuana w') /\
  incl (selected_exotic_ratings w) (selected_exotic_ratings w') /\
  (filter_primates w' = true -> filter_primates w = true) /\
  (filter_big_cats w' = true -> filter_big_cats w = true) /\
  (filter_reptiles w' = true -> filter_reptiles w = true) /\
  (selected_states w' = [] \/
   (selected_states w <> [] /\
    incl (selected_states w) (selected_states w'))).

(** [sample_selection] with the "Strong Republican" lean taken out and the
    price range cut to 300000 - 600000. *)
Definition narrow_selection : Selection :=
  mkSelection "All Homes" 300000 600000
    ["Strong Democrat"; "Lean Democrat"; "Swing"; "Lean Republican";
     "Unknown"]
    gun_law_categories ["Illegal"; "Legal"]
    ["Moderate"; "Permissive"; "Strict"] false false false
    60000 1600000 [].

(** ** Runs with fewer optional files *)

(** The file system [fs] with the files [files] of its data folder
    unreadable. *)
Definition unreadable (fs : FileSystem) (files : list string) : FileSystem :=
  mkFS (data_dir_exists fs)
       (fun path =>
          if existsb (fun f => String.eqb path (data_path fs ++ f)) files
          then None else read fs path).

(** [l'] is [l] with some of its items left out. *)
Inductive dropping {A : Type} : list A -> list A -> Prop :=
| dropping_nil : dropping [] []
| dropping_keep (x : A) (l l' : list A) :
    dropping l l' -> dropping (x :: l) (x :: l')
| dropping_drop (x : A) (l l' : list A) :
    dropping l l' -> dropping (x :: l) l'.

(** The row [r'] of [M'] has, under every label of [M'], the cell the row
    [r] of [M] has under that label. *)
Definition agree (M M' : DataFrame) (r r' : row) : Prop :=
  forall c, has_column M' c = true -> field M' c r' = field M c r.

(** [M'] is [M] seen through fewer columns: its labels are labels of [M],
    each of its rows agrees with a row of [M], and each row of [M] agrees
    with one of its rows. *)
Definition same_views (M M' : DataFrame) : Prop :=
  (forall c, has_column M' c = true -> has_column M c = true) /\
  (forall r', In r' (rows M') -> exists r, In r (rows M) /\ agree M M' r r') /\
  (forall r, In r (rows M) -> exists r', In r' (rows M') /\ agree M M' r r').

(** Each table of a chain of joins has its key, and its other labels are
    new to the table it joins: no label gets a suffix. *)
Fixpoint fresh_labels (cols : list string) (js : list (list string * string))
  : bool :=
  match js with
  | [] => true
  | j :: js' =>
      match col_index (snd j) (fst j) with
      | Some k =>
          let rest := remove_nth k (fst j) in
          forallb (fun c => negb (mem c cols)) rest
          && fresh_labels (cols ++ rest) js'
      | None => false
      end
  end.

(** The columns the derived fields read cell by cell. *)
Definition read_labels : list string :=
  ["median_home_value_all"; "median_home_value_4br"; "median_home_value_5br";
   "lean_score"].

(** Counted from the right, every fourth character of [s] is a comma and
    every other one a digit. *)
Fixpoint commas_every_fourth (s : string) : bool :=
  match s with
  | EmptyString => true
  | String a s' =>
      (if (String.length s mod 4 =? 0)%nat then Ascii.eqb a ","
       else is_digit a)
      && commas_every_fourth s'
  end.

(** A numeral with thousands separators: it starts with a digit, and
    from the right its digits come in groups of three with a comma between
    two groups. *)
Definition separated (s : string) : bool :=
  match s with
  | String a _ => is_digit a && commas_every_fourth s
  | EmptyString => false
  end.

(** * Properties *)

(** ** The model on small inputs *)

Example zfill_codes :
  zfill 2 (str_of_Z 6) = "06" /\ zfill 3 (str_of_Z 1) = "001" /\
  zfill 2 "06" = "06" /\ zfill 2 (str_of_Z 10) = "10" /\
  zfill 3 "-1" = "-01" /\ zfill 2 "100" = "100".
Proof. repeat split. Qed.

Example alameda_key :
  county_key_str (CInt 6) (CInt 1) = Ok "06001" /\
  county_fips_key (CInt 6) (CInt 1) = Ok (F64.of_Z 6001) /\
  county_fips_key (CStr "06") (CStr "001") = Ok (F64.of_Z 6001).
Proof. repeat split. Qed.

(** A code column that pandas read as float64 prints as [6.0]: the key
    string has two decimal points and [astype(float)] raises. *)
Example float_codes_raise :
  county_key_str (CFloat (F64.of_Z 6)) (CFloat (F64.of_Z 1)) = Ok "6.01.0" /\
  county_fips_key (CFloat (F64.of_Z 6)) (CFloat (F64.of_Z 1))
  = Raise ValueError.
Proof. split; reflexivity. Qed.

(** C1 as stated fails: codes held as float64 are numbers too, and they
    are not padded, the text of [6.0] having three characters already.
    With both codes held as float64 the key string has two decimal points
    and [astype(float)] raises, for the row and so for the table; with the
    state held as float64 and the county as int64 the key string is
    [6.0001], not the 5-digit key of state 6 and county 1. *)
Lemma float_codes_are_not_padded :
  county_key_str (CFloat (F64.of_Z 6)) (CFloat (F64.of_Z 1)) = Ok "6.01.0" /\
  county_fips_key (CFloat (F64.of_Z 6)) (CFloat (F64.of_Z 1))
  = Raise ValueError /\
  county_fips (mkDF ["StateCodeFIPS"; "MunicipalCodeFIPS"]
                    [[CFloat (F64.of_Z 6); CFloat (F64.of_Z 1)]])
  = Raise ValueError /\
  county_key_str (CFloat (F64.of_Z 6)) (CInt 1) = Ok "6.0001" /\
  fips5 6 1 = "06001" /\
  String.eqb "6.0001" (fips5 6 1) = false.
Proof. repeat split. Qed.

Example round1_examples :
  F64.round1 (F64.div (F64.of_Z 200) (F64.of_Z 3))
  = F64.div (F64.of_Z 667) (F64.of_Z 10) /\
  F64.round1 (F64.div (F64.of_Z 1) (F64.of_Z 4))
  = F64.div (F64.of_Z 2) (F64.of_Z 10) /\
  F64.round1 (F64.div (F64.of_Z (-7)) (F64.of_Z 20))
  = F64.div (F64.of_Z (-4)) (F64.of_Z 10) /\
  F64.round1 F64.nan = F64.nan.
Proof. repeat split; vm_compute; reflexivity. Qed.

Example format_examples :
  format_home_value (CFloat (F64.of_Z 1200000)) = Ok (CStr "$1,200,000") /\
  format_home_value (CFloat (F64.div (F64.of_Z 700001) (F64.of_Z 2)))
  = Ok (CStr "$350,000") /\
  format_home_value (CFloat (F64.div (F64.of_Z 700003) (F64.of_Z 2)))
  = Ok (CStr "$350,002") /\
  format_home_value (CInt 999) = Ok (CStr "$999") /\
  format_home_value NaN = Ok (CStr "N/A") /\
  format_home_value (CStr "n/a") = Raise ValueError.
Proof. repeat split; vm_compute; reflexivity. Qed.

Example merge_examples :
  merge_left sample_anchor sample_population "county_fips"
  = Ok (mkDF ["county_fips"; "county_name"; "state_name"; "state_code";
              "median_home_value_all"; "population"]
             [[CFloat (F64.of_Z 6001); CStr "Alameda County"; CStr "CA";
               CStr "CA"; CFloat (F64.of_Z 1200000); CInt 1600000];
              [CFloat (F64.of_Z 1001); CStr "Autauga County"; CStr "AL";
               CStr "AL"; NaN; NaN];
              [CFloat (F64.of_Z 1003); CStr "Baldwin County"; CStr "AL";
               CStr "AL"; CFloat (F64.of_Z 350000); NaN]]) /\
  merge_left sample_anchor sample_population "population"
  = Raise (KeyError "population") /\
  merge_left sample_anchor sample_gun_laws "state_code"
  = Ok (mkDF ["county_fips"; "county_name"; "state_name"; "state_code";
              "median_home_value_all"; "gun_law_grade"; "gun_death_rate"]
             [[CFloat (F64.of_Z 6001); CStr "Alameda County"; CStr "CA";
               CStr "CA"; CFloat (F64.of_Z 1200000); CStr "A";
               CFloat (F64.of_Z 9)];
              [CFloat (F64.of_Z 1001); CStr "Autauga County"; CStr "AL";
               CStr "AL"; NaN; CStr "F"; CFloat (F64.of_Z 26)];
              [CFloat (F64.of_Z 1003); CStr "Baldwin County"; CStr "AL";
               CStr "AL"; CFloat (F64.of_Z 350000); CStr "F";
               CFloat (F64.of_Z 26)]]).
Proof. repeat split; vm_compute; reflexivity. Qed.

Example pivot_example :
  (e <- where_eq elections_2024 "year" 2024 ;;
   pivot_table_sum e ["state_po"; "county_name"; "county_fips"]
     "party" "candidatevotes") = Ok baldwin_pivot.
Proof. vm_compute. reflexivity. Qed.

(** ** The order of float64 values *)

Module F64Order.

Import F64.

Lemma compare_rank (x y : F64.t) :
  F64.is_nan x = false -> F64.is_nan y = false ->
  SFcompare x y = Some (lex3 (rank x) (rank y)).
Proof.
  destruct x as [sx | sx | | sx mx ex], y as [sy | sy | | sy my ey];
    try discriminate; intros _ _;
    try (destruct sx; reflexivity); try (destruct sy; reflexivity);
    try (destruct sx, sy; reflexivity).
  destruct sx, sy; cbn -[Z.compare Z.opp]; try reflexivity.
  rewrite Z.compare_opp, (Z.compare_antisym ex ey).
  destruct (ex ?= ey); cbn; reflexivity.
Qed.

Ltac split_compares :=
  repeat match goal with
         | |- context [?a ?= ?b] => destruct (Z.compare_spec a b); subst
         | H : context [?a ?= ?b] |- _ =>
             destruct (Z.compare_spec a b); subst
         end.

Lemma lex3_antisym a b : lex3 b a = CompOpp (lex3 a b).
Proof.
  destruct a as [[a1 a2] a3], b as [[b1 b2] b3]; unfold lex3.
  rewrite (Z.compare_antisym a1 b1), (Z.compare_antisym a2 b2),
    (Z.compare_antisym a3 b3).
  destruct (a1 ?= b1), (a2 ?= b2), (a3 ?= b3); reflexivity.
Qed.

Lemma lex3_lt_le_trans a b c :
  lex3 a b = Lt -> lex3 b c <> Gt -> lex3 a c = Lt.
Proof.
  destruct a as [[a1 a2] a3], b as [[b1 b2] b3], c as [[c1 c2] c3].
  unfold lex3. intros H1 H2.
  split_compares; try reflexivity; try discriminate; try lia;
    try (exfalso; apply H2; reflexivity).
Qed.

(** A strict comparison that holds excludes NaN. *)
Lemma ltb_not_nan (c x : F64.t) : F64.ltb c x = true -> F64.is_nan x = false.
Proof.
  unfold F64.ltb, SFltb.
  destruct c as [| | |? ? ?], x as [| | |? ? ?]; cbn; congruence.
Qed.

Lemma leb_not_nan (c x : F64.t) : F64.leb x c = true -> F64.is_nan x = false.
Proof.
  unfold F64.leb, SFleb.
  destruct c as [| | |? ? ?], x as [| | |? ? ?]; cbn; congruence.
Qed.

(** [not (c < x)] is [x <= c] away from NaN. *)
Lemma not_ltb_leb (c x : F64.t) :
  F64.is_nan c = false -> F64.is_nan x = false ->
  F64.ltb c x = negb (F64.leb x c).
Proof.
  intros Hc Hx. unfold F64.ltb, F64.leb, SFltb, SFleb.
  rewrite (compare_rank c x Hc Hx), (compare_rank x c Hx Hc).
  rewrite (lex3_antisym (rank c) (rank x)).
  destruct (lex3 (rank c) (rank x)); reflexivity.
Qed.

(** [x <= a] and [a < b] exclude [b < x]. *)
Lemma leb_ltb_trans (a b x : F64.t) :
  F64.leb x a = true -> F64.ltb a b = true -> F64.ltb b x = false.
Proof.
  intros H1 H2.
  pose proof (leb_not_nan _ _ H1) as Hx.
  pose proof (ltb_not_nan _ _ H2) as Hb.
  assert (Ha : F64.is_nan a = false).
  { destruct a; try reflexivity. destruct x; discriminate. }
  rewrite (not_ltb_leb b x Hb Hx).
  unfold F64.leb, F64.ltb, SFleb, SFltb in *.
  rewrite (compare_rank x a Hx Ha) in H1.
  rewrite (compare_rank a b Ha Hb) in H2.
  rewrite (compare_rank x b Hx Hb).
  assert (Hxa : lex3 (rank a) (rank x) <> Lt).
  { rewrite lex3_antisym. destruct (lex3 (rank x) (rank a)); cbn; congruence. }
  assert (Hab : lex3 (rank a) (rank b) = Lt).
  { destruct (lex3 (rank a) (rank b)); congruence. }
  assert (Hxb : lex3 (rank x) (rank b) = Lt).
  { destruct (lex3 (rank x) (rank a)) eqn:E; try discriminate.
    - destruct (lex3 (rank x) (rank b)) eqn:E'; try reflexivity.
      + exfalso. assert (lex3 (rank a) (rank x) = Lt); [|contradiction].
        apply lex3_lt_le_trans with (b := rank b); [assumption|].
        rewrite lex3_antisym, E'. discriminate.
      + exfalso. assert (lex3 (rank a) (rank x) = Lt); [|contradiction].
        apply lex3_lt_le_trans with (b := rank b); [assumption|].
        rewrite lex3_antisym, E'. discriminate.
    - apply lex3_lt_le_trans with (b := rank a); [assumption|].
      rewrite Hab. discriminate. }
  rewrite Hxb. reflexivity.
Qed.

End F64Order.

(** ** Categories *)

Section LeanCategories.

Variable s : F64.t.

Let gt (n : Z) : Prop := F64.ltb (F64.of_Z n) s = true.
Let le (n : Z) : Prop := F64.leb s (F64.of_Z n) = true.

Local Lemma threshold (n : Z) :
  F64.is_nan (F64.of_Z n) = false -> F64.is_nan s = false ->
  F64.ltb (F64.of_Z n) s = negb (F64.leb s (F64.of_Z n)).
Proof. apply F64Order.not_ltb_leb. Qed.

Local Lemma below (a b : Z) :
  F64.ltb (F64.of_Z a) (F64.of_Z b) = true ->
  F64.leb s (F64.of_Z a) = true -> F64.leb s (F64.of_Z b) = true.
Proof.
  intros Hab Hs.
  pose proof (F64Order.leb_ltb_trans _ _ _ Hs Hab) as H.
  rewrite F64Order.not_ltb_leb in H.
  - destruct (F64.leb s (F64.of_Z b)); [reflexivity | discriminate].
  - exact (F64Order.ltb_not_nan _ _ Hab).
  - exact (F64Order.leb_not_nan _ _ Hs).
Qed.

(** C4.  A float64 lean score [s] is "Strong Democrat" exactly when
    [s > 20], "Lean Democrat" when [5 < s <= 20], "Swing" when
    [-5 < s <= 5], "Lean Republican" when [-20 < s <= -5], "Strong
    Republican" when [s <= -20], and "Unknown" exactly when it is missing;
    at the thresholds, 20 is "Lean Democrat", 5 is "Swing", -5 is "Lean
    Republican" and -20 is "Strong Republican". *)
Theorem categorize_lean_thresholds :
  (categorize_lean (CFloat s) = Ok (CStr "Strong Democrat") <-> gt 20) /\
  (categorize_lean (CFloat s) = Ok (CStr "Lean Democrat")
     <-> gt 5 /\ le 20) /\
  (categorize_lean (CFloat s) = Ok (CStr "Swing") <-> gt (-5) /\ le 5) /\
  (categorize_lean (CFloat s) = Ok (CStr "Lean Republican")
     <-> gt (-20) /\ le (-5)) /\
  (categorize_lean (CFloat s) = Ok (CStr "Strong Republican")
     <-> le (-20)) /\
  (categorize_lean (CFloat s) = Ok (CStr "Unknown")
     <-> F64.is_nan s = true) /\
  categorize_lean NaN = Ok (CStr "Unknown") /\
  categorize_lean (CFloat (F64.of_Z 20)) = Ok (CStr "Lean Democrat") /\
  categorize_lean (CFloat (F64.of_Z 5)) = Ok (CStr "Swing") /\
  categorize_lean (CFloat (F64.of_Z (-5))) = Ok (CStr "Lean Republican") /\
  categorize_lean (CFloat (F64.of_Z (-20))) = Ok (CStr "Strong Republican").
Proof.
  assert (B1 := below 5 20 eq_refl).
  assert (B2 := below (-5) 5 eq_refl).
  assert (B3 := below (-20) (-5) eq_refl).
  unfold gt, le, categorize_lean, gt_int, isna; cbn [bind].
  destruct (F64.is_nan s) eqn:Hn.
  - destruct s; try discriminate.
    repeat split; intros; try reflexivity; try discriminate;
      repeat match goal with H : _ /\ _ |- _ => destruct H end;
      discriminate.
  - rewrite (threshold 20 eq_refl Hn), (threshold 5 eq_refl Hn),
      (threshold (-5) eq_refl Hn), (threshold (-20) eq_refl Hn).
    destruct (F64.leb s (F64.of_Z 20)) eqn:L20;
      destruct (F64.leb s (F64.of_Z 5)) eqn:L5;
      destruct (F64.leb s (F64.of_Z (-5))) eqn:Lm5;
      destruct (F64.leb s (F64.of_Z (-20))) eqn:Lm20;
      cbn [negb];
      try (specialize (B1 eq_refl); discriminate);
      try (specialize (B2 eq_refl); discriminate);
      try (specialize (B3 eq_refl); discriminate);
      repeat split; intros; try reflexivity; try discriminate;
      repeat match goal with H : _ /\ _ |- _ => destruct H end;
      discriminate.
Qed.

End LeanCategories.

(** C3 as stated fails: a missing grade is not "Minimal". *)
Lemma missing_grade_is_not_minimal : categorize_gun_law NaN <> CStr "Minimal".
Proof. discriminate. Qed.

(** C3, amended.  Grades A+, A, A- are "Strong"; B+, B, B- "Moderate";
    C+, C, C- "Weak"; D+, D, D- "Very Weak"; a missing grade is "Unknown";
    every other grade that is present is "Minimal". *)
Theorem categorize_gun_law_grades (g : cell) :
  (cell_in g ["A+"; "A"; "A-"] = true -> categorize_gun_law g = CStr "Strong") /\
  (cell_in g ["B+"; "B"; "B-"] = true -> categorize_gun_law g = CStr "Moderate") /\
  (cell_in g ["C+"; "C"; "C-"] = true -> categorize_gun_law g = CStr "Weak") /\
  (cell_in g ["D+"; "D"; "D-"] = true -> categorize_gun_law g = CStr "Very Weak") /\
  (isna g = true -> categorize_gun_law g = CStr "Unknown") /\
  (isna g = false ->
   cell_in g ["A+"; "A"; "A-"; "B+"; "B"; "B-";
              "C+"; "C"; "C-"; "D+"; "D"; "D-"] = false ->
   categorize_gun_law g = CStr "Minimal").
Proof.
  unfold categorize_gun_law.
  destruct g as [z | f | t]; cbn [isna cell_in].
  - repeat split; intros; try discriminate; reflexivity.
  - destruct (F64.is_nan f);
      repeat split; intros; try discriminate; reflexivity.
  - unfold mem; cbn [existsb].
    repeat split; intros H; try discriminate;
      repeat match goal with
             | H : (_ || _)%bool = true |- _ =>
                 apply orb_true_iff in H; destruct H as [H | H]
             | H : String.eqb _ _ = true |- _ =>
                 apply String.eqb_eq in H; subst
             | H : false = true |- _ => discriminate
             end; try reflexivity.
    intros H'. repeat (apply orb_false_iff in H'; destruct H' as [?E H']).
    repeat match goal with E : String.eqb _ _ = false |- _ =>
             rewrite E; clear E end.
    reflexivity.
Qed.

Lemma categorize_gun_law_grades_witness :
  categorize_gun_law (CStr "A-") = CStr "Strong" /\
  categorize_gun_law (CStr "B") = CStr "Moderate" /\
  categorize_gun_law (CStr "C+") = CStr "Weak" /\
  categorize_gun_law (CStr "D-") = CStr "Very Weak" /\
  categorize_gun_law NaN = CStr "Unknown" /\
  categorize_gun_law (CStr "F") = CStr "Minimal".
Proof.
  split; [|split; [|split; [|split; [|split]]]].
  - apply (proj1 (categorize_gun_law_grades (CStr "A-"))). reflexivity.
  - apply (proj1 (proj2 (categorize_gun_law_grades (CStr "B")))). reflexivity.
  - apply (proj1 (proj2 (proj2 (categorize_gun_law_grades (CStr "C+"))))).
    reflexivity.
  - apply (proj1 (proj2 (proj2 (proj2
             (categorize_gun_law_grades (CStr "D-")))))). reflexivity.
  - apply (proj1 (proj2 (proj2 (proj2 (proj2
             (categorize_gun_law_grades NaN)))))). reflexivity.
  - apply (proj2 (proj2 (proj2 (proj2 (proj2
             (categorize_gun_law_grades (CStr "F"))))))); reflexivity.
Defined.

(** ** County keys *)

Lemma all_from_spec (P : Z -> bool) (n : nat) :
  forall a, all_from P a n = true ->
  forall z, a <= z < a + Z.of_nat n -> P z = true.
Proof.
  induction n as [|k IH]; cbn [all_from]; intros a H z Hz; [lia|].
  apply andb_true_iff in H. destruct H as [Ha H].
  destruct (Z.eq_dec z a) as [->|Hne]; [exact Ha|].
  apply (IH (a + 1)); [exact H | lia].
Qed.

Lemma digits2_iter (k p : positive) :
  digits2_pos (Pos.iter xO p k) = (digits2_pos p + k)%positive.
Proof.
  revert p. induction k using Pos.peano_ind; intros p.
  - cbn. lia.
  - rewrite Pos.iter_succ. cbn [digits2_pos]. rewrite IHk. lia.
Qed.

Lemma of_Z_pos (p : positive) :
  Zpos (digits2_pos p) < 53 ->
  F64.of_Z (Zpos p) =
  S754_finite false (Pos.iter xO p (Z.to_pos (53 - Zpos (digits2_pos p))))
    (Zpos (digits2_pos p) - 53).
Proof.
  intros Hd.
  unfold F64.of_Z, binary_normalize, binary_round, shl_align.
  set (d := digits2_pos p) in *.
  assert (Hf : fexp F64.prec F64.emax (Z.pos d + 0) = Zpos d - 53).
  { unfold fexp, emin, F64.prec, F64.emax. lia. }
  rewrite Hf.
  destruct (Z.pos d - 53 - 0) as [|q|q] eqn:Hq; try lia.
  assert (Hq' : q = Z.to_pos (53 - Z.pos d)) by lia.
  rewrite <- Hq'.
  unfold binary_round_aux, shr_fexp.
  cbn [Zdigits2 shr_record_of_loc].
  rewrite digits2_iter. fold d.
  assert (Hf2 : fexp F64.prec F64.emax (Z.pos (d + q) + (Z.pos d - 53)) - (Z.pos d - 53) = 0).
  { unfold fexp, emin, F64.prec, F64.emax. lia. }
  rewrite Hf2. cbn [shr shr_m loc_of_shr_record round_nearest_even Zdigits2].
  rewrite digits2_iter. fold d. rewrite Hf2.
  cbn [shr shr_m].
  replace (Z.pos d - 53 <=? F64.emax - F64.prec) with true; [reflexivity|].
  symmetry. apply Z.leb_le. unfold F64.emax, F64.prec. lia.
Qed.

Lemma iter_xO_pow (k p : positive) :
  Zpos (Pos.iter xO p k) = Zpos p * 2 ^ Zpos k.
Proof.
  induction k using Pos.peano_ind.
  - cbn. lia.
  - rewrite Pos.iter_succ, Pos2Z.inj_xO, IHk, Pos2Z.inj_succ, Z.pow_succ_r; lia.
Qed.

Lemma digits2_lower (p : positive) : 2 ^ (Zpos (digits2_pos p) - 1) <= Zpos p.
Proof.
  induction p as [p IH | p IH |]; cbn [digits2_pos].
  - rewrite Pos2Z.inj_succ.
    replace (Z.succ (Zpos (digits2_pos p)) - 1)
      with (Z.succ (Zpos (digits2_pos p) - 1)) by lia.
    rewrite Z.pow_succ_r by lia. lia.
  - rewrite Pos2Z.inj_succ.
    replace (Z.succ (Zpos (digits2_pos p)) - 1)
      with (Z.succ (Zpos (digits2_pos p) - 1)) by lia.
    rewrite Z.pow_succ_r by lia. lia.
  - cbn. lia.
Qed.

(** float64 holds every integer below [2^52] exactly. *)
Lemma of_Z_exact (n : Z) :
  0 <= n < 2 ^ 52 -> F64.to_Z (F64.of_Z n) = Some n.
Proof.
  intros Hn. destruct n as [|p|p]; [reflexivity | | lia].
  assert (Hd : Zpos (digits2_pos p) < 53).
  { pose proof (digits2_lower p) as Hl.
    destruct (Z_lt_le_dec (Zpos (digits2_pos p)) 53) as [|Hge]; [assumption|].
    exfalso.
    assert (2 ^ 52 <= 2 ^ (Zpos (digits2_pos p) - 1))
      by (apply Z.pow_le_mono_r; lia).
    lia. }
  rewrite (of_Z_pos p Hd). unfold F64.to_Z.
  destruct (Zpos (digits2_pos p) - 53) as [|q|q] eqn:Hq; try lia.
  assert (Hq' : Z.to_pos (53 - Zpos (digits2_pos p)) = q) by lia.
  rewrite Hq', iter_xO_pow.
  rewrite Z.mod_mul by (apply Z.pow_nonzero; lia).
  cbn [Z.eqb cond_Zopp]. rewrite Z.div_mul by (apply Z.pow_nonzero; lia).
  reflexivity.
Qed.

Lemma of_Z_inj (n m : Z) :
  0 <= n < 2 ^ 52 -> 0 <= m < 2 ^ 52 -> F64.of_Z n = F64.of_Z m -> n = m.
Proof.
  intros Hn Hm H.
  pose proof (of_Z_exact n Hn) as En. rewrite H, (of_Z_exact m Hm) in En.
  congruence.
Qed.

(** *** Digits *)

Lemma digit_cases (d : Z) :
  0 <= d < 10 ->
  d = 0 \/ d = 1 \/ d = 2 \/ d = 3 \/ d = 4 \/
  d = 5 \/ d = 6 \/ d = 7 \/ d = 8 \/ d = 9.
Proof. lia. Qed.

Lemma digit_char_is_digit (d : Z) :
  0 <= d < 10 -> is_digit (digit_char d) = true /\ digit_val (digit_char d) = d.
Proof.
  intros H. destruct (digit_cases d H) as [-> | [-> | [-> | [-> | [-> |
    [-> | [-> | [-> | [-> | ->]]]]]]]]]; split; reflexivity.
Qed.

Lemma digit_char_val (a : ascii) :
  is_digit a = true ->
  0 <= digit_val a < 10 /\ digit_char (digit_val a) = a.
Proof.
  unfold is_digit, digit_val, digit_char. intros H.
  apply andb_true_iff in H. destruct H as [H1 H2].
  apply Nat.leb_le in H1, H2. split; [lia|].
  replace (48 + Z.to_nat (Z.of_nat (nat_of_ascii a) - 48))%nat
    with (nat_of_ascii a) by lia.
  apply ascii_nat_embedding.
Qed.

Lemma decimal_acc_shift (s : string) :
  forall acc,
    decimal_acc acc s = acc * 10 ^ Z.of_nat (String.length s) + decimal_value s.
Proof.
  unfold decimal_value.
  induction s as [|a s IH]; intros acc; cbn [decimal_acc String.length].
  - cbn. lia.
  - rewrite IH, (IH (10 * 0 + digit_val a)).
    rewrite Nat2Z.inj_succ, Z.pow_succ_r by lia. lia.
Qed.

Lemma decimal_value_app (s t : string) :
  decimal_value (s ++ t) =
  decimal_value s * 10 ^ Z.of_nat (String.length t) + decimal_value t.
Proof.
  unfold decimal_value at 1 2. generalize 0 as acc.
  induction s as [|a s IH]; intros acc; cbn [append decimal_acc].
  - apply decimal_acc_shift.
  - apply IH.
Qed.

Lemma decimal_value_bound (s : string) :
  all_digits s = true ->
  0 <= decimal_value s < 10 ^ Z.of_nat (String.length s).
Proof.
  induction s as [|a s IH]; cbn [all_digits String.length]; intros H.
  - cbn. lia.
  - apply andb_true_iff in H. destruct H as [Ha Hs].
    destruct (digit_char_val a Ha) as [Hd _]. specialize (IH Hs).
    unfold decimal_value in *. cbn [decimal_acc].
    rewrite decimal_acc_shift. fold (decimal_value s).
    rewrite Nat2Z.inj_succ, Z.pow_succ_r by lia.
    unfold decimal_value. nia.
Qed.

Lemma padded_length (w : nat) (n : Z) : String.length (padded w n) = w.
Proof. induction w as [|w IH]; cbn [padded String.length]; congruence. Qed.

Lemma padded_all_digits (w : nat) (n : Z) : all_digits (padded w n) = true.
Proof.
  induction w as [|w IH]; cbn [padded all_digits]; [reflexivity|].
  rewrite IH, andb_true_r.
  apply digit_char_is_digit. apply Z.mod_pos_bound. lia.
Qed.

Lemma padded_value (w : nat) (n : Z) :
  decimal_value (padded w n) = n mod 10 ^ Z.of_nat w.
Proof.
  unfold decimal_value.
  assert (H : forall acc, decimal_acc acc (padded w n)
                          = acc * 10 ^ Z.of_nat w + n mod 10 ^ Z.of_nat w).
  { induction w as [|w IH]; intros acc; cbn [padded decimal_acc].
    - cbn. rewrite Z.mod_1_r. lia.
    - rewrite IH.
      destruct (digit_char_is_digit ((n / 10 ^ Z.of_nat w) mod 10)) as [_ ->];
        [apply Z.mod_pos_bound; lia|].
      rewrite Nat2Z.inj_succ, Z.pow_succ_r by lia.
      rewrite (Z.mul_comm 10 (10 ^ Z.of_nat w)).
      rewrite (Z.rem_mul_r n (10 ^ Z.of_nat w) 10)
        by (try apply Z.pow_nonzero; lia).
      lia. }
  rewrite H. lia.
Qed.

(** A string of [w] digits is the padded numeral of its value. *)
Lemma padded_digits (t : string) :
  all_digits t = true -> padded (String.length t) (decimal_value t) = t.
Proof.
  assert (Hmod : forall w q r, padded w (q * 10 ^ Z.of_nat w + r) = padded w r).
  { induction w as [|w IH]; intros q r; cbn [padded]; [reflexivity|].
    rewrite Nat2Z.inj_succ, Z.pow_succ_r by lia.
    replace (q * (10 * 10 ^ Z.of_nat w) + r)
      with ((q * 10) * 10 ^ Z.of_nat w + r) by lia.
    rewrite IH. f_equal. f_equal.
    rewrite (Z.add_comm _ r), Z.div_add by (apply Z.pow_nonzero; lia).
    rewrite Z_mod_plus_full. reflexivity. }
  induction t as [|a t IH]; cbn [all_digits String.length]; intros H;
    [reflexivity|].
  apply andb_true_iff in H. destruct H as [Ha Ht].
  destruct (digit_char_val a Ha) as [Hd Hc].
  pose proof (decimal_value_bound t Ht) as Hb.
  assert (Hv : decimal_value (String a t)
               = digit_val a * 10 ^ Z.of_nat (String.length t) + decimal_value t).
  { unfold decimal_value at 1. cbn [decimal_acc]. rewrite decimal_acc_shift. lia. }
  rewrite Hv. cbn [padded]. rewrite Hmod, (IH Ht). f_equal.
  rewrite (Z.add_comm _ (decimal_value t)), Z.div_add
    by (apply Z.pow_nonzero; lia).
  rewrite Z.div_small by lia. cbn [Z.add].
  rewrite Z.mod_small by lia. exact Hc.
Qed.

Lemma padded_zeros (k w : nat) (n : Z) :
  0 <= n < 10 ^ Z.of_nat w -> padded (k + w) n = (zeros k ++ padded w n)%string.
Proof.
  intros Hn. induction k as [|k IH]; cbn [Nat.add padded zeros append];
    [reflexivity|].
  rewrite IH. f_equal.
  rewrite Z.div_small; [reflexivity|].
  split; [lia|]. apply Z.lt_le_trans with (1 := proj2 Hn).
  apply Z.pow_le_mono_r; lia.
Qed.

(** *** [zfill] on FIPS codes *)

Lemma zfill_digits (w : nat) (s : string) :
  all_digits s = true -> (String.length s <= w)%nat ->
  zfill w s = (zeros (w - String.length s) ++ s)%string.
Proof.
  intros Hd Hl. unfold zfill.
  destruct (w <=? String.length s)%nat eqn:E.
  - apply Nat.leb_le in E.
    replace (w - String.length s)%nat with O by lia. reflexivity.
  - destruct s as [|a s']; [reflexivity|].
    cbn [all_digits] in Hd. apply andb_true_iff in Hd. destruct Hd as [Ha _].
    destruct a as [[] [] [] [] [] [] [] []]; try discriminate Ha; reflexivity.
Qed.

Lemma zfill_str_code (w : nat) (s : string) :
  fips_code w (CStr s) = true -> zfill w s = padded w (decimal_value s).
Proof.
  cbn [fips_code]. intros H.
  apply andb_true_iff in H. destruct H as [H Hw].
  apply andb_true_iff in H. destruct H as [Hd _].
  apply Nat.leb_le in Hw.
  rewrite (zfill_digits w s Hd Hw).
  rewrite <- (padded_digits s Hd) at 2.
  rewrite <- padded_zeros by (apply decimal_value_bound; exact Hd).
  f_equal. lia.
Qed.

Lemma zfill_int_code (w : nat) (z : Z) :
  (w = 2 \/ w = 3)%nat ->
  fips_code w (CInt z) = true -> zfill w (str_of_Z z) = padded w z.
Proof.
  cbn [fips_code]. intros Hw H.
  apply andb_true_iff in H. destruct H as [H0 H1].
  apply Z.leb_le in H0. apply Z.ltb_lt in H1.
  apply String.eqb_eq.
  destruct Hw as [-> | ->].
  - apply (all_from_spec
             (fun z => String.eqb (zfill 2 (str_of_Z z)) (padded 2 z))
             100 0); [vm_compute; reflexivity | cbn in *; lia].
  - apply (all_from_spec
             (fun z => String.eqb (zfill 3 (str_of_Z z)) (padded 3 z))
             1000 0); [vm_compute; reflexivity | cbn in *; lia].
Qed.

Lemma code_value_bound (w : nat) (c : cell) :
  fips_code w c = true -> 0 <= code_value c < 10 ^ Z.of_nat w.
Proof.
  destruct c as [z | f | s]; cbn [fips_code code_value]; intros H;
    [| discriminate |].
  - apply andb_true_iff in H. destruct H as [H0 H1].
    apply Z.leb_le in H0. apply Z.ltb_lt in H1. lia.
  - apply andb_true_iff in H. destruct H as [H Hw].
    apply andb_true_iff in H. destruct H as [Hd _].
    apply Nat.leb_le in Hw.
    pose proof (decimal_value_bound s Hd) as Hb.
    split; [lia|]. apply Z.lt_le_trans with (1 := proj2 Hb).
    apply Z.pow_le_mono_r; lia.
Qed.

(** What [astype(str).str.zfill(w)] makes of a FIPS code. *)
Lemma zfill_code (w : nat) (c : cell) :
  (w = 2 \/ w = 3)%nat -> fips_code w c = true ->
  exists s, astype_str c = Ok s /\ zfill w s = padded w (code_value c).
Proof.
  intros Hw H. destruct c as [z | f | s]; [| discriminate |].
  - exists (str_of_Z z). split; [reflexivity|]. apply zfill_int_code; assumption.
  - exists s. split; [reflexivity|]. apply zfill_str_code; assumption.
Qed.

Lemma county_key_str_codes (st mu : cell) :
  fips_code 2 st = true -> fips_code 3 mu = true ->
  county_key_str st mu
  = Ok (padded 2 (code_value st) ++ padded 3 (code_value mu))%string.
Proof.
  intros Hs Hm. unfold county_key_str.
  destruct (zfill_code 2 st (or_introl eq_refl) Hs) as [s [-> Es]].
  destruct (zfill_code 3 mu (or_intror eq_refl) Hm) as [m [-> Em]].
  cbn [bind]. rewrite Es, Em. reflexivity.
Qed.

Lemma county_fips_key_codes (st mu : cell) :
  fips_code 2 st = true -> fips_code 3 mu = true ->
  county_fips_key st mu
  = Ok (F64.of_Z (1000 * code_value st + code_value mu)).
Proof.
  intros Hs Hm. unfold county_fips_key.
  rewrite (county_key_str_codes st mu Hs Hm). cbn [bind].
  pose proof (code_value_bound 2 st Hs) as Bs.
  pose proof (code_value_bound 3 mu Hm) as Bm.
  unfold float_of_str.
  assert (Hd : all_digits (padded 2 (code_value st) ++ padded 3 (code_value mu))
               = true).
  { cbn [padded append all_digits]. rewrite !andb_true_r.
    repeat match goal with
           | |- (_ && _)%bool = true => apply andb_true_iff; split
           | |- is_digit (digit_char _) = true =>
               apply digit_char_is_digit; apply Z.mod_pos_bound; lia
           end. }
  rewrite Hd.
  rewrite decimal_value_app, !padded_value, padded_length.
  rewrite !Z.mod_small by (cbn in *; lia).
  change (10 ^ Z.of_nat 3) with 1000.
  cbn [padded append]. do 2 f_equal. lia.
Qed.

(** *** The key column *)

Lemma bind_ok {A B : Type} (r : result A) (k : A -> result B) (b : B) :
  bind r k = Ok b -> exists a, r = Ok a /\ k a = Ok b.
Proof. destruct r as [a | e |]; cbn; intros H; [eauto | discriminate..]. Qed.

Lemma mapM2_map {A B C X : Type} (f : A -> B -> result C)
  (g : X -> A) (h : X -> B) (k : X -> C) (l : list X) :
  (forall x, In x l -> f (g x) (h x) = Ok (k x)) ->
  mapM2 f (map g l) (map h l) = Ok (map k l).
Proof.
  induction l as [|x l IH]; intros H; cbn [map mapM2]; [reflexivity|].
  rewrite (H x (or_introl eq_refl)). cbn [bind].
  rewrite IH by (intros y Hy; apply H; right; exact Hy). reflexivity.
Qed.

Lemma getitem_located (df : DataFrame) (label : string) (i : nat) :
  col_index label (columns df) = Some i ->
  getitem df label = Ok (map (cell_at i) (rows df)).
Proof. intros H. unfold getitem, locate. rewrite H. reflexivity. Qed.

Section CountyKey.

Variable df : DataFrame.
Variables i j : nat.
Hypothesis state_column : col_index "StateCodeFIPS" (columns df) = Some i.
Hypothesis county_column : col_index "MunicipalCodeFIPS" (columns df) = Some j.

Let state (r : row) : Z := code_value (cell_at i r).
Let county (r : row) : Z := code_value (cell_at j r).

Hypothesis codes :
  forall r, In r (rows df) ->
    fips_code 2 (cell_at i r) = true /\ fips_code 3 (cell_at j r) = true.

(** C1.  In a housing table whose state and county codes are FIPS codes,
    given as integers or as digit strings, every row's key string is the
    5-digit numeral [fips5] of its state code on 2 digits and its county
    code on 3, the key column holds the number that numeral denotes, and two
    rows with the same key have the same state code and the same county
    code. *)
Theorem county_fips_is_fips5 :
  (forall r, In r (rows df) ->
     county_key_str (cell_at i r) (cell_at j r)
     = Ok (fips5 (state r) (county r))
     /\ String.length (fips5 (state r) (county r)) = 5%nat) /\
  county_fips df
  = Ok (map (fun r => CFloat (F64.of_Z (decimal_value
                                          (fips5 (state r) (county r)))))
            (rows df)) /\
  (forall r r', In r (rows df) -> In r' (rows df) ->
     county_fips_key (cell_at i r) (cell_at j r)
     = county_fips_key (cell_at i r') (cell_at j r') ->
     state r = state r' /\ county r = county r').
Proof.
  assert (Hval : forall r, In r (rows df) ->
            decimal_value (fips5 (state r) (county r))
            = 1000 * state r + county r).
  { intros r Hr. destruct (codes r Hr) as [Hs Hm].
    pose proof (code_value_bound 2 _ Hs) as Bs.
    pose proof (code_value_bound 3 _ Hm) as Bm.
    change (10 ^ Z.of_nat 2) with 100 in Bs.
    change (10 ^ Z.of_nat 3) with 1000 in Bm.
    subst state county. cbv beta.
    unfold fips5. rewrite decimal_value_app, !padded_value, padded_length.
    change (10 ^ Z.of_nat 2) with 100. change (10 ^ Z.of_nat 3) with 1000.
    rewrite !Z.mod_small by lia. lia. }
  split; [|split].
  - intros r Hr. destruct (codes r Hr) as [Hs Hm]. split.
    + apply county_key_str_codes; assumption.
    + reflexivity.
  - unfold county_fips.
    rewrite (getitem_located df _ i state_column),
      (getitem_located df _ j county_column). cbn [bind].
    rewrite (mapM2_map county_fips_key (cell_at i) (cell_at j)
               (fun r => F64.of_Z (decimal_value
                                     (fips5 (state r) (county r))))).
    + cbn [bind]. rewrite map_map. reflexivity.
    + intros r Hr. destruct (codes r Hr) as [Hs Hm].
      rewrite (county_fips_key_codes _ _ Hs Hm), (Hval r Hr). reflexivity.
  - intros r r' Hr Hr' E.
    destruct (codes r Hr) as [Hs Hm]. destruct (codes r' Hr') as [Hs' Hm'].
    rewrite (county_fips_key_codes _ _ Hs Hm),
      (county_fips_key_codes _ _ Hs' Hm') in E.
    pose proof (code_value_bound 2 _ Hs) as Bs.
    pose proof (code_value_bound 3 _ Hm) as Bm.
    pose proof (code_value_bound 2 _ Hs') as Bs'.
    pose proof (code_value_bound 3 _ Hm') as Bm'.
    change (10 ^ Z.of_nat 2) with 100 in Bs, Bs'.
    change (10 ^ Z.of_nat 3) with 1000 in Bm, Bm'.
    subst state county. cbv beta.
    injection E as E.
    assert (Hk : forall a b, 0 <= a < 100 -> 0 <= b < 1000 ->
                             0 <= 1000 * a + b < 2 ^ 52).
    { intros a b Ha Hb. split; [lia|].
      apply Z.lt_trans with 100000; [lia | reflexivity]. }
    apply (of_Z_inj _ _ (Hk _ _ Bs Bm) (Hk _ _ Bs' Bm')) in E. lia.
Qed.

End CountyKey.

(** State 1 and state 10 do not collide: integer codes [(1, 10)] and
    [(10, 1)], and the same codes as strings. *)
Lemma county_fips_is_fips5_witness :
  county_fips (mkDF ["StateCodeFIPS"; "MunicipalCodeFIPS"]
                    [[CInt 1; CInt 10]; [CStr "10"; CStr "001"]])
  = Ok [CFloat (F64.of_Z (decimal_value "01010"));
        CFloat (F64.of_Z (decimal_value "10001"))].
Proof.
  apply (county_fips_is_fips5
           (mkDF ["StateCodeFIPS"; "MunicipalCodeFIPS"]
                 [[CInt 1; CInt 10]; [CStr "10"; CStr "001"]]) 0 1
           eq_refl eq_refl).
  intros r [<- | [<- | []]]; split; reflexivity.
Defined.

(** ** Tables: columns and rows *)

Lemma well_formed_rows (df : DataFrame) :
  well_formed df = true ->
  forall r, In r (rows df) -> List.length r = List.length (columns df).
Proof.
  unfold well_formed. intros H r Hr.
  rewrite forallb_forall in H. apply Nat.eqb_eq, H, Hr.
Qed.

Lemma rows_well_formed (cols : list string) (rs : list row) :
  (forall r, In r rs -> List.length r = List.length cols) ->
  well_formed (mkDF cols rs) = true.
Proof.
  intros H. unfold well_formed. apply forallb_forall.
  intros r Hr. apply Nat.eqb_eq, H, Hr.
Qed.

Lemma col_index_bound (label : string) (cols : list string) (i : nat) :
  col_index label cols = Some i ->
  (i < List.length cols)%nat /\ nth_error cols i = Some label.
Proof.
  revert i. induction cols as [|c cols IH]; cbn [col_index]; intros i H;
    [discriminate|].
  destruct (String.eqb label c) eqn:E.
  - apply String.eqb_eq in E. injection H as <-. subst. cbn. split; [lia|reflexivity].
  - destruct (col_index label cols) as [k|]; [|discriminate].
    injection H as <-. destruct (IH k eq_refl) as [H1 H2]. cbn. split; [lia|exact H2].
Qed.

Lemma col_index_inj (a b : string) (cols : list string) (i : nat) :
  col_index a cols = Some i -> col_index b cols = Some i -> a = b.
Proof.
  intros Ha Hb.
  apply col_index_bound in Ha, Hb. destruct Ha as [_ Ha], Hb as [_ Hb].
  congruence.
Qed.

Lemma col_index_none (label : string) (cols : list string) :
  col_index label cols = None <-> ~ In label cols.
Proof.
  induction cols as [|c cols IH]; cbn [col_index In]; [tauto|].
  destruct (String.eqb label c) eqn:E.
  - apply String.eqb_eq in E.
    split; [discriminate | intros H; exfalso; apply H; left; congruence].
  - apply String.eqb_neq in E.
    destruct (col_index label cols) as [k|]; cbn [option_map].
    + split; [discriminate|]. intros H. exfalso.
      assert (Hn : ~ In label cols) by tauto.
      apply IH in Hn. discriminate.
    + split; [|reflexivity]. intros _ [H|H]; [congruence|].
      apply (proj1 IH eq_refl H).
Qed.

Lemma col_index_app (label : string) (cols more : list string) :
  col_index label (cols ++ more) =
  match col_index label cols with
  | Some i => Some i
  | None => option_map (Nat.add (List.length cols)) (col_index label more)
  end.
Proof.
  induction cols as [|c cols IH]; cbn [app col_index List.length].
  - destruct (col_index label more); reflexivity.
  - destruct (String.eqb label c); [reflexivity|].
    rewrite IH. destruct (col_index label cols); [reflexivity|].
    destruct (col_index label more); reflexivity.
Qed.

Lemma zip_rows_length (f : row -> cell -> row) (rs : list row) (vs : list cell) :
  List.length vs = List.length rs ->
  List.length (zip_rows f rs vs) = List.length rs.
Proof.
  revert vs. induction rs as [|r rs IH]; intros [|v vs] H; cbn in *;
    try reflexivity; try discriminate.
  f_equal. apply IH. lia.
Qed.

Lemma zip_rows_map (f : row -> cell -> row) (g : row -> cell)
  (rs : list row) (vs : list cell) :
  List.length vs = List.length rs ->
  (forall r v, In r rs -> g (f r v) = v) ->
  map g (zip_rows f rs vs) = vs.
Proof.
  revert vs. induction rs as [|r rs IH]; intros [|v vs] H Hg; cbn in *;
    try reflexivity; try discriminate.
  f_equal; [apply Hg; auto | apply IH; [lia | intros; apply Hg; auto]].
Qed.

Lemma zip_rows_keep (f : row -> cell -> row) (g : row -> cell)
  (rs : list row) (vs : list cell) :
  List.length vs = List.length rs ->
  (forall r v, In r rs -> g (f r v) = g r) ->
  map g (zip_rows f rs vs) = map g rs.
Proof.
  revert vs. induction rs as [|r rs IH]; intros [|v vs] H Hg; cbn in *;
    try reflexivity; try discriminate.
  f_equal; [apply Hg; auto | apply IH; [lia | intros; apply Hg; auto]].
Qed.

Lemma zip_rows_in (f : row -> cell -> row) (rs : list row) (vs : list cell)
  (r' : row) :
  In r' (zip_rows f rs vs) -> exists r v, In r rs /\ In v vs /\ r' = f r v.
Proof.
  revert vs. induction rs as [|r rs IH]; intros [|v vs] H; cbn in *;
    try contradiction.
  destruct H as [<- | H].
  - exists r, v. auto.
  - destruct (IH vs H) as [r0 [v0 [? [? ?]]]]. exists r0, v0. auto.
Qed.

Lemma set_nth_length (i : nat) (v : cell) (r : row) :
  List.length (set_nth i v r) = List.length r.
Proof.
  revert i. induction r as [|c r IH]; intros [|i]; cbn; try reflexivity.
  f_equal. apply IH.
Qed.

Lemma cell_at_set_nth_same (i : nat) (v : cell) (r : row) :
  (i < List.length r)%nat -> cell_at i (set_nth i v r) = v.
Proof.
  unfold cell_at. revert i. induction r as [|c r IH]; intros [|i] H; cbn in *;
    try lia; [reflexivity|]. apply IH. lia.
Qed.

Lemma cell_at_set_nth_other (i k : nat) (v : cell) (r : row) :
  i <> k -> cell_at k (set_nth i v r) = cell_at k r.
Proof.
  unfold cell_at. revert i k. induction r as [|c r IH]; intros [|i] [|k] H;
    cbn; try reflexivity; try congruence.
  apply IH. congruence.
Qed.

Lemma cell_at_app_l (k : nat) (r more : row) :
  (k < List.length r)%nat -> cell_at k (r ++ more) = cell_at k r.
Proof. intros H. unfold cell_at. apply app_nth1. exact H. Qed.

Lemma cell_at_app_r (r more : row) (k : nat) :
  cell_at (List.length r + k) (r ++ more) = cell_at k more.
Proof.
  unfold cell_at. rewrite app_nth2 by lia. f_equal. lia.
Qed.

Lemma setitem_inv (df df' : DataFrame) (label : string) (v : list cell) :
  setitem df label v = Ok df' ->
  List.length v = List.length (rows df) /\
  df' = match col_index label (columns df) with
        | Some i => mkDF (columns df)
                         (zip_rows (fun r x => set_nth i x r) (rows df) v)
        | None => mkDF (columns df ++ [label])
                       (zip_rows (fun r x => r ++ [x]) (rows df) v)
        end.
Proof.
  unfold setitem.
  destruct (List.length v =? List.length (rows df))%nat eqn:E; cbn [negb];
    [|discriminate].
  apply Nat.eqb_eq in E. intros H. split; [exact E|].
  destruct (col_index label (columns df)); injection H as <-; reflexivity.
Qed.

Lemma setitem_total (df : DataFrame) (label : string) (v : list cell) :
  List.length v = List.length (rows df) ->
  exists df', setitem df label v = Ok df'.
Proof.
  intros H. unfold setitem. rewrite (proj2 (Nat.eqb_eq _ _) H). cbn [negb].
  destruct (col_index label (columns df)); eauto.
Qed.

Section SetItem.

Variables df df' : DataFrame.
Variable label : string.
Variable v : list cell.
Hypothesis wf : well_formed df = true.
Hypothesis set : setitem df label v = Ok df'.

Lemma setitem_len : len df' = len df.
Proof.
  destruct (setitem_inv _ _ _ _ set) as [Hl ->]. unfold len.
  destruct (col_index label (columns df)); cbn [rows];
    apply zip_rows_length; exact Hl.
Qed.

Lemma setitem_columns :
  columns df' = if has_column df label then columns df
                else columns df ++ [label].
Proof.
  destruct (setitem_inv _ _ _ _ set) as [_ ->]. unfold has_column.
  destruct (col_index label (columns df)); reflexivity.
Qed.

Lemma setitem_well_formed : well_formed df' = true.
Proof.
  destruct (setitem_inv _ _ _ _ set) as [Hl ->].
  pose proof (well_formed_rows df wf) as Hr.
  destruct (col_index label (columns df)) as [i|];
    apply rows_well_formed; intros r' Hin;
    apply zip_rows_in in Hin; destruct Hin as [r [x [Hin [_ ->]]]];
    cbn [columns].
  - rewrite set_nth_length. apply Hr, Hin.
  - rewrite !length_app, (Hr r Hin). reflexivity.
Qed.

Lemma getitem_setitem_same : getitem df' label = Ok v.
Proof.
  destruct (setitem_inv _ _ _ _ set) as [Hl ->].
  pose proof (well_formed_rows df wf) as Hr.
  destruct (col_index label (columns df)) as [i|] eqn:E.
  - apply col_index_bound in E as Hi. destruct Hi as [Hi _].
    rewrite (getitem_located _ label i) by exact E. cbn [rows]. f_equal.
    apply zip_rows_map; [exact Hl|].
    intros r x Hin. apply cell_at_set_nth_same. rewrite (Hr r Hin). exact Hi.
  - rewrite (getitem_located _ label (List.length (columns df))).
    + cbn [rows]. f_equal. apply zip_rows_map; [exact Hl|].
      intros r x Hin. rewrite <- (Hr r Hin).
      rewrite <- (Nat.add_0_r (List.length r)) at 1.
      rewrite cell_at_app_r. reflexivity.
    + cbn [columns]. rewrite col_index_app, E. cbn [col_index].
      rewrite String.eqb_refl. cbn. f_equal. lia.
Qed.

Lemma col_index_setitem_other (other : string) :
  other <> label ->
  col_index other (columns df') = col_index other (columns df).
Proof.
  intros Hne. rewrite setitem_columns. unfold has_column.
  destruct (col_index label (columns df)); [reflexivity|].
  rewrite col_index_app. destruct (col_index other (columns df));
    [reflexivity|].
  cbn [col_index]. apply String.eqb_neq in Hne. rewrite Hne. reflexivity.
Qed.

Lemma getitem_setitem_other (other : string) :
  other <> label -> getitem df' other = getitem df other.
Proof.
  intros Hne. unfold getitem, locate.
  rewrite (col_index_setitem_other other Hne).
  destruct (col_index other (columns df)) as [k|] eqn:Ek; [|reflexivity].
  cbn [bind]. f_equal.
  destruct (setitem_inv _ _ _ _ set) as [Hl ->].
  pose proof (well_formed_rows df wf) as Hr.
  apply col_index_bound in Ek as Hk. destruct Hk as [Hk _].
  destruct (col_index label (columns df)) as [i|] eqn:E; cbn [rows].
  - apply zip_rows_keep; [exact Hl|]. intros r x Hin.
    apply cell_at_set_nth_other. intros ->.
    apply Hne. exact (col_index_inj _ _ _ _ Ek E).
  - apply zip_rows_keep; [exact Hl|]. intros r x Hin.
    apply cell_at_app_l. rewrite (Hr r Hin). exact Hk.
Qed.

Lemma has_column_setitem_other (other : string) :
  other <> label -> has_column df' other = has_column df other.
Proof.
  intros Hne. unfold has_column.
  rewrite (col_index_setitem_other other Hne). reflexivity.
Qed.

Lemma has_column_setitem_same : has_column df' label = true.
Proof.
  unfold has_column. pose proof getitem_setitem_same as H.
  unfold getitem, locate in H.
  destruct (col_index label (columns df')); [reflexivity | discriminate].
Qed.

End SetItem.

Lemma getitem_length (df : DataFrame) (label : string) (v : list cell) :
  getitem df label = Ok v -> List.length v = len df.
Proof.
  unfold getitem. intros H. apply bind_ok in H. destruct H as [i [_ H]].
  injection H as <-. apply length_map.
Qed.

(** ** The current month of a housing table *)

Lemma last_item_cons (a : string) (l : list string) :
  last_item (a :: l) = match l with [] => Ok a | _ => last_item l end.
Proof.
  unfold last_item. cbn [rev].
  destruct l as [|b l]; [reflexivity|].
  destruct (rev (b :: l)) as [|x xs] eqn:E; [|reflexivity].
  apply (f_equal (@List.length string)) in E.
  rewrite length_rev in E. discriminate.
Qed.

(** The last element that passes a filter splits the list around it. *)
Lemma last_item_filter (f : string -> bool) (l : list string) (x : string) :
  last_item (filter f l) = Ok x ->
  exists pre post,
    l = pre ++ x :: post /\ f x = true /\ forall c, In c post -> f c = false.
Proof.
  induction l as [|a l IH]; cbn [filter]; [discriminate|].
  destruct (f a) eqn:Fa.
  - rewrite last_item_cons.
    destruct (filter f l) as [|b k] eqn:E.
    + intros H. injection H as <-. exists [], l. repeat split; [exact Fa|].
      intros c Hc. destruct (f c) eqn:Fc; [|reflexivity].
      assert (Hin : In c (filter f l)) by (apply filter_In; auto).
      rewrite E in Hin. contradiction.
    + intros H. destruct (IH H) as [pre [post [-> [Hx Hp]]]].
      exists (a :: pre), post. auto.
  - intros H. destruct (IH H) as [pre [post [-> [Hx Hp]]]].
    exists (a :: pre), post. auto.
Qed.

(** C2 as stated fails: after a month column comes a column [20_day_change];
    the script takes that one, not the last column that begins with a
    4-digit year. *)
Lemma current_value_not_last_year_column :
  (hg <- with_current_value zhvi_with_change_column "median_home_value" ;;
   getitem hg "median_home_value") = Ok [CInt 7] /\
  (col <- last_year_column zhvi_with_change_column ;;
   getitem zhvi_with_change_column col) = Ok [CInt 350000] /\
  (hg <- with_current_value zhvi_with_change_column "median_home_value" ;;
   getitem hg "median_home_value")
  <> (col <- last_year_column zhvi_with_change_column ;;
      getitem zhvi_with_change_column col).
Proof. repeat split; try reflexivity. discriminate. Qed.

(** C2, amended.  The current value of every row is the row's value in the
    last column, in the table's native order, whose name begins with the
    two characters [20]. *)
Theorem current_value_is_last_20_column (df df' : DataFrame) (label : string) :
  well_formed df = true ->
  with_current_value df label = Ok df' ->
  exists pre col post v,
    columns df = pre ++ col :: post /\
    String.prefix "20" col = true /\
    (forall c, In c post -> String.prefix "20" c = false) /\
    getitem df col = Ok v /\
    getitem df' label = Ok v.
Proof.
  intros wf H. unfold with_current_value in H.
  apply bind_ok in H. destruct H as [fips [_ H]].
  apply bind_ok in H. destruct H as [df1 [Hset H]].
  apply bind_ok in H. destruct H as [col [Hlast H]].
  apply bind_ok in H. destruct H as [v [Hget Hset']].
  pose proof (setitem_well_formed _ _ _ _ wf Hset) as wf1.
  assert (Hdates : date_cols df1 = date_cols df).
  { unfold date_cols. rewrite (setitem_columns _ _ _ _ Hset).
    destruct (has_column df "county_fips"); [reflexivity|].
    rewrite filter_app. cbn. apply app_nil_r. }
  rewrite Hdates in Hlast. unfold date_cols in Hlast.
  destruct (last_item_filter _ _ _ Hlast) as [pre [post [Hc [Hp Hpost]]]].
  exists pre, col, post, v. repeat split; try assumption.
  - rewrite <- Hget. symmetry.
    apply (getitem_setitem_other _ _ _ _ wf Hset).
    intros ->. discriminate Hp.
  - apply (getitem_setitem_same _ _ _ _ wf1 Hset').
Qed.

Lemma current_value_is_last_20_column_witness :
  exists pre col post v,
    columns zhvi_with_change_column = pre ++ col :: post /\
    String.prefix "20" col = true /\
    (forall c, In c post -> String.prefix "20" c = false) /\
    getitem zhvi_with_change_column col = Ok v /\
    getitem (mkDF ["StateCodeFIPS"; "MunicipalCodeFIPS"; "2024-11-30";
                   "2024-12-31"; "20_day_change"; "county_fips";
                   "median_home_value"]
                  [[CInt 6; CInt 1; CInt 340000; CInt 350000; CInt 7;
                    CFloat (F64.of_Z 6001); CInt 7]]) "median_home_value"
    = Ok v.
Proof.
  apply (current_value_is_last_20_column zhvi_with_change_column
           _ "median_home_value"); reflexivity.
Defined.

(** ** Vote shares *)

Lemma get_length (df : DataFrame) (label : string) (d : cell) :
  List.length (get df label d) = len df.
Proof.
  unfold get, len. destruct (col_index label (columns df));
    [apply length_map | apply repeat_length].
Qed.

Lemma getitem_get (df : DataFrame) (label : string) (d : cell) :
  has_column df label = true -> getitem df label = Ok (get df label d).
Proof.
  unfold has_column, getitem, locate, get.
  destruct (col_index label (columns df)); [reflexivity | discriminate].
Qed.

Lemma get_absent (df : DataFrame) (label : string) (d : cell) :
  has_column df label = false -> get df label d = repeat d (len df).
Proof.
  unfold has_column, get.
  destruct (col_index label (columns df)); [discriminate | reflexivity].
Qed.

Lemma get_setitem_other (df df' : DataFrame) (label other : string)
  (v : list cell) (d : cell) :
  well_formed df = true -> setitem df label v = Ok df' -> other <> label ->
  get df' other d = get df other d.
Proof.
  intros wf Hset Hne.
  pose proof (getitem_setitem_other _ _ _ _ wf Hset other Hne) as Hg.
  pose proof (col_index_setitem_other _ _ _ _ Hset other Hne) as Hc.
  pose proof (setitem_len _ _ _ _ Hset) as Hl.
  unfold getitem, locate, get in *. rewrite Hc.
  destruct (col_index other (columns df)) as [k|].
  - rewrite Hc in Hg. cbn [bind] in Hg. congruence.
  - rewrite Hl. reflexivity.
Qed.

(** Filling in an absent party column with zeros leaves what
    [get(label, 0)] returns as it was. *)
Lemma default_zero_spec (df : DataFrame) (label : string) :
  well_formed df = true ->
  exists df',
    default_zero df label = Ok df' /\
    well_formed df' = true /\
    len df' = len df /\
    has_column df' label = true /\
    get df' label (CInt 0) = get df label (CInt 0) /\
    (forall other d, other <> label -> get df' other d = get df other d) /\
    (forall other, other <> label -> getitem df' other = getitem df other).
Proof.
  intros wf. unfold default_zero.
  destruct (has_column df label) eqn:E; cbn [negb].
  - exists df. repeat split; auto.
  - unfold setitem_scalar.
    destruct (setitem_total df label (repeat (CInt 0) (len df)))
      as [df' Hset]; [apply repeat_length|].
    exists df'. split; [exact Hset|]. split; [|split; [|split; [|split; [|split]]]].
    + exact (setitem_well_formed _ _ _ _ wf Hset).
    + exact (setitem_len _ _ _ _ Hset).
    + exact (has_column_setitem_same _ _ _ _ wf Hset).
    + rewrite (get_absent df label _ E).
      pose proof (getitem_setitem_same _ _ _ _ wf Hset) as Hg.
      rewrite (getitem_get df' label (CInt 0)) in Hg
        by exact (has_column_setitem_same _ _ _ _ wf Hset).
      congruence.
    + intros other d Hne. exact (get_setitem_other _ _ _ _ _ d wf Hset Hne).
    + intros other Hne. exact (getitem_setitem_other _ _ _ _ wf Hset other Hne).
Qed.

Lemma mapM2_ints (f : cell -> cell -> result cell) (k : Z -> Z -> cell)
  (g : Z * Z -> cell) (h : Z * Z -> cell) (l : list (Z * Z)) :
  (forall p, In p l -> f (g p) (h p) = Ok (k (fst p) (snd p))) ->
  mapM2 f (map g l) (map h l) = Ok (map (fun p => k (fst p) (snd p)) l).
Proof. apply mapM2_map. Qed.

Lemma map_combine_fst (D R : list Z) :
  List.length D = List.length R ->
  map (fun p => CInt (fst p)) (combine D R) = map CInt D.
Proof.
  revert R. induction D as [|d D IH]; intros [|r R] H; cbn in *;
    try reflexivity; try discriminate.
  f_equal. apply IH. lia.
Qed.

Lemma map_combine_snd (D R : list Z) :
  List.length D = List.length R ->
  map (fun p => CInt (snd p)) (combine D R) = map CInt R.
Proof.
  revert R. induction D as [|d D IH]; intros [|r R] H; cbn in *;
    try reflexivity; try discriminate.
  f_equal. apply IH. lia.
Qed.

Section VoteShares.

Variable elec_pivot : DataFrame.
Variables D R : list Z.
Hypothesis wf : well_formed elec_pivot = true.
Hypothesis democrat : get elec_pivot "DEMOCRAT" (CInt 0) = map CInt D.
Hypothesis republican : get elec_pivot "REPUBLICAN" (CInt 0) = map CInt R.
Hypothesis democrat_counts : vote_counts D = true.
Hypothesis republican_counts : vote_counts R = true.

Let votes : list (Z * Z) := combine D R.

Lemma votes_no_wrap (p : Z * Z) :
  In p votes -> wrap64 (fst p + snd p) = fst p + snd p.
Proof.
  intros Hp. destruct p as [d r]. unfold votes in Hp.
  apply in_combine_l in Hp as Hd. apply in_combine_r in Hp as Hr.
  unfold vote_counts in *.
  rewrite forallb_forall in democrat_counts, republican_counts.
  apply democrat_counts in Hd. apply republican_counts in Hr.
  apply Z.ltb_lt in Hd, Hr. cbn [fst snd].
  change (2 ^ 53) with 9007199254740992 in Hd, Hr.
  unfold wrap64.
  change (2 ^ 63) with 9223372036854775808.
  change (2 ^ 64) with 18446744073709551616.
  rewrite Z.mod_small by lia. lia.
Qed.

Lemma votes_length :
  List.length D = len elec_pivot /\ List.length R = len elec_pivot /\
  List.length votes = len elec_pivot.
Proof.
  assert (HD : List.length D = len elec_pivot).
  { rewrite <- (get_length elec_pivot "DEMOCRAT" (CInt 0)), democrat.
    symmetry. apply length_map. }
  assert (HR : List.length R = len elec_pivot).
  { rewrite <- (get_length elec_pivot "REPUBLICAN" (CInt 0)), republican.
    symmetry. apply length_map. }
  repeat split; try assumption.
  unfold votes. rewrite length_combine. lia.
Qed.

Lemma vote_shares_columns :
  exists out,
    vote_shares elec_pivot = Ok out /\
    well_formed out = true /\
    len out = len elec_pivot /\
    getitem out "dem_pct"
    = Ok (map (fun p => CFloat (two_party_share (fst p) (fst p) (snd p)))
              votes) /\
    getitem out "rep_pct"
    = Ok (map (fun p => CFloat (two_party_share (snd p) (fst p) (snd p)))
              votes) /\
    getitem out "lean_score"
    = Ok (map (fun p => CFloat (lean_score_of (fst p) (snd p))) votes) /\
    (forall other,
       ~ In other ["DEMOCRAT"; "REPUBLICAN"; "total_votes";
                   "dem_pct"; "rep_pct"; "lean_score"] ->
       getitem out other = getitem elec_pivot other).
Proof.
  destruct votes_length as [LD [LR LV]].
  assert (ED : map CInt D = map (fun p => CInt (fst p)) votes)
    by (symmetry; apply map_combine_fst; lia).
  assert (ER : map CInt R = map (fun p => CInt (snd p)) votes)
    by (symmetry; apply map_combine_snd; lia).
  destruct (default_zero_spec elec_pivot "DEMOCRAT" wf)
    as [ep1 [S1 [wf1 [L1 [_ [G1 [O1 I1]]]]]]].
  destruct (default_zero_spec ep1 "REPUBLICAN" wf1)
    as [ep2 [S2 [wf2 [L2 [_ [G2 [O2 I2]]]]]]].
  assert (D2 : get ep2 "DEMOCRAT" (CInt 0) = map (fun p => CInt (fst p)) votes).
  { rewrite O2, G1, democrat by discriminate. exact ED. }
  assert (R2 : get ep2 "REPUBLICAN" (CInt 0)
               = map (fun p => CInt (snd p)) votes).
  { rewrite G2, O1, republican by discriminate. exact ER. }
  set (total := map (fun p => CInt (fst p + snd p)) votes).
  set (dem_pct := map (fun p => CFloat (two_party_share (fst p) (fst p) (snd p)))
                      votes).
  set (rep_pct := map (fun p => CFloat (two_party_share (snd p) (fst p) (snd p)))
                      votes).
  set (lean_score := map (fun p => CFloat (lean_score_of (fst p) (snd p))) votes).
  destruct (setitem_total ep2 "total_votes" total) as [ep3 S3].
  { unfold total. rewrite length_map. fold (len ep2). lia. }
  pose proof (setitem_well_formed _ _ _ _ wf2 S3) as wf3.
  pose proof (setitem_len _ _ _ _ S3) as L3.
  destruct (setitem_total ep3 "dem_pct" dem_pct) as [ep4 S4].
  { unfold dem_pct. rewrite length_map. fold (len ep3). lia. }
  pose proof (setitem_well_formed _ _ _ _ wf3 S4) as wf4.
  pose proof (setitem_len _ _ _ _ S4) as L4.
  destruct (setitem_total ep4 "rep_pct" rep_pct) as [ep5 S5].
  { unfold rep_pct. rewrite length_map. fold (len ep4). lia. }
  pose proof (setitem_well_formed _ _ _ _ wf4 S5) as wf5.
  pose proof (setitem_len _ _ _ _ S5) as L5.
  destruct (setitem_total ep5 "lean_score" lean_score) as [out S6].
  { unfold lean_score. rewrite length_map. fold (len ep5). lia. }
  exists out. split; [|split; [|split; [|split; [|split; [|split]]]]].
  - unfold vote_shares. rewrite S1. cbn [bind]. rewrite S2. cbn [bind].
    rewrite D2, R2.
    rewrite (mapM2_map cell_add _ _ (fun p => CInt (fst p + snd p)))
      by (intros p Hp; cbn [cell_add]; rewrite (votes_no_wrap p Hp);
          reflexivity).
    cbn [bind]. fold total. rewrite S3. cbn [bind].
    rewrite (getitem_setitem_same _ _ _ _ wf2 S3). cbn [bind].
    rewrite (get_setitem_other _ _ _ _ _ (CInt 0) wf2 S3) by discriminate.
    rewrite D2. unfold total.
    rewrite (mapM2_map pct _ _
               (fun p => CFloat (two_party_share (fst p) (fst p) (snd p))))
      by reflexivity.
    cbn [bind]. fold dem_pct. rewrite S4. cbn [bind].
    rewrite (getitem_setitem_other _ _ _ _ wf3 S4) by discriminate.
    rewrite (getitem_setitem_same _ _ _ _ wf2 S3). cbn [bind].
    rewrite (get_setitem_other _ _ _ _ _ (CInt 0) wf3 S4) by discriminate.
    rewrite (get_setitem_other _ _ _ _ _ (CInt 0) wf2 S3) by discriminate.
    rewrite R2. unfold total.
    rewrite (mapM2_map pct _ _
               (fun p => CFloat (two_party_share (snd p) (fst p) (snd p))))
      by reflexivity.
    cbn [bind]. fold rep_pct. rewrite S5. cbn [bind].
    rewrite (getitem_setitem_other _ _ _ _ wf4 S5) by discriminate.
    rewrite (getitem_setitem_same _ _ _ _ wf3 S4). cbn [bind].
    rewrite (getitem_setitem_same _ _ _ _ wf4 S5). cbn [bind].
    unfold dem_pct, rep_pct.
    rewrite (mapM2_map lean _ _
               (fun p => CFloat (lean_score_of (fst p) (snd p))))
      by reflexivity.
    cbn [bind]. exact S6.
  - exact (setitem_well_formed _ _ _ _ wf5 S6).
  - rewrite (setitem_len _ _ _ _ S6). lia.
  - rewrite (getitem_setitem_other _ _ _ _ wf5 S6) by discriminate.
    rewrite (getitem_setitem_other _ _ _ _ wf4 S5) by discriminate.
    exact (getitem_setitem_same _ _ _ _ wf3 S4).
  - rewrite (getitem_setitem_other _ _ _ _ wf5 S6) by discriminate.
    exact (getitem_setitem_same _ _ _ _ wf4 S5).
  - exact (getitem_setitem_same _ _ _ _ wf5 S6).
  - intros other Hn. cbn [In] in Hn.
    rewrite (getitem_setitem_other _ _ _ _ wf5 S6) by intuition.
    rewrite (getitem_setitem_other _ _ _ _ wf4 S5) by intuition.
    rewrite (getitem_setitem_other _ _ _ _ wf3 S4) by intuition.
    rewrite (getitem_setitem_other _ _ _ _ wf2 S3) by intuition.
    rewrite I2, I1 by intuition. reflexivity.
Qed.

End VoteShares.

(** ** Traversals *)

Lemma mapM_ok {A B : Type} (f : A -> result B) (l : list A) (l' : list B) :
  mapM f l = Ok l' -> Forall2 (fun a b => f a = Ok b) l l'.
Proof.
  revert l'. induction l as [|a l IH]; cbn [mapM]; intros l' H.
  - injection H as <-. constructor.
  - apply bind_ok in H. destruct H as [b [Hb H]].
    apply bind_ok in H. destruct H as [bs [Hbs H]].
    injection H as <-. constructor; auto.
Qed.

Lemma mapM_total {A B : Type} (f : A -> result B) (g : A -> B) (l : list A) :
  (forall a, In a l -> f a = Ok (g a)) -> mapM f l = Ok (map g l).
Proof.
  induction l as [|a l IH]; intros H; cbn [mapM map]; [reflexivity|].
  rewrite (H a (or_introl eq_refl)). cbn [bind].
  rewrite IH by (intros; apply H; right; assumption). reflexivity.
Qed.

Lemma Forall2_nth_error {A B : Type} (P : A -> B -> Prop)
  (l : list A) (l' : list B) :
  Forall2 P l l' ->
  forall k a, nth_error l k = Some a ->
    exists b, nth_error l' k = Some b /\ P a b.
Proof.
  induction 1 as [|x y l l' Hxy _ IH]; intros [|k] a H; cbn in *;
    try discriminate.
  - injection H as <-. eauto.
  - apply IH. exact H.
Qed.

Lemma Forall2_in_r {A B : Type} (P : A -> B -> Prop)
  (l : list A) (l' : list B) :
  Forall2 P l l' -> forall b, In b l' -> exists a, In a l /\ P a b.
Proof.
  induction 1 as [|x y l l' Hxy _ IH]; intros b Hb; cbn in *; [contradiction|].
  destruct Hb as [<- | Hb]; [eauto|].
  destruct (IH b Hb) as [a [? ?]]. eauto.
Qed.

Lemma read_csv_ok (fs : FileSystem) (path : string) (df : DataFrame) :
  read_csv fs path = Ok df -> read fs path = Some df.
Proof.
  unfold read_csv. destruct (read fs path); intros H; [congruence | discriminate].
Qed.

Lemma getitem_field (df : DataFrame) (label : string) (col : list cell) :
  getitem df label = Ok col ->
  col = map (field df label) (rows df) /\ has_column df label = true.
Proof.
  unfold getitem, locate, field, has_column.
  destruct (col_index label (columns df)); intros H; [|discriminate].
  cbn [bind] in H. injection H as <-. split; reflexivity.
Qed.

Lemma mapM_exists {A B : Type} (f : A -> result B) (l : list A) :
  (forall a, In a l -> exists b, f a = Ok b) -> exists l', mapM f l = Ok l'.
Proof.
  induction l as [|a l IH]; intros H; [exists []; reflexivity|].
  destruct (H a (or_introl eq_refl)) as [b Hb].
  destruct IH as [l' Hl']; [intros x Hx; apply H; right; exact Hx|].
  exists (b :: l'). cbn [mapM]. rewrite Hb. cbn [bind]. rewrite Hl'.
  reflexivity.
Qed.

Lemma Forall2_in_l {A B : Type} (P : A -> B -> Prop)
  (l : list A) (l' : list B) :
  Forall2 P l l' -> forall a, In a l -> exists b, In b l' /\ P a b.
Proof.
  induction 1 as [|x y l l' Hxy _ IH]; intros a []; subst.
  - exists y. split; [left; reflexivity | exact Hxy].
  - destruct (IH a H) as [b [Hb Hab]]. exists b. split; [right|]; assumption.
Qed.

(** ** Selections *)

Lemma select_inv (df sel : DataFrame) (labels : list string) :
  select df labels = Ok sel ->
  exists idx,
    Forall2 (fun l i => col_index l (columns df) = Some i) labels idx /\
    sel = mkDF labels (map (fun r => map (fun i => cell_at i r) idx) (rows df)).
Proof.
  unfold select. intros H. apply bind_ok in H. destruct H as [idx [Hm H]].
  injection H as <-. exists idx. split; [|reflexivity].
  apply mapM_ok in Hm. induction Hm as [|l i ls js Hl _ IH]; constructor; auto.
  unfold locate in Hl. destruct (col_index l (columns df)); congruence.
Qed.

Lemma select_well_formed (df sel : DataFrame) (labels : list string) :
  select df labels = Ok sel -> well_formed sel = true.
Proof.
  intros H. destruct (select_inv _ _ _ H) as [idx [Hi ->]].
  apply rows_well_formed. intros r Hr. cbn [columns].
  apply in_map_iff in Hr. destruct Hr as [r0 [<- _]].
  rewrite length_map. symmetry. exact (Forall2_length Hi).
Qed.

Lemma select_len (df sel : DataFrame) (labels : list string) :
  select df labels = Ok sel -> len sel = len df.
Proof.
  intros H. destruct (select_inv _ _ _ H) as [idx [_ ->]].
  unfold len. cbn [rows]. apply length_map.
Qed.

Lemma select_columns (df sel : DataFrame) (labels : list string) :
  select df labels = Ok sel -> columns sel = labels.
Proof.
  intros H. destruct (select_inv _ _ _ H) as [idx [_ ->]]. reflexivity.
Qed.

Lemma cell_at_map (f : nat -> cell) (idx : list nat) (k i : nat) :
  nth_error idx k = Some i -> cell_at k (map f idx) = f i.
Proof.
  unfold cell_at. intros H.
  apply nth_error_nth. rewrite nth_error_map, H. reflexivity.
Qed.

(** A selected column is the column of the table it was selected from. *)
Lemma getitem_select (df sel : DataFrame) (labels : list string)
  (label : string) :
  select df labels = Ok sel -> In label labels ->
  getitem sel label = getitem df label.
Proof.
  intros H Hin. destruct (select_inv _ _ _ H) as [idx [Hi ->]].
  destruct (col_index label labels) as [k|] eqn:Ek;
    [| apply col_index_none in Ek; contradiction].
  apply col_index_bound in Ek as Hk. destruct Hk as [_ Hk].
  destruct (Forall2_nth_error _ _ _ Hi k label Hk) as [i [Hik Hc]].
  rewrite (getitem_located _ label k) by exact Ek.
  rewrite (getitem_located _ label i) by exact Hc.
  cbn [rows]. rewrite map_map. f_equal.
  apply map_ext. intros r.
  exact (cell_at_map (fun i => cell_at i r) idx k i Hik).
Qed.

Lemma select_total (df : DataFrame) (labels : list string) :
  (forall l, In l labels -> has_column df l = true) ->
  exists sel, select df labels = Ok sel.
Proof.
  intros H. unfold select.
  assert (Hm : exists idx, mapM (locate df) labels = Ok idx).
  { induction labels as [|l ls IH]; cbn [mapM]; [eauto|].
    pose proof (H l (or_introl eq_refl)) as Hl.
    unfold has_column in Hl. unfold locate at 1.
    destruct (col_index l (columns df)); [|discriminate]. cbn [bind].
    destruct IH as [idx ->]; [intros; apply H; right; assumption|].
    cbn [bind]. eauto. }
  destruct Hm as [idx ->]. cbn [bind]. eauto.
Qed.

Lemma getitem_has_column (df : DataFrame) (label : string) (v : list cell) :
  getitem df label = Ok v -> has_column df label = true.
Proof.
  unfold getitem, locate, has_column.
  destruct (col_index label (columns df)); [reflexivity | discriminate].
Qed.

Lemma has_column_getitem (df : DataFrame) (label : string) :
  has_column df label = true -> exists v, getitem df label = Ok v.
Proof.
  unfold getitem, locate, has_column.
  destruct (col_index label (columns df)); [cbn; eauto | discriminate].
Qed.

(** ** The pivot *)

Lemma insert_by_in {A : Type} (leb : A -> A -> bool) (a x : A) (l : list A) :
  In x (insert_by leb a l) <-> x = a \/ In x l.
Proof.
  induction l as [|y l IH]; cbn [insert_by In].
  - intuition.
  - destruct (leb a y); cbn [In]; rewrite ?IH; intuition.
Qed.

Lemma sort_by_in {A : Type} (leb : A -> A -> bool) (x : A) (l : list A) :
  In x (sort_by leb l) <-> In x l.
Proof.
  unfold sort_by. induction l as [|a l IH]; cbn [fold_right In]; [tauto|].
  rewrite insert_by_in, IH. intuition.
Qed.

Lemma sort_by_length {A : Type} (leb : A -> A -> bool) (l : list A) :
  List.length (sort_by leb l) = List.length l.
Proof.
  assert (H : forall a k, List.length (insert_by leb a k) = S (List.length k)).
  { intros a k. induction k as [|y k IH]; cbn [insert_by]; [reflexivity|].
    destruct (leb a y); cbn [List.length]; congruence. }
  unfold sort_by. induction l as [|a l IH]; cbn [fold_right]; [reflexivity|].
  rewrite H, IH. reflexivity.
Qed.

Lemma distinct_in {A : Type} (eqb : A -> A -> bool) (x : A) (l : list A) :
  In x (distinct eqb l) -> In x l.
Proof.
  induction l as [|a l IH]; cbn [distinct In]; [tauto|].
  intros [H | H]; [auto|]. apply filter_In in H. destruct H as [H _]. auto.
Qed.

Lemma group_sum_int (recs : list (list cell * string * Z))
  (g : list cell) (p : string) (c : cell) :
  group_sum recs g p = Ok c ->
  exists z, c = CInt z /\ (Z.abs z <? 2 ^ 53) = true.
Proof.
  unfold group_sum.
  match goal with |- context [if ?b then _ else _] => destruct b eqn:E end;
    intros H; [injection H as <-; eauto | discriminate].
Qed.

(** The pivot is a table of integers under its party labels. *)
Lemma pivot_table_sum_shape (df ep : DataFrame) (index : list string)
  (cols values : string) :
  pivot_table_sum df index cols values = Ok ep ->
  well_formed ep = true /\
  (forall l, In l index -> has_column ep l = true) /\
  (forall label, ~ In label index ->
     exists V, get ep label (CInt 0) = map CInt V /\ vote_counts V = true).
Proof.
  unfold pivot_table_sum. intros H.
  apply bind_ok in H. destruct H as [vi [_ H]].
  apply bind_ok in H. destruct H as [idx [Hidx H]].
  apply bind_ok in H. destruct H as [ci [_ H]].
  apply bind_ok in H. destruct H as [recs [Hrecs H]].
  apply mapM_ok in Hidx. apply Forall2_length in Hidx.
  apply mapM_ok in Hrecs.
  destruct recs as [|rec0 recs0] eqn:Erecs; [discriminate|].
  rewrite <- Erecs in *. clear Erecs rec0 recs0.
  set (groups := sort_by tuple_leb
                   (distinct tuple_eqb (map (fun r => fst (fst r)) recs))) in *.
  set (labels := sort_by String.leb
                   (distinct String.eqb (map (fun r => snd (fst r)) recs))) in *.
  destruct (existsb _ idx); [discriminate|].
  destruct (existsb (fun p => mem p index) labels); [discriminate|].
  apply bind_ok in H. destruct H as [body [Hbody H]].
  injection H as <-. apply mapM_ok in Hbody.
  assert (Hrow : forall r, In r body ->
            exists g vs, r = g ++ vs /\
              List.length g = List.length index /\
              List.length vs = List.length labels /\
              forall k c, nth_error vs k = Some c ->
                exists z, c = CInt z /\ (Z.abs z <? 2 ^ 53) = true).
  { intros r Hr.
    destruct (Forall2_in_r _ _ _ Hbody r Hr) as [g [Hg Hgr]].
    apply bind_ok in Hgr. destruct Hgr as [vs [Hvs Hgr]].
    injection Hgr as <-. apply mapM_ok in Hvs.
    exists g, vs. repeat split.
    - apply sort_by_in, distinct_in, in_map_iff in Hg.
      destruct Hg as [rec [<- Hrec]].
      destruct (Forall2_in_r _ _ _ Hrecs rec Hrec) as [r0 [_ Hr0]].
      apply bind_ok in Hr0. destruct Hr0 as [p [_ Hr0]].
      apply bind_ok in Hr0. destruct Hr0 as [v [_ Hr0]].
      injection Hr0 as <-. cbn [fst]. rewrite length_map. lia.
    - symmetry. exact (Forall2_length Hvs).
    - intros k c Hk.
      assert (Hin : In c vs) by (eapply nth_error_In; exact Hk).
      destruct (Forall2_in_r _ _ _ Hvs c Hin) as [p [_ Hp]].
      exact (group_sum_int _ _ _ _ Hp). }
  split; [|split].
  - apply rows_well_formed. intros r Hr. cbn [columns].
    destruct (Hrow r Hr) as [g [vs [-> [Lg [Lv _]]]]].
    rewrite !length_app. lia.
  - intros l Hl. unfold has_column. cbn [columns].
    destruct (col_index l (index ++ labels)) eqn:E; [reflexivity|].
    apply col_index_none in E. exfalso. apply E, in_or_app. auto.
  - intros label Hn. unfold get, len. cbn [columns rows].
    rewrite col_index_app.
    rewrite (proj2 (col_index_none label index) Hn).
    destruct (col_index label labels) as [k|] eqn:Ek; cbn [option_map].
    + exists (map (fun r => match cell_at (List.length index + k) r with
                            | CInt z => z
                            | _ => 0
                            end) body).
      apply col_index_bound in Ek. destruct Ek as [Hk _].
      assert (Hcell : forall r, In r body ->
                exists z, cell_at (List.length index + k) r = CInt z
                          /\ (Z.abs z <? 2 ^ 53) = true).
      { intros r Hr. destruct (Hrow r Hr) as [g [vs [-> [Lg [Lv Hint]]]]].
        rewrite <- Lg, cell_at_app_r.
        destruct (nth_error vs k) as [c|] eqn:Ec.
        - destruct (Hint k c Ec) as [z [-> Hz]]. exists z.
          unfold cell_at. rewrite (nth_error_nth _ _ _ Ec). auto.
        - apply nth_error_None in Ec. lia. }
      split.
      * rewrite map_map. apply map_ext_in. intros r Hr.
        destruct (Hcell r Hr) as [z [-> _]]. reflexivity.
      * unfold vote_counts. apply forallb_forall. intros v Hv.
        apply in_map_iff in Hv. destruct Hv as [r [<- Hr]].
        destruct (Hcell r Hr) as [z [-> Hz]]. exact Hz.
    + exists (repeat 0 (List.length body)). split.
      * symmetry. apply map_repeat.
      * unfold vote_counts. apply forallb_forall. intros v Hv.
        apply repeat_spec in Hv. subst v. reflexivity.
Qed.

(** ** Election aggregation *)

Lemma map_CInt_inj (l l' : list Z) : map CInt l = map CInt l' -> l = l'.
Proof.
  revert l'. induction l as [|a l IH]; intros [|b l'] H; cbn in *;
    try reflexivity; try discriminate.
  injection H as -> H. f_equal. apply IH, H.
Qed.

(** C6.  From a pivot whose Democrat and Republican columns hold the vote
    counts [D] and [R], the script computes for each county the share of
    each party as its votes over the Democrat plus Republican votes, as a
    percentage kept to one decimal, and the lean score as the Democrat
    share minus the Republican share, again to one decimal; no other
    column enters.  A party column that the pivot lacks counts as zero
    votes in every county. *)
Theorem two_party_vote_shares (elec_pivot : DataFrame) (D R : list Z) :
  well_formed elec_pivot = true ->
  get elec_pivot "DEMOCRAT" (CInt 0) = map CInt D ->
  get elec_pivot "REPUBLICAN" (CInt 0) = map CInt R ->
  vote_counts D = true -> vote_counts R = true ->
  (exists out,
     vote_shares elec_pivot = Ok out /\
     getitem out "dem_pct"
     = Ok (map (fun p => CFloat (two_party_share (fst p) (fst p) (snd p)))
               (combine D R)) /\
     getitem out "rep_pct"
     = Ok (map (fun p => CFloat (two_party_share (snd p) (fst p) (snd p)))
               (combine D R)) /\
     getitem out "lean_score"
     = Ok (map (fun p => CFloat (lean_score_of (fst p) (snd p)))
               (combine D R))) /\
  (has_column elec_pivot "DEMOCRAT" = false ->
   D = repeat 0 (len elec_pivot)) /\
  (has_column elec_pivot "REPUBLICAN" = false ->
   R = repeat 0 (len elec_pivot)).
Proof.
  intros wf HD HR BD BR. split; [|split].
  - destruct (vote_shares_columns elec_pivot D R wf HD HR BD BR)
      as [out [H [_ [_ [H1 [H2 [H3 _]]]]]]].
    exists out. auto.
  - intros Ha. rewrite (get_absent _ _ _ Ha) in HD.
    apply map_CInt_inj. rewrite <- HD. symmetry. apply map_repeat.
  - intros Ha. rewrite (get_absent _ _ _ Ha) in HR.
    apply map_CInt_inj. rewrite <- HR. symmetry. apply map_repeat.
Qed.

Lemma two_party_vote_shares_witness :
  (exists out,
     vote_shares alameda_pivot = Ok out /\
     getitem out "dem_pct"
     = Ok (map (fun p => CFloat (two_party_share (fst p) (fst p) (snd p)))
               (combine [600] [300])) /\
     getitem out "rep_pct"
     = Ok (map (fun p => CFloat (two_party_share (snd p) (fst p) (snd p)))
               (combine [600] [300])) /\
     getitem out "lean_score"
     = Ok (map (fun p => CFloat (lean_score_of (fst p) (snd p)))
               (combine [600] [300]))) /\
  (has_column alameda_pivot "DEMOCRAT" = false ->
   [600] = repeat 0 (len alameda_pivot)) /\
  (has_column alameda_pivot "REPUBLICAN" = false ->
   [300] = repeat 0 (len alameda_pivot)).
Proof.
  apply (two_party_vote_shares alameda_pivot [600] [300]); reflexivity.
Defined.

(** 600 Democrat and 300 Republican votes: 66.7, 33.3 and a lean score of
    33.4, whatever the third party polled.  The lean score comes from the
    shares as stored: the difference of the two percentages before they
    are cut to one decimal would round to 33.3. *)
Example alameda_shares :
  two_party_share 600 600 300 = F64.div (F64.of_Z 667) (F64.of_Z 10) /\
  two_party_share 300 600 300 = F64.div (F64.of_Z 333) (F64.of_Z 10) /\
  lean_score_of 600 300 = F64.div (F64.of_Z 334) (F64.of_Z 10) /\
  F64.round1 (F64.sub (two_party_percentage 600 600 300)
                      (two_party_percentage 300 600 300))
  = F64.div (F64.of_Z 333) (F64.of_Z 10).
Proof. repeat split; vm_compute; reflexivity. Qed.

Lemma nth_error_combine {A B : Type} (l : list A) (l' : list B)
  (k : nat) (a : A) (b : B) :
  nth_error l k = Some a -> nth_error l' k = Some b ->
  nth_error (combine l l') k = Some (a, b).
Proof.
  revert l' k. induction l as [|x l IH]; intros [|y l'] [|k] Ha Hb;
    cbn in *; try discriminate.
  - congruence.
  - apply IH; assumption.
Qed.

(** What the election stage hands to the merge, from the pivot on. *)
Lemma elec_clean_columns (elections elec_2024 elec_pivot : DataFrame) :
  where_eq elections "year" 2024 = Ok elec_2024 ->
  pivot_table_sum elec_2024 ["state_po"; "county_name"; "county_fips"]
    "party" "candidatevotes" = Ok elec_pivot ->
  exists D R elec_clean,
    get elec_pivot "DEMOCRAT" (CInt 0) = map CInt D /\
    get elec_pivot "REPUBLICAN" (CInt 0) = map CInt R /\
    process_elections elections = Ok elec_clean /\
    getitem elec_clean "county_fips" = getitem elec_pivot "county_fips" /\
    getitem elec_clean "lean_score"
    = Ok (map (fun p => CFloat (lean_score_of (fst p) (snd p)))
              (combine D R)).
Proof.
  intros Hw Hp.
  destruct (pivot_table_sum_shape _ _ _ _ _ Hp) as [wf [Hidx Hint]].
  destruct (Hint "DEMOCRAT") as [D [HD BD]]; [cbn; intuition discriminate|].
  destruct (Hint "REPUBLICAN") as [R [HR BR]]; [cbn; intuition discriminate|].
  destruct (vote_shares_columns elec_pivot D R wf HD HR BD BR)
    as [out [Hv [_ [_ [H1 [H2 [H3 Ho]]]]]]].
  assert (Hf : getitem out "county_fips" = getitem elec_pivot "county_fips").
  { apply Ho. cbn. intuition discriminate. }
  destruct (select_total out ["county_fips"; "dem_pct"; "rep_pct"; "lean_score"])
    as [elec_clean Hs].
  { intros l [<- | [<- | [<- | [<- | []]]]].
    - destruct (has_column_getitem elec_pivot "county_fips") as [v Hg];
        [apply Hidx; cbn; auto|].
      rewrite <- Hf in Hg. exact (getitem_has_column _ _ _ Hg).
    - exact (getitem_has_column _ _ _ H1).
    - exact (getitem_has_column _ _ _ H2).
    - exact (getitem_has_column _ _ _ H3). }
  exists D, R, elec_clean. repeat split; try assumption.
  - unfold process_elections. rewrite Hw. cbn [bind]. rewrite Hp. cbn [bind].
    rewrite Hv. cbn [bind]. exact Hs.
  - rewrite (getitem_select _ _ _ "county_fips" Hs) by (cbn; auto). exact Hf.
  - rewrite (getitem_select _ _ _ "lean_score" Hs) by (cbn; auto). exact H3.
Qed.

(** ** Left joins *)

Lemma locate_ok (df : DataFrame) (label : string) (i : nat) :
  locate df label = Ok i -> col_index label (columns df) = Some i.
Proof.
  unfold locate. destruct (col_index label (columns df)); congruence.
Qed.

Lemma merge_left_inv (left right m : DataFrame) (on : string) :
  merge_left left right on = Ok m ->
  exists i j,
    col_index on (columns left) = Some i /\
    col_index on (columns right) = Some j /\
    columns m = merge_columns (columns left) (columns right) on /\
    rows m = flat_map (joined_rows i j right) (rows left).
Proof.
  unfold merge_left. intros H.
  apply bind_ok in H. destruct H as [i [Hi H]].
  apply bind_ok in H. destruct H as [j [Hj H]].
  apply locate_ok in Hi, Hj.
  destruct (same_kind _ _); cbn [negb] in H; [|discriminate].
  injection H as <-.
  exists i, j. unfold merge_columns. rewrite Hi, Hj. auto.
Qed.

Lemma remove_nth_length {A : Type} (j : nat) (l : list A) :
  (j < List.length l)%nat ->
  List.length (remove_nth j l) = (List.length l - 1)%nat.
Proof.
  revert j. induction l as [|a l IH]; intros [|j] H; cbn in *; try lia.
  rewrite IH by lia. lia.
Qed.

Lemma merge_columns_length (lcols rcols : list string) (on : string)
  (i j : nat) :
  col_index on lcols = Some i -> col_index on rcols = Some j ->
  List.length (merge_columns lcols rcols on)
  = (List.length lcols + (List.length rcols - 1))%nat.
Proof.
  intros Hi Hj. unfold merge_columns. rewrite Hi, Hj.
  rewrite length_app, !length_map.
  apply col_index_bound in Hj. rewrite remove_nth_length by tauto. reflexivity.
Qed.

(** Every row of a left join is a left row followed by the right columns. *)
Lemma joined_rows_shape (i j : nat) (right : DataFrame) (l x : row) :
  well_formed right = true -> (j < List.length (columns right))%nat ->
  In x (joined_rows i j right l) ->
  exists ext, x = l ++ ext /\
              List.length ext = (List.length (columns right) - 1)%nat.
Proof.
  intros wf Hj. unfold joined_rows.
  destruct (filter _ (rows right)) as [|r0 ms] eqn:E.
  - intros [<- | []]. eexists. split; [reflexivity|].
    rewrite repeat_length. apply remove_nth_length, Hj.
  - rewrite <- E. intros Hx. apply in_map_iff in Hx.
    destruct Hx as [r [<- Hr]]. apply filter_In in Hr. destruct Hr as [Hr _].
    eexists. split; [reflexivity|].
    rewrite remove_nth_length; rewrite (well_formed_rows right wf r Hr);
      [reflexivity | exact Hj].
Qed.

Lemma joined_rows_nonempty (i j : nat) (right : DataFrame) (l : row) :
  joined_rows i j right l <> [].
Proof.
  unfold joined_rows. destruct (filter _ (rows right)); discriminate.
Qed.

Lemma merge_left_well_formed (left right m : DataFrame) (on : string) :
  well_formed left = true -> well_formed right = true ->
  merge_left left right on = Ok m -> well_formed m = true.
Proof.
  intros wfl wfr H.
  destruct (merge_left_inv _ _ _ _ H) as [i [j [Hi [Hj [Hc Hr]]]]].
  destruct m as [mc mr]. cbn [columns rows] in *. subst mc mr.
  apply rows_well_formed. intros x Hx.
  apply in_flat_map in Hx. destruct Hx as [l [Hl Hx]].
  apply col_index_bound in Hj as Hjb. destruct Hjb as [Hjb _].
  destruct (joined_rows_shape _ _ _ _ _ wfr Hjb Hx) as [ext [-> He]].
  rewrite (merge_columns_length _ _ _ _ _ Hi Hj), length_app, He.
  rewrite (well_formed_rows left wfl l Hl). reflexivity.
Qed.

(** Unmatched left rows get missing values in the right columns. *)
Lemma joined_rows_unmatched (i j : nat) (right : DataFrame) (l : row) :
  (forall r, In r (rows right) ->
     key_eqb (cell_at i l) (cell_at j r) = false) ->
  joined_rows i j right l
  = [l ++ repeat NaN (List.length (columns right) - 1)] \/
  ~ (j < List.length (columns right))%nat.
Proof.
  intros H. destruct (Nat.lt_ge_cases j (List.length (columns right)))
    as [Hj | Hj]; [left | right; lia].
  unfold joined_rows.
  destruct (filter _ (rows right)) as [|r0 ms] eqn:E.
  - rewrite remove_nth_length by exact Hj. reflexivity.
  - assert (Hin : In r0 (r0 :: ms)) by (left; reflexivity).
    rewrite <- E in Hin. apply filter_In in Hin. destruct Hin as [Hr Hk].
    rewrite (H r0 Hr) in Hk. discriminate.
Qed.

(** With at most one right row per key, each left row stays one row. *)
Lemma unique_on_matches (right : DataFrame) (on : string) (j : nat) (c : cell) :
  unique_on right on = true -> col_index on (columns right) = Some j ->
  (List.length (filter (fun r => key_eqb c (cell_at j r)) (rows right)) <= 1)%nat.
Proof.
  unfold unique_on. intros H Hj. rewrite Hj in H.
  rewrite forallb_forall in H.
  destruct (filter (fun r => key_eqb c (cell_at j r)) (rows right))
    as [|r0 ms] eqn:E; [cbn; lia|].
  assert (Hin : In r0 (r0 :: ms)) by (left; reflexivity).
  rewrite <- E in Hin. apply filter_In in Hin. destruct Hin as [Hr Hk].
  specialize (H r0 Hr). apply Nat.leb_le in H.
  rewrite <- E.
  erewrite filter_ext; [exact H|].
  intros r. unfold key_eqb in *.
  destruct (key_eq_dec (key_of c) (key_of (cell_at j r0))) as [Ec|];
    [|discriminate].
  rewrite Ec. reflexivity.
Qed.

Lemma joined_rows_unique (i j : nat) (right : DataFrame) (on : string)
  (l : row) :
  unique_on right on = true -> col_index on (columns right) = Some j ->
  exists ext, joined_rows i j right l = [l ++ ext].
Proof.
  intros Hu Hj.
  pose proof (unique_on_matches right on j (cell_at i l) Hu Hj) as H.
  unfold joined_rows.
  destruct (filter _ (rows right)) as [|r0 [|r1 ms]]; cbn in H;
    [eauto | cbn; eauto | lia].
Qed.

(** ** The script as a chain of left joins *)

Lemma left_joins_app (m : DataFrame) (a b : list (DataFrame * string)) :
  left_joins m (a ++ b) = (m' <- left_joins m a ;; left_joins m' b).
Proof.
  revert m. induction a as [|j a IH]; intros m; cbn [app left_joins bind];
    [reflexivity|].
  destruct (merge_left m (fst j) (snd j)); cbn [bind]; auto.
Qed.

Lemma left_joins_app_ok (m m1 m2 : DataFrame) (a b : list (DataFrame * string)) :
  left_joins m a = Ok m1 -> left_joins m1 b = Ok m2 ->
  left_joins m (a ++ b) = Ok m2.
Proof. intros Ha Hb. rewrite left_joins_app, Ha. exact Hb. Qed.

Lemma add_bedrooms_joins (hc hc' : DataFrame) (br : option DataFrame)
  (label : string) :
  add_bedrooms hc br label = Ok hc' ->
  exists j, bedroom_table br label = Ok j /\ left_joins hc j = Ok hc'.
Proof.
  unfold add_bedrooms, bedroom_table. destruct br as [b|]; intros H.
  - apply bind_ok in H. destruct H as [b' [E1 H]].
    apply bind_ok in H. destruct H as [sel [E2 H]].
    rewrite E1. cbn [bind]. rewrite E2. cbn [bind].
    eexists. split; [reflexivity|].
    cbn [left_joins fst snd]. rewrite H. reflexivity.
  - injection H as <-. exists []. auto.
Qed.

Lemma merge_optional_joins (m m' : DataFrame) (other : option DataFrame)
  (labels : list string) (on : string) :
  merge_optional m other labels on = Ok m' ->
  exists j, optional_table other labels on = Ok j /\ left_joins m j = Ok m'.
Proof.
  unfold merge_optional, optional_table. destruct other as [df|]; intros H.
  - apply bind_ok in H. destruct H as [sel [E H]].
    rewrite E. cbn [bind]. eexists. split; [reflexivity|].
    cbn [left_joins fst snd]. rewrite H. reflexivity.
  - injection H as <-. exists []. auto.
Qed.

(** The output is the derived fields of the anchor joined with
    [joined_sources]. *)
Lemma prepare_data_joins (fs : FileSystem) (out : DataFrame) :
  prepare_data fs = Ok out ->
  exists anchor js merged,
    joined_sources fs = Ok (anchor, js) /\
    left_joins anchor js = Ok merged /\
    derive_fields merged = Ok out.
Proof.
  unfold prepare_data, joined_sources. intros H.
  apply bind_ok in H. destruct H as [hg [E1 H]].
  apply bind_ok in H. destruct H as [hc0 [E2 H]].
  apply bind_ok in H. destruct H as [hc1 [H4 H]].
  apply bind_ok in H. destruct H as [hc [H5 H]].
  apply bind_ok in H. destruct H as [elections [E3 H]].
  apply bind_ok in H. destruct H as [ec [E4 H]].
  apply bind_ok in H. destruct H as [gun_laws [E5 H]].
  apply bind_ok in H. destruct H as [population [E6 H]].
  apply bind_ok in H. destruct H as [merged [Hm Hd]].
  destruct (add_bedrooms_joins _ _ _ _ H4) as [j4 [E7 J4]].
  destruct (add_bedrooms_joins _ _ _ _ H5) as [j5 [E8 J5]].
  unfold merge_all in Hm.
  apply bind_ok in Hm. destruct Hm as [m1 [M1 Hm]].
  apply bind_ok in Hm. destruct Hm as [gl [E9 Hm]].
  apply bind_ok in Hm. destruct Hm as [m2 [M2 Hm]].
  apply bind_ok in Hm. destruct Hm as [pop [E10 Hm]].
  apply bind_ok in Hm. destruct Hm as [m3 [M3 Hm]].
  apply bind_ok in Hm. destruct Hm as [m4 [M4 M5]].
  destruct (merge_optional_joins _ _ _ _ _ M4) as [jex [E11 Jex]].
  destruct (merge_optional_joins _ _ _ _ _ M5) as [jmj [E12 Jmj]].
  rewrite E1. cbn [bind]. rewrite E2. cbn [bind]. rewrite E7. cbn [bind].
  rewrite E8. cbn [bind]. rewrite E3. cbn [bind]. rewrite E4. cbn [bind].
  rewrite E5. cbn [bind]. rewrite E9. cbn [bind]. rewrite E6. cbn [bind].
  rewrite E10. cbn [bind]. rewrite E11. cbn [bind]. rewrite E12. cbn [bind].
  eexists _, _, merged. split; [reflexivity|]. split; [|exact Hd].
  apply (left_joins_app_ok _ _ _ _ _ J4).
  apply (left_joins_app_ok _ _ _ _ _ J5).
  apply (left_joins_app_ok _ m3).
  - cbn [left_joins fst snd]. rewrite M1. cbn [bind]. rewrite M2. cbn [bind].
    rewrite M3. reflexivity.
  - apply (left_joins_app_ok _ _ _ _ _ Jex). exact Jmj.
Qed.

Lemma set_columns_inv (df df' : DataFrame) (labels : list string) :
  set_columns df labels = Ok df' ->
  List.length labels = List.length (columns df) /\ df' = mkDF labels (rows df).
Proof.
  unfold set_columns.
  destruct (List.length labels =? List.length (columns df))%nat eqn:E;
    [|discriminate].
  apply Nat.eqb_eq in E. intros H. injection H as <-. auto.
Qed.

Lemma process_general_shape (hg anchor : DataFrame) :
  process_general hg = Ok anchor ->
  well_formed anchor = true /\ columns anchor = anchor_columns.
Proof.
  unfold process_general. intros H.
  apply bind_ok in H. destruct H as [h1 [_ H]].
  apply bind_ok in H. destruct H as [v [_ H]].
  apply bind_ok in H. destruct H as [h2 [_ H]].
  apply bind_ok in H. destruct H as [hc [Hs H]].
  apply set_columns_inv in H. destruct H as [_ ->].
  pose proof (select_well_formed _ _ _ Hs) as wf.
  pose proof (select_columns _ _ _ Hs) as Hc.
  split; [|reflexivity].
  apply rows_well_formed. intros r Hr. cbn [columns].
  rewrite (well_formed_rows hc wf r Hr), Hc. reflexivity.
Qed.

Lemma bedroom_table_shape (br : option DataFrame) (label : string)
  (j : list (DataFrame * string)) :
  bedroom_table br label = Ok j ->
  Forall (fun t => well_formed (fst t) = true) j /\
  map (fun t => (columns (fst t), snd t)) j
  = match br with
    | Some _ => [(["county_fips"; label], "county_fips")]
    | None => []
    end.
Proof.
  unfold bedroom_table. destruct br as [b|]; intros H.
  - apply bind_ok in H. destruct H as [b' [_ H]].
    apply bind_ok in H. destruct H as [sel [Hs H]].
    injection H as <-. split.
    + repeat constructor. exact (select_well_formed _ _ _ Hs).
    + cbn. rewrite (select_columns _ _ _ Hs). reflexivity.
  - injection H as <-. split; [constructor | reflexivity].
Qed.

Lemma optional_table_shape (other : option DataFrame) (labels : list string)
  (on : string) (j : list (DataFrame * string)) :
  optional_table other labels on = Ok j ->
  Forall (fun t => well_formed (fst t) = true) j /\
  map (fun t => (columns (fst t), snd t)) j
  = match other with Some _ => [(labels, on)] | None => [] end.
Proof.
  unfold optional_table. destruct other as [df|]; intros H.
  - apply bind_ok in H. destruct H as [sel [Hs H]].
    injection H as <-. split.
    + repeat constructor. exact (select_well_formed _ _ _ Hs).
    + cbn. rewrite (select_columns _ _ _ Hs). reflexivity.
  - injection H as <-. split; [constructor | reflexivity].
Qed.

Lemma process_elections_shape (elections elec_clean : DataFrame) :
  process_elections elections = Ok elec_clean ->
  well_formed elec_clean = true /\
  columns elec_clean = ["county_fips"; "dem_pct"; "rep_pct"; "lean_score"].
Proof.
  unfold process_elections. intros H.
  apply bind_ok in H. destruct H as [e1 [_ H]].
  apply bind_ok in H. destruct H as [e2 [_ H]].
  apply bind_ok in H. destruct H as [e3 [_ H]].
  split; [exact (select_well_formed _ _ _ H) | exact (select_columns _ _ _ H)].
Qed.

Lemma joined_sources_shape (fs : FileSystem) (anchor : DataFrame)
  (js : list (DataFrame * string)) :
  joined_sources fs = Ok (anchor, js) ->
  well_formed anchor = true /\
  columns anchor = anchor_columns /\
  Forall (fun t => well_formed (fst t) = true) js /\
  map (fun t => (columns (fst t), snd t)) js
  = join_labels (available fs housing_4br_csv) (available fs housing_5br_csv)
      (available fs exotic_animals_csv) (available fs marijuana_csv).
Proof.
  unfold joined_sources. intros H.
  apply bind_ok in H. destruct H as [hg [_ H]].
  apply bind_ok in H. destruct H as [a [Ha H]].
  apply bind_ok in H. destruct H as [j4 [H4 H]].
  apply bind_ok in H. destruct H as [j5 [H5 H]].
  apply bind_ok in H. destruct H as [elections [_ H]].
  apply bind_ok in H. destruct H as [ec [Hec H]].
  apply bind_ok in H. destruct H as [gun_laws [_ H]].
  apply bind_ok in H. destruct H as [gl [Hgl H]].
  apply bind_ok in H. destruct H as [population [_ H]].
  apply bind_ok in H. destruct H as [pop [Hpop H]].
  apply bind_ok in H. destruct H as [ex [Hex H]].
  apply bind_ok in H. destruct H as [mj [Hmj H]].
  injection H as <- <-.
  destruct (process_general_shape _ _ Ha) as [wfa Hca].
  destruct (bedroom_table_shape _ _ _ H4) as [W4 C4].
  destruct (bedroom_table_shape _ _ _ H5) as [W5 C5].
  destruct (process_elections_shape _ _ Hec) as [Wec Cec].
  destruct (optional_table_shape _ _ _ _ Hex) as [Wex Cex].
  destruct (optional_table_shape _ _ _ _ Hmj) as [Wmj Cmj].
  pose proof (select_well_formed _ _ _ Hgl) as Wgl.
  pose proof (select_well_formed _ _ _ Hpop) as Wpop.
  repeat split; try assumption.
  - rewrite Forall_forall in W4, W5, Wex, Wmj.
    apply Forall_forall. intros t Ht.
    rewrite ?in_app_iff in Ht. cbn [In] in Ht. rewrite ?in_app_iff in Ht.
    intuition (subst; cbn [fst]; auto).
  - repeat first [rewrite map_app | progress cbn [map app fst snd]].
    rewrite C4, C5, Cex, Cmj.
    rewrite Cec, (select_columns _ _ _ Hgl), (select_columns _ _ _ Hpop).
    unfold join_labels, available, try_read_csv.
    destruct (read fs (data_path fs ++ housing_4br_csv)),
      (read fs (data_path fs ++ housing_5br_csv)),
      (read fs (data_path fs ++ exotic_animals_csv)),
      (read fs (data_path fs ++ marijuana_csv)); reflexivity.
Qed.

Lemma left_joins_columns (m m' : DataFrame) (js : list (DataFrame * string)) :
  left_joins m js = Ok m' ->
  columns m'
  = fold_left (fun c t => merge_columns c (fst t) (snd t))
      (map (fun t => (columns (fst t), snd t)) js) (columns m).
Proof.
  revert m. induction js as [|j js IH]; intros m H; cbn [left_joins] in H.
  - injection H as <-. reflexivity.
  - apply bind_ok in H. destruct H as [m1 [H1 H]].
    rewrite (IH _ H). cbn [map fold_left fst snd].
    destruct (merge_left_inv _ _ _ _ H1) as [i [k [_ [_ [-> _]]]]].
    reflexivity.
Qed.

Lemma left_joins_well_formed (m m' : DataFrame)
  (js : list (DataFrame * string)) :
  well_formed m = true ->
  Forall (fun t => well_formed (fst t) = true) js ->
  left_joins m js = Ok m' -> well_formed m' = true.
Proof.
  revert m. induction js as [|j js IH]; intros m wf Hjs H;
    cbn [left_joins] in H.
  - injection H as <-. exact wf.
  - apply bind_ok in H. destruct H as [m1 [H1 H]].
    inversion Hjs as [|? ? Hj Hjs']; subst.
    apply (IH m1); try assumption.
    exact (merge_left_well_formed _ _ _ _ wf Hj H1).
Qed.

(** The merged table is the chain's table: its columns and its shape. *)
Lemma merged_shape (fs : FileSystem) (anchor merged : DataFrame)
  (js : list (DataFrame * string)) :
  joined_sources fs = Ok (anchor, js) ->
  left_joins anchor js = Ok merged ->
  well_formed merged = true /\
  columns merged
  = merged_columns (available fs housing_4br_csv)
      (available fs housing_5br_csv) (available fs exotic_animals_csv)
      (available fs marijuana_csv).
Proof.
  intros Hj Hm.
  destruct (joined_sources_shape _ _ _ Hj) as [wfa [Hca [Wjs Cjs]]].
  split; [exact (left_joins_well_formed _ _ _ wfa Wjs Hm)|].
  rewrite (left_joins_columns _ _ _ Hm), Cjs, Hca.
  destruct (available fs housing_4br_csv), (available fs housing_5br_csv),
    (available fs exotic_animals_csv), (available fs marijuana_csv);
    reflexivity.
Qed.

(** ** Derived fields *)

Lemma extends_refl (l : list row) : Forall2 extends l l.
Proof. induction l; constructor; auto. exists []. symmetry. apply app_nil_r. Qed.

Lemma extends_trans (a b c : list row) :
  Forall2 extends a b -> Forall2 extends b c -> Forall2 extends a c.
Proof.
  intros Hab. revert c. induction Hab as [|x y a b [e1 ->] _ IH];
    intros c Hbc; inversion Hbc as [|? z ? c' [e2 ->] Hbc']; subst;
    constructor; auto.
  exists (e1 ++ e2). symmetry. apply app_assoc.
Qed.

Lemma zip_rows_extends (rs : list row) (vs : list cell) :
  List.length vs = List.length rs ->
  Forall2 extends rs (zip_rows (fun r x => r ++ [x]) rs vs).
Proof.
  revert vs. induction rs as [|r rs IH]; intros [|v vs] H; cbn in *;
    try discriminate; constructor.
  - exists [v]. reflexivity.
  - apply IH. lia.
Qed.

(** Assigning a new column appends one cell to every row. *)
Lemma setitem_fresh (df df' : DataFrame) (label : string) (v : list cell) :
  has_column df label = false -> setitem df label v = Ok df' ->
  columns df' = columns df ++ [label] /\
  Forall2 extends (rows df) (rows df').
Proof.
  unfold has_column. intros Hf H.
  destruct (setitem_inv _ _ _ _ H) as [Hl ->].
  destruct (col_index label (columns df)); [discriminate|].
  split; [reflexivity | apply zip_rows_extends, Hl].
Qed.

Lemma format_if_present_spec (df df' : DataFrame) (label : string) :
  well_formed df = true ->
  has_column df (label ++ "_formatted") = false ->
  format_if_present df label = Ok df' ->
  well_formed df' = true /\
  columns df'
  = columns df ++ when (has_column df label) [(label ++ "_formatted")%string] /\
  Forall2 extends (rows df) (rows df') /\
  (forall other, other <> (label ++ "_formatted")%string ->
     getitem df' other = getitem df other).
Proof.
  intros wf Hf. unfold format_if_present.
  destruct (has_column df label); cbn [when].
  - intros H. apply bind_ok in H. destruct H as [v [_ H]].
    apply bind_ok in H. destruct H as [s [_ H]].
    destruct (setitem_fresh _ _ _ _ Hf H) as [Hc Hr].
    repeat split; try assumption.
    + exact (setitem_well_formed _ _ _ _ wf H).
    + intros other Hne. exact (getitem_setitem_other _ _ _ _ wf H other Hne).
  - intros H. injection H as <-. rewrite app_nil_r.
    repeat split; auto. apply extends_refl.
Qed.

Lemma dropna_inv (df df' : DataFrame) (label : string) (i : nat) :
  col_index label (columns df) = Some i ->
  dropna df label = Ok df' ->
  df' = mkDF (columns df) (filter (fun r => notna (cell_at i r)) (rows df)).
Proof.
  unfold dropna, locate. intros -> H. cbn [bind] in H. congruence.
Qed.

Lemma filter_well_formed (df : DataFrame) (p : row -> bool) :
  well_formed df = true ->
  well_formed (mkDF (columns df) (filter p (rows df))) = true.
Proof.
  intros wf. apply rows_well_formed. intros r Hr.
  apply filter_In in Hr. destruct Hr as [Hr _].
  exact (well_formed_rows df wf r Hr).
Qed.

Lemma Forall2_of_map {A B C : Type} (P : B -> C -> Prop) (g : A -> B)
  (l : list A) (s : list C) :
  Forall2 P (map g l) s -> Forall2 (fun a c => P (g a) c) l s.
Proof.
  revert s. induction l as [|a l IH]; intros s H; inversion H; subst;
    constructor; auto.
Qed.

Section DeriveFields.

Variables merged out : DataFrame.
Variables b4 b5 bex bmj : bool.
Hypothesis wf : well_formed merged = true.
Hypothesis cols : columns merged = merged_columns b4 b5 bex bmj.
Hypothesis derived : derive_fields merged = Ok out.

Let kept : list row := filter (fun r => notna (home_value r)) (rows merged).

Ltac flags := destruct b4, b5, bex, bmj; reflexivity.

Lemma derive_fields_spec :
  well_formed out = true /\
  columns out = output_columns b4 b5 bex bmj /\
  Forall2 extends kept (rows out) /\
  (exists formatted,
     getitem out "median_home_value_all_formatted" = Ok formatted /\
     Forall2 (fun r c => format_home_value (home_value r) = Ok c)
       kept formatted) /\
  (exists scores leans,
     getitem out "lean_score" = Ok scores /\
     getitem out "political_lean" = Ok leans /\
     Forall2 (fun s c => categorize_lean s = Ok c) scores leans) /\
  (exists grades,
     getitem out "gun_law_grade" = Ok grades /\
     getitem out "gun_law_strength" = Ok (map categorize_gun_law grades)).
Proof.
  pose proof derived as H. unfold derive_fields in H.
  apply bind_ok in H. destruct H as [m1 [Hdrop H]].
  apply (dropna_inv _ _ _ 4) in Hdrop; [|rewrite cols; flags].
  fold home_value in Hdrop. fold kept in Hdrop.
  assert (wf1 : well_formed m1 = true)
    by (subst m1; apply filter_well_formed, wf).
  assert (C1 : columns m1 = merged_columns b4 b5 bex bmj)
    by (subst m1; exact cols).
  assert (R1 : rows m1 = kept) by (subst m1; reflexivity).
  apply bind_ok in H. destruct H as [v [Hv H]].
  rewrite (getitem_located m1 _ 4) in Hv by (rewrite C1; flags).
  injection Hv as <-. rewrite R1 in H.
  apply bind_ok in H. destruct H as [s [Hs H]].
  apply bind_ok in H. destruct H as [m2 [S2 H]].
  assert (F2 : has_column m1 "median_home_value_all_formatted" = false)
    by (unfold has_column; rewrite C1; flags).
  destruct (setitem_fresh _ _ _ _ F2 S2) as [C2 R2].
  pose proof (setitem_well_formed _ _ _ _ wf1 S2) as wf2.
  pose proof (getitem_setitem_same _ _ _ _ wf1 S2) as G2.
  rewrite C1 in C2. rewrite R1 in R2.
  apply bind_ok in H. destruct H as [m3 [S3 H]].
  assert (F3 : has_column m2 ("median_home_value_4br" ++ "_formatted") = false)
    by (unfold has_column; rewrite C2; flags).
  destruct (format_if_present_spec _ _ _ wf2 F3 S3) as [wf3 [C3 [R3 G3]]].
  assert (P3 : has_column m2 "median_home_value_4br" = b4)
    by (unfold has_column; rewrite C2; flags).
  rewrite P3, C2 in C3.
  apply bind_ok in H. destruct H as [m4 [S4 H]].
  assert (F4 : has_column m3 ("median_home_value_5br" ++ "_formatted") = false)
    by (unfold has_column; rewrite C3; flags).
  destruct (format_if_present_spec _ _ _ wf3 F4 S4) as [wf4 [C4 [R4 G4]]].
  assert (P4 : has_column m3 "median_home_value_5br" = b5)
    by (unfold has_column; rewrite C3; flags).
  rewrite P4, C3 in C4.
  apply bind_ok in H. destruct H as [score [Hscore H]].
  apply bind_ok in H. destruct H as [pl [Hpl H]].
  apply bind_ok in H. destruct H as [m5 [S5 H]].
  assert (F5 : has_column m4 "political_lean" = false)
    by (unfold has_column; rewrite C4; flags).
  destruct (setitem_fresh _ _ _ _ F5 S5) as [C5 R5].
  pose proof (setitem_well_formed _ _ _ _ wf4 S5) as wf5.
  rewrite C4 in C5.
  apply bind_ok in H. destruct H as [grade [Hgrade S6]].
  assert (F6 : has_column m5 "gun_law_strength" = false)
    by (unfold has_column; rewrite C5; flags).
  destruct (setitem_fresh _ _ _ _ F6 S6) as [C6 R6].
  rewrite C5 in C6.
  split; [|split; [|split; [|split; [|split]]]].
  - exact (setitem_well_formed _ _ _ _ wf5 S6).
  - rewrite C6. unfold output_columns. rewrite <- !app_assoc. reflexivity.
  - eapply extends_trans; [exact R2|].
    eapply extends_trans; [exact R3|].
    eapply extends_trans; [exact R4|].
    eapply extends_trans; [exact R5 | exact R6].
  - exists s. split.
    + rewrite (getitem_setitem_other _ _ _ _ wf5 S6) by discriminate.
      rewrite (getitem_setitem_other _ _ _ _ wf4 S5) by discriminate.
      rewrite G4, G3 by discriminate. exact G2.
    + apply mapM_ok in Hs. apply Forall2_of_map in Hs. exact Hs.
  - exists score, pl. split; [|split].
    + rewrite (getitem_setitem_other _ _ _ _ wf5 S6) by discriminate.
      rewrite (getitem_setitem_other _ _ _ _ wf4 S5) by discriminate.
      exact Hscore.
    + rewrite (getitem_setitem_other _ _ _ _ wf5 S6) by discriminate.
      exact (getitem_setitem_same _ _ _ _ wf4 S5).
    + apply mapM_ok, Hpl.
  - exists grade. split.
    + rewrite (getitem_setitem_other _ _ _ _ wf5 S6) by discriminate.
      exact Hgrade.
    + exact (getitem_setitem_same _ _ _ _ wf5 S6).
Qed.

End DeriveFields.

(** ** The output table *)

Lemma sample_run : prepare_data sample_fs = Ok sample_output.
Proof. vm_compute. reflexivity. Qed.

(** Every run that returns went through a merged table of the expected
    columns. *)
Lemma prepare_data_merged (fs : FileSystem) (out : DataFrame) :
  prepare_data fs = Ok out ->
  exists anchor js merged,
    joined_sources fs = Ok (anchor, js) /\
    left_joins anchor js = Ok merged /\
    derive_fields merged = Ok out /\
    well_formed merged = true /\
    columns merged
    = merged_columns (available fs housing_4br_csv)
        (available fs housing_5br_csv) (available fs exotic_animals_csv)
        (available fs marijuana_csv).
Proof.
  intros H. destruct (prepare_data_joins _ _ H) as [anchor [js [merged [J [L D]]]]].
  destruct (merged_shape _ _ _ _ J L) as [wf Hc].
  exists anchor, js, merged. auto.
Qed.

Lemma merged_columns_length (b4 b5 bex bmj : bool) :
  (5 <= List.length (merged_columns b4 b5 bex bmj))%nat.
Proof. destruct b4, b5, bex, bmj; cbn; lia. Qed.

Lemma home_value_extends (r x : row) :
  extends r x -> (5 <= List.length r)%nat ->
  home_value x = home_value r /\ anchor_part x = anchor_part r.
Proof.
  intros [ext ->] Hl. unfold home_value, anchor_part. split.
  - apply cell_at_app_l. lia.
  - rewrite firstn_app. replace (5 - List.length r)%nat with O by lia.
    cbn [firstn]. apply app_nil_r.
Qed.

(** The rows of the output, against the rows of the merged table. *)
Lemma output_rows (merged out : DataFrame) (b4 b5 bex bmj : bool) :
  well_formed merged = true ->
  columns merged = merged_columns b4 b5 bex bmj ->
  derive_fields merged = Ok out ->
  map home_value (rows out)
  = map home_value (filter (fun r => notna (home_value r)) (rows merged)) /\
  map anchor_part (rows out)
  = map anchor_part (filter (fun r => notna (home_value r)) (rows merged)).
Proof.
  intros wf Hc Hd.
  destruct (derive_fields_spec _ _ _ _ _ _ wf Hc Hd) as [_ [_ [He _]]].
  assert (Hl : forall r, In r (filter (fun r => notna (home_value r))
                                      (rows merged)) ->
                         (5 <= List.length r)%nat).
  { intros r Hr. apply filter_In in Hr. destruct Hr as [Hr _].
    rewrite (well_formed_rows merged wf r Hr), Hc.
    apply merged_columns_length. }
  induction He as [|r x k o Hx _ IH]; [split; reflexivity|].
  destruct (home_value_extends r x Hx) as [E1 E2];
    [apply Hl; left; reflexivity|].
  destruct IH as [I1 I2]; [intros; apply Hl; right; assumption|].
  cbn [map]. rewrite E1, E2, I1, I2. split; reflexivity.
Qed.

Lemma filter_all {A : Type} (p : A -> bool) (l : list A) :
  (forall a, In a l -> p a = true) -> filter p l = l.
Proof.
  induction l as [|a l IH]; intros H; cbn [filter]; [reflexivity|].
  rewrite (H a (or_introl eq_refl)), IH; [reflexivity|].
  intros; apply H; right; assumption.
Qed.

(** C8.  Every row of the output table has an overall median home value,
    and dropping the rows without one from the output returns the output
    unchanged; on any table, dropping a second time changes nothing. *)
Theorem output_has_home_value :
  (forall fs out,
     prepare_data fs = Ok out ->
     col_index "median_home_value_all" (columns out) = Some 4%nat /\
     (forall r, In r (rows out) -> isna (cell_at 4 r) = false) /\
     dropna out "median_home_value_all" = Ok out) /\
  (forall df df' label,
     dropna df label = Ok df' -> dropna df' label = Ok df').
Proof.
  split.
  - intros fs out H.
    destruct (prepare_data_merged _ _ H)
      as [anchor [js [merged [_ [_ [Hd [wf Hc]]]]]]].
    destruct (derive_fields_spec _ _ _ _ _ _ wf Hc Hd) as [_ [Hco _]].
    destruct (output_rows _ _ _ _ _ _ wf Hc Hd) as [Hv _].
    assert (Hi : col_index "median_home_value_all" (columns out) = Some 4%nat).
    { rewrite Hco.
      destruct (available fs housing_4br_csv), (available fs housing_5br_csv),
        (available fs exotic_animals_csv), (available fs marijuana_csv);
        reflexivity. }
    assert (Hn : forall r, In r (rows out) -> notna (home_value r) = true).
    { intros r Hr.
      assert (Hin : In (home_value r) (map home_value (rows out)))
        by (apply in_map; exact Hr).
      rewrite Hv in Hin. apply in_map_iff in Hin.
      destruct Hin as [r0 [E Hr0]]. apply filter_In in Hr0.
      rewrite <- E. tauto. }
    split; [exact Hi|]. split.
    + intros r Hr. specialize (Hn r Hr). unfold notna, home_value in Hn.
      destruct (isna (cell_at 4 r)); [discriminate | reflexivity].
    + unfold dropna, locate. rewrite Hi. cbn [bind].
      rewrite (filter_all (fun r => notna (cell_at 4 r)) _ Hn).
      destruct out; reflexivity.
  - intros df df' label H. unfold dropna, locate in *.
    destruct (col_index label (columns df)) as [i|] eqn:E; [|discriminate].
    cbn [bind] in H. injection H as <-. cbn [columns rows].
    rewrite E. cbn [bind]. do 2 f_equal. apply filter_all. intros r Hr.
    apply filter_In in Hr. tauto.
Qed.

Lemma output_has_home_value_witness :
  col_index "median_home_value_all" (columns sample_output) = Some 4%nat /\
  (forall r, In r (rows sample_output) -> isna (cell_at 4 r) = false) /\
  dropna sample_output "median_home_value_all" = Ok sample_output.
Proof.
  apply (proj1 output_has_home_value sample_fs). vm_compute. reflexivity.
Defined.

Lemma format_home_value_present (c x : cell) :
  notna c = true -> format_home_value c = Ok x ->
  exists f, to_float c = Ok f /\ x = CStr (String "$" (format_f0 f)).
Proof.
  unfold format_home_value. intros ->.
  destruct c as [z | f | t]; cbn [to_float bind]; intros H;
    [| | discriminate]; injection H as <-; eauto.
Qed.

Lemma Forall2_through {A B C : Type} (R : A -> B -> Prop) (P : A -> C -> Prop)
  (l : list A) (k : list B) (m : list C) :
  Forall2 R l k -> Forall2 P l m ->
  Forall2 (fun b c => exists a, In a l /\ R a b /\ P a c) k m.
Proof.
  intros HR. revert m. induction HR as [|a b l k Hab _ IH]; intros m HP;
    inversion HP as [|? c ? m' Hac HP']; subst; constructor.
  - exists a. cbn. auto.
  - specialize (IH m' HP').
    eapply Forall2_impl; [|exact IH].
    intros b' c' [a' [Hin [? ?]]]. exists a'. cbn. auto.
Qed.

(** C10.  In every output row the formatted overall home value is the
    currency string of the row's own value, a dollar sign followed by the
    figure, and so never "N/A"; the formatted 4-bedroom value of a row can
    be "N/A". *)
Theorem formatted_home_value_never_na :
  (forall fs out,
     prepare_data fs = Ok out ->
     exists formatted,
       getitem out "median_home_value_all_formatted" = Ok formatted /\
       Forall2 (fun r c =>
                  (exists f, to_float (home_value r) = Ok f /\
                             c = CStr (String "$" (format_f0 f))) /\
                  c <> CStr "N/A")
         (rows out) formatted) /\
  (exists fs out formatted,
     prepare_data fs = Ok out /\
     getitem out "median_home_value_4br_formatted" = Ok formatted /\
     In (CStr "N/A") formatted).
Proof.
  split.
  - intros fs out H.
    destruct (prepare_data_merged _ _ H)
      as [anchor [js [merged [_ [_ [Hd [wf Hc]]]]]]].
    destruct (derive_fields_spec _ _ _ _ _ _ wf Hc Hd)
      as [_ [_ [He [[formatted [Hg Hf]] _]]]].
    exists formatted. split; [exact Hg|].
    eapply Forall2_impl; [|exact (Forall2_through _ _ _ _ _ He Hf)].
    intros x c [r [Hr [Hx Hfr]]]. cbv beta in Hfr.
    apply filter_In in Hr. destruct Hr as [Hr Hn].
    destruct (home_value_extends r x Hx) as [Ev _].
    { rewrite (well_formed_rows merged wf r Hr), Hc.
      apply merged_columns_length. }
    destruct (format_home_value_present _ _ Hn Hfr) as [f [Hto ->]].
    split; [|discriminate]. exists f. rewrite Ev. auto.
  - exists sample_fs, sample_output, [CStr "N/A"; CStr "$450,000"].
    split; [exact sample_run|]. split; [reflexivity | left; reflexivity].
Qed.

Lemma formatted_home_value_never_na_witness :
  exists formatted,
    getitem sample_output "median_home_value_all_formatted" = Ok formatted /\
    Forall2 (fun r c =>
               (exists f, to_float (home_value r) = Ok f /\
                          c = CStr (String "$" (format_f0 f))) /\
               c <> CStr "N/A")
      (rows sample_output) formatted.
Proof.
  apply (proj1 formatted_home_value_never_na sample_fs).
  vm_compute. reflexivity.
Defined.

(** ** Categories of the output *)

Lemma categorize_lean_missing (s c : cell) :
  categorize_lean s = Ok c -> isna s = true -> c = CStr "Unknown".
Proof.
  unfold categorize_lean. intros H Hn. rewrite Hn in H. congruence.
Qed.

(** Every run that returns stores, row by row, the category of the row's
    lean score and of its gun law grade. *)
Lemma output_categories (fs : FileSystem) (out : DataFrame) :
  prepare_data fs = Ok out ->
  (exists scores leans,
     getitem out "lean_score" = Ok scores /\
     getitem out "political_lean" = Ok leans /\
     Forall2 (fun s c => categorize_lean s = Ok c) scores leans) /\
  (exists grades,
     getitem out "gun_law_grade" = Ok grades /\
     getitem out "gun_law_strength" = Ok (map categorize_gun_law grades)).
Proof.
  intros H.
  destruct (prepare_data_merged _ _ H)
    as [anchor [js [merged [_ [_ [Hd [wf Hc]]]]]]].
  destruct (derive_fields_spec _ _ _ _ _ _ wf Hc Hd) as [_ [_ [_ [_ Hk]]]].
  exact Hk.
Qed.

(** ** Left joins keep the anchor rows *)

Lemma flat_map_extends (J : row -> list row) (rs : list row) :
  (forall r x, In r rs -> In x (J r) -> extends r x) ->
  (forall r, In r rs -> J r <> []) ->
  (forall x, In x (flat_map J rs) -> exists r, In r rs /\ extends r x) /\
  (forall r, In r rs -> exists x, In x (flat_map J rs) /\ extends r x).
Proof.
  intros He Hn. split.
  - intros x Hx. apply in_flat_map in Hx. destruct Hx as [r [Hr Hx]]. eauto.
  - intros r Hr. destruct (J r) as [|x k] eqn:E; [exfalso; exact (Hn r Hr E)|].
    exists x. split.
    + apply in_flat_map. exists r. rewrite E. cbn. auto.
    + apply He; [exact Hr | rewrite E; left; reflexivity].
Qed.

Lemma flat_map_singletons (J : row -> list row) (rs : list row) :
  (forall r, In r rs -> exists ext, J r = [r ++ ext]) ->
  Forall2 extends rs (flat_map J rs).
Proof.
  induction rs as [|r rs IH]; intros H; cbn [flat_map]; [constructor|].
  destruct (H r (or_introl eq_refl)) as [ext ->]. cbn [app].
  constructor; [exists ext; reflexivity|].
  apply IH. intros; apply H; right; assumption.
Qed.

Lemma merge_left_anchor (m t m' : DataFrame) (on : string) :
  well_formed t = true -> merge_left m t on = Ok m' ->
  (forall x, In x (rows m') -> exists r, In r (rows m) /\ extends r x) /\
  (forall r, In r (rows m) -> exists x, In x (rows m') /\ extends r x) /\
  (unique_on t on = true -> Forall2 extends (rows m) (rows m')).
Proof.
  intros wft H.
  destruct (merge_left_inv _ _ _ _ H) as [i [j [Hi [Hj [_ ->]]]]].
  apply col_index_bound in Hj as Hjb. destruct Hjb as [Hjb _].
  destruct (flat_map_extends (joined_rows i j t) (rows m)) as [H1 H2].
  - intros r x _ Hx.
    destruct (joined_rows_shape _ _ _ _ _ wft Hjb Hx) as [ext [-> _]].
    exists ext. reflexivity.
  - intros r _. apply joined_rows_nonempty.
  - split; [exact H1|]. split; [exact H2|].
    intros Hu. apply flat_map_singletons.
    intros r _. exact (joined_rows_unique i j t on r Hu Hj).
Qed.

Lemma extends_compose (a b c : row) : extends a b -> extends b c -> extends a c.
Proof.
  intros [e1 ->] [e2 ->]. exists (e1 ++ e2). symmetry. apply app_assoc.
Qed.

Lemma left_joins_anchor (m m' : DataFrame) (js : list (DataFrame * string)) :
  Forall (fun t => well_formed (fst t) = true) js ->
  left_joins m js = Ok m' ->
  (forall x, In x (rows m') -> exists r, In r (rows m) /\ extends r x) /\
  (forall r, In r (rows m) -> exists x, In x (rows m') /\ extends r x) /\
  (Forall (fun t => unique_on (fst t) (snd t) = true) js ->
   Forall2 extends (rows m) (rows m')).
Proof.
  revert m. induction js as [|j js IH]; intros m Wjs H; cbn [left_joins] in H.
  - injection H as <-. repeat split.
    + intros x Hx. exists x. split; [exact Hx | exists []; symmetry; apply app_nil_r].
    + intros r Hr. exists r. split; [exact Hr | exists []; symmetry; apply app_nil_r].
    + intros _. apply extends_refl.
  - apply bind_ok in H. destruct H as [m1 [H1 H]].
    inversion Wjs as [|? ? Wj Wjs']; subst.
    destruct (merge_left_anchor _ _ _ _ Wj H1) as [A1 [A2 A3]].
    destruct (IH m1 Wjs' H) as [B1 [B2 B3]].
    split; [|split].
    + intros x Hx. destruct (B1 x Hx) as [r1 [Hr1 E1]].
      destruct (A1 r1 Hr1) as [r [Hr E]].
      exists r. split; [exact Hr | exact (extends_compose _ _ _ E E1)].
    + intros r Hr. destruct (A2 r Hr) as [r1 [Hr1 E]].
      destruct (B2 r1 Hr1) as [x [Hx E1]].
      exists x. split; [exact Hx | exact (extends_compose _ _ _ E E1)].
    + intros Hu. inversion Hu as [|? ? Uj Ujs]; subst.
      exact (extends_trans _ _ _ (A3 Uj) (B3 Ujs)).
Qed.

Lemma anchor_rows (anchor : DataFrame) :
  well_formed anchor = true -> columns anchor = anchor_columns ->
  forall a, In a (rows anchor) -> List.length a = 5%nat.
Proof.
  intros wf Hc a Ha. rewrite (well_formed_rows anchor wf a Ha), Hc. reflexivity.
Qed.

Lemma anchor_part_extends (a r : row) :
  List.length a = 5%nat -> extends a r ->
  anchor_part r = a /\ home_value r = home_value a.
Proof.
  intros Hl He. destruct (home_value_extends a r He) as [E1 E2]; [lia|].
  split; [|exact E1]. rewrite E2. unfold anchor_part.
  rewrite <- Hl. apply firstn_all.
Qed.

Lemma filter_extends (p : cell -> bool) (l k : list row) :
  Forall2 extends l k ->
  (forall a, In a l -> List.length a = 5%nat) ->
  map anchor_part (filter (fun r => p (home_value r)) k)
  = filter (fun a => p (home_value a)) l.
Proof.
  induction 1 as [|a r l k Hx _ IH]; intros Hl; [reflexivity|].
  destruct (anchor_part_extends a r (Hl a (or_introl eq_refl)) Hx) as [E1 E2].
  cbn [filter]. rewrite E2.
  destruct (p (home_value a)); cbn [map]; rewrite ?E1, IH; auto;
    intros; apply Hl; right; assumption.
Qed.

(** C9.  The merged table comes from the overall-housing anchor by left
    joins only.  Every anchor row is the anchor part of some merged row and
    every merged row has an anchor row as its anchor part, whatever
    matches; a left row without a match gets missing values in the joined
    columns; and when each joined table has at most one row per key, the
    merged table has exactly the anchor rows, in order, and the output has
    exactly one row per anchor row with a home value. *)
Theorem left_joins_keep_every_county :
  (forall fs out,
     prepare_data fs = Ok out ->
     exists anchor js merged,
       joined_sources fs = Ok (anchor, js) /\
       left_joins anchor js = Ok merged /\
       derive_fields merged = Ok out /\
       (forall a, In a (rows anchor) ->
          exists r, In r (rows merged) /\ anchor_part r = a) /\
       (forall r, In r (rows merged) -> In (anchor_part r) (rows anchor)) /\
       (forall a, In a (rows anchor) -> isna (home_value a) = false ->
          exists x, In x (rows out) /\ anchor_part x = a) /\
       (forall x, In x (rows out) ->
          In (anchor_part x) (rows anchor) /\ isna (home_value x) = false) /\
       (Forall (fun t => unique_on (fst t) (snd t) = true) js ->
        map anchor_part (rows merged) = rows anchor /\
        map anchor_part (rows out)
        = filter (fun a => notna (home_value a)) (rows anchor))) /\
  (forall left right m on i j a,
     well_formed right = true ->
     merge_left left right on = Ok m ->
     col_index on (columns left) = Some i ->
     col_index on (columns right) = Some j ->
     In a (rows left) ->
     (forall b, In b (rows right) ->
        key_eqb (cell_at i a) (cell_at j b) = false) ->
     In (a ++ repeat NaN (List.length (columns right) - 1)) (rows m)).
Proof.
  split.
  - intros fs out H.
    destruct (prepare_data_merged _ _ H)
      as [anchor [js [merged [J [L [D [wf Hc]]]]]]].
    destruct (joined_sources_shape _ _ _ J) as [wfa [Hca [Wjs _]]].
    destruct (left_joins_anchor _ _ _ Wjs L) as [A1 [A2 A3]].
    pose proof (anchor_rows anchor wfa Hca) as Hl.
    destruct (output_rows _ _ _ _ _ _ wf Hc D) as [Hv Hp].
    assert (M1 : forall r, In r (rows merged) ->
                   exists a, In a (rows anchor) /\ anchor_part r = a
                             /\ home_value r = home_value a).
    { intros r Hr. destruct (A1 r Hr) as [a [Ha E]].
      destruct (anchor_part_extends a r (Hl a Ha) E) as [E1 E2]. eauto. }
    exists anchor, js, merged.
    split; [exact J|]. split; [exact L|]. split; [exact D|].
    split; [|split; [|split; [|split]]].
    + intros a Ha. destruct (A2 a Ha) as [r [Hr E]].
      exists r. split; [exact Hr|].
      exact (proj1 (anchor_part_extends a r (Hl a Ha) E)).
    + intros r Hr. destruct (M1 r Hr) as [a [Ha [<- _]]]. exact Ha.
    + intros a Ha Hn. destruct (A2 a Ha) as [r [Hr E]].
      destruct (anchor_part_extends a r (Hl a Ha) E) as [E1 E2].
      assert (Hin : In a (map anchor_part (rows out))).
      { rewrite Hp, <- E1. apply in_map, filter_In. split; [exact Hr|].
        unfold notna. rewrite E2, Hn. reflexivity. }
      apply in_map_iff in Hin. destruct Hin as [x [Ex Hx]]. eauto.
    + intros x Hx. split.
      * assert (Hin : In (anchor_part x) (map anchor_part (rows out)))
          by (apply in_map; exact Hx).
        rewrite Hp in Hin. apply in_map_iff in Hin.
        destruct Hin as [r [Er Hr]]. apply filter_In in Hr.
        destruct Hr as [Hr _]. destruct (M1 r Hr) as [a [Ha [Ea _]]].
        rewrite <- Er, Ea. exact Ha.
      * assert (Hin : In (home_value x) (map home_value (rows out)))
          by (apply in_map; exact Hx).
        rewrite Hv in Hin. apply in_map_iff in Hin.
        destruct Hin as [r [Er Hr]]. apply filter_In in Hr.
        destruct Hr as [_ Hn]. rewrite <- Er. unfold notna in Hn.
        destruct (isna (home_value r)); [discriminate | reflexivity].
    + intros Hu. specialize (A3 Hu). split.
      * pose proof (filter_extends (fun _ => true) _ _ A3 Hl) as F.
        rewrite !filter_all in F by reflexivity. exact F.
      * rewrite Hp. exact (filter_extends notna _ _ A3 Hl).
  - intros left right m on i j a wfr H Hi Hj Ha Hn.
    destruct (merge_left_inv _ _ _ _ H) as [i' [j' [Hi' [Hj' [_ ->]]]]].
    assert (i' = i) by congruence. assert (j' = j) by congruence. subst i' j'.
    apply in_flat_map. exists a. split; [exact Ha|].
    destruct (joined_rows_unmatched i j right a Hn) as [-> | Hb].
    + left. reflexivity.
    + exfalso. apply Hb. apply col_index_bound in Hj. tauto.
Qed.

(** On [sample_fs] no joined table repeats a key: the output is the two
    anchor rows that have a home value.  Autauga county has no population
    row and gets a missing population. *)
Lemma left_joins_keep_every_county_witness :
  map anchor_part (rows sample_output)
  = filter (fun a => notna (home_value a)) (rows sample_anchor) /\
  In ([CFloat (F64.of_Z 1001); CStr "Autauga County"; CStr "AL"; CStr "AL";
       NaN] ++ repeat NaN (List.length (columns sample_population) - 1))
     (rows (mkDF ["county_fips"; "county_name"; "state_name"; "state_code";
                  "median_home_value_all"; "population"]
                 [[CFloat (F64.of_Z 6001); CStr "Alameda County"; CStr "CA";
                   CStr "CA"; CFloat (F64.of_Z 1200000); CInt 1600000];
                  [CFloat (F64.of_Z 1001); CStr "Autauga County"; CStr "AL";
                   CStr "AL"; NaN; NaN];
                  [CFloat (F64.of_Z 1003); CStr "Baldwin County"; CStr "AL";
                   CStr "AL"; CFloat (F64.of_Z 350000); NaN]])).
Proof.
  split.
  - destruct (proj1 left_joins_keep_every_county sample_fs sample_output
                sample_run)
      as [anchor [js [merged [J [_ [_ [_ [_ [_ [_ H]]]]]]]]]].
    vm_compute in J. injection J as <- <-.
    apply H. repeat constructor.
  - apply (proj2 left_joins_keep_every_county sample_anchor sample_population
             _ "county_fips" 0%nat 0%nat); try reflexivity.
    + right. left. reflexivity.
    + intros b [<- | []]. reflexivity.
Defined.

(** ** Failed reads *)

Lemma bind_nre {A B : Type} (r : result A) (k : A -> result B) :
  no_read_error r -> (forall a, no_read_error (k a)) ->
  no_read_error (bind r k).
Proof. destruct r as [a | e |]; cbn [bind]; auto. Qed.

Lemma mapM_nre {A B : Type} (f : A -> result B) (l : list A) :
  (forall a, no_read_error (f a)) -> no_read_error (mapM f l).
Proof.
  intros H. induction l as [|a l IH]; cbn [mapM]; [exact I|].
  apply bind_nre; [apply H|]. intros b.
  apply bind_nre; [exact IH|]. intros bs. exact I.
Qed.

Lemma mapM2_nre {A B C : Type} (f : A -> B -> result C)
  (l : list A) (l' : list B) :
  (forall a b, no_read_error (f a b)) -> no_read_error (mapM2 f l l').
Proof.
  intros H. revert l'. induction l as [|a l IH]; intros [|b l'];
    cbn [mapM2]; try exact I.
  apply bind_nre; [apply H|]. intros c.
  apply bind_nre; [apply IH|]. intros cs. exact I.
Qed.

Create HintDb nre.

Ltac nre_step :=
  match goal with
  | |- no_read_error (bind _ _) => apply bind_nre; [|intros ?]
  | |- no_read_error (Ok _) => exact I
  | |- no_read_error (Raise _) => exact I
  | |- no_read_error OutOfModel => exact I
  | |- no_read_error (mapM _ _) => apply mapM_nre; intros ?
  | |- no_read_error (mapM2 _ _ _) => apply mapM2_nre; intros ? ?
  | |- no_read_error (match ?x with _ => _ end) => destruct x
  | |- no_read_error _ => solve [auto with nre]
  end.

Ltac nre := cbv zeta; repeat nre_step.

Lemma locate_nre df l : no_read_error (locate df l).
Proof. unfold locate. nre. Qed.
#[local] Hint Resolve locate_nre : nre.

Lemma getitem_nre df l : no_read_error (getitem df l).
Proof. unfold getitem. nre. Qed.
#[local] Hint Resolve getitem_nre : nre.

Lemma setitem_nre df l v : no_read_error (setitem df l v).
Proof. unfold setitem. nre. Qed.
#[local] Hint Resolve setitem_nre : nre.

Lemma setitem_scalar_nre df l v : no_read_error (setitem_scalar df l v).
Proof. unfold setitem_scalar. nre. Qed.
#[local] Hint Resolve setitem_scalar_nre : nre.

Lemma select_nre df ls : no_read_error (select df ls).
Proof. unfold select. nre. Qed.
#[local] Hint Resolve select_nre : nre.

Lemma set_columns_nre df ls : no_read_error (set_columns df ls).
Proof. unfold set_columns. nre. Qed.
#[local] Hint Resolve set_columns_nre : nre.

Lemma dropna_nre df l : no_read_error (dropna df l).
Proof. unfold dropna. nre. Qed.
#[local] Hint Resolve dropna_nre : nre.

Lemma merge_left_nre l r on : no_read_error (merge_left l r on).
Proof. unfold merge_left. nre. Qed.
#[local] Hint Resolve merge_left_nre : nre.

Lemma to_float_nre c : no_read_error (to_float c).
Proof. unfold to_float. nre. Qed.
#[local] Hint Resolve to_float_nre : nre.

Lemma cell_add_nre a b : no_read_error (cell_add a b).
Proof. unfold cell_add. nre. Qed.
#[local] Hint Resolve cell_add_nre : nre.

Lemma pct_nre a b : no_read_error (pct a b).
Proof. unfold pct, cell_truediv, cell_times_100, cell_round1. nre. Qed.
#[local] Hint Resolve pct_nre : nre.

Lemma lean_nre a b : no_read_error (lean a b).
Proof. unfold lean, cell_sub, cell_round1. nre. Qed.
#[local] Hint Resolve lean_nre : nre.

Lemma group_sum_nre recs g p : no_read_error (group_sum recs g p).
Proof. unfold group_sum. nre. Qed.
#[local] Hint Resolve group_sum_nre : nre.

Lemma pivot_table_sum_nre df index cols values :
  no_read_error (pivot_table_sum df index cols values).
Proof. unfold pivot_table_sum, label_of, votes_of. nre. Qed.
#[local] Hint Resolve pivot_table_sum_nre : nre.

Lemma format_home_value_nre x : no_read_error (format_home_value x).
Proof. unfold format_home_value. nre. Qed.
#[local] Hint Resolve format_home_value_nre : nre.

Lemma categorize_lean_nre s : no_read_error (categorize_lean s).
Proof. unfold categorize_lean, gt_int. nre. Qed.
#[local] Hint Resolve categorize_lean_nre : nre.

Lemma county_fips_key_nre st mu : no_read_error (county_fips_key st mu).
Proof.
  unfold county_fips_key, county_key_str, astype_str, float_of_str. nre.
Qed.
#[local] Hint Resolve county_fips_key_nre : nre.

Lemma with_current_value_nre df l : no_read_error (with_current_value df l).
Proof. unfold with_current_value, county_fips, last_item. nre. Qed.
#[local] Hint Resolve with_current_value_nre : nre.

Lemma process_general_nre hg : no_read_error (process_general hg).
Proof. unfold process_general. nre. Qed.
#[local] Hint Resolve process_general_nre : nre.

Lemma add_bedrooms_nre hc br l : no_read_error (add_bedrooms hc br l).
Proof. unfold add_bedrooms. nre. Qed.
#[local] Hint Resolve add_bedrooms_nre : nre.

Lemma vote_shares_nre ep : no_read_error (vote_shares ep).
Proof. unfold vote_shares, default_zero. nre. Qed.
#[local] Hint Resolve vote_shares_nre : nre.

Lemma process_elections_nre e : no_read_error (process_elections e).
Proof. unfold process_elections, where_eq. nre. Qed.
#[local] Hint Resolve process_elections_nre : nre.

Lemma merge_all_nre hc ec gl pop ex mj :
  no_read_error (merge_all hc ec gl pop ex mj).
Proof. unfold merge_all, merge_optional. nre. Qed.
#[local] Hint Resolve merge_all_nre : nre.

Lemma derive_fields_nre m : no_read_error (derive_fields m).
Proof. unfold derive_fields, format_if_present. nre. Qed.
#[local] Hint Resolve derive_fields_nre : nre.

Lemma bind_raise {A B : Type} (r : result A) (k : A -> result B) (e : exn) :
  bind r k = Raise e -> r = Raise e \/ exists a, r = Ok a /\ k a = Raise e.
Proof.
  destruct r as [a | e' |]; cbn [bind]; intros H;
    [right; eauto | left; congruence | discriminate].
Qed.

Lemma nre_not_raised {A : Type} (r : result A) (p : string) :
  no_read_error r -> r <> Raise (FileNotFoundError p).
Proof. intros H ->. exact H. Qed.

Lemma read_csv_raise (fs : FileSystem) (path p : string) :
  read_csv fs path = Raise (FileNotFoundError p) -> p = path.
Proof.
  unfold read_csv. destruct (read fs path); intros H; [discriminate|].
  congruence.
Qed.

(** A failed read that stops the script is the read of a required file. *)
Lemma prepare_data_read_errors (fs : FileSystem) (p : string) :
  prepare_data fs = Raise (FileNotFoundError p) ->
  In p (map (String.append (data_path fs)) required_files).
Proof.
  unfold prepare_data, required_files. cbn [map In]. intros H.
  apply bind_raise in H. destruct H as [H | [hg [_ H]]];
    [apply read_csv_raise in H; auto|].
  apply bind_raise in H. destruct H as [H | [hc0 [_ H]]];
    [exfalso; exact (nre_not_raised _ p (process_general_nre _) H)|].
  apply bind_raise in H. destruct H as [H | [hc1 [_ H]]];
    [exfalso; exact (nre_not_raised _ p (add_bedrooms_nre _ _ _) H)|].
  apply bind_raise in H. destruct H as [H | [hc [_ H]]];
    [exfalso; exact (nre_not_raised _ p (add_bedrooms_nre _ _ _) H)|].
  apply bind_raise in H. destruct H as [H | [el [_ H]]];
    [apply read_csv_raise in H; auto|].
  apply bind_raise in H. destruct H as [H | [ec [_ H]]];
    [exfalso; exact (nre_not_raised _ p (process_elections_nre _) H)|].
  apply bind_raise in H. destruct H as [H | [gl [_ H]]];
    [apply read_csv_raise in H; auto|].
  apply bind_raise in H. destruct H as [H | [pop [_ H]]];
    [apply read_csv_raise in H; auto 6|].
  apply bind_raise in H. destruct H as [H | [m [_ H]]];
    [exfalso; exact (nre_not_raised _ p (merge_all_nre _ _ _ _ _ _) H)|].
  exfalso. exact (nre_not_raised _ p (derive_fields_nre _) H).
Qed.

Lemma optional_not_required (fs : FileSystem) (file : string) :
  In file optional_files ->
  ~ In (data_path fs ++ file)%string
       (map (String.append (data_path fs)) required_files).
Proof.
  unfold optional_files, required_files, data_path.
  destruct (data_dir_exists fs); cbn [In];
    intros [<- | [<- | [<- | [<- | []]]]]; intros H;
    vm_compute in H; intuition discriminate.
Qed.

(** ** Runs with fewer optional files *)

Lemma mem_in (s : string) (l : list string) : mem s l = true <-> In s l.
Proof.
  unfold mem. rewrite existsb_exists. split.
  - intros [x [Hx E]]. apply String.eqb_eq in E. subst. exact Hx.
  - intros H. exists s. split; [exact H | apply String.eqb_refl].
Qed.

Lemma has_column_in (df : DataFrame) (c : string) :
  has_column df c = true <-> In c (columns df).
Proof.
  unfold has_column.
  destruct (col_index c (columns df)) as [k|] eqn:E.
  - split; [|reflexivity]. intros _.
    apply col_index_bound in E. exact (nth_error_In _ _ (proj2 E)).
  - apply col_index_none in E. split; [discriminate | contradiction].
Qed.

Lemma has_column_index (df : DataFrame) (c : string) :
  has_column df c = true -> exists k, col_index c (columns df) = Some k.
Proof.
  unfold has_column. destruct (col_index c (columns df)); [eauto | discriminate].
Qed.

Lemma remove_nth_incl {A : Type} (k : nat) (l : list A) (a : A) :
  In a (remove_nth k l) -> In a l.
Proof.
  revert k. induction l as [|b l IH]; intros [|k]; cbn; auto.
  intros [-> | H]; [auto | right; exact (IH k H)].
Qed.

Lemma map_same {A : Type} (f : A -> A) (l : list A) :
  (forall a, In a l -> f a = a) -> map f l = l.
Proof.
  induction l as [|a l IH]; intros H; cbn [map]; [reflexivity|].
  rewrite (H a (or_introl eq_refl)), IH; [reflexivity|].
  intros; apply H; right; assumption.
Qed.

(** Labels that are new get no suffix: the columns of the join are those
    of the left table followed by those of the right one but the key. *)
Lemma merge_columns_fresh (lcols rcols : list string) (on : string)
  (i j : nat) :
  col_index on lcols = Some i -> col_index on rcols = Some j ->
  forallb (fun c => negb (mem c lcols)) (remove_nth j rcols) = true ->
  merge_columns lcols rcols on = lcols ++ remove_nth j rcols.
Proof.
  intros Hi Hj Hf. unfold merge_columns. rewrite Hi, Hj.
  rewrite forallb_forall in Hf.
  assert (Hn : forall c, In c (remove_nth j rcols) -> ~ In c lcols).
  { intros c Hc Hl. specialize (Hf c Hc). apply mem_in in Hl.
    rewrite Hl in Hf. discriminate. }
  f_equal; apply map_same; intros c Hc.
  - destruct (mem c (remove_nth j rcols)) eqn:E; [|rewrite andb_false_r; reflexivity].
    apply mem_in in E. exfalso. exact (Hn c E Hc).
  - destruct (mem c (remove_nth i lcols)) eqn:E; [|reflexivity].
    apply mem_in in E. apply remove_nth_incl in E. exfalso. exact (Hn c Hc E).
Qed.

(** A cell of a row that continues another one. *)
Lemma field_app (df : DataFrame) (cols rest : list string) (c : string)
  (l p : row) :
  columns df = cols ++ rest -> List.length l = List.length cols ->
  field df c (l ++ p)
  = match col_index c cols with
    | Some k => cell_at k l
    | None => match col_index c rest with
              | Some q => cell_at q p
              | None => NaN
              end
    end.
Proof.
  intros Hc Hl. unfold field. rewrite Hc, col_index_app.
  destruct (col_index c cols) as [k|] eqn:E.
  - apply cell_at_app_l. apply col_index_bound in E. lia.
  - destruct (col_index c rest) as [q|]; cbn [option_map]; [|reflexivity].
    rewrite <- Hl. apply cell_at_app_r.
Qed.

Lemma column_kind_ext (l l' : list cell) :
  (forall x, In x l <-> In x l') -> column_kind l = column_kind l'.
Proof.
  intros H.
  assert (F : forall p, forallb p l = forallb p l').
  { intros p. destruct (forallb p l) eqn:E; symmetry.
    - rewrite forallb_forall in *. intros x Hx. apply E, H, Hx.
    - destruct (forallb p l') eqn:E'; [|reflexivity].
      rewrite forallb_forall in E'.
      assert (forallb p l = true)
        by (apply forallb_forall; intros x Hx; apply E', H, Hx).
      congruence. }
  unfold column_kind. rewrite !F.
  destruct l as [|a l], l' as [|a' l']; try reflexivity.
  - exfalso. apply (proj2 (H a')). left. reflexivity.
  - exfalso. apply (proj1 (H a)). left. reflexivity.
Qed.

(** What a left join returns, with what it checked. *)
Lemma merge_left_ok (left right m : DataFrame) (on : string) :
  merge_left left right on = Ok m <->
  exists i j,
    col_index on (columns left) = Some i /\
    col_index on (columns right) = Some j /\
    same_kind (column_kind (map (cell_at i) (rows left)))
              (column_kind (map (cell_at j) (rows right))) = true /\
    m = mkDF (merge_columns (columns left) (columns right) on)
             (flat_map (joined_rows i j right) (rows left)).
Proof.
  unfold merge_left, locate, merge_columns. split.
  - destruct (col_index on (columns left)) as [i|]; [|discriminate].
    destruct (col_index on (columns right)) as [j|]; [|discriminate].
    cbn [bind]. destruct (same_kind _ _) eqn:E; cbn [negb]; [|discriminate].
    intros H. injection H as <-. exists i, j. auto.
  - intros [i [j [Hi [Hj [Hk ->]]]]]. rewrite Hi, Hj. cbn [bind].
    rewrite Hk. reflexivity.
Qed.

(** Two left rows with the same key get the same right rows. *)
Lemma joined_rows_same_key (i i' j : nat) (right : DataFrame) (l l' x' : row) :
  cell_at i' l' = cell_at i l ->
  In x' (joined_rows i' j right l') ->
  exists p, x' = l' ++ p /\ In (l ++ p) (joined_rows i j right l).
Proof.
  intros Hk. unfold joined_rows. rewrite Hk.
  destruct (filter _ (rows right)) as [|r0 ms].
  - intros [<- | []]. eexists. split; [reflexivity | left; reflexivity].
  - intros Hx. apply in_map_iff in Hx. destruct Hx as [r [<- Hr]].
    eexists. split; [reflexivity|].
    apply in_map_iff. exists r. auto.
Qed.
Lemma agree_joined (M M' N N' : DataFrame) (rest : list string)
  (l l' p : row) :
  columns N = columns M ++ rest -> columns N' = columns M' ++ rest ->
  List.length l = List.length (columns M) ->
  List.length l' = List.length (columns M') ->
  (forall c, In c rest -> ~ In c (columns M)) ->
  (forall c, has_column M' c = true -> has_column M c = true) ->
  agree M M' l l' -> agree N N' (l ++ p) (l' ++ p).
Proof.
  intros CN CN' Hl Hl' Hfresh Hsub Ha c Hc.
  rewrite (field_app N' _ _ c l' p CN' Hl'), (field_app N _ _ c l p CN Hl).
  destruct (col_index c (columns M')) as [k'|] eqn:E'.
  - assert (H' : has_column M' c = true)
      by (unfold has_column; rewrite E'; reflexivity).
    specialize (Ha c H'). unfold field in Ha. rewrite E' in Ha.
    apply Hsub in H'. destruct (has_column_index _ _ H') as [k Ek].
    rewrite Ek in *. exact Ha.
  - destruct (col_index c rest) as [q|] eqn:Eq.
    + destruct (col_index c (columns M)) as [k|] eqn:E; [|reflexivity].
      exfalso. apply (Hfresh c).
      * apply col_index_bound in Eq. exact (nth_error_In _ _ (proj2 Eq)).
      * apply col_index_bound in E. exact (nth_error_In _ _ (proj2 E)).
    + exfalso. apply has_column_in in Hc. rewrite CN', in_app_iff in Hc.
      apply col_index_none in E', Eq. tauto.
Qed.

Lemma agree_longer (M M' N : DataFrame) (rest : list string) (l l' p : row) :
  columns N = columns M ++ rest ->
  List.length l = List.length (columns M) ->
  (forall c, has_column M' c = true -> has_column M c = true) ->
  agree M M' l l' -> agree N M' (l ++ p) l'.
Proof.
  intros CN Hl Hsub Ha c Hc. rewrite (Ha c Hc).
  rewrite (field_app N _ _ c l p CN Hl). unfold field.
  destruct (has_column_index _ _ (Hsub c Hc)) as [k ->]. reflexivity.
Qed.

Lemma fresh_not_in (cols rest : list string) :
  forallb (fun c => negb (mem c cols)) rest = true ->
  forall c, In c rest -> ~ In c cols.
Proof.
  intros Hf c Hc Hl. rewrite forallb_forall in Hf. specialize (Hf c Hc).
  apply mem_in in Hl. rewrite Hl in Hf. discriminate.
Qed.

(** A left join keeps two tables the same view of each other when both
    take it. *)
Lemma merge_left_views (M M' t N : DataFrame) (on : string) (j : nat) :
  well_formed M = true -> well_formed M' = true -> well_formed t = true ->
  same_views M M' ->
  has_column M' on = true ->
  col_index on (columns t) = Some j ->
  forallb (fun c => negb (mem c (columns M))) (remove_nth j (columns t))
  = true ->
  merge_left M t on = Ok N ->
  columns N = columns M ++ remove_nth j (columns t) /\
  exists N',
    merge_left M' t on = Ok N' /\
    columns N' = columns M' ++ remove_nth j (columns t) /\
    same_views N N'.
Proof.
  intros wfM wfM' wft [Hsub [Hr' Hr]] Hon Hj Hf H.
  apply merge_left_ok in H. destruct H as [i [j0 [Hi [Hj0 [Hk ->]]]]].
  assert (j0 = j) by congruence. subst j0.
  destruct (has_column_index _ _ Hon) as [i' Hi'].
  pose proof (fresh_not_in _ _ Hf) as Hfresh.
  assert (Hf' : forallb (fun c => negb (mem c (columns M')))
                  (remove_nth j (columns t)) = true).
  { apply forallb_forall. intros c Hc.
    destruct (mem c (columns M')) eqn:E; [|reflexivity].
    exfalso. apply (Hfresh c Hc). apply has_column_in, Hsub, has_column_in.
    apply mem_in, E. }
  assert (Hkey : forall l l', agree M M' l l' -> cell_at i' l' = cell_at i l).
  { intros l l' Ha. specialize (Ha on Hon). unfold field in Ha.
    rewrite Hi', Hi in Ha. exact Ha. }
  assert (Hjb : (j < List.length (columns t))%nat)
    by (apply col_index_bound in Hj; tauto).
  cbn [columns]. rewrite (merge_columns_fresh _ _ _ _ _ Hi Hj Hf).
  split; [reflexivity|].
  exists (mkDF (merge_columns (columns M') (columns t) on)
               (flat_map (joined_rows i' j t) (rows M'))).
  split; [|split].
  - apply merge_left_ok. exists i', j. repeat split; try assumption.
    rewrite (column_kind_ext (map (cell_at i') (rows M'))
               (map (cell_at i) (rows M))); [exact Hk|].
    intros x. rewrite !in_map_iff. split.
    + intros [l' [<- Hl']]. destruct (Hr' l' Hl') as [l [Hl Ha]].
      exists l. split; [symmetry; exact (Hkey l l' Ha) | exact Hl].
    + intros [l [<- Hl]]. destruct (Hr l Hl) as [l' [Hl' Ha]].
      exists l'. split; [exact (Hkey l l' Ha) | exact Hl'].
  - cbn [columns]. exact (merge_columns_fresh _ _ _ _ _ Hi' Hj Hf').
  - rewrite (merge_columns_fresh _ _ _ _ _ Hi' Hj Hf').
    split; [|split].
    + intros c. rewrite !has_column_in. cbn [columns]. rewrite !in_app_iff.
      intros [Hc | Hc]; [left | right; exact Hc].
      apply has_column_in, Hsub, has_column_in, Hc.
    + cbn [rows]. intros x' Hx'. apply in_flat_map in Hx'.
      destruct Hx' as [l' [Hl' Hx']]. destruct (Hr' l' Hl') as [l [Hl Ha]].
      destruct (joined_rows_same_key i i' j t l l' x' (Hkey l l' Ha) Hx')
        as [p [-> Hp]].
      exists (l ++ p). split; [apply in_flat_map; eauto|].
      apply (agree_joined M M' _ _ (remove_nth j (columns t)));
        try reflexivity; try assumption.
      * exact (well_formed_rows M wfM l Hl).
      * exact (well_formed_rows M' wfM' l' Hl').
    + cbn [rows]. intros x Hx. apply in_flat_map in Hx.
      destruct Hx as [l [Hl Hx]]. destruct (Hr l Hl) as [l' [Hl' Ha]].
      destruct (joined_rows_same_key i' i j t l' l x
                  (eq_sym (Hkey l l' Ha)) Hx) as [p [-> Hp]].
      exists (l' ++ p). split; [apply in_flat_map; eauto|].
      apply (agree_joined M M' _ _ (remove_nth j (columns t)));
        try reflexivity; try assumption.
      * exact (well_formed_rows M wfM l Hl).
      * exact (well_formed_rows M' wfM' l' Hl').
Qed.

(** A left join keeps a table the view of another one that skips it. *)
Lemma merge_left_views_skip (M M' t N : DataFrame) (on : string) (j : nat) :
  well_formed M = true -> well_formed t = true ->
  same_views M M' ->
  col_index on (columns t) = Some j ->
  forallb (fun c => negb (mem c (columns M))) (remove_nth j (columns t))
  = true ->
  merge_left M t on = Ok N ->
  columns N = columns M ++ remove_nth j (columns t) /\ same_views N M'.
Proof.
  intros wfM wft [Hsub [Hr' Hr]] Hj Hf H.
  apply merge_left_ok in H. destruct H as [i [j0 [Hi [Hj0 [Hk ->]]]]].
  assert (j0 = j) by congruence. subst j0.
  assert (Hjb : (j < List.length (columns t))%nat)
    by (apply col_index_bound in Hj; tauto).
  cbn [columns]. rewrite (merge_columns_fresh _ _ _ _ _ Hi Hj Hf).
  split; [reflexivity|]. split; [|split].
  - intros c Hc. apply has_column_in. cbn [columns]. apply in_app_iff. left.
    apply has_column_in, Hsub, Hc.
  - cbn [rows]. intros l' Hl'. destruct (Hr' l' Hl') as [l [Hl Ha]].
    destruct (joined_rows i j t l) as [|x xs] eqn:E;
      [exfalso; exact (joined_rows_nonempty i j t l E)|].
    assert (Hx : In x (joined_rows i j t l)) by (rewrite E; left; reflexivity).
    destruct (joined_rows_shape _ _ _ _ _ wft Hjb Hx) as [p [-> _]].
    exists (l ++ p). split; [apply in_flat_map; eauto|].
    apply (agree_longer M M' _ (remove_nth j (columns t)));
      try reflexivity; try assumption.
    exact (well_formed_rows M wfM l Hl).
  - cbn [rows]. intros x Hx. apply in_flat_map in Hx.
    destruct Hx as [l [Hl Hx]]. destruct (Hr l Hl) as [l' [Hl' Ha]].
    destruct (joined_rows_shape _ _ _ _ _ wft Hjb Hx) as [p [-> _]].
    exists l'. split; [exact Hl'|].
    apply (agree_longer M M' _ (remove_nth j (columns t)));
      try reflexivity; try assumption.
    exact (well_formed_rows M wfM l Hl).
Qed.

Lemma has_column_app (M N : DataFrame) (rest : list string) (c : string) :
  columns N = columns M ++ rest -> has_column M c = true ->
  has_column N c = true.
Proof.
  intros CN H. apply has_column_in. rewrite CN. apply in_app_iff. left.
  apply has_column_in, H.
Qed.

(** A chain of left joins with some of its tables left out: it returns
    when the whole chain does, a view of the table the whole chain
    returns. *)
Lemma left_joins_views (js js' : list (DataFrame * string)) :
  dropping js js' ->
  forall M0 M0' M,
    well_formed M0 = true -> well_formed M0' = true ->
    Forall (fun t => well_formed (fst t) = true) js ->
    same_views M0 M0' ->
    fresh_labels (columns M0) (map (fun t => (columns (fst t), snd t)) js)
    = true ->
    Forall (fun t => has_column M0' (snd t) = true) js ->
    left_joins M0 js = Ok M ->
    exists M', left_joins M0' js' = Ok M' /\ same_views M M'.
Proof.
  induction 1 as [|[t on] js js' _ IH | [t on] js js' _ IH];
    intros M0 M0' M wf wf' Wjs Hv Hf Hk H.
  - injection H as <-. exists M0'. split; [reflexivity | exact Hv].
  - cbn [left_joins fst snd] in *. apply bind_ok in H.
    destruct H as [N [HN H]].
    cbn [map fresh_labels fst snd] in Hf.
    destruct (col_index on (columns t)) as [j|] eqn:Hj; [|discriminate].
    apply andb_true_iff in Hf. destruct Hf as [Hf Hf'].
    inversion Wjs as [|? ? Wt Wjs']; subst.
    inversion Hk as [|? ? Kt Kjs]; subst. cbn [fst snd] in Wt, Kt.
    destruct (merge_left_views _ _ _ _ _ _ wf wf' Wt Hv Kt Hj Hf HN)
      as [CN [N' [HN' [CN' Hv']]]].
    rewrite HN'. cbn [bind].
    apply (IH N N' M); try assumption.
    + exact (merge_left_well_formed _ _ _ _ wf Wt HN).
    + exact (merge_left_well_formed _ _ _ _ wf' Wt HN').
    + rewrite CN. exact Hf'.
    + eapply Forall_impl; [|exact Kjs]. intros a Ha.
      exact (has_column_app M0' N' _ _ CN' Ha).
  - cbn [left_joins fst snd] in H. apply bind_ok in H.
    destruct H as [N [HN H]].
    cbn [map fresh_labels fst snd] in Hf.
    destruct (col_index on (columns t)) as [j|] eqn:Hj; [|discriminate].
    apply andb_true_iff in Hf. destruct Hf as [Hf Hf'].
    inversion Wjs as [|? ? Wt Wjs']; subst.
    inversion Hk as [|? ? Kt Kjs]; subst. cbn [fst snd] in Wt.
    destruct (merge_left_views_skip _ _ _ _ _ _ wf Wt Hv Hj Hf HN)
      as [CN Hv'].
    apply (IH N M0' M); try assumption.
    + exact (merge_left_well_formed _ _ _ _ wf Wt HN).
    + rewrite CN. exact Hf'.
Qed.

Lemma dropping_refl {A : Type} (l : list A) : dropping l l.
Proof. induction l; constructor; assumption. Qed.

Lemma dropping_all {A : Type} (l : list A) : dropping l [].
Proof. induction l; constructor; assumption. Qed.

Lemma dropping_app {A : Type} (a a' b b' : list A) :
  dropping a a' -> dropping b b' -> dropping (a ++ b) (a' ++ b').
Proof. induction 1; intros Hb; cbn [app]; try constructor; auto. Qed.

Lemma same_views_refl (M : DataFrame) : same_views M M.
Proof.
  split; [auto|]. split; intros r Hr; exists r; (split; [exact Hr|]);
    intros c _; reflexivity.
Qed.

(** *** When the derived fields can be computed *)

Lemma format_home_value_ok (c : cell) :
  (exists x, format_home_value c = Ok x) <-> is_number c = true.
Proof.
  unfold format_home_value. destruct c as [z | f | s]; cbn [is_number].
  - split; [reflexivity | cbn; eauto].
  - split; [reflexivity|]. intros _.
    destruct (notna (CFloat f)); cbn [to_float bind]; eauto.
  - split; [intros [x H]; discriminate | discriminate].
Qed.

Lemma categorize_lean_ok (c : cell) :
  (exists x, categorize_lean c = Ok x) <-> is_number c = true.
Proof.
  unfold categorize_lean. destruct c as [z | f | s]; cbn [isna gt_int bind is_number].
  - split; [reflexivity|]. intros _.
    repeat match goal with
           | |- context [if ?b then _ else _] => destruct b
           end; eauto.
  - split; [reflexivity|]. intros _.
    repeat match goal with
           | |- context [if ?b then _ else _] => destruct b
           end; eauto.
  - split; [intros [x H]; discriminate | discriminate].
Qed.

Lemma mapM_returns {A B : Type} (f : A -> result B) (l : list A) :
  (exists l', mapM f l = Ok l') <-> (forall a, In a l -> exists b, f a = Ok b).
Proof.
  split.
  - intros [l' H] a Ha. apply mapM_ok in H.
    destruct (Forall2_in_l _ _ _ H a Ha) as [b [_ Hb]]. eauto.
  - apply mapM_exists.
Qed.

Lemma mapM_length {A B : Type} (f : A -> result B) (l : list A) (l' : list B) :
  mapM f l = Ok l' -> List.length l' = List.length l.
Proof. intros H. apply mapM_ok in H. symmetry. exact (Forall2_length H). Qed.

(** [format_if_present] returns exactly when the column, if it is there,
    holds no string. *)
Lemma format_if_present_returns (df : DataFrame) (label : string) :
  (exists df', format_if_present df label = Ok df') <->
  (forall v, getitem df label = Ok v -> forall c, In c v -> is_number c = true).
Proof.
  unfold format_if_present. split.
  - intros [df' H] v Hv c Hc.
    rewrite (getitem_has_column _ _ _ Hv), Hv in H. cbn [bind] in H.
    apply bind_ok in H. destruct H as [s [Hs _]].
    apply format_home_value_ok.
    exact (proj1 (mapM_returns _ _) (ex_intro _ s Hs) c Hc).
  - intros H. destruct (has_column df label) eqn:E; [|eauto].
    destruct (has_column_getitem _ _ E) as [v Hv]. rewrite Hv. cbn [bind].
    destruct (proj2 (mapM_returns format_home_value v)) as [s Hs].
    { intros c Hc. apply format_home_value_ok. exact (H v Hv c Hc). }
    rewrite Hs. cbn [bind]. apply setitem_total.
    rewrite (mapM_length _ _ _ Hs). exact (getitem_length _ _ _ Hv).
Qed.

Section DeriveFieldsReturns.

Variable merged : DataFrame.
Variables b4 b5 bex bmj : bool.
Hypothesis wf : well_formed merged = true.
Hypothesis cols : columns merged = merged_columns b4 b5 bex bmj.

Let kept : DataFrame :=
  mkDF (columns merged) (filter (fun r => notna (home_value r)) (rows merged)).

Ltac flags := destruct b4, b5, bex, bmj; reflexivity.

(** The derived fields are computed exactly when, in the rows that have a
    home value, the home values and the lean scores are numbers or
    missing. *)
Lemma derive_fields_returns :
  (exists out, derive_fields merged = Ok out) <->
  (forall label v c,
     In label read_labels -> getitem kept label = Ok v -> In c v ->
     is_number c = true).
Proof.
  assert (Hdrop : dropna merged "median_home_value_all" = Ok kept).
  { unfold dropna, locate.
    replace (col_index "median_home_value_all" (columns merged))
      with (Some 4%nat) by (rewrite cols; flags).
    reflexivity. }
  assert (wf1 : well_formed kept = true) by (apply filter_well_formed, wf).
  assert (Hall : exists v, getitem kept "median_home_value_all" = Ok v).
  { apply has_column_getitem. unfold has_column, kept. cbn [columns].
    rewrite cols. flags. }
  assert (Hlean : exists v, getitem kept "lean_score" = Ok v).
  { apply has_column_getitem. unfold has_column, kept. cbn [columns].
    rewrite cols. flags. }
  assert (Hgrade : has_column kept "gun_law_grade" = true).
  { unfold has_column, kept. cbn [columns]. rewrite cols. flags. }
  destruct Hall as [v0 Hv0]. destruct Hlean as [score Hscore].
  unfold derive_fields. rewrite Hdrop. cbn [bind]. rewrite Hv0. cbn [bind].
  split.
  - intros [out H].
    apply bind_ok in H. destruct H as [s [Hs H]].
    apply bind_ok in H. destruct H as [m2 [S2 H]].
    pose proof (setitem_well_formed _ _ _ _ wf1 S2) as wf2.
    apply bind_ok in H. destruct H as [m3 [S3 H]].
    assert (F3 : has_column m2 ("median_home_value_4br" ++ "_formatted") = false).
    { rewrite (has_column_setitem_other _ _ _ _ S2) by discriminate.
      unfold has_column, kept. cbn [columns]. rewrite cols. flags. }
    destruct (format_if_present_spec _ _ _ wf2 F3 S3) as [wf3 [_ [_ G3]]].
    apply bind_ok in H. destruct H as [m4 [S4 H]].
    assert (F4 : has_column m3 ("median_home_value_5br" ++ "_formatted") = false).
    { unfold has_column, getitem, locate in *.
      specialize (G3 ("median_home_value_5br" ++ "_formatted")%string
                    ltac:(discriminate)).
      destruct (col_index _ (columns m3)) as [k|] eqn:E; [|reflexivity].
      exfalso.
      rewrite (col_index_setitem_other _ _ _ _ S2) in G3 by discriminate.
      unfold kept in G3. cbn [columns] in G3. rewrite cols in G3.
      destruct b4, b5, bex, bmj; discriminate G3. }
    destruct (format_if_present_spec _ _ _ wf3 F4 S4) as [wf4 [_ [_ G4]]].
    apply bind_ok in H. destruct H as [score' [Hscore' H]].
    apply bind_ok in H. destruct H as [pl [Hpl _]].
    rewrite G4, G3 in Hscore' by discriminate.
    rewrite (getitem_setitem_other _ _ _ _ wf1 S2) in Hscore' by discriminate.
    intros label v c [<- | [<- | [<- | [<- | []]]]] Hv Hc.
    + apply format_home_value_ok.
      assert (v = v0) by congruence. subst v.
      exact (proj1 (mapM_returns _ _) (ex_intro _ s Hs) c Hc).
    + apply (proj1 (format_if_present_returns m2 "median_home_value_4br")
               (ex_intro _ m3 S3) v); [|exact Hc].
      rewrite (getitem_setitem_other _ _ _ _ wf1 S2) by discriminate.
      exact Hv.
    + apply (proj1 (format_if_present_returns m3 "median_home_value_5br")
               (ex_intro _ m4 S4) v); [|exact Hc].
      rewrite G3 by discriminate.
      rewrite (getitem_setitem_other _ _ _ _ wf1 S2) by discriminate.
      exact Hv.
    + apply categorize_lean_ok.
      assert (v = score') by congruence. subst v.
      exact (proj1 (mapM_returns _ _) (ex_intro _ pl Hpl) c Hc).
  - intros Hn.
    destruct (proj2 (mapM_returns format_home_value v0)) as [s Hs].
    { intros c Hc. apply format_home_value_ok.
      apply (Hn "median_home_value_all" v0 c); cbn; auto. }
    rewrite Hs. cbn [bind].
    destruct (setitem_total kept "median_home_value_all_formatted" s)
      as [m2 S2].
    { rewrite (mapM_length _ _ _ Hs). exact (getitem_length _ _ _ Hv0). }
    rewrite S2. cbn [bind].
    pose proof (setitem_well_formed _ _ _ _ wf1 S2) as wf2.
    destruct (proj2 (format_if_present_returns m2 "median_home_value_4br"))
      as [m3 S3].
    { intros v Hv c Hc.
      rewrite (getitem_setitem_other _ _ _ _ wf1 S2) in Hv by discriminate.
      apply (Hn "median_home_value_4br" v c); cbn; auto. }
    rewrite S3. cbn [bind].
    assert (F3 : has_column m2 ("median_home_value_4br" ++ "_formatted") = false).
    { rewrite (has_column_setitem_other _ _ _ _ S2) by discriminate.
      unfold has_column, kept. cbn [columns]. rewrite cols. flags. }
    destruct (format_if_present_spec _ _ _ wf2 F3 S3) as [wf3 [_ [_ G3]]].
    destruct (proj2 (format_if_present_returns m3 "median_home_value_5br"))
      as [m4 S4].
    { intros v Hv c Hc. rewrite G3 in Hv by discriminate.
      rewrite (getitem_setitem_other _ _ _ _ wf1 S2) in Hv by discriminate.
      apply (Hn "median_home_value_5br" v c); cbn; auto. }
    rewrite S4. cbn [bind].
    assert (F4 : has_column m3 ("median_home_value_5br" ++ "_formatted") = false).
    { unfold has_column, getitem, locate in *.
      specialize (G3 ("median_home_value_5br" ++ "_formatted")%string
                    ltac:(discriminate)).
      destruct (col_index _ (columns m3)) as [k|] eqn:E; [|reflexivity].
      exfalso.
      rewrite (col_index_setitem_other _ _ _ _ S2) in G3 by discriminate.
      unfold kept in G3. cbn [columns] in G3. rewrite cols in G3.
      destruct b4, b5, bex, bmj; discriminate G3. }
    destruct (format_if_present_spec _ _ _ wf3 F4 S4) as [wf4 [_ [_ G4]]].
    rewrite G4, G3 by discriminate.
    rewrite (getitem_setitem_other _ _ _ _ wf1 S2) by discriminate.
    rewrite Hscore. cbn [bind].
    destruct (proj2 (mapM_returns categorize_lean score)) as [pl Hpl].
    { intros c Hc. apply categorize_lean_ok.
      apply (Hn "lean_score" score c); cbn; auto. }
    rewrite Hpl. cbn [bind].
    destruct (setitem_total m4 "political_lean" pl) as [m5 S5].
    { rewrite (mapM_length _ _ _ Hpl).
      assert (Hg : getitem m4 "lean_score" = Ok score).
      { rewrite G4, G3 by discriminate.
        rewrite (getitem_setitem_other _ _ _ _ wf1 S2) by discriminate.
        exact Hscore. }
      exact (getitem_length _ _ _ Hg). }
    rewrite S5. cbn [bind].
    destruct (has_column_getitem m5 "gun_law_grade") as [grade Hg].
    { rewrite (has_column_setitem_other _ _ _ _ S5) by discriminate.
      destruct (has_column_getitem _ _ Hgrade) as [g Hg].
      rewrite <- (getitem_setitem_other _ _ _ _ wf1 S2 "gun_law_grade")
        in Hg by discriminate.
      rewrite <- G3, <- G4 in Hg by discriminate.
      exact (getitem_has_column _ _ _ Hg). }
    rewrite Hg. cbn [bind]. apply setitem_total.
    rewrite length_map. exact (getitem_length _ _ _ Hg).
Qed.

End DeriveFieldsReturns.

(** *** The script on fewer optional files *)

Lemma unreadable_required (fs : FileSystem) (files : list string)
  (file : string) :
  incl files optional_files -> In file required_files ->
  read (unreadable fs files) (data_path fs ++ file)
  = read fs (data_path fs ++ file).
Proof.
  intros Hi Hf. unfold unreadable. cbn [read].
  destruct (existsb _ files) eqn:E; [|reflexivity].
  exfalso. apply existsb_exists in E. destruct E as [f [Hin E]].
  apply String.eqb_eq in E.
  apply (optional_not_required fs f (Hi f Hin)). rewrite <- E.
  apply (in_map (String.append (data_path fs))). exact Hf.
Qed.

Lemma unreadable_optional (fs : FileSystem) (files : list string)
  (path : string) :
  read (unreadable fs files) path = read fs path \/
  read (unreadable fs files) path = None.
Proof. unfold unreadable. cbn [read]. destruct (existsb _ files); auto. Qed.

Lemma append_eqb (p a b : string) :
  String.eqb (p ++ a) (p ++ b) = String.eqb a b.
Proof.
  induction p as [|c p IH]; cbn [String.append]; [reflexivity|].
  cbn [String.eqb]. rewrite Ascii.eqb_refl. exact IH.
Qed.

Lemma unreadable_available (fs : FileSystem) (files : list string)
  (file : string) :
  available (unreadable fs files) file
  = available fs file && negb (mem file files).
Proof.
  unfold available, unreadable, mem. cbn [read].
  change (data_path {| data_dir_exists := data_dir_exists fs;
                       read := _ |}) with (data_path fs).
  replace (existsb (fun f => String.eqb (data_path fs ++ file)
                                       (data_path fs ++ f)) files)
    with (existsb (String.eqb file) files)
    by (induction files as [|f fs' IH]; cbn [existsb];
        [reflexivity | rewrite append_eqb, IH; reflexivity]).
  destruct (existsb (String.eqb file) files); cbn [negb];
    [rewrite andb_false_r | rewrite andb_true_r]; reflexivity.
Qed.

Lemma bedroom_table_joins (hc hc' : DataFrame) (br : option DataFrame)
  (label : string) (j : list (DataFrame * string)) :
  bedroom_table br label = Ok j -> left_joins hc j = Ok hc' ->
  add_bedrooms hc br label = Ok hc'.
Proof.
  unfold add_bedrooms, bedroom_table. destruct br as [b|]; intros H L.
  - apply bind_ok in H. destruct H as [b' [E1 H]].
    apply bind_ok in H. destruct H as [sel [E2 H]].
    injection H as <-. rewrite E1. cbn [bind]. rewrite E2. cbn [bind].
    cbn [left_joins fst snd] in L. apply bind_ok in L.
    destruct L as [m [L H]]. congruence.
  - injection H as <-. exact L.
Qed.

Lemma optional_table_joins (m m' : DataFrame) (other : option DataFrame)
  (labels : list string) (on : string) (j : list (DataFrame * string)) :
  optional_table other labels on = Ok j -> left_joins m j = Ok m' ->
  merge_optional m other labels on = Ok m'.
Proof.
  unfold merge_optional, optional_table. destruct other as [df|]; intros H L.
  - apply bind_ok in H. destruct H as [sel [E H]].
    injection H as <-. rewrite E. cbn [bind].
    cbn [left_joins fst snd] in L. apply bind_ok in L.
    destruct L as [m1 [L H]]. congruence.
  - injection H as <-. exact L.
Qed.

(** The script returns what the derived fields return on the chain's
    table, once the chain has returned. *)
Lemma prepare_data_of_joins (fs : FileSystem) (anchor merged : DataFrame)
  (js : list (DataFrame * string)) :
  joined_sources fs = Ok (anchor, js) -> left_joins anchor js = Ok merged ->
  prepare_data fs = derive_fields merged.
Proof.
  unfold joined_sources. cbv zeta. intros H L.
  apply bind_ok in H. destruct H as [hg [E1 H]].
  apply bind_ok in H. destruct H as [a [E2 H]].
  apply bind_ok in H. destruct H as [j4 [H4 H]].
  apply bind_ok in H. destruct H as [j5 [H5 H]].
  apply bind_ok in H. destruct H as [elections [E3 H]].
  apply bind_ok in H. destruct H as [ec [E4 H]].
  apply bind_ok in H. destruct H as [gun_laws [E5 H]].
  apply bind_ok in H. destruct H as [gl [E6 H]].
  apply bind_ok in H. destruct H as [population [E7 H]].
  apply bind_ok in H. destruct H as [pop [E8 H]].
  apply bind_ok in H. destruct H as [ex [Hex H]].
  apply bind_ok in H. destruct H as [mj [Hmj H]].
  injection H as <- <-.
  rewrite left_joins_app in L. apply bind_ok in L. destruct L as [m4 [L4 L]].
  rewrite left_joins_app in L. apply bind_ok in L. destruct L as [m5 [L5 L]].
  cbn [app left_joins fst snd] in L.
  apply bind_ok in L. destruct L as [m1 [M1 L]].
  apply bind_ok in L. destruct L as [m2 [M2 L]].
  apply bind_ok in L. destruct L as [m3 [M3 L]].
  rewrite left_joins_app in L. apply bind_ok in L. destruct L as [mx [Lex Lmj]].
  unfold prepare_data. cbv zeta. rewrite E1. cbn [bind]. rewrite E2. cbn [bind].
  rewrite (bedroom_table_joins _ _ _ _ _ H4 L4). cbn [bind].
  rewrite (bedroom_table_joins _ _ _ _ _ H5 L5). cbn [bind].
  rewrite E3. cbn [bind]. rewrite E4. cbn [bind]. rewrite E5. cbn [bind].
  rewrite E7. cbn [bind].
  unfold merge_all. rewrite M1. cbn [bind]. rewrite E6. cbn [bind].
  rewrite M2. cbn [bind]. rewrite E8. cbn [bind]. rewrite M3. cbn [bind].
  rewrite (optional_table_joins _ _ _ _ _ _ Hex Lex). cbn [bind].
  rewrite (optional_table_joins _ _ _ _ _ _ Hmj Lmj). reflexivity.
Qed.

(** With some optional files unreadable, the tables to join are those of
    the other files. *)
Lemma joined_sources_unreadable (fs : FileSystem) (files : list string)
  (anchor : DataFrame) (js : list (DataFrame * string)) :
  incl files optional_files ->
  joined_sources fs = Ok (anchor, js) ->
  exists js',
    joined_sources (unreadable fs files) = Ok (anchor, js') /\
    dropping js js'.
Proof.
  intros Hi H. unfold joined_sources in *. cbv zeta in *.
  change (data_path (unreadable fs files)) with (data_path fs).
  unfold read_csv, try_read_csv in *.
  assert (Rq : forall file, In file required_files ->
                 read (unreadable fs files) (data_path fs ++ file)
                 = read fs (data_path fs ++ file))
    by (intros file; apply unreadable_required, Hi).
  rewrite (Rq housing_general_csv), (Rq elections_csv), (Rq gun_laws_csv),
    (Rq population_csv) by (unfold required_files; cbn [In]; tauto).
  apply bind_ok in H. destruct H as [hg [E1 H]].
  apply bind_ok in H. destruct H as [a [E2 H]].
  apply bind_ok in H. destruct H as [j4 [H4 H]].
  apply bind_ok in H. destruct H as [j5 [H5 H]].
  apply bind_ok in H. destruct H as [elections [E3 H]].
  apply bind_ok in H. destruct H as [ec [E4 H]].
  apply bind_ok in H. destruct H as [gun_laws [E5 H]].
  apply bind_ok in H. destruct H as [gl [E6 H]].
  apply bind_ok in H. destruct H as [population [E7 H]].
  apply bind_ok in H. destruct H as [pop [E8 H]].
  apply bind_ok in H. destruct H as [ex [Hex H]].
  apply bind_ok in H. destruct H as [mj [Hmj H]].
  injection H as <- <-.
  rewrite E1. cbn [bind]. rewrite E2. cbn [bind].
  assert (B : forall path label j,
             bedroom_table (read fs path) label = Ok j ->
             exists j', bedroom_table (read (unreadable fs files) path) label
                        = Ok j' /\ dropping j j').
  { intros path label j Hj.
    destruct (unreadable_optional fs files path) as [-> | ->].
    - exists j. split; [exact Hj | apply dropping_refl].
    - exists []. split; [reflexivity | apply dropping_all]. }
  assert (O : forall path labels on j,
             optional_table (read fs path) labels on = Ok j ->
             exists j', optional_table (read (unreadable fs files) path)
                          labels on = Ok j' /\ dropping j j').
  { intros path labels on j Hj.
    destruct (unreadable_optional fs files path) as [-> | ->].
    - exists j. split; [exact Hj | apply dropping_refl].
    - exists []. split; [reflexivity | apply dropping_all]. }
  destruct (B _ _ _ H4) as [j4' [-> D4]]. cbn [bind].
  destruct (B _ _ _ H5) as [j5' [-> D5]]. cbn [bind].
  rewrite E3. cbn [bind]. rewrite E4. cbn [bind]. rewrite E5. cbn [bind].
  rewrite E6. cbn [bind]. rewrite E7. cbn [bind]. rewrite E8. cbn [bind].
  destruct (O _ _ _ _ Hex) as [ex' [-> Dex]]. cbn [bind].
  destruct (O _ _ _ _ Hmj) as [mj' [-> Dmj]]. cbn [bind].
  eexists. split; [reflexivity|].
  apply dropping_app; [exact D4|]. apply dropping_app; [exact D5|].
  apply (dropping_app [_; _; _] [_; _; _]); [apply dropping_refl|].
  apply dropping_app; assumption.
Qed.

Lemma join_labels_fresh (b4 b5 bex bmj : bool) :
  fresh_labels anchor_columns (join_labels b4 b5 bex bmj) = true /\
  forallb (fun j => mem (snd j) anchor_columns) (join_labels b4 b5 bex bmj)
  = true.
Proof. destruct b4, b5, bex, bmj; split; reflexivity. Qed.

(** A run that returns still returns when optional files become
    unreadable. *)
Lemma fewer_sources_return (fs : FileSystem) (files : list string)
  (out : DataFrame) :
  incl files optional_files -> prepare_data fs = Ok out ->
  exists out', prepare_data (unreadable fs files) = Ok out'.
Proof.
  intros Hi H.
  destruct (prepare_data_merged _ _ H)
    as [anchor [js [merged [J [L [D [wf Hc]]]]]]].
  destruct (joined_sources_unreadable fs files anchor js Hi J)
    as [js' [J' Hd]].
  destruct (joined_sources_shape _ _ _ J) as [wfa [Hca [Wjs Cjs]]].
  destruct (join_labels_fresh (available fs housing_4br_csv)
              (available fs housing_5br_csv) (available fs exotic_animals_csv)
              (available fs marijuana_csv)) as [Hfresh Hkeys].
  destruct (left_joins_views js js' Hd anchor anchor merged wfa wfa Wjs
              (same_views_refl anchor)) as [merged' [L' [Hsub [Hr' _]]]];
    [rewrite Cjs, Hca; exact Hfresh | | exact L |].
  { apply Forall_forall. intros t Ht.
    rewrite forallb_forall in Hkeys.
    apply has_column_in. rewrite Hca. apply mem_in.
    apply (Hkeys (columns (fst t), snd t)). rewrite <- Cjs.
    exact (in_map (fun t => (columns (fst t), snd t)) js t Ht). }
  destruct (merged_shape _ _ _ _ J' L') as [wf' Hc'].
  rewrite (prepare_data_of_joins _ _ _ _ J' L').
  apply (derive_fields_returns merged' _ _ _ _ wf' Hc').
  pose proof (proj1 (derive_fields_returns merged _ _ _ _ wf Hc)
                (ex_intro _ out D)) as Hn.
  intros label v c Hl Hv Hin.
  apply getitem_field in Hv. destruct Hv as [-> Hh'].
  cbn [columns rows] in *. apply in_map_iff in Hin.
  destruct Hin as [r' [<- Hin]]. apply filter_In in Hin.
  destruct Hin as [Hin Hna].
  destruct (Hr' r' Hin) as [r [Hr Ha]].
  assert (Hh : has_column merged' label = true) by exact Hh'.
  assert (Ev : home_value r = home_value r').
  { assert (H4' : col_index "median_home_value_all" (columns merged')
                  = Some 4%nat).
    { rewrite Hc'.
      destruct (available (unreadable fs files) housing_4br_csv),
        (available (unreadable fs files) housing_5br_csv),
        (available (unreadable fs files) exotic_animals_csv),
        (available (unreadable fs files) marijuana_csv); reflexivity. }
    assert (H4 : col_index "median_home_value_all" (columns merged)
                 = Some 4%nat).
    { rewrite Hc.
      destruct (available fs housing_4br_csv), (available fs housing_5br_csv),
        (available fs exotic_animals_csv), (available fs marijuana_csv);
        reflexivity. }
    assert (Hm : has_column merged' "median_home_value_all" = true)
      by (unfold has_column; rewrite H4'; reflexivity).
    specialize (Ha _ Hm). unfold field in Ha. rewrite H4', H4 in Ha.
    symmetry. exact Ha. }
  change (field {| columns := columns merged'; rows := _ |} label r')
    with (field merged' label r').
  rewrite (Ha label Hh).
  apply (Hn label
           (map (field merged label)
              (filter (fun r => notna (home_value r)) (rows merged))));
    [exact Hl | |].
  - pose proof (Hsub label Hh) as Hm. unfold getitem, locate, field.
    cbn [columns rows].
    destruct (has_column_index _ _ Hm) as [k ->]. reflexivity.
  - apply in_map. apply filter_In. split; [exact Hr|]. rewrite Ev. exact Hna.
Qed.

(** C7.  An optional source that is absent or unreadable does not stop the
    script: no failed read of an optional file ever surfaces, and a run
    that returns still returns, without the columns of those files, when
    any of its optional files cannot be read.  The output has exactly the
    columns of the sources that were read, so the columns of an absent
    source are not there at all; the tables joined are exactly those of the
    sources that were read, and the output has as many rows as their merge
    has rows with a home value.  In particular, without the exotic-animal
    file the output has none of its columns. *)
Theorem optional_sources_are_skipped :
  (forall fs file,
     In file optional_files ->
     prepare_data fs
     <> Raise (FileNotFoundError (data_path fs ++ file)%string)) /\
  (forall fs out,
     prepare_data fs = Ok out ->
     columns out
     = output_columns (available fs housing_4br_csv)
         (available fs housing_5br_csv) (available fs exotic_animals_csv)
         (available fs marijuana_csv) /\
     (exists anchor js merged,
        joined_sources fs = Ok (anchor, js) /\
        map (fun t => (columns (fst t), snd t)) js
        = join_labels (available fs housing_4br_csv)
            (available fs housing_5br_csv) (available fs exotic_animals_csv)
            (available fs marijuana_csv) /\
        left_joins anchor js = Ok merged /\
        len out
        = List.length (filter (fun r => notna (home_value r)) (rows merged))) /\
     (available fs exotic_animals_csv = false ->
      forall label,
        In label ["exotic_animal_rating"; "allows_primates";
                  "allows_big_cats"; "allows_reptiles"] ->
        ~ In label (columns out))) /\
  (forall fs out files,
     prepare_data fs = Ok out ->
     incl files optional_files ->
     exists out',
       prepare_data (unreadable fs files) = Ok out' /\
       columns out'
       = output_columns
           (available fs housing_4br_csv && negb (mem housing_4br_csv files))
           (available fs housing_5br_csv && negb (mem housing_5br_csv files))
           (available fs exotic_animals_csv
            && negb (mem exotic_animals_csv files))
           (available fs marijuana_csv && negb (mem marijuana_csv files))).
Proof.
  assert (Hcols : forall fs out,
             prepare_data fs = Ok out ->
             columns out
             = output_columns (available fs housing_4br_csv)
                 (available fs housing_5br_csv)
                 (available fs exotic_animals_csv)
                 (available fs marijuana_csv)).
  { intros fs out H.
    destruct (prepare_data_merged _ _ H)
      as [anchor [js [merged [J [L [D [wf Hc]]]]]]].
    exact (proj1 (proj2 (derive_fields_spec _ _ _ _ _ _ wf Hc D))). }
  split; [|split].
  - intros fs file Hf H.
    exact (optional_not_required fs file Hf (prepare_data_read_errors _ _ H)).
  - intros fs out H.
    destruct (prepare_data_merged _ _ H)
      as [anchor [js [merged [J [L [D [wf Hc]]]]]]].
    pose proof (Hcols fs out H) as Hco.
    destruct (output_rows _ _ _ _ _ _ wf Hc D) as [Hv _].
    destruct (joined_sources_shape _ _ _ J) as [_ [_ [_ Hl]]].
    split; [exact Hco|]. split.
    + exists anchor, js, merged. repeat split; try assumption.
      unfold len. rewrite <- (length_map home_value), Hv. apply length_map.
    + intros He label Hin. rewrite Hco, He.
      destruct (available fs housing_4br_csv), (available fs housing_5br_csv),
        (available fs marijuana_csv); cbn [In] in Hin;
        destruct Hin as [<- | [<- | [<- | [<- | []]]]];
        intros Hx; vm_compute in Hx; intuition discriminate.
  - intros fs out files H Hi.
    destruct (fewer_sources_return fs files out Hi H) as [out' H'].
    exists out'. split; [exact H'|].
    rewrite (Hcols _ _ H'), !unreadable_available. reflexivity.
Qed.

Lemma optional_sources_are_skipped_witness :
  (columns sample_output = output_columns true false false false /\
   (exists anchor js merged,
      joined_sources sample_fs = Ok (anchor, js) /\
      map (fun t => (columns (fst t), snd t)) js
      = join_labels true false false false /\
      left_joins anchor js = Ok merged /\
      len sample_output
      = List.length (filter (fun r => notna (home_value r)) (rows merged))) /\
   (available sample_fs exotic_animals_csv = false ->
    forall label,
      In label ["exotic_animal_rating"; "allows_primates";
                "allows_big_cats"; "allows_reptiles"] ->
      ~ In label (columns sample_output))) /\
  (exists out',
     prepare_data (unreadable sample_fs [housing_4br_csv]) = Ok out' /\
     columns out' = output_columns false false false false).
Proof.
  destruct optional_sources_are_skipped as [_ [H2 H3]]. split.
  - apply (H2 sample_fs sample_output). vm_compute. reflexivity.
  - apply (H3 sample_fs sample_output [housing_4br_csv] sample_run).
    intros f [<- | []]. left. reflexivity.
Defined.

(** ** The lean score of an output row *)

Lemma Forall2_map_in {A B C : Type} (P : B -> C -> Prop) (f : A -> B)
  (g : A -> C) (l : list A) :
  Forall2 P (map f l) (map g l) -> forall a, In a l -> P (f a) (g a).
Proof.
  induction l as [|x l IH]; cbn [map]; intros H a Ha; [destruct Ha|].
  inversion H; subst. destruct Ha as [<- | Ha]; auto.
Qed.

Lemma cell_at_tail (e : row) (k : nat) :
  cell_at k (remove_nth 0 e) = cell_at (S k) e.
Proof. destruct e as [|c e]; cbn [remove_nth]; [destruct k|]; reflexivity. Qed.

(** The election table is the first table joined after the bedroom
    tables. *)
Lemma joined_sources_elections (fs : FileSystem) (anchor : DataFrame)
  (js : list (DataFrame * string)) :
  joined_sources fs = Ok (anchor, js) ->
  exists elections ec before after,
    read fs (data_path fs ++ elections_csv) = Some elections /\
    process_elections elections = Ok ec /\
    js = before ++ (ec, "county_fips") :: after /\
    map (fun t => (columns (fst t), snd t)) before
    = (if available fs housing_4br_csv
       then [(["county_fips"; "median_home_value_4br"], "county_fips")]
       else [])
      ++ (if available fs housing_5br_csv
          then [(["county_fips"; "median_home_value_5br"], "county_fips")]
          else []).
Proof.
  unfold joined_sources. cbv zeta. intros H.
  apply bind_ok in H. destruct H as [hg [E1 H]].
  apply bind_ok in H. destruct H as [a [E2 H]].
  apply bind_ok in H. destruct H as [j4 [H4 H]].
  apply bind_ok in H. destruct H as [j5 [H5 H]].
  apply bind_ok in H. destruct H as [elections [E3 H]].
  apply bind_ok in H. destruct H as [ec [E4 H]].
  apply bind_ok in H. destruct H as [gun_laws [E5 H]].
  apply bind_ok in H. destruct H as [gl [E6 H]].
  apply bind_ok in H. destruct H as [population [E7 H]].
  apply bind_ok in H. destruct H as [pop [E8 H]].
  apply bind_ok in H. destruct H as [ex [Hex H]].
  apply bind_ok in H. destruct H as [mj [Hmj H]].
  injection H as <- <-.
  exists elections, ec, (j4 ++ j5), ((gl, "state_code") :: (pop, "county_fips")
                                     :: ex ++ mj).
  split; [exact (read_csv_ok _ _ _ E3)|]. split; [exact E4|]. split.
  - rewrite <- app_assoc. reflexivity.
  - rewrite map_app.
    rewrite (proj2 (bedroom_table_shape _ _ _ H4)),
      (proj2 (bedroom_table_shape _ _ _ H5)).
    unfold available, try_read_csv.
    destruct (read fs (data_path fs ++ housing_4br_csv)),
      (read fs (data_path fs ++ housing_5br_csv)); reflexivity.
Qed.

(** Where an output row has its lean score from: the election record of
    its county, when there is one. *)
Lemma output_lean_score (fs : FileSystem) (out : DataFrame) :
  prepare_data fs = Ok out ->
  exists elections ec,
    read fs (data_path fs ++ elections_csv) = Some elections /\
    process_elections elections = Ok ec /\
    forall x, In x (rows out) ->
      categorize_lean (field out "lean_score" x)
      = Ok (field out "political_lean" x) /\
      ((isna (field out "lean_score" x) = true /\
        forall e, In e (rows ec) ->
          key_eqb (field out "county_fips" x) (cell_at 0 e) = false) \/
       (exists e,
          In e (rows ec) /\
          key_eqb (field out "county_fips" x) (cell_at 0 e) = true /\
          field out "lean_score" x = cell_at 3 e)).
Proof.
  intros H.
  destruct (prepare_data_merged _ _ H)
    as [anchor [js [merged [J [L [D [wf Hc]]]]]]].
  destruct (joined_sources_shape _ _ _ J) as [wfa [Hca [Wjs _]]].
  destruct (joined_sources_elections _ _ _ J)
    as [elections [ec [before [after [Er [Ee [-> Hb]]]]]]].
  exists elections, ec. split; [exact Er|]. split; [exact Ee|].
  destruct (process_elections_shape _ _ Ee) as [wfe Hce].
  rewrite left_joins_app in L. apply bind_ok in L. destruct L as [M1 [L1 L]].
  cbn [left_joins fst snd] in L. apply bind_ok in L.
  destruct L as [M2 [HM2 L]].
  apply Forall_app in Wjs. destruct Wjs as [Wb Wa].
  inversion Wa as [|? ? _ Wa']; subst. clear Wa.
  pose proof (left_joins_well_formed _ _ _ wfa Wb L1) as wf1.
  pose proof (left_joins_columns _ _ _ L1) as C1. rewrite Hb, Hca in C1.
  set (b4 := available fs housing_4br_csv) in *.
  set (b5 := available fs housing_5br_csv) in *.
  assert (C1' : columns M1
                = anchor_columns ++ when b4 ["median_home_value_4br"]
                  ++ when b5 ["median_home_value_5br"])
    by (rewrite C1; destruct b4, b5; reflexivity).
  clear C1.
  apply merge_left_ok in HM2. destruct HM2 as [i [j [Hi [Hj [_ ->]]]]].
  assert (i = 0%nat) by (rewrite C1' in Hi; cbn in Hi; congruence).
  assert (j = 0%nat) by (rewrite Hce in Hj; cbn in Hj; congruence).
  subst i j.
  destruct (left_joins_anchor _ _ _ Wa' L) as [A1 _]. cbn [rows] in A1.
  destruct (derive_fields_spec _ _ _ _ _ _ wf Hc D)
    as [_ [Hco [He [_ [[scores [leans [Hs [Hl Hcat]]]] _]]]]].
  apply getitem_field in Hs, Hl. destruct Hs as [-> _], Hl as [-> _].
  intros x Hx. split; [exact (Forall2_map_in _ _ _ _ Hcat x Hx)|].
  destruct (Forall2_in_r _ _ _ He x Hx) as [m [Hm Hxm]].
  apply filter_In in Hm. destruct Hm as [Hm _].
  destruct (A1 m Hm) as [r2 [Hr2 Hmr]].
  apply in_flat_map in Hr2. destruct Hr2 as [l [Hl Hr2]].
  pose proof (well_formed_rows M1 wf1 l Hl) as Hlen. rewrite C1' in Hlen.
  assert (Hxr : extends r2 x) by exact (extends_compose _ _ _ Hmr Hxm).
  destruct Hxr as [ext ->].
  assert (F0 : forall p, field out "county_fips" ((l ++ p) ++ ext)
                         = cell_at 0 l).
  { intros p. unfold field. rewrite Hco. fold b4 b5.
    replace (col_index "county_fips" (output_columns b4 b5 _ _))
      with (Some 0%nat)
      by (destruct b4, b5, (available fs exotic_animals_csv),
            (available fs marijuana_csv); reflexivity).
    rewrite <- app_assoc. apply cell_at_app_l.
    rewrite Hlen. destruct b4, b5; cbn; lia. }
  assert (F1 : forall p, List.length p = 3%nat ->
                         field out "lean_score" ((l ++ p) ++ ext)
                         = cell_at 2 p).
  { intros p Hp. unfold field. rewrite Hco. fold b4 b5.
    replace (col_index "lean_score" (output_columns b4 b5 _ _))
      with (Some (List.length l + 2)%nat)
      by (rewrite Hlen;
          destruct b4, b5, (available fs exotic_animals_csv),
            (available fs marijuana_csv); reflexivity).
    rewrite cell_at_app_l by (rewrite length_app; lia).
    apply cell_at_app_r. }
  unfold joined_rows in Hr2. rewrite Hce in Hr2.
  destruct (filter _ (rows ec)) as [|e0 ms] eqn:Ef.
  - destruct Hr2 as [<- | []]. left.
    rewrite F0, F1 by reflexivity. split; [reflexivity|].
    intros e Hin.
    destruct (key_eqb (cell_at 0 l) (cell_at 0 e)) eqn:Ek; [|reflexivity].
    assert (Hf : In e (filter (fun r => key_eqb (cell_at 0 l) (cell_at 0 r))
                         (rows ec)))
      by (apply filter_In; auto).
    rewrite Ef in Hf. destruct Hf.
  - rewrite <- Ef in Hr2. apply in_map_iff in Hr2.
    destruct Hr2 as [e [<- Hin]]. apply filter_In in Hin.
    destruct Hin as [Hin Hk]. right. exists e.
    pose proof (well_formed_rows ec wfe e Hin) as Hle. rewrite Hce in Hle.
    rewrite F0, F1.
    + split; [exact Hin|]. split; [exact Hk | apply cell_at_tail].
    + rewrite remove_nth_length by (rewrite Hle; cbn; lia).
      rewrite Hle. reflexivity.
Qed.

(** C5.  A county of the 2024 pivot whose Democrat and Republican votes add
    up to zero does not stop the election stage: the stage returns its
    table, no division fails, the county's lean score is missing, and a
    missing lean score is categorized "Unknown".  In the table of every
    run that returns, the political lean of a row is the category of its
    lean score, so "Unknown" wherever the lean score is missing; and a row
    of that table whose county has an election record, all of its records
    without a Democrat or Republican vote, has a missing lean score and the
    political lean "Unknown". *)
Theorem zero_two_party_votes (elections elec_2024 elec_pivot : DataFrame)
  (D R : list Z) (k : nat) (d r : Z) :
  where_eq elections "year" 2024 = Ok elec_2024 ->
  pivot_table_sum elec_2024 ["state_po"; "county_name"; "county_fips"]
    "party" "candidatevotes" = Ok elec_pivot ->
  get elec_pivot "DEMOCRAT" (CInt 0) = map CInt D ->
  get elec_pivot "REPUBLICAN" (CInt 0) = map CInt R ->
  nth_error D k = Some d -> nth_error R k = Some r ->
  0 <= d -> 0 <= r -> d + r = 0 ->
  (exists elec_clean scores s,
     process_elections elections = Ok elec_clean /\
     getitem elec_clean "county_fips" = getitem elec_pivot "county_fips" /\
     getitem elec_clean "lean_score" = Ok scores /\
     nth_error scores k = Some s /\
     isna s = true /\
     categorize_lean s = Ok (CStr "Unknown")) /\
  (forall fs out,
     prepare_data fs = Ok out ->
     exists scores leans,
       getitem out "lean_score" = Ok scores /\
       getitem out "political_lean" = Ok leans /\
       Forall2 (fun s c => categorize_lean s = Ok c /\
                           (isna s = true -> c = CStr "Unknown"))
         scores leans) /\
  (forall fs out fips f x,
     read fs (data_path fs ++ elections_csv) = Some elections ->
     prepare_data fs = Ok out ->
     getitem elec_pivot "county_fips" = Ok fips ->
     nth_error fips k = Some f ->
     In x (rows out) ->
     key_eqb (field out "county_fips" x) f = true ->
     (forall k' f',
        nth_error fips k' = Some f' ->
        key_eqb (field out "county_fips" x) f' = true ->
        nth_error D k' = Some 0 /\ nth_error R k' = Some 0) ->
     isna (field out "lean_score" x) = true /\
     field out "political_lean" x = CStr "Unknown").
Proof.
  intros Hw Hp HD HR Hd Hr Pd Pr Hz.
  destruct (elec_clean_columns _ _ _ Hw Hp)
    as [D' [R' [elec_clean [HD' [HR' [He [Hf Hl]]]]]]].
  assert (D' = D) by (apply map_CInt_inj; congruence).
  assert (R' = R) by (apply map_CInt_inj; congruence).
  subst D' R'.
  split; [|split].
  - assert (d = 0) by lia. assert (r = 0) by lia. subst d r.
    exists elec_clean,
      (map (fun p => CFloat (lean_score_of (fst p) (snd p))) (combine D R)),
      (CFloat (lean_score_of 0 0)).
    repeat split; try assumption.
    rewrite nth_error_map, (nth_error_combine _ _ _ _ _ Hd Hr). reflexivity.
  - intros fs out H.
    destruct (output_categories _ _ H) as [[scores [leans [Hs [Hl' Hc]]]] _].
    exists scores, leans. split; [exact Hs|]. split; [exact Hl'|].
    eapply Forall2_impl; [|exact Hc].
    intros s c Hsc. split; [exact Hsc|]. apply categorize_lean_missing, Hsc.
  - intros fs out fips f x Hread H Hfips Hk Hx Hkey Hall.
    destruct (output_lean_score _ _ H) as [el [ec [Hread' [He' Hrows]]]].
    assert (el = elections) by congruence. subst el.
    assert (ec = elec_clean) by congruence. subst ec.
    destruct (Hrows x Hx) as [Hcat Hsrc].
    assert (Hna : isna (field out "lean_score" x) = true).
    { destruct Hsrc as [[Hna _] | [e [Hin [Hm Hs]]]]; [exact Hna|].
      destruct (process_elections_shape _ _ He) as [_ Hce].
      rewrite Hfips in Hf.
      rewrite (getitem_located elec_clean "county_fips" 0) in Hf
        by (rewrite Hce; reflexivity).
      rewrite (getitem_located elec_clean "lean_score" 3) in Hl
        by (rewrite Hce; reflexivity).
      injection Hf as Hf. injection Hl as Hl.
      destruct (In_nth_error _ _ Hin) as [k' Hk'].
      assert (Hf' : nth_error fips k' = Some (cell_at 0 e))
        by (rewrite <- Hf, nth_error_map, Hk'; reflexivity).
      destruct (Hall k' _ Hf' Hm) as [HD0 HR0].
      assert (Hs' : nth_error (map (cell_at 3) (rows elec_clean)) k'
                    = Some (cell_at 3 e))
        by (rewrite nth_error_map, Hk'; reflexivity).
      rewrite Hl, nth_error_map, (nth_error_combine _ _ _ _ _ HD0 HR0)
        in Hs'.
      injection Hs' as Hs'. rewrite Hs, <- Hs'. reflexivity. }
    split; [exact Hna|].
    exact (categorize_lean_missing _ _ Hcat Hna).
Qed.

(** Baldwin county polled 7 Green votes and none for the two parties: its
    lean score is missing at the election stage, and its row of the sample
    output has no lean score and the political lean "Unknown". *)
Lemma zero_two_party_votes_witness :
  (exists elec_clean scores s,
     process_elections elections_2024 = Ok elec_clean /\
     getitem elec_clean "county_fips" = getitem baldwin_pivot "county_fips" /\
     getitem elec_clean "lean_score" = Ok scores /\
     nth_error scores 0 = Some s /\
     isna s = true /\
     categorize_lean s = Ok (CStr "Unknown")) /\
  (exists scores leans,
     getitem sample_output "lean_score" = Ok scores /\
     getitem sample_output "political_lean" = Ok leans /\
     Forall2 (fun s c => categorize_lean s = Ok c /\
                         (isna s = true -> c = CStr "Unknown"))
       scores leans) /\
  (field sample_output "county_name" (nth 1 (rows sample_output) [])
   = CStr "Baldwin County" /\
   isna (field sample_output "lean_score" (nth 1 (rows sample_output) []))
   = true /\
   field sample_output "political_lean" (nth 1 (rows sample_output) [])
   = CStr "Unknown").
Proof.
  destruct (zero_two_party_votes elections_2024 elections_2024 baldwin_pivot
              [0; 600] [0; 300] 0 0 0) as [Hstage [Hout Hrow]];
    try (reflexivity || lia).
  split; [exact Hstage|].
  split; [exact (Hout sample_fs sample_output sample_run)|].
  split; [reflexivity|].
  apply (Hrow sample_fs sample_output [CInt 1003; CInt 6001] (CInt 1003));
    [reflexivity | exact sample_run | reflexivity | reflexivity
    | right; left; reflexivity | reflexivity |].
  intros [|[|k']] f' Hf' Hm.
  - split; reflexivity.
  - injection Hf' as <-. vm_compute in Hm. discriminate Hm.
  - destruct k'; discriminate Hf'.
Defined.

(** * Further properties of the script *)

(** ** Reads that stop the script *)

(** The four required reads of a run that returns. *)
Lemma prepare_data_required_reads (fs : FileSystem) (out : DataFrame) :
  prepare_data fs = Ok out ->
  forall file, In file required_files ->
    exists df, read fs (data_path fs ++ file) = Some df.
Proof.
  unfold prepare_data. intros H.
  apply bind_ok in H. destruct H as [hg [E1 H]].
  apply bind_ok in H. destruct H as [hc0 [_ H]].
  apply bind_ok in H. destruct H as [hc1 [_ H]].
  apply bind_ok in H. destruct H as [hc [_ H]].
  apply bind_ok in H. destruct H as [elections [E2 H]].
  apply bind_ok in H. destruct H as [ec [_ H]].
  apply bind_ok in H. destruct H as [gun_laws [E3 H]].
  apply bind_ok in H. destruct H as [population [E4 _]].
  apply read_csv_ok in E1, E2, E3, E4.
  intros file [<- | [<- | [<- | [<- | []]]]]; eauto.
Qed.

(** X1.  A required source that cannot be read stops the run: without the
    overall housing file the script raises the read error of that file, and
    without any of the four required files it returns no table. *)
Theorem required_sources_are_fatal (fs : FileSystem) :
  (read fs (data_path fs ++ housing_general_csv) = None ->
   prepare_data fs
   = Raise (FileNotFoundError (data_path fs ++ housing_general_csv))) /\
  (forall file,
     In file required_files ->
     read fs (data_path fs ++ file) = None ->
     forall out, prepare_data fs <> Ok out).
Proof.
  split.
  - intros H. unfold prepare_data, read_csv. rewrite H. reflexivity.
  - intros file Hin Hr out H.
    destruct (prepare_data_required_reads _ _ H file Hin) as [df Hdf].
    congruence.
Qed.

Lemma required_sources_are_fatal_witness :
  prepare_data (mkFS false (fun _ => None))
  = Raise (FileNotFoundError housing_general_csv) /\
  forall out,
    prepare_data
      (mkFS true
         (fun path =>
            if String.eqb path ("data/" ++ population_csv) then None
            else read sample_fs path))
    <> Ok out.
Proof.
  split.
  - apply (proj1 (required_sources_are_fatal (mkFS false (fun _ => None)))).
    reflexivity.
  - apply (proj2 (required_sources_are_fatal _) population_csv).
    + cbn. auto.
    + reflexivity.
Defined.

(** ** Optional sources that are read *)

Lemma filter_nil_iff {A : Type} (f : A -> bool) (l : list A) :
  filter f l <> [] -> exists x, In x l /\ f x = true.
Proof.
  induction l as [|a l IH]; cbn [filter]; intros H; [congruence|].
  destruct (f a) eqn:E.
  - exists a. split; [left; reflexivity | exact E].
  - destruct (IH H) as [x [Hx Hf]]. exists x. split; [right|]; assumption.
Qed.

Lemma last_item_ok (l : list string) (x : string) :
  last_item l = Ok x -> In x l.
Proof.
  unfold last_item. destruct (rev l) as [|y t] eqn:E; intros H; [discriminate|].
  injection H as <-. apply in_rev. rewrite E. left. reflexivity.
Qed.

Lemma col_index_in (label : string) (cols : list string) (i : nat) :
  col_index label cols = Some i -> In label cols.
Proof.
  intros H. apply col_index_bound in H. destruct H as [_ H].
  exact (nth_error_In _ _ H).
Qed.

(** What a housing table needs for its key and its current value. *)
Lemma with_current_value_needs (br df : DataFrame) (label : string) :
  with_current_value br label = Ok df ->
  has_column br "StateCodeFIPS" = true /\
  has_column br "MunicipalCodeFIPS" = true /\
  exists c, In c (columns br) /\ String.prefix "20" c = true.
Proof.
  unfold with_current_value, county_fips. intros H.
  apply bind_ok in H. destruct H as [fips [Hf H]].
  apply bind_ok in Hf. destruct Hf as [st [Hst Hf]].
  apply bind_ok in Hf. destruct Hf as [mu [Hmu _]].
  apply bind_ok in H. destruct H as [df1 [Hs H]].
  apply bind_ok in H. destruct H as [c [Hc _]].
  split; [exact (getitem_has_column _ _ _ Hst)|].
  split; [exact (getitem_has_column _ _ _ Hmu)|].
  apply last_item_ok in Hc. unfold date_cols in Hc.
  apply filter_In in Hc. destruct Hc as [Hin Hp].
  exists c. split; [|exact Hp].
  destruct (setitem_inv _ _ _ _ Hs) as [_ ->].
  destruct (col_index "county_fips" (columns br)); cbn [columns] in Hin;
    [exact Hin|].
  apply in_app_iff in Hin. destruct Hin as [Hin | Hin]; [exact Hin|].
  destruct Hin as [<- | []]. discriminate.
Qed.

Lemma add_bedrooms_needs (hc hc' br : DataFrame) (label : string) :
  add_bedrooms hc (Some br) label = Ok hc' ->
  has_column br "StateCodeFIPS" = true /\
  has_column br "MunicipalCodeFIPS" = true /\
  exists c, In c (columns br) /\ String.prefix "20" c = true.
Proof.
  cbn [add_bedrooms]. intros H.
  apply bind_ok in H. destruct H as [df [H _]].
  exact (with_current_value_needs _ _ _ H).
Qed.

Lemma select_needs (df sel : DataFrame) (labels : list string) :
  select df labels = Ok sel ->
  forall l, In l labels -> has_column df l = true.
Proof.
  intros H. destruct (select_inv _ _ _ H) as [idx [Hi _]]. clear H.
  induction Hi as [|l i labels idx Hl _ IH]; intros x Hx; [destruct Hx|].
  destruct Hx as [<- | Hx]; [|apply IH, Hx].
  unfold has_column. rewrite Hl. reflexivity.
Qed.

Lemma merge_optional_needs (m m' df : DataFrame) (labels : list string)
  (on : string) :
  merge_optional m (Some df) labels on = Ok m' ->
  forall l, In l labels -> has_column df l = true.
Proof.
  cbn [merge_optional]. intros H.
  apply bind_ok in H. destruct H as [sel [H _]].
  exact (select_needs _ _ _ H).
Qed.

(** X2.  An optional source is skipped only when its file cannot be read. A
    run that returns a table has found, in every optional file it could
    read, what it takes from it: the two code columns and a column whose
    name starts with "20" in a bedroom file, and every selected column in
    the exotic-animal and the marijuana file. So an optional file that is
    read but lacks one of these stops the run. *)
Theorem read_optional_sources_are_used (fs : FileSystem) (out : DataFrame) :
  prepare_data fs = Ok out ->
  (forall file br,
     In file [housing_4br_csv; housing_5br_csv] ->
     read fs (data_path fs ++ file) = Some br ->
     has_column br "StateCodeFIPS" = true /\
     has_column br "MunicipalCodeFIPS" = true /\
     exists c, In c (columns br) /\ String.prefix "20" c = true) /\
  (forall ex,
     read fs (data_path fs ++ exotic_animals_csv) = Some ex ->
     forall l, In l exotic_labels -> has_column ex l = true) /\
  (forall mj,
     read fs (data_path fs ++ marijuana_csv) = Some mj ->
     forall l, In l marijuana_labels -> has_column mj l = true).
Proof.
  unfold prepare_data, try_read_csv. intros H.
  apply bind_ok in H. destruct H as [hg [_ H]].
  apply bind_ok in H. destruct H as [hc0 [_ H]].
  apply bind_ok in H. destruct H as [hc1 [H4 H]].
  apply bind_ok in H. destruct H as [hc [H5 H]].
  apply bind_ok in H. destruct H as [elections [_ H]].
  apply bind_ok in H. destruct H as [ec [_ H]].
  apply bind_ok in H. destruct H as [gun_laws [_ H]].
  apply bind_ok in H. destruct H as [population [_ H]].
  apply bind_ok in H. destruct H as [merged [Hm _]].
  unfold merge_all in Hm.
  apply bind_ok in Hm. destruct Hm as [m1 [_ Hm]].
  apply bind_ok in Hm. destruct Hm as [gl [_ Hm]].
  apply bind_ok in Hm. destruct Hm as [m2 [_ Hm]].
  apply bind_ok in Hm. destruct Hm as [pop [_ Hm]].
  apply bind_ok in Hm. destruct Hm as [m3 [_ Hm]].
  apply bind_ok in Hm. destruct Hm as [m4 [Hex Hmj]].
  split; [|split].
  - intros file br [<- | [<- | []]] Hr.
    + rewrite Hr in H4. exact (add_bedrooms_needs _ _ _ _ H4).
    + rewrite Hr in H5. exact (add_bedrooms_needs _ _ _ _ H5).
  - intros ex Hr. rewrite Hr in Hex. exact (merge_optional_needs _ _ _ _ _ Hex).
  - intros mj Hr. rewrite Hr in Hmj. exact (merge_optional_needs _ _ _ _ _ Hmj).
Qed.

Lemma read_optional_sources_are_used_witness :
  has_column sample_housing_4br "StateCodeFIPS" = true /\
  has_column sample_housing_4br "MunicipalCodeFIPS" = true /\
  exists c, In c (columns sample_housing_4br) /\ String.prefix "20" c = true.
Proof.
  apply (proj1 (read_optional_sources_are_used sample_fs sample_output
                  sample_run) housing_4br_csv sample_housing_4br).
  - left. reflexivity.
  - reflexivity.
Defined.

(** ** A housing table without a month column *)

Lemma mapM2_length {A B C : Type} (f : A -> B -> result C)
  (l : list A) (l' : list B) (cs : list C) :
  List.length l = List.length l' ->
  mapM2 f l l' = Ok cs -> List.length cs = List.length l.
Proof.
  revert l' cs. induction l as [|a l IH]; intros [|b l'] cs Hl H;
    try discriminate; cbn [mapM2] in H.
  - injection H as <-. reflexivity.
  - apply bind_ok in H. destruct H as [c [_ H]].
    apply bind_ok in H. destruct H as [cs' [Hcs H]].
    injection H as <-. cbn [List.length]. f_equal.
    apply (IH l'); [cbn in Hl; lia | exact Hcs].
Qed.

Lemma county_fips_length (df : DataFrame) (ks : list cell) :
  county_fips df = Ok ks -> List.length ks = List.length (rows df).
Proof.
  unfold county_fips. intros H.
  apply bind_ok in H. destruct H as [st [Hst H]].
  apply bind_ok in H. destruct H as [mu [Hmu H]].
  apply bind_ok in H. destruct H as [ks' [Hk H]].
  injection H as <-. rewrite length_map.
  apply getitem_length in Hst, Hmu. unfold len in *.
  rewrite (mapM2_length _ _ _ _ (eq_trans Hst (eq_sym Hmu)) Hk). exact Hst.
Qed.

Lemma filter_app_nil {A : Type} (f : A -> bool) (l : list A) (a : A) :
  filter f l = [] -> f a = false -> filter f (l ++ [a]) = [].
Proof.
  intros Hl Ha. rewrite filter_app, Hl. cbn. rewrite Ha. reflexivity.
Qed.

(** With its key in place, a housing table none of whose column names
    starts with "20" has no current value: [date_cols[-1]] is an
    [IndexError]. *)
Lemma with_current_value_no_month (df : DataFrame) (label : string)
  (ks : list cell) :
  county_fips df = Ok ks -> date_cols df = [] ->
  with_current_value df label = Raise IndexError.
Proof.
  intros Hk Hd. unfold with_current_value. rewrite Hk. cbn [bind].
  destruct (setitem_total df "county_fips" ks (county_fips_length _ _ Hk))
    as [df' Hs].
  rewrite Hs. cbn [bind].
  destruct (setitem_inv _ _ _ _ Hs) as [_ ->].
  unfold date_cols in *.
  destruct (col_index "county_fips" (columns df)); cbn [columns].
  - rewrite Hd. reflexivity.
  - rewrite (filter_app_nil _ _ _ Hd) by reflexivity. reflexivity.
Qed.

(** X3.  The overall housing file is read, its codes make keys, but no
    column name starts with "20": the run stops with an [IndexError]. The
    same happens for a bedroom file that was read, although the source is
    optional. *)
Theorem no_month_column_is_an_index_error (fs : FileSystem) :
  (forall hg ks,
     read fs (data_path fs ++ housing_general_csv) = Some hg ->
     county_fips hg = Ok ks ->
     date_cols hg = [] ->
     prepare_data fs = Raise IndexError) /\
  (forall hg hc br ks,
     read fs (data_path fs ++ housing_general_csv) = Some hg ->
     process_general hg = Ok hc ->
     read fs (data_path fs ++ housing_4br_csv) = Some br ->
     county_fips br = Ok ks ->
     date_cols br = [] ->
     prepare_data fs = Raise IndexError).
Proof.
  split.
  - intros hg ks Hr Hk Hd. unfold prepare_data, read_csv. rewrite Hr.
    cbn [bind]. unfold process_general.
    rewrite (with_current_value_no_month _ _ _ Hk Hd). reflexivity.
  - intros hg hc br ks Hr Hp Hb Hk Hd.
    unfold prepare_data, read_csv, try_read_csv. rewrite Hr. cbn [bind].
    rewrite Hp. cbn [bind]. rewrite Hb. cbn [add_bedrooms].
    rewrite (with_current_value_no_month _ _ _ Hk Hd). reflexivity.
Qed.

Lemma no_month_column_is_an_index_error_witness :
  prepare_data (folder [(housing_general_csv, housing_without_months)])
  = Raise IndexError /\
  prepare_data
    (folder [(housing_general_csv, sample_housing);
             (housing_4br_csv, housing_without_months)])
  = Raise IndexError.
Proof.
  split.
  - apply (proj1 (no_month_column_is_an_index_error _)
             housing_without_months [CFloat (F64.of_Z 6001)]);
      reflexivity.
  - apply (proj2 (no_month_column_is_an_index_error _)
             sample_housing sample_anchor housing_without_months
             [CFloat (F64.of_Z 6001)]);
      reflexivity.
Defined.

(** ** How many rows a left join makes *)

Lemma length_flat_map {A B : Type} (f : A -> list B) (l : list A) :
  List.length (flat_map f l) = list_sum (map (fun a => List.length (f a)) l).
Proof.
  induction l as [|a l IH]; cbn [flat_map map]; [reflexivity|].
  rewrite length_app, IH. reflexivity.
Qed.

Lemma joined_rows_length (i j : nat) (right : DataFrame) (l : row) :
  List.length (joined_rows i j right l)
  = Nat.max 1 (List.length
                 (filter (fun r => key_eqb (cell_at i l) (cell_at j r))
                         (rows right))).
Proof.
  unfold joined_rows.
  destruct (filter _ (rows right)) as [|r rs]; [reflexivity|].
  rewrite length_map. unfold row. cbn [List.length]. lia.
Qed.

Lemma list_sum_ge_length (f : row -> nat) (l : list row) :
  (forall a, 1 <= f a)%nat -> (List.length l <= list_sum (map f l))%nat.
Proof.
  intros Hf. induction l as [|a l IH]; cbn [map List.length]; [cbn; lia|].
  change (list_sum (f a :: map f l)) with (f a + list_sum (map f l))%nat.
  specialize (Hf a). lia.
Qed.

(** X4.  A left join makes, of each left row, as many rows as the right
    table has rows with its key, and one row when it has none: a key that
    occurs twice on the right doubles the left rows that carry it, and no
    left row is ever lost. *)
Theorem merge_left_row_count (left right m : DataFrame) (on : string)
  (i j : nat) :
  merge_left left right on = Ok m ->
  col_index on (columns left) = Some i ->
  col_index on (columns right) = Some j ->
  len m
  = list_sum
      (map (fun l =>
              Nat.max 1
                (List.length
                   (filter (fun r => key_eqb (cell_at i l) (cell_at j r))
                           (rows right))))
           (rows left)) /\
  (len left <= len m)%nat.
Proof.
  intros H Hi Hj.
  destruct (merge_left_inv _ _ _ _ H) as [i' [j' [Hi' [Hj' [_ Hr]]]]].
  assert (i' = i) by congruence. assert (j' = j) by congruence. subst i' j'.
  assert (E : len m
              = list_sum
                  (map (fun l =>
                          Nat.max 1
                            (List.length
                               (filter (fun r => key_eqb (cell_at i l)
                                                         (cell_at j r))
                                       (rows right))))
                       (rows left))).
  { unfold len. rewrite Hr, length_flat_map. f_equal.
    apply map_ext. intros l. apply joined_rows_length. }
  split; [exact E|]. rewrite E. unfold len.
  apply list_sum_ge_length. intros a. lia.
Qed.

Lemma merge_left_row_count_witness :
  len anchor_with_gun_laws_twice = 4%nat /\
  (len sample_anchor <= len anchor_with_gun_laws_twice)%nat.
Proof.
  apply (merge_left_row_count sample_anchor gun_laws_twice
           anchor_with_gun_laws_twice "state_code" 3 0); reflexivity.
Defined.

(** ** Running the script again *)

Lemma input_is_not_output (prefix file : string) :
  In file (required_files ++ optional_files) ->
  (prefix = "data/" \/ prefix = "") ->
  (prefix ++ file)%string <> output_path.
Proof.
  unfold required_files, optional_files. cbn [app In].
  intros Hf [-> | ->];
    repeat (destruct Hf as [<- | Hf]; [vm_compute; discriminate|]);
    destruct Hf.
Qed.

Lemma prepare_data_reads (fs fs' : FileSystem) :
  data_path fs' = data_path fs ->
  (forall file, In file (required_files ++ optional_files) ->
     read fs' (data_path fs ++ file) = read fs (data_path fs ++ file)) ->
  prepare_data fs' = prepare_data fs.
Proof.
  intros Hp Hr. unfold prepare_data, read_csv, try_read_csv. rewrite Hp.
  rewrite !Hr by (unfold required_files, optional_files; cbn [app In]; auto 10).
  reflexivity.
Qed.

(** X5.  The script reads nothing that it writes: when the [data] folder is
    there, a run that has saved its table leaves every source as it was, and
    running the script again returns the same table. *)
Theorem second_run_in_data_folder (fs fs' : FileSystem) (out : DataFrame) :
  data_dir_exists fs = true -> runs fs out fs' ->
  prepare_data fs' = Ok out.
Proof.
  intros Hd [Ho [Hd' Hs]]. rewrite <- Ho. apply prepare_data_reads.
  - unfold data_path. rewrite Hd, Hd'. reflexivity.
  - intros file Hf. apply Hs. apply input_is_not_output; [exact Hf|].
    unfold data_path. rewrite Hd. left. reflexivity.
Qed.

(** X6.  Without a [data] folder the script reads its sources in the current
    directory, and saving the table creates the folder. The next run then
    looks for the sources in [data/], where only the saved table is: it
    stops at the first read. *)
Theorem second_run_after_creating_folder (fs fs' : FileSystem)
  (out : DataFrame) :
  no_folder_no_files fs ->
  data_dir_exists fs = false ->
  runs fs out fs' ->
  data_path fs = "" /\
  prepare_data fs'
  = Raise (FileNotFoundError ("data/" ++ housing_general_csv)).
Proof.
  intros Hn Hd [_ [Hd' Hs]]. split; [unfold data_path; rewrite Hd; reflexivity|].
  unfold prepare_data, read_csv, data_path. rewrite Hd'.
  rewrite Hs by (apply input_is_not_output; cbn; auto).
  rewrite (Hn Hd). reflexivity.
Qed.

Lemma with_output_saved (fs : FileSystem) (df : DataFrame) :
  saved fs (with_output fs df).
Proof.
  split; [reflexivity|]. intros path Hp. cbn [with_output read].
  destruct (String.eqb_spec path output_path); [contradiction | reflexivity].
Qed.

Lemma second_run_in_data_folder_witness :
  prepare_data (with_output sample_fs sample_output) = Ok sample_output.
Proof.
  apply (second_run_in_data_folder sample_fs
           (with_output sample_fs sample_output) sample_output);
    [reflexivity | split; [exact sample_run | apply with_output_saved]].
Defined.

Lemma sample_fs_here_files : no_folder_no_files sample_fs_here.
Proof.
  intros _ name. cbn [sample_fs_here read sample_fs].
  repeat match goal with
         | |- context [String.eqb ?a ?b] =>
             destruct (String.eqb_spec a b) as [E | _];
             [exfalso; revert E; clear; cbn; intros E; discriminate|]
         end.
  reflexivity.
Qed.

Lemma second_run_after_creating_folder_witness :
  data_path sample_fs_here = "" /\
  prepare_data (with_output sample_fs_here sample_output)
  = Raise (FileNotFoundError ("data/" ++ housing_general_csv)).
Proof.
  apply (second_run_after_creating_folder sample_fs_here
           (with_output sample_fs_here sample_output) sample_output).
  - exact sample_fs_here_files.
  - reflexivity.
  - split; [vm_compute; reflexivity | apply with_output_saved].
Defined.

(** ** The categories and the dashboard's lists *)

Lemma categorize_lean_offered (s c : cell) :
  categorize_lean s = Ok c -> cell_in c lean_categories = true.
Proof.
  unfold categorize_lean. intros H.
  destruct (isna s); [injection H as <-; reflexivity|].
  repeat (apply bind_ok in H; destruct H as [[|] [_ H]];
          [injection H as <-; reflexivity|]).
  injection H as <-. reflexivity.
Qed.

Lemma categorize_gun_law_offered (g : cell) :
  cell_in (categorize_gun_law g) gun_law_categories = true.
Proof.
  unfold categorize_gun_law.
  repeat match goal with
         | |- context [if ?b then _ else _] => destruct b; [reflexivity|]
         end.
  reflexivity.
Qed.

Lemma isin_all (cs : list cell) (values : list string) :
  Forall (fun c => cell_in c values = true) cs ->
  isin cs values = repeat true (List.length cs).
Proof.
  induction 1 as [|c cs Hc _ IH]; cbn [isin map repeat List.length];
    [reflexivity|].
  rewrite Hc. f_equal. exact IH.
Qed.

(** X7.  Every political lean and every gun-law strength the script writes
    is one of the names the dashboard offers in its two category filters
    ([lean_categories], [gun_law_categories]), so the masks of these filters
    are true on every row while all names are selected. *)
Theorem output_categories_are_offered (fs : FileSystem) (out : DataFrame) :
  prepare_data fs = Ok out ->
  exists leans strengths,
    getitem out "political_lean" = Ok leans /\
    getitem out "gun_law_strength" = Ok strengths /\
    isin leans lean_categories = repeat true (len out) /\
    isin strengths gun_law_categories = repeat true (len out).
Proof.
  intros H.
  destruct (output_categories _ _ H)
    as [[scores [leans [_ [Hl Hc]]]] [grades [_ Hg]]].
  exists leans, (map categorize_gun_law grades).
  split; [exact Hl|]. split; [exact Hg|]. split.
  - rewrite <- (getitem_length _ _ _ Hl). apply isin_all.
    clear Hl. induction Hc as [|s c scores leans Hs _ IH]; constructor;
      [exact (categorize_lean_offered _ _ Hs) | exact IH].
  - rewrite <- (getitem_length _ _ _ Hg). apply isin_all.
    apply Forall_forall. intros c Hc'. apply in_map_iff in Hc'.
    destruct Hc' as [g [<- _]]. apply categorize_gun_law_offered.
Qed.

Lemma output_categories_are_offered_witness :
  exists leans strengths,
    getitem sample_output "political_lean" = Ok leans /\
    getitem sample_output "gun_law_strength" = Ok strengths /\
    isin leans lean_categories = repeat true (len sample_output) /\
    isin strengths gun_law_categories = repeat true (len sample_output).
Proof.
  apply (output_categories_are_offered sample_fs sample_output).
  vm_compute. reflexivity.
Defined.

(** ** Reading a formatted value back *)

Lemma decimal_acc_uint (u : Decimal.uint) (acc : positive) :
  decimal_acc (Zpos acc) (NilEmpty.string_of_uint u)
  = Zpos (Pos.of_uint_acc u acc).
Proof.
  revert acc.
  induction u; intros acc;
    cbn [NilEmpty.string_of_uint decimal_acc Pos.of_uint_acc];
    [reflexivity | ..];
    rewrite <- IHu; f_equal;
    match goal with
    | |- context [digit_val ?a] =>
        let v := eval vm_compute in (digit_val a) in
        change (digit_val a) with v
    end; lia.
Qed.

Lemma decimal_value_uint (u : Decimal.uint) :
  decimal_value (NilEmpty.string_of_uint u) = Z.of_N (Pos.of_uint u).
Proof.
  unfold decimal_value.
  induction u; cbn [NilEmpty.string_of_uint decimal_acc Pos.of_uint];
    [reflexivity | exact IHu | ..];
    cbn [Z.of_N]; rewrite <- decimal_acc_uint; f_equal.
Qed.

Lemma all_digits_uint (u : Decimal.uint) :
  all_digits (NilEmpty.string_of_uint u) = true.
Proof. induction u; cbn; auto. Qed.

Lemma str_of_Z_pos (p : positive) :
  str_of_Z (Zpos p) = NilEmpty.string_of_uint (Pos.to_uint p).
Proof.
  unfold str_of_Z. cbn [Z.to_int NilZero.string_of_int].
  pose proof (DecimalPos.Unsigned.of_to p) as H.
  destruct (Pos.to_uint p); [discriminate | reflexivity ..].
Qed.

(** [str] of a natural number is its decimal numeral. *)
Lemma str_of_Z_value (n : Z) :
  0 <= n -> all_digits (str_of_Z n) = true /\ decimal_value (str_of_Z n) = n.
Proof.
  intros Hn. destruct n as [|p|p]; [split; reflexivity | | lia].
  rewrite str_of_Z_pos. split; [apply all_digits_uint|].
  rewrite decimal_value_uint, DecimalPos.Unsigned.of_to. reflexivity.
Qed.

Lemma is_digit_not_comma (a : ascii) :
  is_digit a = true -> Ascii.eqb a "," = false.
Proof.
  intros H. destruct (Ascii.eqb_spec a ","); [subst; discriminate | reflexivity].
Qed.

(** Taking the separators out of [group3] gives the digits back. *)
Lemma strip_commas_group3 (s : string) :
  all_digits s = true -> strip_commas (group3 s) = s.
Proof.
  induction s as [|a s IH]; cbn [all_digits group3 strip_commas];
    [reflexivity|].
  intros H. apply andb_true_iff in H. destruct H as [Ha Hs].
  rewrite (is_digit_not_comma a Ha). f_equal.
  destruct (negb (String.length s =? 0)%nat && (String.length s mod 3 =? 0)%nat);
    cbn [strip_commas Ascii.eqb]; [|exact (IH Hs)].
  change (Ascii.eqb "," ",") with true. cbv iota. exact (IH Hs).
Qed.

(** [div_half_even n d] is a nearest integer to [n / d], the even one of
    two. *)
Lemma div_half_even_nearest (n d : Z) :
  0 <= n -> 0 < d ->
  let k := F64.div_half_even n d in
  0 <= k /\ 2 * Z.abs (k * d - n) <= d /\
  (2 * Z.abs (k * d - n) = d -> Z.even k = true).
Proof.
  intros Hn Hd. unfold F64.div_half_even. cbv zeta.
  pose proof (Z.div_mod n d ltac:(lia)) as E.
  pose proof (Z.mod_pos_bound n d Hd) as Hr.
  pose proof (Z.div_pos n d Hn Hd) as Hq.
  destruct (Z.compare_spec (2 * (n mod d)) d) as [Hc | Hc | Hc].
  - destruct (Z.even (n / d)) eqn:Ev.
    + split; [lia|]. split; [nia|]. intros _. exact Ev.
    + split; [lia|]. split; [nia|]. intros _.
      rewrite Z.even_add, Ev. reflexivity.
  - split; [lia|]. split; [nia|]. intros H. exfalso. nia.
  - split; [lia|]. split; [nia|]. intros H. exfalso. nia.
Qed.

(** [group3] puts a comma before every group of three digits, counted
    from the right. *)
Lemma group3_commas (s : string) :
  all_digits s = true ->
  String.length (group3 s)
  = (String.length s + (String.length s - 1) / 3)%nat /\
  commas_every_fourth (group3 s) = true.
Proof.
  induction s as [|a s IH]; [split; reflexivity|].
  cbn [all_digits]. intros H. apply andb_true_iff in H. destruct H as [Ha Hs].
  destruct (IH Hs) as [Hl Hsep]. clear IH.
  cbn [group3].
  pose proof (Nat.div_mod_eq (String.length s) 3) as Hdm.
  pose proof (Nat.mod_upper_bound (String.length s) 3 ltac:(lia)) as Hub.
  destruct (negb (String.length s =? 0)%nat
            && (String.length s mod 3 =? 0)%nat) eqn:E;
    cbn [commas_every_fourth String.length]; rewrite Hl, Hsep;
    set (n := String.length s) in *;
    set (q := (n / 3)%nat) in *; set (m := (n mod 3)%nat) in *.
  - apply andb_true_iff in E. destruct E as [E0 E3].
    apply negb_true_iff, Nat.eqb_neq in E0. apply Nat.eqb_eq in E3.
    assert (D1 : ((n - 1) / 3 = q - 1)%nat)
      by (symmetry; apply Nat.div_unique with 2%nat; lia).
    assert (D2 : ((S n - 1) / 3 = q)%nat)
      by (symmetry; apply Nat.div_unique with 0%nat; lia).
    rewrite D1, D2. split; [lia|].
    replace (S (S (n + (q - 1)))) with (1 + q * 4)%nat by lia.
    replace (S (n + (q - 1))) with (0 + q * 4)%nat by lia.
    rewrite !Nat.Div0.mod_add.
    change (1 mod 4 =? 0)%nat with false. change (0 mod 4 =? 0)%nat with true.
    cbv iota. rewrite Ha. reflexivity.
  - rewrite andb_true_r.
    destruct (Nat.eq_dec n 0) as [E0 | E0].
    + rewrite E0. split; [reflexivity | exact Ha].
    + assert (E3 : m <> 0%nat).
      { apply andb_false_iff in E. destruct E as [E | E].
        - apply negb_false_iff, Nat.eqb_eq in E. contradiction.
        - apply Nat.eqb_neq in E. exact E. }
      assert (D1 : ((n - 1) / 3 = q)%nat)
        by (symmetry; apply Nat.div_unique with (m - 1)%nat; lia).
      assert (D2 : ((S n - 1) / 3 = q)%nat)
        by (symmetry; apply Nat.div_unique with m; lia).
      rewrite D1, D2. split; [lia|].
      replace (S (n + q)) with ((m + 1) + q * 4)%nat by lia.
      rewrite Nat.Div0.mod_add.
      assert (Hm : m = 1%nat \/ m = 2%nat) by lia.
      destruct Hm as [-> | ->]; exact Ha.
Qed.

(** The numeral of a natural number, with its separators. *)
Lemma group3_separated (n : Z) :
  0 <= n -> separated (group3 (str_of_Z n)) = true.
Proof.
  intros Hn. destruct (str_of_Z_value n Hn) as [Hd Hv].
  pose proof (proj2 (group3_commas _ Hd)) as Hc.
  destruct (str_of_Z n) as [|a s] eqn:E.
  - exfalso. destruct n as [|p|p]; [discriminate E | | lia].
    cbn in Hv. discriminate Hv.
  - cbn [all_digits] in Hd. apply andb_true_iff in Hd.
    cbn [group3] in *. unfold separated. rewrite (proj1 Hd). exact Hc.
Qed.

(** X8.  The formatted value of a home value that is present and positive is
    "$" and a numeral with thousands separators: the numeral starts with a
    digit and, counted from the right, has a comma after every three
    digits and nowhere else.  Without the separators it reads as the value
    rounded to the nearest integer, to the even one of two.  A whole amount
    below [2^52] reads back as itself. *)
Theorem formatted_value_reads_back :
  (forall m e,
     exists s,
       format_home_value (CFloat (S754_finite false m e))
       = Ok (CStr (String "$" s)) /\
       separated s = true /\
       let k := decimal_value (strip_commas s) in
       all_digits (strip_commas s) = true /\
       (0 <= e -> k = Zpos m * 2 ^ e) /\
       (e < 0 ->
        2 * Z.abs (k * 2 ^ (- e) - Zpos m) <= 2 ^ (- e) /\
        (2 * Z.abs (k * 2 ^ (- e) - Zpos m) = 2 ^ (- e) -> Z.even k = true))) /\
  (forall n,
     0 < n < 2 ^ 52 ->
     exists s,
       format_home_value (CFloat (F64.of_Z n)) = Ok (CStr (String "$" s)) /\
       separated s = true /\
       strip_commas s = str_of_Z n /\
       decimal_value (strip_commas s) = n).
Proof.
  assert (G : forall m e,
             0 <= F64.nearest_int m e /\
             (0 <= e -> F64.nearest_int m e = Zpos m * 2 ^ e) /\
             (e < 0 ->
              2 * Z.abs (F64.nearest_int m e * 2 ^ (- e) - Zpos m) <= 2 ^ (- e) /\
              (2 * Z.abs (F64.nearest_int m e * 2 ^ (- e) - Zpos m) = 2 ^ (- e) ->
               Z.even (F64.nearest_int m e) = true))).
  { intros m e. destruct e as [|p|p]; cbn [F64.nearest_int].
    - split; [lia|]. split; [reflexivity | lia].
    - split; [|split; [reflexivity | lia]].
      pose proof (Z.pow_pos_nonneg 2 (Zpos p)). lia.
    - assert (Hd : 0 < 2 ^ Zpos p) by (apply Z.pow_pos_nonneg; lia).
      destruct (div_half_even_nearest (Zpos m) (2 ^ Zpos p) ltac:(lia) Hd)
        as [H0 [H1 H2]].
      split; [exact H0|]. split; [lia|]. intros _.
      change (- Zneg p) with (Zpos p). split; assumption. }
  split.
  - intros m e. destruct (G m e) as [H0 [H1 H2]].
    exists (group3 (str_of_Z (F64.nearest_int m e))).
    split; [reflexivity|]. split; [exact (group3_separated _ H0)|].
    cbv zeta.
    destruct (str_of_Z_value _ H0) as [Hd Hv].
    rewrite (strip_commas_group3 _ Hd), Hv. auto.
  - intros n Hn. destruct n as [|p|p]; try lia.
    assert (Hd : Zpos (digits2_pos p) < 53).
    { pose proof (digits2_lower p) as Hl.
      destruct (Z_lt_le_dec (Zpos (digits2_pos p)) 53) as [|Hge]; [assumption|].
      exfalso.
      assert (2 ^ 52 <= 2 ^ (Zpos (digits2_pos p) - 1))
        by (apply Z.pow_le_mono_r; lia).
      lia. }
    rewrite (of_Z_pos p Hd).
    exists (group3 (str_of_Z (Zpos p))).
    destruct (str_of_Z_value (Zpos p) ltac:(lia)) as [Hdg Hv].
    rewrite (strip_commas_group3 _ Hdg), Hv.
    split; [|split; [apply group3_separated; lia | split; reflexivity]].
    cbn [format_home_value notna isna F64.is_nan negb to_float bind format_f0].
    do 4 f_equal.
    destruct (Zpos (digits2_pos p) - 53) as [|q|q] eqn:Hq; try lia.
    cbn [F64.nearest_int].
    assert (Hq' : Z.to_pos (53 - Zpos (digits2_pos p)) = q) by lia.
    rewrite Hq', iter_xO_pow. unfold F64.div_half_even.
    rewrite Z.mod_mul, Z.div_mul by (apply Z.pow_nonzero; lia).
    assert (0 < 2 ^ Zpos q) by (apply Z.pow_pos_nonneg; lia).
    destruct (Z.compare_spec (2 * 0) (2 ^ Zpos q)); try lia. reflexivity.
Qed.

Lemma formatted_value_reads_back_witness :
  exists s,
    format_home_value (CFloat (F64.of_Z 1200000)) = Ok (CStr (String "$" s)) /\
    separated s = true /\
    strip_commas s = str_of_Z 1200000 /\
    decimal_value (strip_commas s) = 1200000.
Proof.
  apply (proj2 formatted_value_reads_back 1200000). split; reflexivity.
Defined.

(** * The dashboard *)

(** ** Masks *)

Lemma where_mask_map (df : DataFrame) (p : row -> bool) :
  where_mask df (map p (rows df)) = mkDF (columns df) (filter p (rows df)).
Proof.
  unfold where_mask. f_equal.
  induction (rows df) as [|r rs IH]; cbn [map combine filter snd fst];
    [reflexivity|].
  destruct (p r); cbn [map fst]; rewrite IH; reflexivity.
Qed.

Lemma mask_and_map {A : Type} (p q : A -> bool) (l : list A) :
  mask_and (map p l) (map q l) = map (fun x => p x && q x) l.
Proof.
  induction l as [|a l IH]; cbn [map mask_and]; [reflexivity|].
  rewrite IH. reflexivity.
Qed.

Lemma filter_filter {A : Type} (p q : A -> bool) (l : list A) :
  filter q (filter p l) = filter (fun x => p x && q x) l.
Proof.
  induction l as [|a l IH]; cbn [filter]; [reflexivity|].
  destruct (p a); cbn [filter andb]; [destruct (q a)|]; rewrite IH;
    reflexivity.
Qed.

Lemma field_columns (df fd : DataFrame) (label : string) :
  columns fd = columns df -> field fd label = field df label.
Proof. unfold field. intros ->. reflexivity. Qed.

Lemma has_column_columns (df fd : DataFrame) (label : string) :
  columns fd = columns df -> has_column fd label = has_column df label.
Proof. unfold has_column. intros ->. reflexivity. Qed.

Lemma mapM_ge_int (n : Z) (cs : list cell) (m : list bool) :
  mapM (fun c => ge_int c n) cs = Ok m ->
  m = map (fun c => at_least c n) cs.
Proof.
  intros H. apply mapM_ok in H.
  induction H as [|c b cs m Hc _ IH]; cbn [map]; [reflexivity|].
  unfold at_least. rewrite Hc, IH. reflexivity.
Qed.

Lemma mapM_le_int (n : Z) (cs : list cell) (m : list bool) :
  mapM (fun c => le_int c n) cs = Ok m ->
  m = map (fun c => at_most c n) cs.
Proof.
  intros H. apply mapM_ok in H.
  induction H as [|c b cs m Hc _ IH]; cbn [map]; [reflexivity|].
  unfold at_most. rewrite Hc, IH. reflexivity.
Qed.

(** ** One filter after another *)

Section Filters.

Variable df : DataFrame.

Lemma holds_ext (P Q : row -> bool) (fd : DataFrame) :
  (forall r, P r = Q r) -> holds df P fd -> holds df Q fd.
Proof.
  intros E [Hc Hr]. split; [exact Hc|]. rewrite Hr. apply filter_ext, E.
Qed.

Lemma where_mask_holds (P Q : row -> bool) (fd : DataFrame) :
  holds df P fd ->
  holds df (fun r => P r && Q r) (where_mask fd (map Q (rows fd))).
Proof.
  intros [Hc Hr]. rewrite where_mask_map. split; cbn [columns rows];
    [exact Hc|].
  rewrite Hr. apply filter_filter.
Qed.

Lemma keep_isin_holds (P : row -> bool) (fd fd' : DataFrame)
  (label : string) (values : list string) :
  holds df P fd -> keep_isin fd label values = Ok fd' ->
  holds df (fun r => P r && cell_in (field df label r) values) fd'.
Proof.
  intros Hh H. unfold keep_isin in H.
  apply bind_ok in H. destruct H as [col [Hcol H]]. injection H as <-.
  apply getitem_field in Hcol. destruct Hcol as [-> _].
  unfold isin. rewrite map_map, (field_columns df fd label (proj1 Hh)).
  exact (where_mask_holds P _ fd Hh).
Qed.

Lemma keep_isin_if_holds (P : row -> bool) (fd fd' : DataFrame)
  (flag : bool) (label : string) (values : list string) :
  holds df P fd -> keep_isin_if flag fd label values = Ok fd' ->
  holds df (fun r => P r && (if flag && has_column df label
                          then cell_in (field df label r) values
                          else true)) fd'.
Proof.
  intros Hh H. unfold keep_isin_if in H.
  rewrite (has_column_columns df fd label (proj1 Hh)) in H.
  destruct (flag && has_column df label).
  - exact (keep_isin_holds P fd fd' label values Hh H).
  - injection H as <-. apply (holds_ext P); [|exact Hh].
    intros r. rewrite andb_true_r. reflexivity.
Qed.

Lemma keep_eq_if_holds (P : row -> bool) (fd fd' : DataFrame)
  (flag : bool) (label s : string) :
  holds df P fd -> keep_eq_if flag fd label s = Ok fd' ->
  holds df (fun r => P r && (if flag && has_column df label
                          then cell_in (field df label r) [s]
                          else true)) fd'.
Proof.
  intros Hh H. unfold keep_eq_if in H.
  rewrite (has_column_columns df fd label (proj1 Hh)) in H.
  destruct (flag && has_column df label).
  - apply bind_ok in H. destruct H as [col [Hcol H]]. injection H as <-.
    apply getitem_field in Hcol. destruct Hcol as [-> _].
    unfold eq_str. rewrite map_map, (field_columns df fd label (proj1 Hh)).
    exact (where_mask_holds P _ fd Hh).
  - injection H as <-. apply (holds_ext P); [|exact Hh].
    intros r. rewrite andb_true_r. reflexivity.
Qed.

End Filters.

(** The table [filtered_df] holds exactly the rows that pass. *)
Lemma filtered_df_holds (df fd : DataFrame) (w : Selection) :
  filtered_df df w = Ok fd -> holds df (passes df w) fd.
Proof.
  unfold filtered_df. cbv zeta. intros H.
  set (pc := price_col (bedroom_type w)) in *.
  apply bind_ok in H. destruct H as [present [Hp H]].
  apply getitem_field in Hp. destruct Hp as [-> _]. rewrite map_map in H.
  set (P0 := fun r => notna (field df pc r)) in *.
  assert (H0 : holds df P0 (where_mask df (map P0 (rows df)))).
  { rewrite where_mask_map. split; reflexivity. }
  set (dfb := where_mask df (map P0 (rows df))) in *.
  assert (F : forall label, field dfb label = field df label)
    by (intros label; apply field_columns, (proj1 H0)).
  apply bind_ok in H. destruct H as [prices [Hpr H]].
  apply getitem_field in Hpr. destruct Hpr as [-> _]. rewrite F in H.
  apply bind_ok in H. destruct H as [_ [_ H]].
  apply bind_ok in H. destruct H as [_ [_ H]].
  apply bind_ok in H. destruct H as [_ [_ H]].
  apply bind_ok in H. destruct H as [population [_ H]].
  apply bind_ok in H. destruct H as [_ [_ H]].
  apply bind_ok in H. destruct H as [state_name [_ H]].
  apply bind_ok in H. destruct H as [_ [_ H]].
  apply bind_ok in H. destruct H as [m1 [Hm1 H]].
  apply mapM_ge_int in Hm1. rewrite map_map in Hm1. subst m1.
  apply bind_ok in H. destruct H as [m2 [Hm2 H]].
  apply mapM_le_int in Hm2. rewrite map_map in Hm2. subst m2.
  apply bind_ok in H. destruct H as [lean_col [Hl H]].
  apply getitem_field in Hl. destruct Hl as [-> _]. rewrite F in H.
  apply bind_ok in H. destruct H as [gun_col [Hg H]].
  apply getitem_field in Hg. destruct Hg as [-> _]. rewrite F in H.
  apply bind_ok in H. destruct H as [pop_col [Hpo H]].
  apply getitem_field in Hpo. destruct Hpo as [-> _]. rewrite F in H.
  apply bind_ok in H. destruct H as [m5 [Hm5 H]].
  apply mapM_ge_int in Hm5. rewrite map_map in Hm5. subst m5.
  apply bind_ok in H. destruct H as [m6 [Hm6 H]].
  apply mapM_le_int in Hm6. rewrite map_map in Hm6. subst m6.
  unfold isin in H. rewrite !map_map, !mask_and_map in H.
  match type of H with
  | context [where_mask dfb (map ?Q (rows dfb))] =>
      pose proof (where_mask_holds df P0 Q dfb H0) as H1
  end.
  apply bind_ok in H. destruct H as [fd1 [Hmj H]].
  assert (H2 : holds df
                 (fun r =>
                    P0 r
                    && (at_least (field df pc r) (price_min w)
                        && at_most (field df pc r) (price_max w)
                        && cell_in (field df "political_lean" r)
                             (selected_leans w)
                        && cell_in (field df "gun_law_strength" r)
                             (selected_gun_laws w)
                        && at_least (field df "population" r) (pop_min w)
                        && at_most (field df "population" r) (pop_max w))
                    && (if has_column df "marijuana_status"
                        then cell_in (field df "marijuana_status" r)
                               (selected_marijuana w)
                        else true)) fd1).
  { destruct (has_column df "marijuana_status").
    - exact (keep_isin_holds df _ _ _ _ _ H1 Hmj).
    - injection Hmj as <-. eapply holds_ext; [|exact H1].
      intros r. rewrite andb_true_r. reflexivity. }
  clear H1 Hmj.
  apply bind_ok in H. destruct H as [fd2 [Hex H]].
  assert (H3 : holds df
                 (fun r =>
                    P0 r
                    && (at_least (field df pc r) (price_min w)
                        && at_most (field df pc r) (price_max w)
                        && cell_in (field df "political_lean" r)
                             (selected_leans w)
                        && cell_in (field df "gun_law_strength" r)
                             (selected_gun_laws w)
                        && at_least (field df "population" r) (pop_min w)
                        && at_most (field df "population" r) (pop_max w))
                    && (if has_column df "marijuana_status"
                        then cell_in (field df "marijuana_status" r)
                               (selected_marijuana w)
                        else true)
                    && (if has_column df "exotic_animal_rating"
                        then cell_in (field df "exotic_animal_rating" r)
                               (selected_exotic_ratings w)
                             && (if filter_primates w
                                    && has_column df "allows_primates"
                                 then cell_in (field df "allows_primates" r)
                                        ["Yes"; "Limited"]
                                 else true)
                             && (if filter_big_cats w
                                    && has_column df "allows_big_cats"
                                 then cell_in (field df "allows_big_cats" r)
                                        ["Yes"; "Limited"]
                                 else true)
                             && (if filter_reptiles w
                                    && has_column df "allows_reptiles"
                                 then cell_in (field df "allows_reptiles" r)
                                        ["Yes"]
                                 else true)
                        else true)) fd2).
  { destruct (has_column df "exotic_animal_rating").
    - apply bind_ok in Hex. destruct Hex as [e1 [He1 Hex]].
      apply bind_ok in Hex. destruct Hex as [e2 [He2 Hex]].
      apply bind_ok in Hex. destruct Hex as [e3 [He3 He4]].
      pose proof (keep_isin_holds df _ _ _ _ _ H2 He1) as K1.
      pose proof (keep_isin_if_holds df _ _ _ _ _ _ K1 He2) as K2.
      pose proof (keep_isin_if_holds df _ _ _ _ _ _ K2 He3) as K3.
      pose proof (keep_eq_if_holds df _ _ _ _ _ _ K3 He4) as K4.
      eapply holds_ext; [|exact K4].
      intros r. cbv beta. rewrite <- !andb_assoc. reflexivity.
    - injection Hex as <-. eapply holds_ext; [|exact H2].
      intros r. rewrite andb_true_r. reflexivity. }
  clear H2 Hex.
  unfold passes. cbv zeta. fold pc.
  destruct (nonempty (selected_states w)).
  - exact (keep_isin_holds df _ _ _ _ _ H3 H).
  - injection H as <-. eapply holds_ext; [|exact H3].
    intros r. rewrite andb_true_r. reflexivity.
Qed.

Example sample_first_display :
  first_display sample_counties = Ok sample_selection.
Proof. vm_compute. reflexivity. Qed.

(** ** The filtered table *)

(** X9.  The table the dashboard shows has the columns of the loaded table
    and exactly those of its rows, in their order, that pass every active
    filter: a price for the chosen bedroom type that is present and within
    the price range, a political lean and a gun-law strength among the
    selected ones, a population within its range, and, where the table has
    the column, a selected marijuana status and exotic-animal rating, the
    ticked species allowances, and a selected state when any state is
    selected. *)
Theorem filtered_df_keeps_what_passes (df fd : DataFrame) (w : Selection) :
  filtered_df df w = Ok fd ->
  columns fd = columns df /\
  rows fd = filter (passes df w) (rows df).
Proof. intros H. exact (filtered_df_holds df fd w H). Qed.

Lemma filtered_df_keeps_what_passes_witness :
  exists fd,
    filtered_df sample_counties sample_selection = Ok fd /\
    columns fd = columns sample_counties /\
    rows fd = filter (passes sample_counties sample_selection)
                (rows sample_counties).
Proof.
  eexists. split; [vm_compute; reflexivity|].
  apply (filtered_df_keeps_what_passes sample_counties _ sample_selection).
  vm_compute. reflexivity.
Defined.

Lemma leb_right_not_nan (c x : F64.t) :
  F64.leb c x = true -> F64.is_nan x = false.
Proof.
  unfold F64.leb, SFleb.
  destruct c as [| | |? ? ?], x as [| | |? ? ?]; cbn; congruence.
Qed.

Lemma at_least_present (c : cell) (n : Z) :
  at_least c n = true -> notna c = true.
Proof.
  destruct c as [z | f | s]; cbn; intros H; [reflexivity | | discriminate].
  unfold notna. cbn [isna]. rewrite (leb_right_not_nan _ _ H). reflexivity.
Qed.

Lemma cell_in_is_str (c : cell) (values : list string) :
  cell_in c values = true -> is_str c = true.
Proof. destruct c; cbn; congruence. Qed.

(** X10.  Whatever is selected, the dashboard never shows a county whose
    population is missing, nor, when the table has these columns, one
    without a marijuana status or without an exotic-animal rating: a missing
    value is within no range and in no selection. *)
Theorem missing_values_are_never_shown (df fd : DataFrame) (w : Selection)
  (r : row) :
  filtered_df df w = Ok fd -> In r (rows fd) ->
  In r (rows df) /\
  notna (field df (price_col (bedroom_type w)) r) = true /\
  notna (field df "population" r) = true /\
  (has_column df "marijuana_status" = true ->
   is_str (field df "marijuana_status" r) = true) /\
  (has_column df "exotic_animal_rating" = true ->
   is_str (field df "exotic_animal_rating" r) = true).
Proof.
  intros H Hr. destruct (filtered_df_holds df fd w H) as [_ E].
  rewrite E in Hr. apply filter_In in Hr. destruct Hr as [Hin Hp].
  unfold passes in Hp. cbv zeta in Hp.
  repeat match goal with
         | H : _ && _ = true |- _ => apply andb_true_iff in H; destruct H
         end.
  split; [exact Hin|]. split; [assumption|].
  split; [eapply at_least_present; eassumption|]. split.
  - intros Hm. rewrite Hm in *. eapply cell_in_is_str; eassumption.
  - intros He. rewrite He in *.
    repeat match goal with
           | H : _ && _ = true |- _ =>
               apply andb_true_iff in H; destruct H
           end.
    eapply cell_in_is_str; eassumption.
Qed.

Lemma missing_values_are_never_shown_witness :
  In (nth 2 (rows sample_counties) []) (rows sample_counties) /\
  notna (field sample_counties (price_col (bedroom_type sample_selection))
           (nth 2 (rows sample_counties) [])) = true /\
  notna (field sample_counties "population"
           (nth 2 (rows sample_counties) [])) = true /\
  (has_column sample_counties "marijuana_status" = true ->
   is_str (field sample_counties "marijuana_status"
             (nth 2 (rows sample_counties) [])) = true) /\
  (has_column sample_counties "exotic_animal_rating" = true ->
   is_str (field sample_counties "exotic_animal_rating"
             (nth 2 (rows sample_counties) [])) = true).
Proof.
  eapply (missing_values_are_never_shown sample_counties _ sample_selection).
  - vm_compute. reflexivity.
  - vm_compute. left. reflexivity.
Defined.

(** ** Exceptions on the way *)

Lemma filter_notna_none {A : Type} (g : A -> cell) (l : list A) :
  forallb isna (map g l) = true -> filter (fun a => notna (g a)) l = [].
Proof.
  induction l as [|a l IH]; cbn [map forallb filter]; intros H; [reflexivity|].
  apply andb_true_iff in H. destruct H as [Ha Hl].
  unfold notna. rewrite Ha. exact (IH Hl).
Qed.

(** X11.  When the table has no price for the chosen bedroom type, in no
    row, the price slider cannot be set up: [int] of the NaN that [min()]
    returns is a [ValueError], and the script stops there. *)
Theorem no_price_is_a_value_error (df : DataFrame) (w : Selection)
  (col : list cell) :
  getitem df (price_col (bedroom_type w)) = Ok col ->
  forallb isna col = true ->
  filtered_df df w = Raise ValueError.
Proof.
  intros Hc Hn. unfold filtered_df. cbv zeta. rewrite Hc. cbn [bind].
  apply getitem_field in Hc. destruct Hc as [-> Hh].
  rewrite map_map, where_mask_map.
  rewrite (filter_notna_none _ _ Hn).
  unfold has_column in Hh. unfold getitem, locate. cbn [columns rows].
  destruct (col_index (price_col (bedroom_type w)) (columns df));
    [|discriminate].
  reflexivity.
Qed.

Lemma no_price_is_a_value_error_witness :
  filtered_df counties_without_4br
    (mkSelection "4 Bedrooms" 0 0 [] [] [] [] false false false 0 0 [])
  = Raise ValueError.
Proof.
  apply (no_price_is_a_value_error counties_without_4br _ [NaN; NaN]);
    reflexivity.
Defined.

(** X12.  A county without a state name, next to one that has a name, stops
    the dashboard whatever is selected: the list of states cannot be sorted. *)
Theorem missing_state_name_stops (df : DataFrame) (w : Selection)
  (col : list cell) :
  getitem df "state_name" = Ok col ->
  existsb isna col = true -> existsb is_str col = true ->
  returns (filtered_df df w) = false.
Proof.
  intros Hc Hn Hs. destruct (filtered_df df w) as [fd | e |] eqn:H;
    [exfalso | reflexivity | reflexivity].
  unfold filtered_df in H. cbv zeta in H.
  apply bind_ok in H. destruct H as [present [_ H]].
  apply bind_ok in H. destruct H as [prices [_ H]].
  apply bind_ok in H. destruct H as [_ [_ H]].
  apply bind_ok in H. destruct H as [_ [_ H]].
  apply bind_ok in H. destruct H as [_ [_ H]].
  apply bind_ok in H. destruct H as [population [_ H]].
  apply bind_ok in H. destruct H as [_ [_ H]].
  apply bind_ok in H. destruct H as [state_name [Hst H]].
  apply bind_ok in H. destruct H as [states [Hso _]].
  assert (state_name = col) by congruence. subst state_name.
  unfold sorted_unique in Hso. rewrite Hn, Hs in Hso. discriminate.
Qed.

(** ** The columns the dashboard relies on *)

Lemma has_column_mem (df : DataFrame) (label : string) :
  has_column df label = mem label (columns df).
Proof.
  unfold has_column, mem.
  induction (columns df) as [|c cols IH]; cbn [col_index existsb];
    [reflexivity|].
  destruct (String.eqb label c); [reflexivity|].
  rewrite <- IH. destruct (col_index label cols); reflexivity.
Qed.

Lemma output_columns_cases (fs : FileSystem) (out : DataFrame) :
  prepare_data fs = Ok out ->
  exists b4 b5 bex bmj, columns out = output_columns b4 b5 bex bmj.
Proof.
  intros H.
  destruct (prepare_data_merged _ _ H)
    as [anchor [js [merged [_ [_ [Hd [wf Hc]]]]]]].
  destruct (derive_fields_spec _ _ _ _ _ _ wf Hc Hd) as [_ [Hco _]].
  eauto.
Qed.

(** X13.  For a table with the columns the script writes, every bedroom type
    the dashboard offers has its price column and its formatted column, so
    neither raises a [KeyError]; and "All Homes" is always offered. *)
Theorem offered_bedroom_types_have_columns (fs : FileSystem)
  (out df : DataFrame) (bedroom : string) :
  prepare_data fs = Ok out -> columns df = columns out ->
  In bedroom (bedroom_options df) ->
  has_column df (price_col bedroom) = true /\
  has_column df (price_col_formatted bedroom) = true /\
  In "All Homes" (bedroom_options df).
Proof.
  intros H Hc Hin.
  destruct (output_columns_cases _ _ H) as [b4 [b5 [bex [bmj Ho]]]].
  rewrite Ho in Hc. unfold bedroom_options in *.
  rewrite !has_column_mem, Hc in *.
  split; [|split; [|left; reflexivity]];
    destruct b4, b5, bex, bmj; cbn in Hin;
    repeat (destruct Hin as [<- | Hin]; [reflexivity|]); destruct Hin.
Qed.

Lemma offered_bedroom_types_have_columns_witness :
  has_column sample_output (price_col "4 Bedrooms") = true /\
  has_column sample_output (price_col_formatted "4 Bedrooms") = true /\
  In "All Homes" (bedroom_options sample_output).
Proof.
  apply (offered_bedroom_types_have_columns sample_fs sample_output);
    [exact sample_run | reflexivity | right; left; reflexivity].
Defined.

Lemma missing_state_name_stops_witness :
  returns
    (filtered_df counties_without_state
       (mkSelection "All Homes" 0 0 [] [] [] [] false false false 0 0 []))
  = false.
Proof.
  apply (missing_state_name_stops counties_without_state _
           [CStr "CA"; NaN]); reflexivity.
Defined.

(** ** More on the order of float64 values *)

Lemma lex3_le_trans a b c :
  F64.lex3 a b <> Gt -> F64.lex3 b c <> Gt -> F64.lex3 a c <> Gt.
Proof.
  destruct a as [[a1 a2] a3], b as [[b1 b2] b3], c as [[c1 c2] c3].
  unfold F64.lex3. intros H1 H2.
  F64Order.split_compares; try discriminate; try lia;
    try (exfalso; apply H1; reflexivity);
    try (exfalso; apply H2; reflexivity).
Qed.

Lemma leb_rank (x y : F64.t) :
  F64.is_nan x = false -> F64.is_nan y = false ->
  F64.leb x y = true <-> F64.lex3 (F64.rank x) (F64.rank y) <> Gt.
Proof.
  intros Hx Hy. unfold F64.leb, SFleb.
  rewrite (F64Order.compare_rank x y Hx Hy).
  destruct (F64.lex3 (F64.rank x) (F64.rank y)); split; congruence.
Qed.

Lemma leb_left_not_nan (x c : F64.t) :
  F64.leb x c = true -> F64.is_nan x = false.
Proof. apply F64Order.leb_not_nan. Qed.

Lemma leb_trans (a b c : F64.t) :
  F64.leb a b = true -> F64.leb b c = true -> F64.leb a c = true.
Proof.
  intros H1 H2.
  pose proof (leb_left_not_nan _ _ H1) as Ha.
  pose proof (leb_left_not_nan _ _ H2) as Hb.
  pose proof (leb_right_not_nan _ _ H2) as Hc.
  apply (leb_rank a b Ha Hb) in H1. apply (leb_rank b c Hb Hc) in H2.
  apply (leb_rank a c Ha Hc). exact (lex3_le_trans _ _ _ H1 H2).
Qed.

Lemma leb_total (a b : F64.t) :
  F64.is_nan a = false -> F64.is_nan b = false ->
  F64.leb a b = true \/ F64.leb b a = true.
Proof.
  intros Ha Hb.
  destruct (F64.lex3 (F64.rank a) (F64.rank b)) eqn:E.
  - left. apply (leb_rank a b Ha Hb). congruence.
  - left. apply (leb_rank a b Ha Hb). congruence.
  - right. apply (leb_rank b a Hb Ha).
    rewrite F64Order.lex3_antisym, E. discriminate.
Qed.

Lemma leb_refl (a : F64.t) : F64.is_nan a = false -> F64.leb a a = true.
Proof. intros Ha. destruct (leb_total a a Ha Ha); assumption. Qed.

Lemma lex3_eq a b : F64.lex3 a b = Eq -> a = b.
Proof.
  destruct a as [[a1 a2] a3], b as [[b1 b2] b3]. unfold F64.lex3.
  destruct (Z.compare_spec a1 b1); try discriminate.
  destruct (Z.compare_spec a2 b2); try discriminate.
  destruct (Z.compare_spec a3 b3); try discriminate.
  intros _. congruence.
Qed.

(** Two values that are each at most the other are one value, when one of
    them is finite and not zero. *)
Lemma leb_antisym (x : F64.t) (s : bool) (m : positive) (e : Z) :
  F64.leb x (S754_finite s m e) = true ->
  F64.leb (S754_finite s m e) x = true ->
  x = S754_finite s m e.
Proof.
  intros H1 H2. pose proof (leb_left_not_nan _ _ H1) as Hx.
  assert (Hf : F64.is_nan (S754_finite s m e) = false) by reflexivity.
  apply (leb_rank _ _ Hx Hf) in H1. apply (leb_rank _ _ Hf Hx) in H2.
  rewrite F64Order.lex3_antisym in H2.
  assert (E : F64.lex3 (F64.rank x) (F64.rank (S754_finite s m e)) = Eq).
  { destruct (F64.lex3 (F64.rank x) (F64.rank (S754_finite s m e)));
      [reflexivity | exfalso; apply H2; reflexivity
      | exfalso; apply H1; reflexivity]. }
  apply lex3_eq in E.
  destruct x as [sx | sx | | sx mx ex]; try discriminate;
    destruct s; try destruct sx; cbn in E; try discriminate;
    injection E; intros; f_equal; lia.
Qed.

(** ** Rounding never makes a NaN *)

Lemma shr_1_nonneg (mrs : shr_record) :
  0 <= shr_m mrs -> 0 <= shr_m (shr_1 mrs).
Proof.
  destruct mrs as [m r s]. cbn [shr_m]. intros H.
  destruct m as [|[p|p|]|p]; cbn; lia.
Qed.

Lemma iter_pos_invariant {A : Type} (f : A -> A) (P : A -> Prop) :
  (forall a, P a -> P (f a)) -> forall n a, P a -> P (iter_pos f n a).
Proof.
  intros Hf. induction n as [n IH | n IH |]; intros a Ha; cbn [iter_pos];
    auto.
Qed.

Lemma shr_nonneg (mrs : shr_record) (e n : Z) :
  0 <= shr_m mrs -> 0 <= shr_m (fst (shr mrs e n)).
Proof.
  intros H. unfold shr. destruct n; cbn [fst]; try exact H.
  apply (iter_pos_invariant shr_1 (fun r => 0 <= shr_m r));
    [apply shr_1_nonneg | exact H].
Qed.

Lemma shr_record_of_loc_m (m : Z) (l : location) :
  shr_m (shr_record_of_loc m l) = m.
Proof. destruct l as [|[| |]]; reflexivity. Qed.

Lemma round_nearest_even_nonneg (m : Z) (l : location) :
  0 <= m -> 0 <= round_nearest_even m l.
Proof.
  intros H. destruct l as [|[| |]]; cbn [round_nearest_even]; try lia.
  destruct (Z.even m); lia.
Qed.

Lemma binary_round_aux_not_nan (prec emax : Z) (sx : bool) (mx ex : Z)
  (lx : location) :
  0 <= mx ->
  F64.is_nan (binary_round_aux prec emax sx mx ex lx) = false.
Proof.
  intros H. unfold binary_round_aux, shr_fexp.
  pose proof (shr_nonneg (shr_record_of_loc mx lx) ex
                (fexp prec emax (Zdigits2 mx + ex) - ex)) as H1.
  rewrite shr_record_of_loc_m in H1. specialize (H1 H).
  destruct (shr (shr_record_of_loc mx lx) ex _) as [mrs' e'].
  cbn [fst] in H1.
  pose proof (round_nearest_even_nonneg (shr_m mrs') (loc_of_shr_record mrs')
                H1) as H2.
  set (m2 := round_nearest_even (shr_m mrs') (loc_of_shr_record mrs')) in *.
  pose proof (shr_nonneg (shr_record_of_loc m2 loc_Exact) e'
                (fexp prec emax (Zdigits2 m2 + e') - e')) as H3.
  rewrite shr_record_of_loc_m in H3. specialize (H3 H2).
  destruct (shr (shr_record_of_loc m2 loc_Exact) e' _) as [mrs'' e''].
  cbn [fst] in H3.
  destruct (shr_m mrs'') as [|p|p]; [reflexivity | | lia].
  destruct (e'' <=? emax - prec); reflexivity.
Qed.

Lemma of_Z_not_nan (z : Z) : F64.is_nan (F64.of_Z z) = false.
Proof.
  unfold F64.of_Z, binary_normalize.
  destruct z as [|p|p]; [reflexivity | |];
    unfold binary_round;
    destruct (shl_align _ _ _) as [mz ez];
    apply binary_round_aux_not_nan; lia.
Qed.

Lemma number_not_nan (c : cell) (x : F64.t) :
  notna c = true -> number c = Ok x -> F64.is_nan x = false.
Proof.
  destruct c as [z | f | s]; cbn [number]; intros Hn H; [| | discriminate].
  - destruct (Z.abs z <? 2 ^ 53); [|discriminate].
    injection H as <-. apply of_Z_not_nan.
  - injection H as <-. unfold notna in Hn. cbn [isna] in Hn.
    destruct (F64.is_nan f); [discriminate | reflexivity].
Qed.

(** ** Sorting *)

Section InsertionSort.

Variable A : Type.
Variable leb : A -> A -> bool.
Variable Q : A -> Prop.
Hypothesis leb_total' :
  forall a b, Q a -> Q b -> leb a b = true \/ leb b a = true.
Hypothesis leb_trans' :
  forall a b c, leb a b = true -> leb b c = true -> leb a c = true.

Lemma insert_by_perm (x : A) (l : list A) :
  Permutation (insert_by leb x l) (x :: l).
Proof.
  induction l as [|y l IH]; cbn [insert_by]; [reflexivity|].
  destruct (leb x y); [reflexivity|].
  rewrite IH. apply perm_swap.
Qed.

Lemma sort_by_perm (l : list A) : Permutation (sort_by leb l) l.
Proof.
  unfold sort_by. induction l as [|x l IH]; cbn [fold_right]; [reflexivity|].
  rewrite insert_by_perm. constructor. exact IH.
Qed.

Lemma insert_by_sorted (x : A) (l : list A) :
  Q x -> Forall Q l ->
  StronglySorted (fun a b => leb a b = true) l ->
  StronglySorted (fun a b => leb a b = true) (insert_by leb x l).
Proof.
  intros Hx Hl Hs. induction Hs as [|y l Hs IH Hy]; cbn [insert_by].
  - repeat constructor.
  - inversion Hl as [|? ? Qy Ql]; subst.
    destruct (leb x y) eqn:E.
    + constructor; [constructor; assumption|].
      constructor; [exact E|].
      eapply Forall_impl; [|exact Hy]. intros b Hb. cbv beta in *.
      exact (leb_trans' _ _ _ E Hb).
    + constructor; [exact (IH Ql)|].
      assert (Hyx : leb y x = true).
      { destruct (leb_total' x y Hx Qy) as [H | H]; [congruence | exact H]. }
      apply Forall_forall. intros b Hb.
      apply (Permutation_in _ (insert_by_perm x l)) in Hb.
      destruct Hb as [<- | Hb]; [exact Hyx|].
      rewrite Forall_forall in Hy. exact (Hy b Hb).
Qed.

Lemma sort_by_sorted (l : list A) :
  Forall Q l -> StronglySorted (fun a b => leb a b = true) (sort_by leb l).
Proof.
  unfold sort_by. induction 1 as [|x l Hx Hl IH]; cbn [fold_right];
    [constructor|].
  apply insert_by_sorted; [exact Hx | | exact IH].
  apply Forall_forall. intros b Hb.
  apply (Permutation_in _ (sort_by_perm l)) in Hb.
  rewrite Forall_forall in Hl. exact (Hl b Hb).
Qed.

End InsertionSort.

Lemma strongly_sorted_app {A : Type} (R : A -> A -> Prop) (l1 l2 : list A) :
  StronglySorted R (l1 ++ l2) ->
  StronglySorted R l1 /\
  forall a b, In a l1 -> In b l2 -> R a b.
Proof.
  induction l1 as [|x l1 IH]; cbn [app]; intros H.
  - split; [constructor | intros a b []].
  - inversion H as [|? ? Hs Hf]; subst. destruct (IH Hs) as [H1 H2].
    rewrite Forall_forall in Hf. split.
    + constructor; [exact H1|]. apply Forall_forall. intros b Hb.
      apply Hf, in_or_app. left. exact Hb.
    + intros a b [<- | Ha] Hb; [|exact (H2 a b Ha Hb)].
      apply Hf, in_or_app. right. exact Hb.
Qed.

Lemma strongly_sorted_map {A B : Type} (R : A -> A -> Prop)
  (S : B -> B -> Prop) (P : A -> Prop) (g : A -> B) (l : list A) :
  (forall a b, P a -> P b -> R a b -> S (g a) (g b)) ->
  Forall P l -> StronglySorted R l -> StronglySorted S (map g l).
Proof.
  intros HRS Hp Hs. induction Hs as [|x l Hs IH Hx]; cbn [map];
    [constructor|].
  inversion Hp as [|? ? Px Pl]; subst.
  constructor; [exact (IH Pl)|].
  apply Forall_forall. intros b Hb. apply in_map_iff in Hb.
  destruct Hb as [a [<- Ha]]. rewrite Forall_forall in Hx, Pl.
  exact (HRS x a Px (Pl a Ha) (Hx a Ha)).
Qed.

(** ** The ten most affordable counties *)

Lemma mapM_keyed (i : nat) (rs : list row) (keyed : list (F64.t * row)) :
  mapM (fun r => x <- number (cell_at i r) ;; Ok (x, r)) rs = Ok keyed ->
  map snd keyed = rs /\
  Forall (fun a => number (cell_at i (snd a)) = Ok (fst a)) keyed.
Proof.
  intros H. apply mapM_ok in H.
  induction H as [|r a rs keyed Ha _ [IH1 IH2]]; [split; constructor|].
  apply bind_ok in Ha. destruct Ha as [x [Hx Ha]]. injection Ha as <-.
  split; [cbn [map snd]; f_equal; exact IH1|].
  constructor; [exact Hx | exact IH2].
Qed.

(** [nsmallest] keeps the columns, returns [n] rows or all rows when there
    are fewer, takes them among the rows of the table, in the ascending
    order of their values, and leaves behind no row with a smaller value
    than a row it takes. *)
Lemma nsmallest_spec (n : nat) (df top : DataFrame) (label : string)
  (i : nat) :
  col_index label (columns df) = Some i ->
  nsmallest n df label = Ok top ->
  columns top = columns df /\
  len top = Nat.min n (len df) /\
  StronglySorted (no_dearer i) (rows top) /\
  exists rest,
    Permutation (rows top ++ rest) (rows df) /\
    forall r r', In r (rows top) -> In r' rest -> no_dearer i r r'.
Proof.
  intros Hi H. unfold nsmallest, locate in H. rewrite Hi in H.
  cbn [bind] in H.
  destruct (existsb (fun r => isna (cell_at i r)) (rows df)) eqn:En;
    [discriminate|].
  apply bind_ok in H. destruct H as [keyed [Hk H]]. injection H as <-.
  cbn [columns rows]. unfold len. cbn [rows].
  destruct (mapM_keyed _ _ _ Hk) as [Hs Hn].
  set (lebk := fun a b : F64.t * row => F64.leb (fst a) (fst b)) in *.
  set (sorted := sort_by lebk keyed).
  pose proof (sort_by_perm _ lebk keyed) as Hp. fold sorted in Hp.
  assert (Hq : Forall (fun a => F64.is_nan (fst a) = false) keyed).
  { apply Forall_forall. intros a Ha. rewrite Forall_forall in Hn.
    apply (number_not_nan (cell_at i (snd a))); [|exact (Hn a Ha)].
    assert (Hin : In (snd a) (rows df)) by (rewrite <- Hs; apply in_map, Ha).
    unfold notna. apply negb_true_iff.
    destruct (isna (cell_at i (snd a))) eqn:E; [|reflexivity].
    rewrite <- En. symmetry. apply existsb_exists. eauto. }
  assert (Hso : StronglySorted (fun a b => lebk a b = true) sorted).
  { apply (sort_by_sorted _ lebk (fun a => F64.is_nan (fst a) = false));
      [| |exact Hq].
    - intros a b Ha Hb. apply leb_total; assumption.
    - intros a b c. apply leb_trans. }
  assert (Hn' : Forall (fun a => number (cell_at i (snd a)) = Ok (fst a))
                  sorted).
  { apply Forall_forall. intros a Ha.
    apply (Permutation_in _ Hp) in Ha. rewrite Forall_forall in Hn.
    exact (Hn a Ha). }
  assert (Hrows : StronglySorted (no_dearer i) (map snd sorted)).
  { apply (strongly_sorted_map _ _ _ snd sorted) with (3 := Hso) (2 := Hn').
    intros a b Ha Hb Hab. exists (fst a), (fst b). auto. }
  rewrite <- (firstn_skipn n (map snd sorted)) in Hrows.
  destruct (strongly_sorted_app _ _ _ Hrows) as [H1 H2].
  split; [reflexivity|]. split; [|split; [exact H1|]].
  - rewrite length_firstn, length_map.
    rewrite (Permutation_length Hp), <- Hs, length_map. reflexivity.
  - exists (skipn n (map snd sorted)). split; [|exact H2].
    rewrite firstn_skipn, <- Hs. apply Permutation_map, Hp.
Qed.

Lemma select_fields (df sel : DataFrame) (labels : list string) :
  select df labels = Ok sel ->
  rows sel = map (fun r => map (fun l => field df l r) labels) (rows df).
Proof.
  intros H. destruct (select_inv _ _ _ H) as [idx [Hi ->]]. cbn [rows].
  clear H. apply map_ext. intros r.
  induction Hi as [|l i labels idx Hl _ IH]; cbn [map]; [reflexivity|].
  unfold field at 1. rewrite Hl, IH. reflexivity.
Qed.

(** X14.  The table "Top 10 Most Affordable Counties" shows six fields of at
    most ten counties of the filtered table: ten of them, or all when there
    are fewer, cheapest first, and no county that is left out is cheaper
    than one that is shown. *)
Theorem top_ten_are_the_cheapest (fd a : DataFrame) (bedroom : string)
  (i : nat) :
  col_index (price_col bedroom) (columns fd) = Some i ->
  affordable fd bedroom = Ok a ->
  exists top rest,
    rows a
    = map (fun r =>
             map (fun l => field fd l r)
               ["county_name"; "state_code"; price_col_formatted bedroom;
                "population"; "political_lean"; "gun_law_grade"]) top /\
    List.length top = Nat.min 10 (len fd) /\
    Permutation (top ++ rest) (rows fd) /\
    StronglySorted (no_dearer i) top /\
    forall r r', In r top -> In r' rest -> no_dearer i r r'.
Proof.
  intros Hi H. unfold affordable in H.
  apply bind_ok in H. destruct H as [top [Ht H]].
  apply bind_ok in H. destruct H as [sel [Hs H]].
  apply set_columns_inv in H. destruct H as [_ ->]. cbn [rows].
  destruct (nsmallest_spec _ _ _ _ _ Hi Ht)
    as [Hc [Hl [Hso [rest [Hp Hr]]]]].
  exists (rows top), rest.
  split; [|split; [exact Hl|split; [exact Hp|split; [exact Hso|exact Hr]]]].
  rewrite (select_fields _ _ _ Hs). apply map_ext. intros r.
  apply map_ext. intros l. apply (f_equal (fun f => f r)).
  apply field_columns, Hc.
Qed.

Lemma top_ten_are_the_cheapest_witness :
  exists a top rest,
    affordable sample_counties "All Homes" = Ok a /\
    rows a
    = map (fun r =>
             map (fun l => field sample_counties l r)
               ["county_name"; "state_code"; price_col_formatted "All Homes";
                "population"; "political_lean"; "gun_law_grade"]) top /\
    List.length top = Nat.min 10 (len sample_counties) /\
    Permutation (top ++ rest) (rows sample_counties) /\
    StronglySorted (no_dearer 4) top /\
    forall r r', In r top -> In r' rest -> no_dearer 4 r r'.
Proof.
  eexists.
  destruct (top_ten_are_the_cheapest sample_counties _ "All Homes" 4
              eq_refl eq_refl) as [top [rest H]].
  exists top, rest. split; [reflexivity | exact H].
Defined.

(** ** The table of the first tab *)

(** X15.  For a table with the columns the script writes, and a bedroom type
    the dashboard offers, whenever the filters return their table the table
    of the first tab is built as well: every column it takes is there, the
    new names fit, and it has one row per row of the filtered table, with
    the cells of that row under the columns taken, in their order. *)
Theorem display_table_is_built (fs : FileSystem) (out df fd : DataFrame)
  (w : Selection) :
  prepare_data fs = Ok out -> columns df = columns out ->
  In (bedroom_type w) (bedroom_options df) ->
  filtered_df df w = Ok fd ->
  exists d,
    display_df fd (bedroom_type w) = Ok d /\
    columns d = display_names fd (bedroom_type w) /\
    len d = len fd /\
    rows d = map (fun r => map (fun l => field fd l r)
                             (display_cols fd (bedroom_type w)))
                 (rows fd).
Proof.
  intros Hout Hc Hin H.
  destruct (filtered_df_holds df fd w H) as [Hcf Hrf].
  destruct (output_columns_cases _ _ Hout) as [b4 [b5 [bex [bmj Ho]]]].
  rewrite Ho in Hc.
  assert (Hcols : columns fd = output_columns b4 b5 bex bmj) by congruence.
  assert (Hb : bedroom_type w = "All Homes"
               \/ (bedroom_type w = "4 Bedrooms" /\ b4 = true)
               \/ (bedroom_type w = "5+ Bedrooms" /\ b5 = true)).
  { unfold bedroom_options in Hin. rewrite !has_column_mem, Hc in Hin.
    destruct b4, b5, bex, bmj; cbn in Hin;
      repeat (destruct Hin as [<- | Hin]; [auto|]); destruct Hin. }
  unfold display_df.
  destruct (select_total fd (display_cols fd (bedroom_type w)))
    as [sel Hsel].
  { intros l Hl. unfold display_cols in Hl.
    rewrite !has_column_mem, Hcols in Hl. rewrite has_column_mem, Hcols.
    destruct b4, b5, bex, bmj;
      destruct Hb as [E | [[E E'] | [E E']]]; try discriminate E';
      rewrite E in Hl; cbn in Hl;
      repeat (destruct Hl as [<- | Hl]; [reflexivity|]); destruct Hl. }
  rewrite Hsel. cbn [bind]. unfold set_columns.
  rewrite (select_columns _ _ _ Hsel).
  assert (Hlen : (List.length (display_names fd (bedroom_type w))
                  =? List.length (display_cols fd (bedroom_type w)))%nat
                 = true).
  { unfold display_names, display_cols.
    destruct (has_column fd "marijuana_status"),
      (has_column fd "exotic_animal_rating"); reflexivity. }
  rewrite Hlen. eexists. split; [reflexivity|]. split; [reflexivity|].
  split; [exact (select_len _ _ _ Hsel)|].
  cbn [rows]. exact (select_fields _ _ _ Hsel).
Qed.

Lemma display_table_is_built_witness :
  exists fd d,
    filtered_df sample_loaded sample_loaded_selection = Ok fd /\
    display_df fd "All Homes" = Ok d /\
    columns d = display_names fd "All Homes" /\
    len d = len fd /\
    rows d = map (fun r => map (fun l => field fd l r)
                             (display_cols fd "All Homes"))
                 (rows fd).
Proof.
  destruct (display_table_is_built sample_fs sample_output sample_loaded
              (mkDF (columns sample_loaded) (rows sample_loaded))
              sample_loaded_selection) as [d Hd];
    [exact sample_run | reflexivity | left; reflexivity
    | vm_compute; reflexivity |].
  exists (mkDF (columns sample_loaded) (rows sample_loaded)), d.
  split; [vm_compute; reflexivity | exact Hd].
Defined.

(** ** The integer part of a price *)

Lemma digits2_upper (p : positive) : Zpos p < 2 ^ Zpos (digits2_pos p).
Proof.
  induction p as [p IH | p IH |]; cbn [digits2_pos];
    [| |reflexivity];
    rewrite Pos2Z.inj_succ, Z.pow_succ_r by lia; lia.
Qed.

Lemma digits2_unique (p : positive) (d : Z) :
  2 ^ (d - 1) <= Zpos p < 2 ^ d -> Zpos (digits2_pos p) = d.
Proof.
  intros [Hl Hu].
  pose proof (digits2_lower p) as Hl'. pose proof (digits2_upper p) as Hu'.
  set (d' := Zpos (digits2_pos p)) in *.
  destruct (Z.lt_trichotomy d' d) as [H | [H | H]]; [exfalso | exact H | exfalso].
  - assert (2 ^ d' <= 2 ^ (d - 1)) by (apply Z.pow_le_mono_r; lia). lia.
  - assert (0 <= d \/ d < 0) as [Hd | Hd] by lia.
    + assert (2 ^ d <= 2 ^ (d' - 1)) by (apply Z.pow_le_mono_r; lia). lia.
    + rewrite (Z.pow_neg_r 2 d Hd) in Hu. lia.
Qed.

(** A float64 that is not a whole number lies above its integer part, also
    after the integer part has become a float64 again. *)
Lemma int_is_below (m : positive) (e t : Z) :
  bounded F64.prec F64.emax m e = true ->
  F64.to_Z (S754_finite false m e) = None ->
  py_int (S754_finite false m e) = Ok t ->
  F64.leb (S754_finite false m e) (F64.of_Z t) = false.
Proof.
  intros Hb Hz Ht. destruct e as [|p|p]; try discriminate.
  unfold F64.to_Z in Hz.
  assert (Et : t = Zpos m / 2 ^ Zpos p)
    by (unfold py_int, cond_Zopp in Ht; injection Ht as <-; reflexivity).
  clear Ht. subst t.
  destruct (Zpos m mod 2 ^ Zpos p =? 0) eqn:Hm; [discriminate|].
  apply Z.eqb_neq in Hm.
  assert (Hp : 0 < 2 ^ Zpos p) by (apply Z.pow_pos_nonneg; lia).
  pose proof (Z.div_mod (Zpos m) (2 ^ Zpos p) ltac:(lia)) as Hdm.
  pose proof (Z.mod_pos_bound (Zpos m) (2 ^ Zpos p) Hp) as Hr.
  pose proof (Z.div_pos (Zpos m) (2 ^ Zpos p) ltac:(lia) Hp) as Hq0.
  destruct (Zpos m / 2 ^ Zpos p) as [|q|q] eqn:Hq; [reflexivity | | lia].
  unfold bounded, canonical_mantissa, fexp, emin, F64.prec, F64.emax in Hb.
  apply andb_true_iff in Hb. destruct Hb as [Hc _]. apply Z.eqb_eq in Hc.
  pose proof (digits2_lower m) as Hl. pose proof (digits2_upper m) as Hu.
  assert (Hd : Zpos (digits2_pos m) = 53).
  { destruct (Z.eq_dec (Zpos (digits2_pos m)) 53) as [|Hne]; [assumption|].
    exfalso. assert (Hp' : Zpos p = 1074) by lia.
    assert (Zpos (digits2_pos m) <= 53) by lia.
    assert (2 ^ Zpos (digits2_pos m) <= 2 ^ 53)
      by (apply Z.pow_le_mono_r; lia).
    assert (2 ^ 53 <= 2 ^ Zpos p) by (apply Z.pow_le_mono_r; lia).
    assert (Zpos m / 2 ^ Zpos p = 0) by (apply Z.div_small; lia).
    lia. }
  rewrite Hd in Hl, Hu.
  assert (Hp52 : Zpos p <= 52).
  { destruct (Z_le_gt_dec (Zpos p) 52) as [|Hgt]; [assumption|]. exfalso.
    assert (2 ^ 53 <= 2 ^ Zpos p) by (apply Z.pow_le_mono_r; lia).
    assert (Zpos m / 2 ^ Zpos p = 0) by (apply Z.div_small; lia).
    lia. }
  assert (Hdq : Zpos (digits2_pos q) = 53 - Zpos p).
  { apply digits2_unique. rewrite <- Hq. split.
    - apply Z.div_le_lower_bound; [exact Hp|].
      rewrite <- Z.pow_add_r by lia.
      replace (Zpos p + (53 - Zpos p - 1)) with (53 - 1) by lia. exact Hl.
    - apply Z.div_lt_upper_bound; [exact Hp|].
      rewrite <- Z.pow_add_r by lia.
      replace (Zpos p + (53 - Zpos p)) with 53 by lia. exact Hu. }
  rewrite (of_Z_pos q) by lia. rewrite Hdq.
  replace (53 - Zpos p - 53) with (Zneg p) by lia.
  replace (53 - (53 - Zpos p)) with (Zpos p) by lia. cbn [Z.to_pos].
  destruct (F64.leb (S754_finite false m (Zneg p))
              (S754_finite false (Pos.iter xO q p) (Zneg p))) eqn:E;
    [exfalso | reflexivity].
  apply (leb_rank (S754_finite false m (Zneg p))
           (S754_finite false (Pos.iter xO q p) (Zneg p))
           (eq_refl false) (eq_refl false)) in E.
  apply E. clear E.
  cbn [F64.rank F64.lex3]. rewrite !Z.compare_refl.
  apply Z.compare_gt_iff. rewrite iter_xO_pow. lia.
Qed.

(** ** The first display *)

Lemma fmax_cases (a b : F64.t) :
  F64.is_nan a = false -> F64.is_nan b = false ->
  (fmax a b = a \/ fmax a b = b) /\
  F64.leb a (fmax a b) = true /\ F64.leb b (fmax a b) = true.
Proof.
  intros Ha Hb. unfold fmax. destruct (F64.leb a b) eqn:E.
  - split; [right; reflexivity|]. split; [exact E | exact (leb_refl b Hb)].
  - split; [left; reflexivity|]. split; [exact (leb_refl a Ha)|].
    destruct (leb_total a b Ha Hb); [congruence | assumption].
Qed.

Lemma fold_fmax (xs : list F64.t) (x : F64.t) :
  Forall (fun y => F64.is_nan y = false) (x :: xs) ->
  In (fold_left fmax xs x) (x :: xs) /\
  forall y, In y (x :: xs) -> F64.leb y (fold_left fmax xs x) = true.
Proof.
  revert x. induction xs as [|z xs IH]; intros x Hf; cbn [fold_left].
  - inversion Hf; subst. split; [left; reflexivity|].
    intros y [<- | []]. apply leb_refl. assumption.
  - inversion Hf as [|? ? Hx Hf']; subst.
    inversion Hf' as [|? ? Hz Hxs]; subst.
    destruct (fmax_cases x z Hx Hz) as [Hc [H1 H2]].
    assert (Hm : F64.is_nan (fmax x z) = false)
      by (destruct Hc as [-> | ->]; assumption).
    destruct (IH (fmax x z) (Forall_cons _ Hm Hxs)) as [Hin Hle].
    split.
    + destruct Hin as [Hin | Hin]; [|right; right; exact Hin].
      rewrite <- Hin. destruct Hc as [-> | ->]; [left | right; left];
        reflexivity.
    + intros y [<- | [<- | Hy]].
      * exact (leb_trans _ _ _ H1 (Hle _ (or_introl eq_refl))).
      * exact (leb_trans _ _ _ H2 (Hle _ (or_introl eq_refl))).
      * apply Hle. right. exact Hy.
Qed.

(** The right end of a slider is the integer part of the largest value of
    the column. *)
Lemma slider_range_top (cs : list cell) (lo hi : Z) (m : positive) (e : Z) :
  slider_range cs = Ok (lo, hi) ->
  In (CFloat (S754_finite false m e)) cs ->
  (forall c x, In c cs -> number c = Ok x -> F64.is_nan x = false ->
     F64.leb x (S754_finite false m e) = true) ->
  py_int (S754_finite false m e) = Ok hi.
Proof.
  intros H Hin Hmax. unfold slider_range in H.
  apply bind_ok in H. destruct H as [mn [_ H]].
  apply bind_ok in H. destruct H as [lo' [_ H]].
  apply bind_ok in H. destruct H as [mx [Hmx H]].
  apply bind_ok in H. destruct H as [hi' [Hhi H]].
  destruct (lo' =? hi'); [discriminate|]. injection H as _ <-.
  unfold series_max in Hmx.
  apply bind_ok in Hmx. destruct Hmx as [xs [Hxs Hmx]].
  apply mapM_ok in Hxs.
  set (f := S754_finite false m e) in *.
  assert (Hf : In f xs).
  { destruct (Forall2_in_l _ _ _ Hxs (CFloat f)) as [x [Hx Hn]].
    - apply filter_In. split; [exact Hin | reflexivity].
    - cbn [number] in Hn. injection Hn as ->. exact Hx. }
  assert (Hnn : Forall (fun y => F64.is_nan y = false) xs).
  { apply Forall_forall. intros y Hy.
    destruct (Forall2_in_r _ _ _ Hxs y Hy) as [c [Hc Hn]].
    apply filter_In in Hc. destruct Hc as [_ Hc].
    exact (number_not_nan c y Hc Hn). }
  destruct xs as [|x xs]; [destruct Hf|].
  injection Hmx as <-.
  destruct (fold_fmax xs x Hnn) as [Hmem Hle].
  assert (E : fold_left fmax xs x = f).
  { apply leb_antisym; [|exact (Hle f Hf)].
    destruct (Forall2_in_r _ _ _ Hxs _ Hmem) as [c [Hc Hn]].
    apply filter_In in Hc. destruct Hc as [Hc Hcn].
    apply (Hmax c _ Hc Hn). exact (number_not_nan c _ Hcn Hn). }
  rewrite E in Hhi. exact Hhi.
Qed.

(** X16.  On the first display, before any widget is touched, the county
    with the highest overall home value is not shown when that value is not
    a whole number: the right end of the price slider is the integer part of
    the value, and the value is above it. *)
Theorem first_display_drops_top_price (df fd : DataFrame) (w : Selection)
  (r : row) (m : positive) (e : Z) :
  first_display df = Ok w ->
  filtered_df df w = Ok fd ->
  In r (rows df) ->
  field df "median_home_value_all" r = CFloat (S754_finite false m e) ->
  valid_binary F64.prec F64.emax (S754_finite false m e) = true ->
  F64.to_Z (S754_finite false m e) = None ->
  (forall r' x,
     In r' (rows df) ->
     number (field df "median_home_value_all" r') = Ok x ->
     F64.is_nan x = false ->
     F64.leb x (S754_finite false m e) = true) ->
  ~ In r (rows fd).
Proof.
  intros Hw H Hr Hp Hv Hz Hmax Hin.
  unfold first_display in Hw. cbv zeta in Hw.
  change (price_col "All Homes") with "median_home_value_all" in Hw.
  apply bind_ok in Hw. destruct Hw as [present [Hpr Hw]].
  apply getitem_field in Hpr. destruct Hpr as [-> _].
  rewrite map_map, where_mask_map in Hw.
  apply bind_ok in Hw. destruct Hw as [prices [Hps Hw]].
  apply getitem_field in Hps. destruct Hps as [-> _]. cbn [rows] in Hw.
  rewrite (field_columns df (mkDF (columns df) _) _ eq_refl) in Hw.
  apply bind_ok in Hw. destruct Hw as [[lo hi] [Hsl Hw]].
  apply bind_ok in Hw. destruct Hw as [mj [_ Hw]].
  apply bind_ok in Hw. destruct Hw as [ex [_ Hw]].
  apply bind_ok in Hw. destruct Hw as [population [_ Hw]].
  apply bind_ok in Hw. destruct Hw as [[plo phi] [_ Hw]].
  injection Hw as <-.
  assert (Hhi : py_int (S754_finite false m e) = Ok hi).
  { apply (slider_range_top _ _ _ _ _ Hsl).
    - rewrite <- Hp. apply in_map. apply filter_In. split; [exact Hr|].
      rewrite Hp. reflexivity.
    - intros c x Hc Hn Hx. apply in_map_iff in Hc.
      destruct Hc as [r' [<- Hr']]. apply filter_In in Hr'.
      exact (Hmax r' x (proj1 Hr') Hn Hx). }
  destruct (filtered_df_holds df fd _ H) as [_ E].
  rewrite E in Hin. apply filter_In in Hin. destruct Hin as [_ Hpass].
  unfold passes in Hpass. cbv zeta in Hpass.
  cbn [bedroom_type price_max] in Hpass.
  change (price_col "All Homes") with "median_home_value_all" in Hpass.
  repeat match goal with
         | H : _ && _ = true |- _ => apply andb_true_iff in H; destruct H
         end.
  match goal with
  | H : at_most _ hi = true |- _ => rename H into Hat
  end.
  rewrite Hp in Hat. unfold at_most in Hat. cbn [le_int] in Hat.
  rewrite (int_is_below m e hi Hv Hz Hhi) in Hat. discriminate.
Qed.

Lemma first_display_drops_top_price_witness :
  exists fd,
    filtered_df sample_counties sample_selection = Ok fd /\
    ~ In (nth 0 (rows sample_counties) []) (rows fd).
Proof.
  eexists. split; [vm_compute; reflexivity|].
  apply (first_display_drops_top_price sample_counties _ sample_selection
           _ 5153962902683648 (-32)).
  - vm_compute. reflexivity.
  - vm_compute. reflexivity.
  - left. reflexivity.
  - vm_compute. reflexivity.
  - vm_compute. reflexivity.
  - vm_compute. reflexivity.
  - intros r' x Hr' Hn Hx. cbn [sample_counties rows] in Hr'.
    repeat (destruct Hr' as [<- | Hr'];
            [vm_compute in Hn; injection Hn as <-; vm_compute; reflexivity|]).
    destruct Hr'.
Defined.

(** ** Rounding keeps small values finite *)

Lemma Zdigits2_nonneg (m : Z) : 0 <= Zdigits2 m.
Proof. destruct m; cbn; lia. Qed.

Lemma Zdigits2_upper (x : Z) : 0 <= x -> x < 2 ^ Zdigits2 x.
Proof.
  destruct x as [|p|p]; intros H; [reflexivity | | lia].
  cbn [Zdigits2]. apply digits2_upper.
Qed.

Lemma Zdigits2_le_pow (x k : Z) : 0 <= x < 2 ^ k -> 0 <= k -> Zdigits2 x <= k.
Proof.
  intros [H0 H1] Hk. destruct x as [|p|p]; [exact Hk | | lia].
  cbn [Zdigits2]. pose proof (digits2_lower p) as Hl.
  destruct (Z_le_gt_dec (Zpos (digits2_pos p)) k) as [|Hgt]; [assumption|].
  exfalso.
  assert (2 ^ k <= 2 ^ (Zpos (digits2_pos p) - 1))
    by (apply Z.pow_le_mono_r; lia).
  lia.
Qed.

Lemma Zdigits2_mono (a b : Z) : 0 <= a <= b -> Zdigits2 a <= Zdigits2 b.
Proof.
  intros [Ha Hab]. apply Zdigits2_le_pow; [|apply Zdigits2_nonneg].
  pose proof (Zdigits2_upper b ltac:(lia)). lia.
Qed.

Lemma Zdigits2_succ (m : Z) : 0 <= m -> Zdigits2 (m + 1) <= Zdigits2 m + 1.
Proof.
  intros H. pose proof (Zdigits2_nonneg m) as Hd.
  apply Zdigits2_le_pow; [|lia].
  pose proof (Zdigits2_upper m H). rewrite Z.pow_add_r by lia.
  change (2 ^ 1) with 2. lia.
Qed.

Lemma shr_1_digits (mrs : shr_record) :
  0 <= shr_m mrs ->
  0 <= shr_m (shr_1 mrs) /\
  Zdigits2 (shr_m (shr_1 mrs)) = Z.max 0 (Zdigits2 (shr_m mrs) - 1).
Proof.
  destruct mrs as [m r s]. cbn [shr_m]. intros H.
  destruct m as [|[p|p|]|p]; cbn [shr_1 shr_m Zdigits2 digits2_pos];
    try rewrite Pos2Z.inj_succ; lia.
Qed.

Lemma iter_shr_1_digits (k : positive) :
  forall mrs, 0 <= shr_m mrs ->
    0 <= shr_m (iter_pos shr_1 k mrs) /\
    Zdigits2 (shr_m (iter_pos shr_1 k mrs))
    = Z.max 0 (Zdigits2 (shr_m mrs) - Zpos k).
Proof.
  induction k as [k IH | k IH |]; intros mrs H; cbn [iter_pos].
  - destruct (shr_1_digits mrs H) as [H1 E1].
    destruct (IH _ H1) as [H2 E2]. destruct (IH _ H2) as [H3 E3].
    split; [exact H3|]. rewrite E3, E2, E1. lia.
  - destruct (IH _ H) as [H2 E2]. destruct (IH _ H2) as [H3 E3].
    split; [exact H3|]. rewrite E3, E2. lia.
  - apply shr_1_digits, H.
Qed.

Lemma shr_fexp_digits (m e : Z) (l : location) :
  0 <= m ->
  0 <= shr_m (fst (shr_fexp F64.prec F64.emax m e l)) /\
  snd (shr_fexp F64.prec F64.emax m e l)
  = Z.max e (fexp F64.prec F64.emax (Zdigits2 m + e)) /\
  Zdigits2 (shr_m (fst (shr_fexp F64.prec F64.emax m e l)))
  = Z.max 0 (Zdigits2 m - (snd (shr_fexp F64.prec F64.emax m e l) - e)).
Proof.
  intros H. unfold shr_fexp, shr.
  set (f := fexp F64.prec F64.emax (Zdigits2 m + e)).
  pose proof (Zdigits2_nonneg m) as Hd.
  destruct (f - e) as [|k|k] eqn:E; cbn [fst snd];
    rewrite ?shr_record_of_loc_m.
  - split; [exact H|]. split; lia.
  - destruct (iter_shr_1_digits k (shr_record_of_loc m l)) as [H1 E1];
      [rewrite shr_record_of_loc_m; exact H|].
    rewrite shr_record_of_loc_m in E1.
    split; [exact H1|]. split; [lia|]. rewrite E1. lia.
  - split; [exact H|]. split; lia.
Qed.

Lemma round_nearest_even_le (m : Z) (l : location) :
  0 <= m -> 0 <= round_nearest_even m l <= m + 1.
Proof.
  intros H. destruct l as [|[| |]]; cbn [round_nearest_even]; try lia.
  destruct (Z.even m); lia.
Qed.

(** Rounding a value below [2^M] gives a value below [2^(M+1)]. *)
Lemma binary_round_aux_small (sx : bool) (mx ex : Z) (lx : location) (M : Z) :
  0 <= mx -> Zdigits2 mx + ex <= M -> -1074 <= M -> M <= 970 ->
  small (M + 1) (binary_round_aux F64.prec F64.emax sx mx ex lx).
Proof.
  intros H HM Hlo Hhi. unfold binary_round_aux.
  pose proof (shr_fexp_digits mx ex lx H) as [H1 [E1 D1]].
  destruct (shr_fexp F64.prec F64.emax mx ex lx) as [mrs' e'].
  cbn [fst snd] in H1, E1, D1.
  pose proof (round_nearest_even_le (shr_m mrs') (loc_of_shr_record mrs') H1)
    as H2.
  set (m2 := round_nearest_even (shr_m mrs') (loc_of_shr_record mrs')) in *.
  assert (D2 : Zdigits2 m2 <= Zdigits2 (shr_m mrs') + 1).
  { etransitivity; [apply (Zdigits2_mono m2 (shr_m mrs' + 1)); lia|].
    apply Zdigits2_succ, H1. }
  pose proof (shr_fexp_digits m2 e' loc_Exact (proj1 H2)) as [H3 [E3 D3]].
  destruct (shr_fexp F64.prec F64.emax m2 e' loc_Exact) as [mrs'' e''].
  cbn [fst snd] in H3, E3, D3.
  pose proof (Zdigits2_nonneg mx) as Hdx.
  pose proof (Zdigits2_nonneg m2) as Hd2.
  unfold fexp, emin, F64.prec, F64.emax in *.
  destruct (shr_m mrs'') as [|m|m] eqn:Em; [exact I | | lia].
  cbn [Zdigits2] in D3.
  assert (He : e'' <= 971) by lia.
  replace (e'' <=? 1024 - 53) with true by (symmetry; apply Z.leb_le; lia).
  cbn [small]. lia.
Qed.

Lemma binary_normalize_not_nan (m e : Z) (s : bool) :
  F64.is_nan (binary_normalize F64.prec F64.emax m e s) = false.
Proof.
  unfold binary_normalize.
  destruct m as [|p|p]; [reflexivity | |];
    unfold binary_round;
    destruct (shl_align _ _ _) as [mz ez];
    apply binary_round_aux_not_nan; lia.
Qed.

(** A float64 like the constants 10 and 100, or a positive vote count: a
    positive normal number with an exponent between -52 and 0. *)
Lemma of_Z_normal (n : Z) :
  0 < n < 2 ^ 52 ->
  exists m e,
    F64.of_Z n = S754_finite false m e /\
    Zpos (digits2_pos m) = 53 /\ -52 <= e <= 0.
Proof.
  intros Hn. destruct n as [|p|p]; try lia.
  assert (Hd : Zpos (digits2_pos p) < 53).
  { pose proof (digits2_lower p) as Hl.
    destruct (Z_lt_le_dec (Zpos (digits2_pos p)) 53) as [|Hge]; [assumption|].
    exfalso.
    assert (2 ^ 52 <= 2 ^ (Zpos (digits2_pos p) - 1))
      by (apply Z.pow_le_mono_r; lia).
    lia. }
  rewrite (of_Z_pos p Hd). eexists _, _. split; [reflexivity|].
  rewrite digits2_iter. lia.
Qed.

Lemma of_Z_small (n : Z) : 0 <= n < 2 ^ 52 -> small 53 (F64.of_Z n).
Proof.
  intros Hn. destruct (Z.eq_dec n 0) as [-> | Hne]; [exact I|].
  destruct (of_Z_normal n ltac:(lia)) as [m [e [-> [Hd He]]]].
  cbn [small]. lia.
Qed.

Lemma div_core_small (mx my : positive) (ex ey : Z) (M : Z) :
  Zpos (digits2_pos mx) + ex <= M -> -52 <= ey ->
  forall mz ez lz,
    SFdiv_core_binary F64.prec F64.emax (Zpos mx) ex (Zpos my) ey
    = (mz, ez, lz) ->
    0 <= mz /\ Zdigits2 mz + ez <= M + 52.
Proof.
  intros HM Hey mz ez lz H. unfold SFdiv_core_binary in H.
  cbn [Zdigits2] in H.
  set (e' := Z.min (fexp F64.prec F64.emax
                      (Zpos (digits2_pos mx) + ex - (Zpos (digits2_pos my) + ey)))
                   (ex - ey)) in *.
  set (s := ex - ey - e') in *.
  assert (Hs : 0 <= s) by (unfold s, e'; lia).
  set (m' := match s with
             | 0 => Zpos mx
             | Zpos _ => Z.shiftl (Zpos mx) s
             | Zneg _ => 0
             end) in *.
  assert (Hm' : m' = Zpos mx * 2 ^ s).
  { unfold m'. destruct s as [|k|k] eqn:Es; [cbn; lia | | lia].
    apply Z.shiftl_mul_pow2. lia. }
  destruct (Z.div_eucl m' (Zpos my)) as [q r] eqn:E.
  injection H as <- <- _.
  assert (Hq : q = m' / Zpos my) by (unfold Z.div; rewrite E; reflexivity).
  assert (H2s : 0 < 2 ^ s) by (apply Z.pow_pos_nonneg; lia).
  assert (Hm0 : 0 <= m') by (rewrite Hm'; lia).
  assert (Hq0 : 0 <= q) by (rewrite Hq; apply Z.div_pos; lia).
  assert (Hqm : q <= m').
  { pose proof (Z.mul_div_le m' (Zpos my) ltac:(lia)). rewrite <- Hq in *. nia. }
  split; [exact Hq0|].
  assert (Hd : Zdigits2 q <= Zpos (digits2_pos mx) + s).
  { etransitivity; [apply (Zdigits2_mono q m'); lia|].
    apply Zdigits2_le_pow; [|lia]. split; [exact Hm0|].
    rewrite Hm', Z.pow_add_r by lia.
    pose proof (digits2_upper mx). nia. }
  unfold s in Hd. lia.
Qed.

Lemma div_small (x : F64.t) (my : positive) (ey M : Z) :
  small M x -> -52 <= ey -> -1074 <= M + 52 -> M + 52 <= 970 ->
  small (M + 53) (F64.div x (S754_finite false my ey)).
Proof.
  intros Hx Hey Hlo Hhi. destruct x as [sx | sx | | sx mx ex];
    try contradiction; [exact I|].
  destruct Hx as [_ Hx]. unfold F64.div, SFdiv.
  destruct (SFdiv_core_binary F64.prec F64.emax (Zpos mx) ex (Zpos my) ey)
    as [[mz ez] lz] eqn:E.
  destruct (div_core_small mx my ex ey M Hx Hey mz ez lz E) as [H0 H1].
  replace (M + 53) with (M + 52 + 1) by lia.
  apply binary_round_aux_small; assumption.
Qed.

Lemma mul_small (x : F64.t) (my : positive) (ey M : Z) :
  small M x -> Zpos (digits2_pos my) = 53 -> ey <= 0 ->
  -1074 <= M + 53 -> M + 53 <= 970 ->
  small (M + 54) (F64.mul x (S754_finite false my ey)).
Proof.
  intros Hx Hd Hey Hlo Hhi. destruct x as [sx | sx | | sx mx ex];
    try contradiction; [exact I|].
  destruct Hx as [_ Hx]. unfold F64.mul, SFmul.
  replace (M + 54) with (M + 53 + 1) by lia.
  apply binary_round_aux_small; [lia | | assumption | assumption].
  assert (Zdigits2 (Zpos (mx * my)) <= Zpos (digits2_pos mx) + 53); [|lia].
  apply Zdigits2_le_pow; [|lia]. split; [lia|].
  rewrite Pos2Z.inj_mul, Z.pow_add_r by lia.
  pose proof (digits2_upper mx). pose proof (digits2_upper my) as Hy.
  rewrite Hd in Hy. nia.
Qed.

Lemma div_half_even_le (n d : Z) :
  0 < n -> 2 <= d -> 0 <= F64.div_half_even n d <= n.
Proof.
  intros Hn Hd.
  destruct (div_half_even_nearest n d ltac:(lia) ltac:(lia)) as [H0 [H1 _]].
  cbv zeta in *. split; [exact H0|]. nia.
Qed.

Lemma binary_round_small (s : bool) (q : positive) (M : Z) :
  Zpos (digits2_pos q) <= M -> M <= 970 ->
  small (M + 1) (binary_round F64.prec F64.emax s q 0).
Proof.
  intros Hq Hhi. unfold binary_round, shl_align.
  destruct (fexp F64.prec F64.emax (Zpos (digits2_pos q) + 0) - 0)
    as [|k|k] eqn:E;
    apply binary_round_aux_small; try lia; cbn [Zdigits2]; try lia.
  rewrite digits2_iter.
  unfold fexp, emin, F64.prec, F64.emax in *. lia.
Qed.

Lemma rint_small (x : F64.t) (M : Z) :
  small M x -> 53 <= M -> M <= 970 -> small (M + 1) (F64.rint x).
Proof.
  intros Hx Hlo Hhi. destruct x as [sx | sx | | sx m e];
    try contradiction; [exact I|].
  destruct Hx as [Hd HM]. cbn [F64.rint].
  assert (Hn : 0 <= F64.nearest_int m e /\ Zdigits2 (F64.nearest_int m e) <= M).
  { destruct e as [|p|p]; cbn [F64.nearest_int].
    - rewrite Z.pow_0_r, Z.mul_1_r. cbn [Zdigits2]. lia.
    - assert (0 < 2 ^ Zpos p) by (apply Z.pow_pos_nonneg; lia).
      split; [lia|]. apply Zdigits2_le_pow; [|lia]. split; [lia|].
      pose proof (digits2_upper m).
      assert (2 ^ Zpos (digits2_pos m) * 2 ^ Zpos p <= 2 ^ M).
      { rewrite <- Z.pow_add_r by lia. apply Z.pow_le_mono_r; lia. }
      nia.
    - assert (2 <= 2 ^ Zpos p).
      { change 2 with (2 ^ 1) at 1. apply Z.pow_le_mono_r; lia. }
      destruct (div_half_even_le (Zpos m) (2 ^ Zpos p) ltac:(lia) ltac:(lia))
        as [H0 H1].
      split; [exact H0|].
      etransitivity; [apply (Zdigits2_mono _ (Zpos m)); lia|].
      cbn [Zdigits2]. lia. }
  destruct Hn as [Hn0 Hnd].
  destruct (F64.nearest_int m e) as [|q|q]; [exact I | | lia].
  cbn [Zdigits2] in Hnd.
  destruct sx; cbn [binary_normalize Z.opp];
    apply binary_round_small; assumption.
Qed.

(** A stored two-party share is a finite number. *)
Lemma two_party_share_small (votes dem rep : Z) :
  0 <= votes < 2 ^ 52 -> 0 < dem + rep < 2 ^ 52 ->
  small 268 (two_party_share votes dem rep).
Proof.
  intros Hv Hn. unfold two_party_share, two_party_percentage, F64.round1.
  destruct (of_Z_normal (dem + rep) Hn) as [mn [en [-> [_ Hen]]]].
  change (F64.of_Z 100) with (S754_finite false 7036874417766400 (-46)).
  change (F64.of_Z 10) with (S754_finite false 5629499534213120 (-49)).
  pose proof (of_Z_small votes Hv) as H0.
  pose proof (div_small _ mn en 53 H0 ltac:(lia) ltac:(lia) ltac:(lia)) as H1.
  pose proof (mul_small _ 7036874417766400 (-46) _ H1 eq_refl ltac:(lia)
                ltac:(lia) ltac:(lia)) as H2.
  pose proof (mul_small _ 5629499534213120 (-49) _ H2 eq_refl ltac:(lia)
                ltac:(lia) ltac:(lia)) as H3.
  pose proof (rint_small _ _ H3 ltac:(lia) ltac:(lia)) as H4.
  exact (div_small _ 5629499534213120 (-49) _ H4 ltac:(lia) ltac:(lia)
           ltac:(lia)).
Qed.

Lemma sub_not_nan (x y : F64.t) (M N : Z) :
  small M x -> small N y -> F64.is_nan (F64.sub x y) = false.
Proof.
  intros Hx Hy. unfold F64.sub, SFsub.
  destruct x as [sx | sx | | sx mx ex], y as [sy | sy | | sy my ey];
    try contradiction.
  - destruct sx, sy; reflexivity.
  - reflexivity.
  - reflexivity.
  - apply binary_normalize_not_nan.
Qed.

Lemma mul_not_nan (x : F64.t) (my : positive) (ey : Z) :
  F64.is_nan x = false ->
  F64.is_nan (F64.mul x (S754_finite false my ey)) = false.
Proof.
  intros Hx. unfold F64.mul, SFmul.
  destruct x as [sx | sx | | sx mx ex]; try reflexivity; [discriminate|].
  apply binary_round_aux_not_nan. lia.
Qed.

Lemma rint_not_nan (x : F64.t) :
  F64.is_nan x = false -> F64.is_nan (F64.rint x) = false.
Proof.
  intros Hx. destruct x as [sx | sx | | sx m e]; try assumption.
  cbn [F64.rint]. destruct (F64.nearest_int m e); [reflexivity | |];
    apply binary_normalize_not_nan.
Qed.

Lemma div_not_nan (x : F64.t) (my : positive) (ey : Z) :
  F64.is_nan x = false ->
  F64.is_nan (F64.div x (S754_finite false my ey)) = false.
Proof.
  intros Hx. unfold F64.div, SFdiv.
  destruct x as [sx | sx | | sx mx ex]; try reflexivity; [discriminate|].
  destruct (SFdiv_core_binary F64.prec F64.emax (Zpos mx) ex (Zpos my) ey)
    as [[mz ez] lz] eqn:E.
  apply binary_round_aux_not_nan.
  unfold SFdiv_core_binary in E.
  match type of E with
  | (let '(q, r) := Z.div_eucl ?a ?b in _) = _ =>
      assert (Ha : 0 <= a);
      [| destruct (Z.div_eucl a b) as [q r] eqn:E';
         injection E as <- _ _;
         assert (Hq : q = a / b) by (unfold Z.div; rewrite E'; reflexivity);
         rewrite Hq; apply Z.div_pos; lia]
  end.
  match goal with
  | |- 0 <= match ?s with _ => _ end => destruct s
  end; try lia.
  apply Z.shiftl_nonneg. lia.
Qed.

Lemma round1_not_nan (x : F64.t) :
  F64.is_nan x = false -> F64.is_nan (F64.round1 x) = false.
Proof.
  intros Hx. unfold F64.round1.
  change (F64.of_Z 10) with (S754_finite false 5629499534213120 (-49)).
  apply div_not_nan, rint_not_nan, mul_not_nan, Hx.
Qed.

(** With at least one two-party vote, the lean score is a number. *)
Lemma lean_score_of_not_nan (dem rep : Z) :
  0 <= dem -> 0 <= rep -> 0 < dem + rep < 2 ^ 52 ->
  F64.is_nan (lean_score_of dem rep) = false.
Proof.
  intros Hd Hr Hn. unfold lean_score_of. apply round1_not_nan.
  apply (sub_not_nan _ _ 268 268); apply two_party_share_small; lia.
Qed.

Lemma categorize_lean_known (f : F64.t) :
  F64.is_nan f = false ->
  exists c, categorize_lean (CFloat f) = Ok (CStr c) /\ c <> "Unknown".
Proof.
  intros Hf. unfold categorize_lean. cbn [isna gt_int bind]. rewrite Hf.
  repeat match goal with
         | |- context [if ?b then _ else _] =>
             destruct b; [eexists; split; [reflexivity | discriminate]|]
         end.
  eexists; split; [reflexivity | discriminate].
Qed.

(** X17.  A county of the 2024 pivot with at least one Democrat or
    Republican vote has a lean score that is not missing and a political
    lean other than "Unknown": with the zero-vote case, the lean score of a
    county with an election record is missing exactly when its two-party
    votes add up to zero. *)
Theorem votes_give_a_lean (elections elec_2024 elec_pivot : DataFrame)
  (D R : list Z) (k : nat) (d r : Z) :
  where_eq elections "year" 2024 = Ok elec_2024 ->
  pivot_table_sum elec_2024 ["state_po"; "county_name"; "county_fips"]
    "party" "candidatevotes" = Ok elec_pivot ->
  get elec_pivot "DEMOCRAT" (CInt 0) = map CInt D ->
  get elec_pivot "REPUBLICAN" (CInt 0) = map CInt R ->
  nth_error D k = Some d -> nth_error R k = Some r ->
  0 <= d -> 0 <= r -> d + r < 2 ^ 52 ->
  exists elec_clean scores s,
    process_elections elections = Ok elec_clean /\
    getitem elec_clean "lean_score" = Ok scores /\
    nth_error scores k = Some s /\
    (isna s = true <-> d + r = 0) /\
    (0 < d + r ->
     exists c, categorize_lean s = Ok (CStr c) /\ c <> "Unknown").
Proof.
  intros Hw Hp HD HR Hd Hr Pd Pr Hn.
  destruct (elec_clean_columns _ _ _ Hw Hp)
    as [D' [R' [elec_clean [HD' [HR' [He [_ Hl]]]]]]].
  assert (D' = D) by (apply map_CInt_inj; congruence).
  assert (R' = R) by (apply map_CInt_inj; congruence).
  subst D' R'.
  exists elec_clean,
    (map (fun p => CFloat (lean_score_of (fst p) (snd p))) (combine D R)),
    (CFloat (lean_score_of d r)).
  split; [exact He|]. split; [exact Hl|]. split.
  { rewrite nth_error_map, (nth_error_combine _ _ _ _ _ Hd Hr). reflexivity. }
  cbn [isna]. split.
  - split.
    + intros Hna. destruct (Z.eq_dec (d + r) 0) as [|Hne]; [assumption|].
      rewrite lean_score_of_not_nan in Hna by lia. discriminate.
    + intros Hz. assert (d = 0) by lia. assert (r = 0) by lia. subst.
      reflexivity.
  - intros Hpos. apply categorize_lean_known.
    apply lean_score_of_not_nan; lia.
Qed.

Lemma votes_give_a_lean_witness :
  exists elec_clean scores s,
    process_elections elections_2024 = Ok elec_clean /\
    getitem elec_clean "lean_score" = Ok scores /\
    nth_error scores 1 = Some s /\
    (isna s = true <-> 600 + 300 = 0) /\
    (0 < 600 + 300 ->
     exists c, categorize_lean s = Ok (CStr c) /\ c <> "Unknown").
Proof.
  apply (votes_give_a_lean elections_2024 elections_2024 baldwin_pivot
           [0; 600] [0; 300] 1 600 300); (reflexivity || lia).
Defined.

(** ** The anchor of the joins *)

Lemma date_cols_setitem_key (df df' : DataFrame) (v : list cell) :
  setitem df "county_fips" v = Ok df' -> date_cols df' = date_cols df.
Proof.
  intros H. destruct (setitem_inv _ _ _ _ H) as [_ ->]. unfold date_cols.
  destruct (col_index "county_fips" (columns df)); cbn [columns];
    [reflexivity|].
  rewrite filter_app. cbn. apply app_nil_r.
Qed.

(** X18.  The anchor of the joins has one row per row of the overall housing
    file, in its order: its key is the county key of that row, its county
    name, state name and state code are the RegionName, StateName and State
    of that row, and its home value is the value of that row in the last
    column whose name starts with "20". *)
Theorem anchor_is_the_housing_table (hg anchor : DataFrame) :
  well_formed hg = true ->
  process_general hg = Ok anchor ->
  len anchor = len hg /\
  getitem anchor "county_fips" = county_fips hg /\
  getitem anchor "county_name" = getitem hg "RegionName" /\
  getitem anchor "state_name" = getitem hg "StateName" /\
  getitem anchor "state_code" = getitem hg "State" /\
  exists col,
    last_item (date_cols hg) = Ok col /\
    getitem anchor "median_home_value_all" = getitem hg col.
Proof.
  intros wf H. unfold process_general in H.
  apply bind_ok in H. destruct H as [h1 [Hc H]].
  unfold with_current_value in Hc.
  apply bind_ok in Hc. destruct Hc as [fips [Hf Hc]].
  apply bind_ok in Hc. destruct Hc as [h0 [S0 Hc]].
  apply bind_ok in Hc. destruct Hc as [col [Hl Hc]].
  apply bind_ok in Hc. destruct Hc as [v [Hv S1]].
  apply bind_ok in H. destruct H as [v' [Hv' H]].
  apply bind_ok in H. destruct H as [h2 [S2 H]].
  apply bind_ok in H. destruct H as [hc [Hs H]].
  apply set_columns_inv in H. destruct H as [_ ->].
  pose proof (setitem_well_formed _ _ _ _ wf S0) as wf0.
  pose proof (setitem_well_formed _ _ _ _ wf0 S1) as wf1.
  pose proof (setitem_well_formed _ _ _ _ wf1 S2) as wf2.
  rewrite (date_cols_setitem_key _ _ _ S0) in Hl.
  assert (Hp : String.prefix "20" col = true).
  { apply last_item_ok in Hl. apply filter_In in Hl. exact (proj2 Hl). }
  pose proof (select_columns _ _ _ Hs) as Hcols.
  assert (G : forall k old new,
             col_index new ["county_fips"; "county_name"; "state_name";
                            "state_code"; "median_home_value_all"] = Some k ->
             col_index old (columns hc) = Some k ->
             getitem (mkDF ["county_fips"; "county_name"; "state_name";
                            "state_code"; "median_home_value_all"] (rows hc))
               new
             = getitem h2 old).
  { intros k old new Hn Ho.
    rewrite (getitem_located _ new k) by exact Hn. cbn [rows].
    rewrite <- (getitem_located hc old k Ho).
    apply (getitem_select _ _ _ _ Hs).
    rewrite <- Hcols. exact (col_index_in _ _ _ Ho). }
  rewrite Hcols in G.
  assert (O : forall other,
             other <> "county_fips" -> other <> "median_home_value" ->
             other <> "median_home_value_all" ->
             getitem h2 other = getitem hg other).
  { intros other N0 N1 N2.
    rewrite (getitem_setitem_other _ _ _ _ wf1 S2) by exact N2.
    rewrite (getitem_setitem_other _ _ _ _ wf0 S1) by exact N1.
    apply (getitem_setitem_other _ _ _ _ wf S0), N0. }
  split; [|split; [|split; [|split; [|split]]]].
  - unfold len. cbn [rows]. fold (len hc) (len hg).
    rewrite (select_len _ _ _ Hs).
    rewrite (setitem_len _ _ _ _ S2), (setitem_len _ _ _ _ S1).
    apply (setitem_len _ _ _ _ S0).
  - rewrite (G 0%nat "county_fips" "county_fips") by reflexivity.
    rewrite (getitem_setitem_other _ _ _ _ wf1 S2) by discriminate.
    rewrite (getitem_setitem_other _ _ _ _ wf0 S1) by discriminate.
    rewrite Hf. apply (getitem_setitem_same _ _ _ _ wf S0).
  - rewrite (G 1%nat "RegionName" "county_name") by reflexivity.
    apply O; discriminate.
  - rewrite (G 2%nat "StateName" "state_name") by reflexivity.
    apply O; discriminate.
  - rewrite (G 3%nat "State" "state_code") by reflexivity.
    apply O; discriminate.
  - exists col. split; [exact Hl|].
    rewrite (G 4%nat "median_home_value_all" "median_home_value_all")
      by reflexivity.
    rewrite (getitem_setitem_same _ _ _ _ wf1 S2).
    rewrite <- Hv'. rewrite (getitem_setitem_same _ _ _ _ wf0 S1).
    rewrite <- Hv. apply (getitem_setitem_other _ _ _ _ wf S0).
    intros ->. discriminate Hp.
Qed.

Lemma anchor_is_the_housing_table_witness :
  len sample_anchor = len sample_housing /\
  getitem sample_anchor "county_fips" = county_fips sample_housing /\
  getitem sample_anchor "county_name" = getitem sample_housing "RegionName" /\
  getitem sample_anchor "state_name" = getitem sample_housing "StateName" /\
  getitem sample_anchor "state_code" = getitem sample_housing "State" /\
  exists col,
    last_item (date_cols sample_housing) = Ok col /\
    getitem sample_anchor "median_home_value_all"
    = getitem sample_housing col.
Proof.
  apply (anchor_is_the_housing_table sample_housing sample_anchor);
    reflexivity.
Defined.

(** ** "Unknown" in the output *)

Lemma categorize_lean_unknown (s c : cell) :
  categorize_lean s = Ok c -> (c = CStr "Unknown" <-> isna s = true).
Proof.
  unfold categorize_lean. intros H. destruct (isna s).
  - injection H as <-. split; reflexivity.
  - split; [|discriminate]. intros ->.
    repeat (apply bind_ok in H; destruct H as [[|] [_ H]];
            [discriminate|]).
    discriminate.
Qed.

Lemma categorize_gun_law_unknown (g : cell) :
  categorize_gun_law g = CStr "Unknown" <-> isna g = true.
Proof.
  unfold categorize_gun_law. destruct (isna g); [split; reflexivity|].
  split; [|discriminate].
  repeat match goal with
         | |- context [if ?b then _ else _] => destruct b; [discriminate|]
         end.
  discriminate.
Qed.

(** X19.  In the table the script returns, the political lean of a row is
    "Unknown" exactly when its lean score is missing, and its gun-law
    strength is "Unknown" exactly when its gun-law grade is missing. *)
Theorem unknown_means_missing (fs : FileSystem) (out : DataFrame) :
  prepare_data fs = Ok out ->
  (exists scores leans,
     getitem out "lean_score" = Ok scores /\
     getitem out "political_lean" = Ok leans /\
     Forall2 (fun s c => c = CStr "Unknown" <-> isna s = true)
       scores leans) /\
  (exists grades strengths,
     getitem out "gun_law_grade" = Ok grades /\
     getitem out "gun_law_strength" = Ok strengths /\
     Forall2 (fun g c => c = CStr "Unknown" <-> isna g = true)
       grades strengths).
Proof.
  intros H.
  destruct (output_categories _ _ H)
    as [[scores [leans [Hs [Hl Hc]]]] [grades [Hg Hst]]].
  split.
  - exists scores, leans. split; [exact Hs|]. split; [exact Hl|].
    eapply Forall2_impl; [|exact Hc]. intros s c. apply categorize_lean_unknown.
  - exists grades, (map categorize_gun_law grades).
    split; [exact Hg|]. split; [exact Hst|].
    clear. induction grades as [|g grades IH]; cbn [map]; constructor;
      [apply categorize_gun_law_unknown | exact IH].
Qed.

Lemma unknown_means_missing_witness :
  (exists scores leans,
     getitem sample_output "lean_score" = Ok scores /\
     getitem sample_output "political_lean" = Ok leans /\
     Forall2 (fun s c => c = CStr "Unknown" <-> isna s = true)
       scores leans) /\
  (exists grades strengths,
     getitem sample_output "gun_law_grade" = Ok grades /\
     getitem sample_output "gun_law_strength" = Ok strengths /\
     Forall2 (fun g c => c = CStr "Unknown" <-> isna g = true)
       grades strengths).
Proof.
  apply (unknown_means_missing sample_fs sample_output).
  vm_compute. reflexivity.
Defined.

(** ** Widening a selection *)

Lemma of_Z_mono (a b : Z) :
  0 <= a <= b -> b < 2 ^ 52 -> F64.leb (F64.of_Z a) (F64.of_Z b) = true.
Proof.
  intros [Ha Hab] Hb.
  destruct (Z.eq_dec a 0) as [-> | Na].
  - destruct (Z.eq_dec b 0) as [-> | Nb]; [reflexivity|].
    destruct (of_Z_normal b ltac:(lia)) as [m [e [-> _]]]. reflexivity.
  - destruct a as [|p|p]; try lia. destruct b as [|q|q]; try lia.
    assert (Hd : forall x, Zpos x < 2 ^ 52 -> Zpos (digits2_pos x) < 53).
    { intros x Hx. pose proof (digits2_lower x) as Hl.
      destruct (Z_lt_le_dec (Zpos (digits2_pos x)) 53) as [|Hge];
        [assumption|].
      exfalso.
      assert (2 ^ 52 <= 2 ^ (Zpos (digits2_pos x) - 1))
        by (apply Z.pow_le_mono_r; lia).
      lia. }
    pose proof (Hd p ltac:(lia)) as Hp. pose proof (Hd q Hb) as Hq.
    rewrite (of_Z_pos p Hp), (of_Z_pos q Hq).
    apply leb_rank; [reflexivity | reflexivity|].
    cbn [F64.rank F64.lex3]. rewrite Z.compare_refl.
    pose proof (Zdigits2_mono (Zpos p) (Zpos q) ltac:(lia)) as Hm.
    cbn [Zdigits2] in Hm.
    destruct (Z.compare_spec (Zpos (digits2_pos p) - 53)
                (Zpos (digits2_pos q) - 53)) as [E | E | E];
      [| discriminate | lia].
    assert (E' : digits2_pos p = digits2_pos q) by lia. rewrite E'.
    rewrite !iter_xO_pow.
    assert (0 < 2 ^ Zpos (Z.to_pos (53 - Zpos (digits2_pos q))))
      by (apply Z.pow_pos_nonneg; lia).
    intros Hc. apply Z.compare_gt_iff in Hc. nia.
Qed.

Lemma at_least_mono (c : cell) (n n' : Z) :
  0 <= n' <= n -> n < 2 ^ 52 ->
  at_least c n = true -> at_least c n' = true.
Proof.
  intros Hn Hb. destruct c as [z | f | s]; cbn; [| |discriminate].
  - intros H. apply Z.leb_le in H. apply Z.leb_le. lia.
  - intros H. exact (leb_trans _ _ _ (of_Z_mono n' n Hn Hb) H).
Qed.

Lemma at_most_mono (c : cell) (n n' : Z) :
  0 <= n <= n' -> n' < 2 ^ 52 ->
  at_most c n = true -> at_most c n' = true.
Proof.
  intros Hn Hb. destruct c as [z | f | s]; cbn; [| |discriminate].
  - intros H. apply Z.leb_le in H. apply Z.leb_le. lia.
  - intros H. exact (leb_trans _ _ _ H (of_Z_mono n n' Hn Hb)).
Qed.

Lemma cell_in_incl (c : cell) (l l' : list string) :
  incl l l' -> cell_in c l = true -> cell_in c l' = true.
Proof.
  intros Hi. destruct c as [z | f | s]; cbn [cell_in]; try discriminate.
  unfold mem. intros H. apply existsb_exists in H.
  destruct H as [x [Hx Hs]]. apply existsb_exists. exists x.
  split; [apply Hi, Hx | exact Hs].
Qed.

Lemma if_mono (flag flag' a a' : bool) :
  (flag' = true -> flag = true) -> (a = true -> a' = true) ->
  (if flag then a else true) = true -> (if flag' then a' else true) = true.
Proof. destruct flag, flag'; auto; intros H; discriminate (H eq_refl). Qed.

Lemma passes_wider (df : DataFrame) (w w' : Selection) (r : row) :
  wider w w' -> passes df w r = true -> passes df w' r = true.
Proof.
  intros [Hb [[Hp1 Hp1'] [[Hp2 Hp2'] [[Hq1 Hq1'] [[Hq2 Hq2']
            [Hl [Hg [Hm [He [Fp [Fc [Fr Hs]]]]]]]]]]]] H.
  unfold passes in *. cbv zeta in *. rewrite Hb.
  repeat match goal with
         | H : _ && _ = true |- _ => apply andb_true_iff in H; destruct H
         end.
  repeat (apply andb_true_iff; split);
    try assumption;
    try (eapply at_least_mono; [| |eassumption]; lia);
    try (eapply at_most_mono; [| |eassumption]; lia);
    try (eapply cell_in_incl; eassumption).
  - match goal with
    | H : (if has_column df "marijuana_status" then _ else true) = true
      |- _ => apply (if_mono _ _ _ _ (fun E => E) (cell_in_incl _ _ _ Hm) H)
    end.
  - match goal with
    | H : (if has_column df "exotic_animal_rating" then _ else true) = true
      |- _ => revert H
    end.
    destruct (has_column df "exotic_animal_rating"); [|reflexivity].
    intros K.
    apply andb_true_iff in K. destruct K as [K K4].
    apply andb_true_iff in K. destruct K as [K K3].
    apply andb_true_iff in K. destruct K as [K1 K2].
    repeat (apply andb_true_iff; split).
    + exact (cell_in_incl _ _ _ He K1).
    + apply (if_mono _ _ _ _) with (3 := K2); [|tauto].
      intros E. apply andb_true_iff in E. destruct E as [E1 E2].
      rewrite (Fp E1), E2. reflexivity.
    + apply (if_mono _ _ _ _) with (3 := K3); [|tauto].
      intros E. apply andb_true_iff in E. destruct E as [E1 E2].
      rewrite (Fc E1), E2. reflexivity.
    + apply (if_mono _ _ _ _) with (3 := K4); [|tauto].
      intros E. apply andb_true_iff in E. destruct E as [E1 E2].
      rewrite (Fr E1), E2. reflexivity.
  - match goal with
    | H : (if nonempty (selected_states w) then _ else true) = true
      |- _ => rename H into K
    end.
    destruct Hs as [-> | [Hne Hi]]; [reflexivity|].
    apply (if_mono _ _ _ _) with (3 := K); [|apply cell_in_incl, Hi].
    intros _. destruct (selected_states w); [contradiction | reflexivity].
Qed.

(** X20.  Loosening the filters never hides a county: when a selection is at
    least as wide as another one (wider ranges, more names selected, no
    further box ticked, no state filter or one that keeps the states
    selected before), every row of the table shown for the narrower one is a
    row of the table shown for the wider one. *)
Theorem widening_never_hides_a_county (df fd fd' : DataFrame)
  (w w' : Selection) :
  wider w w' ->
  filtered_df df w = Ok fd -> filtered_df df w' = Ok fd' ->
  forall r, In r (rows fd) -> In r (rows fd').
Proof.
  intros Hw H H' r Hr.
  destruct (filtered_df_holds df fd w H) as [_ E].
  destruct (filtered_df_holds df fd' w' H') as [_ E'].
  rewrite E in Hr. rewrite E'. apply filter_In in Hr. apply filter_In.
  split; [exact (proj1 Hr)|]. exact (passes_wider df w w' r Hw (proj2 Hr)).
Qed.

Lemma widening_never_hides_a_county_witness :
  exists fd fd',
    filtered_df sample_counties narrow_selection = Ok fd /\
    filtered_df sample_counties sample_selection = Ok fd' /\
    In (nth 2 (rows sample_counties) []) (rows fd) /\
    In (nth 2 (rows sample_counties) []) (rows fd').
Proof.
  eexists _, _. split; [vm_compute; reflexivity|].
  split; [vm_compute; reflexivity|].
  assert (Hr : In (nth 2 (rows sample_counties) [])
                 (filter (passes sample_counties narrow_selection)
                    (rows sample_counties))).
  { vm_compute. tauto. }
  split; [vm_compute; vm_compute in Hr; exact Hr|].
  assert (Hr' : In (nth 2 (rows sample_counties) [])
                  (rows (mkDF (columns sample_counties)
                           (filter (passes sample_counties narrow_selection)
                              (rows sample_counties))))) by exact Hr.
  refine (widening_never_hides_a_county sample_counties _ _
            narrow_selection sample_selection _ _ _ _ Hr').
  - unfold wider. cbn [narrow_selection sample_selection bedroom_type
      price_min price_max pop_min pop_max selected_leans selected_gun_laws
      selected_marijuana selected_exotic_ratings filter_primates
      filter_big_cats filter_reptiles selected_states].
    repeat split; try lia; try (intros x Hx; exact Hx); try tauto.
    + intros x Hx. unfold lean_categories. cbn [In] in *. tauto.
  - vm_compute. reflexivity.
  - vm_compute. reflexivity.
Defined.
